(* ===== verification/_CoqProject ===== *)
-Q . S2P
Prelude.v
PyStr.v
PyPath.v
Frame.v
GroupBy.v
Pivot.v
Reads.v
App.v
Analysis.v
Hub.v
Page.v
Files.v
Imports.v
