(* ===== verification/Prelude.v ===== *)
(** * IDC_EM_analysis: a verification development of the loaders and the Streamlit hub

    ** The program
    The repository analyses interdigitated-comb (IDC) sensor boards.
    [src/Analysis/reads.py] is the first stage: at import time it locates
    the repository from its own [__file__] ([reads_directory],
    [IDC_directory]), and its six loaders read the master list
    ([get_master], [get_master_cached]), the current-versus-time and
    sweep CSV files ([get_current_time], [get_cf_or_cv]) and the board
    and sensor images ([get_board_image], [get_sensor_image]).  The
    plotting scripts ([src/Analysis/*.py], [src/Individual Plots/*.py])
    and the panels of the Streamlit hub [src/Analysis/streamlit_app.py]
    load the master table, reshape it with pandas and plot it.  The
    launcher [src/app.py] relaunches itself under Streamlit and starts
    one script per button.

    ** The files
    - [Prelude] (this file): Python exceptions [py_exc]; the result
      monad [res] (a value [Ok] or a raised exception [Raise]), with
      stdpp's [MRet]/[MBind] instances so that [x ← m; k] threads
      exceptions as Python does; [catch_fnf], the
      [except FileNotFoundError: return None] of the loaders; the hint
      databases [idc] and [idc_rw], the tactics [idc_simp] and
      [inv_bind], and list lemmas on [List.filter].
    - [PyStr]: [str.split], [str.join], [int()] ([py_int], with sign,
      whitespace and underscores) and [str(int)] ([py_str_of_int]).
    - [PyPath]: CPython's [posixpath.isabs], [join], [dirname],
      [normpath] and [abspath], with the current directory an argument.
    - [Frame]: the DataFrame as columns and rows of cells ([pyval]:
      str, number as [Q], NaN) and the pandas operations the code calls
      ([to_numeric] under a parser class [NumParser], [dropna], [melt],
      column selection, arithmetic, filters, [rename], [select_dtypes]).
    - [GroupBy]: the reductions of the hub: comparison masks,
      [Series.unique()], arithmetic with scalars, [int()] of a cell, and
      [groupby(keys).agg(mean)] with its sorted keys; the orders on cells
      and keys are instances of the class [CmpLaws], and [lex] lifts an
      order to lists once for strings and for keys.
    - [Pivot]: [pivot_table(index, columns, values)] with the mean, as
      pandas computes it: the [groupby] of [GroupBy], [dropna] of the NaN
      means, [unstack] of the last key level ([pivot_cell]) and
      [reset_index].
    - [Reads]: the loaders of [reads.py], written in a Section against
      the class [OS] ([os.getcwd()], [__file__], [pd.read_csv],
      [cv2.imread]); the instance [fs_os] implements it over a file
      system [gmap] keyed by absolute paths, resolving relative paths
      against the current directory.
    - [App]: one execution of [app.py] as [run_app], the list of
      commands it spawns, and the inductive [reach] of the command
      traces of a session (the relaunch, then one rerun per click).
    - [Analysis]: each plotting script and hub panel up to its plot call,
      which is recorded as a value of [plot]; seaborn's lookup of the
      named variables is [plot_vars], plotly's is [px_vars].  The checks
      of the plotting calls that fail on the data are written out:
      the FacetGrid of the RGB boxplots ([rgb_boxplots_figure]: no
      column for no channel, then [set_xticklabels], whose four fixed
      labels must match the pattern levels [category_levels]), and the
      legend that [sns.move_legend] needs in the pH plot
      ([scatter_legend], [move_legend]).
    - [Hub]: the aggregating panels of the hub ([failure_time], [CF_CV],
      [current_vs_time]) as the figures they draw ([facet], [line]), the
      See Data read and the hub's commands.  The two functions the panels
      take from the absent [adds] module form the class [AddsTables]:
      the panels are proved for any instance, and [reads_adds_tables] is
      [reads.py] in that role.  The seaborn FacetGrid of each voltage
      looks up its facet variables with pandas ([grid_vars], [KeyError])
      and its plot variables with seaborn ([plot_vars], [ValueError]).
    - [Page]: one Streamlit execution of [streamlit_app.py] as a list
      of statements ([Emit] an element, [Spawn] a command, call a
      [Panel], [Exit]): [hub_script] checks the sentinel and relaunches
      or renders [hub_page] (the sidebar, the sections of the two
      columns in source order, See Data).  [run_page] is its
      interpreter and [step] its reduction relation: an exception that
      escapes a panel is shown in an error box and ends the run, the
      elements shown before it stay.  The per-voltage loops are a stream
      of figures, one [voltage_facet] of [Hub] each.  The launcher
      [app.py] is written in the same language ([app_script],
      [app_page]: one container per plot button).
    - [Files]: the file-system footprint of the hub: [hub_os] is the
      hub's process in a checkout (current directory [Analysis/], the
      relaunch's [cwd]; [reads.py] beside it), and [fs_agree_on] the
      equivalence of file systems that agree on a list of paths; the
      [adds] module is any function of the process's operating system
      to [AddsTables], so that it may read files of its own.
    - [Imports]: the import statements of every script and of the hub
      over a model of Python's module lookup ([find_spec],
      [import_module]) and of [sys.path] for [python <script>] and
      [python -m streamlit run]; [run_script] runs a script's prologue
      then its body with the loaders of the [adds] it imported, and
      [hub_process] does the same for the hub and its page.

    ** The theorems
    - [Reads]: the functional behaviour of [get_cf_or_cv] on every
      branch (a conventional name, a name that is not one, a seventh
      component that [int()] rejects), and that its tables hold numbers
      only; [numeric_clean] (coercion then [dropna]) yields numbers only,
      is the identity on numeric tables and empties a table with a
      textual column; [get_master] coerces exactly [Voltage] and
      [Pattern] and raises [KeyError] without them; the two master
      loaders differ on a missing file; [get_current_time] returns
      [None] on a missing file, the cleaned table on a read one, and
      raises any other error; the image loaders disagree on a non-str
      name; [IDC_directory] is the parent of [reads.py]'s directory; the
      master loaders do not depend on the current directory, while in
      every checkout the other two find their files from the root and
      not from [Analysis/].
    - [PyStr]: split/join round trips and [int(str(n)) = n].
    - [App]: by induction on [reach], every command runs in the
      repository directory and is the relaunch or a button's script,
      and a session holds exactly one relaunch.
    - [Analysis]: shapes of the long tables, columns kept by the numeric
      selection, the pH filter, the [Ph]/[pH] divergence between the pH
      script and the hub's pH panel, the [KeyError] of the hub's
      scatter matrix and heatmap panels; the RGB boxplots draw exactly
      for a selection with four distinct patterns, and otherwise raise
      matplotlib's [ValueError] on [n] tick locations for 4 labels, or
      seaborn's on a grid of no column when nothing is selected
      ([rgb_boxplots_pattern_ticks], through the lemma that [melt]
      repeats the [Pattern] column once per channel and [unique()]
      ignores the repetitions); the pH script draws exactly when a board
      of a pH solution has a pH and a failure time, and otherwise
      [sns.move_legend] raises ([plot_ph_legend]); and the round trip of the 3D
      RGB plot: melting the six channel columns, splitting their names
      and pivoting back gives every board at each age its own three
      channel values ([rgb_3d_roundtrip]).
    - [Pivot]: each cell of the pivot is the mean of its group, which
      refines the [unstack] of the aggregate into a direct definition
      ([pivot_cell_mean]); its index and column keys are sorted; every
      group with a non-NaN mean has its row, its column and its mean in
      the pivot; a [str] value raises [TypeError].
    - [Hub]: the CF/CV lines are sorted by [x] and their capacitances
      lie in (0, 100); an empty filtered CF table raises
      [UnboundLocalError]; the failure-time figures partition the rows
      with a voltage, each extended by its failure time divided by
      1000, and their titles coincide exactly for voltages with
      the same integer part; [current_vs_time] raises on an NA voltage;
      [Sensor ID] identifies the (board, sensor) pair; the See Data view
      reads the master list [get_master] reads.
    - [Page]: the only commands the hub starts are the relaunch or,
      when Update Cached Data was clicked, [update_cache.py]; on a
      master without [Brightness Difference] the run stops at the
      scatter matrix and nothing of the later sections or See Data is
      shown; a solution chosen in the sidebar that no board has makes
      the first panel raise (the pivot of an empty table has no [R]
      column) and the page stops there ([hub_page_stops_at_rgb_3d]);
      the run reaches the end of the script exactly when every panel
      function of [Analysis] and [Hub] returns ([hub_page_completes],
      which ties the figure-by-figure streams of the page to the panel
      functions); a per-voltage loop shows the figures of the distinct
      voltages before the first failing one, then that voltage's error,
      and stops ([voltage_loop_display]).  The lemmas behind them also
      show that [step] reaches the result of [run_page] and nothing
      else ([hub_script_terminates]), that the Pattern selectbox is
      never read ([hub_script_ignores_pattern]), and that the page
      model of [app.py] starts the commands of [run_app]
      ([app_script_refines]).
    - [Files]: the hub reads the file system itself only through the
      master list: file systems that agree there, and on which [adds]
      gives the same three tables, give the same run ([hub_page_frame]);
      in particular the cached snapshot that "Update Cached Data"
      refreshes reaches the page only through [adds].
    - [Imports]: a button of [app.py] starts a script that finds [adds]
      in [Analysis/] or stops at its first line with
      [ModuleNotFoundError] ([button_script_imports]); without an
      importable [adds] the hub ends before showing or starting
      anything, its relaunch included ([hub_needs_adds]).
    - [GroupBy] carries the library these rest on: the order laws, the
      sortedness of [group_keys], the partition of rows by
      [unique()] ([unique_groups]), and the bounds of a mean.

    ** Bounds and fuel
    Every definition is structural except the printing of an integer:
    [digits_acc] takes as fuel the number of bits of the number
    ([Pos.size_nat]), which is at least its number of decimal digits
    ([pos_lt_pow10_size]), so the fuel never runs out.  Python integers
    are unbounded, so [Z] without wrap-around is their faithful model.
    Floats are exact rationals: rounding is not modelled.

    ** Not modelled
    The plotting and widget libraries (seaborn, matplotlib, plotly,
    Streamlit widgets) beyond the data handed to them and the checks
    above that raise on it; those checks are matplotlib's from version
    3.5 (earlier versions warn where these raise) with its default
    subplot parameters (they give the [Axes(...)] of [no_legend_error]);
    the order of seaborn's category levels (sorted when numeric), of
    which only the number matters, and the labels drawn; the parsing done
    by [pd.read_csv] (the file system holds parsed frames); the pandas
    row index; [pivot_table] on an empty index, and column keys that
    are not [str] (frame labels are strings); the layout of the page
    (widths, containers, [st.columns]) beyond the place of each element,
    and Streamlit's caching and reruns across executions (each
    execution is a run of [hub_script] from a session); the contents
    of the [adds] module and of [update_cache.py], which the code calls
    but the repository does not contain ([import adds] is modelled, and
    the functions the code takes from [adds] are those of [reads.py]
    or, for the hub's two tables, any instance of the class
    [AddsTables]); [matplotlib.use("TkAgg")]; Python's namespace
    packages, compiled and extension modules and [.pth] files in the
    import lookup; non-ASCII text. *)

From Stdlib Require Import ZArith QArith.
From stdpp Require Export base list strings option decidable.

(** ** Python exceptions and the result of a Python call

    Every modelled Python function returns a [res]: either a value
    ([Ok]) or the exception it raises ([Raise]).  The exception kinds
    are the ones the modelled code can raise or catches. *)

Inductive py_exc :=
| FileNotFoundError (path : string)
| ValueError (msg : string)
| KeyError (key : string)
| TypeError (msg : string)
| ParserError (path : string)
| UnboundLocalError (name : string)
| AttributeError (name : string)
| ModuleNotFoundError (msg : string).

Inductive res (A : Type) : Type :=
| Ok (a : A)
| Raise (e : py_exc).
Arguments Ok {A} a.
Arguments Raise {A} e.

#[global] Instance py_exc_eq_dec : EqDecision py_exc.
Proof. solve_decision. Defined.

#[global] Instance res_eq_dec {A} `{EqDecision A} : EqDecision (res A).
Proof. solve_decision. Defined.

#[global] Instance res_ret : MRet res := fun _ a => Ok a.
#[global] Instance res_bind : MBind res := fun _ _ f m =>
  match m with Ok a => f a | Raise e => Raise e end.
#[global] Instance res_fmap : FMap res := fun _ _ f m =>
  match m with Ok a => Ok (f a) | Raise e => Raise e end.

(** [is_Ok r] holds when the call returned normally. *)
Definition is_Ok {A} (r : res A) : bool :=
  match r with Ok _ => true | Raise _ => false end.

(** Python's [None] as a return value: a loader returns [option A]
    inside [res], [None] being the "unavailable" sentinel. *)
Definition res_of_option {A} (e : py_exc) (o : option A) : res A :=
  match o with Some a => Ok a | None => Raise e end.

(** ** Notations of the development, in their own scope *)

Declare Scope idc_scope.
Delimit Scope idc_scope with idc.
Open Scope idc_scope.

(** [try: m except FileNotFoundError: return None]: the handler every
    lenient loader of [reads.py] wraps around its [pd.read_csv] call. *)
Definition catch_fnf {A} (m : res A) : res (option A) :=
  match m with
  | Ok a => Ok (Some a)
  | Raise (FileNotFoundError _) => Ok None
  | Raise e => Raise e
  end.

(** ** Automation

    [idc] collects the rewriting lemmas of the monad and the list
    lemmas the components share; [idc_simp] simplifies a goal by them. *)

Create HintDb idc discriminated.
Create Rewrite HintDb idc_rw.

Lemma bind_Ok {A B} (a : A) (f : A -> res B) : (Ok a ≫= f) = f a.
Proof. reflexivity. Qed.

Lemma bind_Raise {A B} (e : py_exc) (f : A -> res B) : (Raise e ≫= f) = Raise e.
Proof. reflexivity. Qed.

Lemma bind_Ok_inv {A B} (m : res A) (f : A -> res B) (b : B) :
  (m ≫= f) = Ok b -> exists a, m = Ok a /\ f a = Ok b.
Proof. destruct m; simpl; [eauto | discriminate]. Qed.

Lemma bind_Raise_inv {A B} (m : res A) (f : A -> res B) (e : py_exc) :
  (m ≫= f) = Raise e -> m = Raise e \/ exists a, m = Ok a /\ f a = Raise e.
Proof. destruct m; simpl; [eauto | intros [= ->]; auto]. Qed.

#[export] Hint Rewrite @bind_Ok @bind_Raise : idc_rw.

Ltac idc_simp := repeat (autorewrite with idc_rw in *; simpl in *).

(** Invert a successful bind in a hypothesis. *)
Ltac inv_bind H :=
  let a := fresh "a" in let Ha := fresh "Ha" in
  apply bind_Ok_inv in H as (a & Ha & H).

(** ** Generic lemmas on lists shared by the components *)

Lemma Forall_filter_P {A} (P : A -> Prop) (f : A -> bool) (l : list A) :
  Forall P l -> Forall P (List.filter f l).
Proof.
  induction 1 as [|x l Hx _ IH]; simpl; [constructor|].
  destruct (f x); [constructor|]; auto.
Qed.

Lemma Forall_filter_true {A} (f : A -> bool) (l : list A) :
  Forall (fun x => f x = true) (List.filter f l).
Proof.
  induction l as [|x l IH]; simpl; [constructor|].
  destruct (f x) eqn:E; [constructor|]; auto.
Qed.

Lemma filter_all_true {A} (f : A -> bool) (l : list A) :
  Forall (fun x => f x = true) l -> List.filter f l = l.
Proof. induction 1 as [|x l Hx _ IH]; simpl; [done|]. by rewrite Hx, IH. Qed.

Lemma length_filter_le {A} (f : A -> bool) (l : list A) :
  length (List.filter f l) <= length l.
Proof. induction l as [|x l IH]; simpl; [lia|]. destruct (f x); simpl; lia. Qed.

Lemma Forall_filter_impl {A} (P : A -> Prop) (f : A -> bool) (l : list A) :
  Forall (fun x => f x = true -> P x) l -> Forall P (List.filter f l).
Proof.
  induction 1 as [|x l Hx _ IH]; simpl; [constructor|].
  destruct (f x) eqn:E; [constructor|]; auto.
Qed.

Lemma filter_all_false {A} (f : A -> bool) (l : list A) :
  Forall (fun x => f x = false) l -> List.filter f l = [].
Proof. induction 1 as [|x l Hx _ IH]; simpl; [done|]. by rewrite Hx. Qed.

Lemma filter_nil_filter {A} (p q : A -> bool) (l : list A) :
  List.filter p l = [] -> List.filter p (List.filter q l) = [].
Proof.
  induction l as [|x l IH]; simpl; [done|].
  destruct (p x) eqn:Hp; [done|]. intros Hl. destruct (q x); simpl; rewrite ?Hp; auto.
Qed.

(** Lists built by [fmap], [zip_with] and [≫=], as the reshaping
    functions build them. *)

Lemma zip_with_fmap_diag {A B C} (f : A -> B -> C) (g : A -> B) l :
  zip_with f l (g <$> l) = (fun x => f x (g x)) <$> l.
Proof. induction l as [|x l IH]; simpl; by f_equal. Qed.

Lemma fmap_bind_list {A B C} (h : B -> C) (g : A -> list B) l :
  h <$> (l ≫= g) = l ≫= (fun x => h <$> g x).
Proof. induction l as [|x l IH]; csimpl; [done|]. by rewrite fmap_app, IH. Qed.

Lemma filter_fmap_list {A B} (p : B -> bool) (h : A -> B) l :
  List.filter p (h <$> l) = h <$> List.filter (fun x => p (h x)) l.
Proof. induction l as [|x l IH]; csimpl; [done|]. destruct (p (h x)); csimpl; by rewrite IH. Qed.

Lemma filter_bind_list {A B} (p : B -> bool) (g : A -> list B) l :
  List.filter p (l ≫= g) = l ≫= (fun x => List.filter p (g x)).
Proof. induction l as [|x l IH]; csimpl; [done|]. by rewrite List.filter_app, IH. Qed.

Lemma bind_nil_list {A B} (l : list A) : l ≫= (fun _ => @nil B) = [].
Proof. induction l; csimpl; done. Qed.

Lemma bind_single {A B} `{EqDecision A} (l : list A) x (b : B) :
  NoDup l -> x ∈ l -> l ≫= (fun y => if bool_decide (y = x) then [b] else []) = [b].
Proof.
  induction 1 as [|y l Hy Hl IH]; [by rewrite elem_of_nil|]. rewrite elem_of_cons.
  intros Hx. csimpl. case_bool_decide as Hyx.
  - subst. rewrite Forall_bind_ext with (g := fun _ => []); [by rewrite bind_nil_list|].
    apply Forall_forall. intros z Hz. rewrite bool_decide_eq_false_2; [done|]. intros ->.
    by apply Hy, list_elem_of_In.
  - destruct Hx as [->|Hx]; [done|]. by rewrite IH.
Qed.

(** [Forall2] against a list of three elements. *)
Lemma Forall2_three {A B} (P : A -> B -> Prop) a1 a2 a3 l :
  Forall2 P [a1; a2; a3] l <-> exists b1 b2 b3, l = [b1; b2; b3] /\ P a1 b1 /\ P a2 b2 /\ P a3 b3.
Proof.
  split.
  - intros H. inversion H as [|? b1 ? l1 H1 Hl1]; subst. inversion Hl1 as [|? b2 ? l2 H2 Hl2]; subst.
    inversion Hl2 as [|? b3 ? l3 H3 Hl3]; subst. inversion Hl3; subst. eauto 10.
  - intros (b1 & b2 & b3 & -> & H1 & H2 & H3). by repeat constructor.
Qed.

#[export] Hint Resolve Forall_filter_true length_filter_le : idc.
