(* ===== verification/PyStr.v ===== *)
(** * PyStr: the Python [str] operations the loaders rely on

    [reads.get_cf_or_cv] takes a file name apart with
    [file_name.split(".")[0].split("_")] and reads its seventh component
    with [int(components[6])]; the analysis scripts print numbers with
    [str(int(x))].  This file models, on [string]s of ASCII bytes:
    - [str_split] and [str_join]: [s.split(sep)] and [sep.join(parts)]
      for a one-character separator;
    - [lstrip], [rstrip]: the whitespace stripping done by [int()];
    - [py_int]: [int(s)] on a [str], with base 10, signs, underscores
      between digits and surrounding whitespace, raising [ValueError];
    - [py_str_of_int]: [str(n)] on an [int].
    Non-ASCII whitespace and non-ASCII decimal digits, which CPython's
    [int()] also accepts, are outside the model. *)

From Stdlib Require Import ZArith Zpow_facts Ascii.
From S2P Require Import Prelude.

Module PyStr.

Local Open Scope Z_scope.

(** ** Character classes (CPython's [Py_ISSPACE] and decimal digits) *)

Definition digit_val (c : ascii) : option Z :=
  let n := nat_of_ascii c in
  if ((48 <=? n) && (n <=? 57))%nat then Some (Z.of_nat (n - 48)) else None.

(** ASCII whitespace as [str.isspace] sees it: \t \n \v \f \r, the
    separators \x1c to \x1f, and the space. *)
Definition py_isspace (c : ascii) : bool :=
  let n := nat_of_ascii c in (((9 <=? n) && (n <=? 13)) || ((28 <=? n) && (n <=? 32)))%nat.

(** ** [s.split(sep)] and [sep.join(parts)] *)

Fixpoint str_split (sep : ascii) (s : string) : list string :=
  match s with
  | EmptyString => [EmptyString]
  | String c rest =>
      let parts := str_split sep rest in
      if ascii_dec c sep then EmptyString :: parts
      else match parts with
           | p :: ps => String c p :: ps
           | [] => [String c EmptyString]
           end
  end.

Fixpoint str_join (sep : ascii) (parts : list string) : string :=
  match parts with
  | [] => EmptyString
  | [p] => p
  | p :: ps => String.append p (String sep (str_join sep ps))
  end.

Fixpoint count_char (c : ascii) (s : string) : nat :=
  match s with
  | EmptyString => 0
  | String d rest => ((if ascii_dec d c then 1 else 0) + count_char c rest)%nat
  end.

Fixpoint char_in (c : ascii) (s : string) : bool :=
  match s with
  | EmptyString => false
  | String d rest => if ascii_dec d c then true else char_in c rest
  end.

(** [s.split(sep)[0]]: the split never returns an empty list, so the
    index never raises. *)
Definition split_head (sep : ascii) (s : string) : string :=
  match str_split sep s with p :: _ => p | [] => EmptyString end.

(** ** Whitespace stripping *)

Fixpoint lstrip (s : string) : string :=
  match s with
  | EmptyString => EmptyString
  | String c rest => if py_isspace c then lstrip rest else s
  end.

Fixpoint rstrip (s : string) : string :=
  match s with
  | EmptyString => EmptyString
  | String c rest =>
      let r := rstrip rest in
      match r with
      | EmptyString => if py_isspace c then EmptyString else String c EmptyString
      | _ => String c r
      end
  end.

(** ** [int(s)] for a [str] (CPython [PyLong_FromString], base 10)

    [scan_digits s acc after_digit] reads decimal digits into [acc]; an
    underscore is accepted only right after a digit, and the string must
    end on a digit: this rejects [""], ["_1"], ["1_"] and ["1__0"]. *)

Fixpoint scan_digits (s : string) (acc : Z) (after_digit : bool) : option Z :=
  match s with
  | EmptyString => if after_digit then Some acc else None
  | String c rest =>
      match digit_val c with
      | Some d => scan_digits rest (10 * acc + d) true
      | None =>
          if after_digit && bool_decide (c = "_"%char)
          then scan_digits rest acc false else None
      end
  end.

Definition py_int (s : string) : res Z :=
  let t := rstrip (lstrip s) in
  match t with
  | String c rest =>
      if bool_decide (c = "+"%char) then res_of_option (ValueError s) (scan_digits rest 0 false)
      else if bool_decide (c = "-"%char)
      then Z.opp <$> res_of_option (ValueError s) (scan_digits rest 0 false)
      else res_of_option (ValueError s) (scan_digits t 0 false)
  | EmptyString => Raise (ValueError s)
  end.

(** ** [str(n)] for an [int] *)

Definition digit_char (d : Z) : ascii := ascii_of_nat (48 + Z.to_nat d)%nat.

(** [digits_acc fuel n acc] prepends the decimal digits of [n] to
    [acc]; the fuel is the bit length of [n], which bounds its number of
    decimal digits. *)
Fixpoint digits_acc (fuel : nat) (n : Z) (acc : string) : string :=
  match fuel with
  | O => acc
  | S f =>
      let acc' := String (digit_char (n mod 10)) acc in
      if n <? 10 then acc' else digits_acc f (n / 10) acc'
  end.

Definition py_str_of_int (z : Z) : string :=
  match z with
  | Z0 => "0"
  | Zpos p => digits_acc (Pos.size_nat p) z EmptyString
  | Zneg p => String "-"%char (digits_acc (Pos.size_nat p) (Zpos p) EmptyString)
  end.

(** Strings made of decimal digits only. *)
Fixpoint all_digits (s : string) : bool :=
  match s with
  | EmptyString => true
  | String c rest => bool_decide (digit_val c <> None) && all_digits rest
  end.

(** Strings with at least one decimal digit. *)
Fixpoint has_digit (s : string) : bool :=
  match s with
  | EmptyString => false
  | String c rest => bool_decide (digit_val c <> None) || has_digit rest
  end.

(** ** Lemmas on splitting and joining *)

Lemma str_split_nonempty sep s : exists p ps, str_split sep s = p :: ps.
Proof.
  induction s as [|c s (p & ps & IH)]; simpl; [eauto|].
  rewrite IH. destruct (ascii_dec c sep); eauto.
Qed.

Lemma str_join_cons_char sep c p ps :
  str_join sep (String c p :: ps) = String c (str_join sep (p :: ps)).
Proof. destruct ps; reflexivity. Qed.

Lemma str_join_empty_cons sep p ps :
  str_join sep (EmptyString :: p :: ps) = String sep (str_join sep (p :: ps)).
Proof. reflexivity. Qed.

Lemma str_split_cons_sep sep s :
  str_split sep (String sep s) = EmptyString :: str_split sep s.
Proof. simpl. by destruct (ascii_dec sep sep). Qed.

Lemma str_split_cons_other sep c s p ps :
  c <> sep -> str_split sep s = p :: ps ->
  str_split sep (String c s) = String c p :: ps.
Proof. intros Hc Hs. simpl. rewrite Hs. by destruct (ascii_dec c sep). Qed.

(** A piece without the separator, followed by the separator, is split
    off as one component. *)
Lemma str_split_app sep p rest :
  char_in sep p = false ->
  exists q qs, str_split sep rest = q :: qs /\
    str_split sep (String.append p rest) = String.append p q :: qs.
Proof.
  destruct (str_split_nonempty sep rest) as (q & qs & Hr).
  intros Hp. exists q, qs. split; [done|].
  induction p as [|c p IH]; simpl in *; [done|].
  destruct (ascii_dec c sep) as [->|Hc]; [discriminate|].
  by rewrite IH.
Qed.

Lemma str_split_char_in sep s :
  Forall (fun p => char_in sep p = false) (str_split sep s).
Proof.
  induction s as [|c s IH]; simpl; [by repeat constructor|].
  destruct (str_split_nonempty sep s) as (p & ps & Hs). rewrite Hs in *.
  inversion IH as [|? ? Hp Hps]; subst.
  destruct (ascii_dec c sep); constructor; simpl; try done.
  by destruct (ascii_dec c sep).
Qed.

(** ** Lemmas on [int()] and [str()] *)

Lemma digit_val_char d : 0 <= d < 10 -> digit_val (digit_char d) = Some d.
Proof.
  intros Hd.
  assert (d = 0 \/ d = 1 \/ d = 2 \/ d = 3 \/ d = 4 \/ d = 5 \/ d = 6 \/ d = 7
          \/ d = 8 \/ d = 9) as Hcases by lia.
  repeat destruct Hcases as [->|Hcases]; try subst d; reflexivity.
Qed.

Lemma scan_digits_cons_digit d s acc b :
  0 <= d < 10 ->
  scan_digits (String (digit_char d) s) acc b = scan_digits s (10 * acc + d) true.
Proof. intros Hd. cbn [scan_digits]. rewrite digit_val_char by exact Hd. reflexivity. Qed.

Lemma digits_acc_S f n s :
  digits_acc (S f) n s =
  if n <? 10 then String (digit_char (n mod 10)) s
  else digits_acc f (n / 10) (String (digit_char (n mod 10)) s).
Proof. reflexivity. Qed.

(** Scanning the printed digits of [n] leaves [n] in the accumulator. *)
Lemma scan_digits_acc f n s b :
  0 <= n < 10 ^ Z.of_nat (S f) ->
  scan_digits (digits_acc (S f) n s) 0 b = scan_digits s n true.
Proof.
  revert n s b. induction f as [|f IH]; intros n s b Hn; rewrite digits_acc_S.
  - rewrite Nat2Z.inj_succ, Z.pow_1_r in Hn.
    destruct (Z.ltb_spec n 10); [|lia].
    rewrite scan_digits_cons_digit by (apply Z.mod_pos_bound; lia).
    rewrite Z.mod_small by lia. by rewrite Z.mul_0_r.
  - destruct (Z.ltb_spec n 10).
    + rewrite scan_digits_cons_digit by (apply Z.mod_pos_bound; lia).
      rewrite Z.mod_small by lia. by rewrite Z.mul_0_r.
    + rewrite IH.
      * rewrite scan_digits_cons_digit by (apply Z.mod_pos_bound; lia).
        by rewrite <- Z.div_mod by lia.
      * rewrite Nat2Z.inj_succ, Z.pow_succ_r in Hn by lia.
        split; [apply Z.div_pos; lia|]. apply Z.div_lt_upper_bound; lia.
Qed.

Lemma pos_lt_pow10_size p :
  Zpos p < 10 ^ Z.of_nat (Pos.size_nat p).
Proof.
  apply Z.lt_le_trans with (2 ^ Z.of_nat (Pos.size_nat p)).
  - by apply Zpower2_Psize.
  - apply Z.pow_le_mono_l. lia.
Qed.

Lemma scan_printed p :
  scan_digits (digits_acc (Pos.size_nat p) (Zpos p) EmptyString) 0 false = Some (Zpos p).
Proof.
  pose proof (pos_lt_pow10_size p) as Hlt.
  destruct (Pos.size_nat p) as [|f] eqn:E; [destruct p; discriminate|].
  rewrite scan_digits_acc; [done|]. lia.
Qed.


Lemma all_digits_digits_acc f n s :
  all_digits s = true -> all_digits (digits_acc f n s) = true.
Proof.
  revert n s. induction f as [|f IH]; intros n s Hs; [exact Hs|rewrite digits_acc_S].
  assert (all_digits (String (digit_char (n mod 10)) s) = true) as H'.
  { cbn [all_digits]. rewrite Hs, digit_val_char by (apply Z.mod_pos_bound; lia). done. }
  destruct (n <? 10); auto.
Qed.

Lemma digit_not_space c : digit_val c <> None -> py_isspace c = false.
Proof.
  unfold digit_val, py_isspace. destruct (nat_of_ascii c) as [|n] eqn:E; [done|].
  intros H. destruct (Nat.leb_spec 48 (S n)), (Nat.leb_spec (S n) 57); simpl in H;
    try congruence; apply orb_false_iff; split; apply andb_false_iff;
    [right|right]; apply Nat.leb_gt; lia.
Qed.

Lemma lstrip_id c s : py_isspace c = false -> lstrip (String c s) = String c s.
Proof. simpl. by intros ->. Qed.

Lemma rstrip_nonspace_end c s :
  rstrip s <> EmptyString \/ py_isspace c = false ->
  rstrip (String c s) = String c (rstrip s).
Proof.
  intros H. simpl. destruct (rstrip s); [|done].
  destruct H as [H|H]; [done|by rewrite H].
Qed.

Lemma rstrip_all_digits s : all_digits s = true -> rstrip s = s.
Proof.
  induction s as [|c s IH]; simpl; [done|].
  intros [Hc%bool_decide_eq_true Hs]%andb_prop.
  rewrite IH by done. destruct s; [|done]. by rewrite digit_not_space.
Qed.

Lemma digits_acc_nonempty f n s :
  exists c r, digits_acc (S f) n s = String c r /\ digit_val c <> None.
Proof.
  revert n s. induction f as [|f IH]; intros n s; rewrite digits_acc_S.
  - destruct (n <? 10); cbn [digits_acc]; eexists _, _; split; try reflexivity;
      rewrite digit_val_char by (apply Z.mod_pos_bound; lia); discriminate.
  - destruct (n <? 10); [|apply IH]. eexists _, _; split; [reflexivity|].
    rewrite digit_val_char by (apply Z.mod_pos_bound; lia); discriminate.
Qed.

Lemma append_empty_r s : String.append s EmptyString = s.
Proof. induction s as [|c s IH]; [done|]. exact (f_equal (String c) IH). Qed.

Lemma str_split_no_sep sep p : char_in sep p = false -> str_split sep p = [p].
Proof.
  intros Hp. destruct (str_split_app sep p EmptyString Hp) as (q & qs & Hr & Happ).
  simpl in Hr. injection Hr as <- <-. by rewrite append_empty_r in Happ.
Qed.

Lemma printed_digits p :
  exists c r, digits_acc (Pos.size_nat p) (Zpos p) EmptyString = String c r /\
    digit_val c <> None /\ all_digits (String c r) = true.
Proof.
  destruct (Pos.size_nat p) as [|f] eqn:E; [destruct p; discriminate|].
  destruct (digits_acc_nonempty f (Zpos p) EmptyString) as (c & r & Hd & Hc).
  exists c, r. rewrite <- Hd, <- E. split; [by rewrite E|]. split; [done|].
  by apply all_digits_digits_acc.
Qed.

Lemma digit_not_sign c :
  digit_val c <> None -> bool_decide (c = "+"%char) = false /\ bool_decide (c = "-"%char) = false.
Proof.
  intros Hc. split; apply bool_decide_eq_false; intros ->; by apply Hc.
Qed.

(** ** Properties of the string operations *)

(** Joining the pieces of [s.split(sep)] with [sep] gives [s] back. *)
Theorem str_join_split sep s : str_join sep (str_split sep s) = s.
Proof.
  induction s as [|c s IH]; [done|]. simpl.
  destruct (str_split_nonempty sep s) as (p & ps & Hs). rewrite Hs in *.
  destruct (ascii_dec c sep) as [->|Hc].
  - by rewrite str_join_empty_cons, IH.
  - by rewrite str_join_cons_char, IH.
Qed.

Lemma split_of_join sep ps :
  ps <> [] -> Forall (fun p => char_in sep p = false) ps ->
  str_split sep (str_join sep ps) = ps.
Proof.
  intros Hne Hps. induction Hps as [|p ps Hp Hps IH]; [done|].
  destruct ps as [|q qs]; [by apply str_split_no_sep|].
  change (str_join sep (p :: q :: qs)) with
    (String.append p (String sep (str_join sep (q :: qs)))).
  destruct (str_split_app sep p (String sep (str_join sep (q :: qs))) Hp)
    as (q' & qs' & Hr & ->).
  rewrite str_split_cons_sep, IH in Hr by done. injection Hr as <- <-.
  by rewrite append_empty_r.
Qed.

(** Splitting [sep.join(parts)] gives back [parts], when [parts] is
    not empty and no part contains the separator. *)
Theorem str_split_join sep ps :
  ps <> [] -> Forall (fun p => char_in sep p = false) ps ->
  str_split sep (str_join sep ps) = ps.
Proof. apply split_of_join. Qed.

(** [s.split(sep)] has one more piece than [s] has separators. *)
Theorem str_split_length sep s : length (str_split sep s) = S (count_char sep s).
Proof.
  induction s as [|c s IH]; [done|]. simpl.
  destruct (str_split_nonempty sep s) as (p & ps & Hs). rewrite Hs in *.
  destruct (ascii_dec c sep); simpl in *; lia.
Qed.

Lemma py_int_printed z : py_int (py_str_of_int z) = Ok z.
Proof.
  destruct z as [|p|p]; [reflexivity| |]; unfold py_int, py_str_of_int;
    pose proof (scan_printed p) as Hscan;
    destruct (printed_digits p) as (c & r & Hd & Hc & Hall); rewrite Hd in *;
    destruct (digit_not_sign c Hc) as [Hplus Hminus].
  - rewrite lstrip_id by (by apply digit_not_space).
    rewrite rstrip_all_digits by done. by rewrite Hplus, Hminus, Hscan.
  - rewrite lstrip_id by reflexivity.
    rewrite rstrip_nonspace_end by (left; by rewrite rstrip_all_digits).
    rewrite rstrip_all_digits by done. cbn [bool_decide decide_rel]. simpl (bool_decide _). cbv iota. by rewrite Hscan.
Qed.

(** [int(str(n)) == n] for every integer [n]. *)
Theorem py_int_str_of_int z : py_int (py_str_of_int z) = Ok z.
Proof. apply py_int_printed. Qed.

(** ** Strings without a digit, and [int()] on them *)


Lemma has_digit_lstrip s : has_digit (lstrip s) = true -> has_digit s = true.
Proof.
  induction s as [|c s IH]; simpl; [done|].
  destruct (py_isspace c); [intros H; rewrite IH by done; apply orb_true_r|done].
Qed.

Lemma has_digit_rstrip s : has_digit (rstrip s) = true -> has_digit s = true.
Proof.
  induction s as [|c s IH]; [done|]. cbn [rstrip].
  intros H. cbn [has_digit]. apply orb_true_iff.
  destruct (rstrip s) eqn:E; try rewrite E in IH.
  - left. destruct (py_isspace c); [discriminate|]. simpl in H. by rewrite orb_false_r in H.
  - cbn [has_digit] in H. apply orb_true_iff in H as [H|H]; [by left|right; apply IH; exact H].
Qed.

Lemma scan_digits_no_digit s acc :
  has_digit s = false -> scan_digits s acc false = None.
Proof.
  destruct s as [|c s]; simpl; [done|].
  intros [Hc _]%orb_false_iff. apply bool_decide_eq_false, dec_stable in Hc.
  by rewrite Hc.
Qed.

(** [int(s)] raises [ValueError] on a string without any decimal digit. *)
Lemma py_int_no_digit s : has_digit s = false -> py_int s = Raise (ValueError s).
Proof.
  intros Hs. unfold py_int.
  assert (has_digit (rstrip (lstrip s)) = false) as Ht.
  { apply not_true_iff_false. intros H%has_digit_rstrip%has_digit_lstrip. congruence. }
  destruct (rstrip (lstrip s)) as [|c rest]; [done|].
  simpl in Ht. apply orb_false_iff in Ht as [Hc Hrest].
  rewrite !scan_digits_no_digit by (simpl; by rewrite ?Hc, ?Hrest).
  by repeat case_decide.
Qed.

(** No character outside [0-9] and [-] occurs in [str(n)]. *)
Lemma all_digits_char_in c s : all_digits s = true -> digit_val c = None -> char_in c s = false.
Proof.
  induction s as [|d s IH]; simpl; [done|].
  intros [Hd%bool_decide_eq_true Hs]%andb_prop Hc.
  destruct (ascii_dec d c) as [->|]; [congruence|]. auto.
Qed.

Lemma char_in_cons c d s : char_in c (String d s) = if ascii_dec d c then true else char_in c s.
Proof. reflexivity. Qed.

Lemma py_str_of_int_char_in c n :
  digit_val c = None -> c <> "-"%char -> char_in c (py_str_of_int n) = false.
Proof.
  intros Hc Hm. destruct n as [|p|p]; unfold py_str_of_int.
  - cbn [char_in]. destruct (ascii_dec "0" c) as [<-|]; [vm_compute in Hc; discriminate|reflexivity].
  - destruct (printed_digits p) as (d & r & -> & _ & Hall). by apply all_digits_char_in.
  - destruct (printed_digits p) as (d & r & -> & _ & Hall). rewrite char_in_cons.
    destruct (ascii_dec "-" c) as [<-|]; [done|]. by apply all_digits_char_in.
Qed.

Lemma char_in_append c s t : char_in c (String.append s t) = char_in c s || char_in c t.
Proof.
  induction s as [|d s IH]; [done|]. simpl. rewrite IH.
  by destruct (ascii_dec d c).
Qed.

Lemma char_in_join c sep ps :
  c <> sep -> Forall (fun p => char_in c p = false) ps -> char_in c (str_join sep ps) = false.
Proof.
  intros Hc. induction 1 as [|p ps Hp Hps IH]; [done|].
  destruct ps as [|q qs]; [done|].
  change (str_join sep (p :: q :: qs)) with (String.append p (String sep (str_join sep (q :: qs)))).
  rewrite char_in_append, Hp. simpl. by destruct (ascii_dec sep c) as [->|].
Qed.

(** [(s + "." + ext).split(".")[0] == s] when [s] has no dot. *)
Lemma split_head_app sep s ext :
  char_in sep s = false -> split_head sep (String.append s (String sep ext)) = s.
Proof.
  intros Hs. unfold split_head.
  destruct (str_split_app sep s (String sep ext) Hs) as (q & qs & Hr & ->).
  rewrite str_split_cons_sep in Hr. injection Hr as <- _. apply append_empty_r.
Qed.

Lemma append_assoc a b c :
  String.append (String.append a b) c = String.append a (String.append b c).
Proof. induction a as [|x a IH]; [done|]. exact (f_equal (String x) IH). Qed.

Lemma str_join_snoc sep qs x :
  qs <> [] -> str_join sep (qs ++ [x]) = String.append (str_join sep qs) (String sep x).
Proof.
  intros Hne. induction qs as [|q qs IH]; [done|]. destruct qs as [|q' qs]; [done|].
  change (str_join sep ((q :: q' :: qs) ++ [x])) with
    (String.append q (String sep (str_join sep ((q' :: qs) ++ [x])))).
  change (str_join sep (q :: q' :: qs)) with
    (String.append q (String sep (str_join sep (q' :: qs)))).
  rewrite IH by done. rewrite append_assoc. reflexivity.
Qed.

(** ** Cancellation of concatenation *)

Lemma append_length s t : String.length (String.append s t) = (String.length s + String.length t)%nat.
Proof. induction s as [|c s IH]; simpl; [done|]. by rewrite IH. Qed.

Lemma append_cancel_l p s t : String.append p s = String.append p t -> s = t.
Proof. induction p as [|c p IH]; simpl; [done|]. intros [= Hst]. by apply IH. Qed.

Lemma append_cancel_r s t u : String.append s u = String.append t u -> s = t.
Proof.
  revert t. induction s as [|c s IH]; intros [|d t] Hst; simpl in Hst; try done.
  - apply (f_equal String.length) in Hst. simpl in Hst. rewrite ?append_length in Hst. simpl in Hst. lia.
  - apply (f_equal String.length) in Hst. simpl in Hst. rewrite ?append_length in Hst. simpl in Hst. lia.
  - injection Hst as -> Hst. f_equal. by apply IH.
Qed.

(** [b + c + s] determines [b] and [s] when [s] holds no [c]. *)
Lemma append_sep_inj c b1 s1 b2 s2 :
  char_in c s1 = false -> char_in c s2 = false ->
  String.append b1 (String c s1) = String.append b2 (String c s2) -> b1 = b2 /\ s1 = s2.
Proof.
  intros H1 H2. revert b2. induction b1 as [|a b1 IH]; intros [|d b2] Hb; simpl in Hb.
  - by injection Hb.
  - injection Hb as -> ->. rewrite char_in_append in H1. simpl in H1.
    destruct (ascii_dec d d); [by rewrite orb_true_r in H1|done].
  - injection Hb as -> <-. rewrite char_in_append in H2. simpl in H2.
    destruct (ascii_dec c c); [by rewrite orb_true_r in H2|done].
  - injection Hb as -> Hb. destruct (IH _ Hb) as [-> ->]. done.
Qed.

Lemma str_join_app sep xs ys :
  xs <> [] -> ys <> [] ->
  str_join sep (xs ++ ys) = String.append (str_join sep xs) (String sep (str_join sep ys)).
Proof.
  intros Hxs Hys. induction xs as [|x xs IH]; [done|]. destruct xs as [|x' xs].
  - destruct ys as [|y ys]; [done|]. reflexivity.
  - change (str_join sep ((x :: x' :: xs) ++ ys)) with
      (String.append x (String sep (str_join sep ((x' :: xs) ++ ys)))).
    change (str_join sep (x :: x' :: xs)) with (String.append x (String sep (str_join sep (x' :: xs)))).
    rewrite IH by done. rewrite append_assoc. reflexivity.
Qed.

(** [str] is injective on [int]s. *)
Lemma py_str_of_int_inj z1 z2 : py_str_of_int z1 = py_str_of_int z2 -> z1 = z2.
Proof. intros Hz. pose proof (py_int_printed z1) as H1. rewrite Hz, py_int_printed in H1. by injection H1. Qed.

(** ** Witnesses *)

Lemma str_split_join_witness :
  str_split "_" (str_join "_" ["A"; "B"; "C"; "D"; "E"; "CF"; "0"]) = ["A"; "B"; "C"; "D"; "E"; "CF"; "0"].
Proof. apply str_split_join; [discriminate | repeat constructor]. Defined.

End PyStr.
