(* ===== verification/PyPath.v ===== *)
(** * PyPath: the [os.path] functions of the File Locator

    [reads.py] computes its directories at import time:
      [reads_directory = os.path.dirname(os.path.abspath(__file__))]
      [IDC_directory = os.path.dirname(reads_directory)]
    and builds file paths with [os.path.join]; [app.py] and
    [streamlit_app.py] compute [repo_dir] the same way.  This file models
    CPython's [posixpath] functions used there ([isabs], [join],
    [dirname], [normpath], [abspath]) on strings, literally: [dirname]
    keeps [p[:p.rfind('/')+1]] and strips its trailing slashes unless it
    is made of slashes only; [normpath] walks the components of
    [p.split('/')] with a stack; [abspath] joins a relative path to the
    current directory, which is an explicit argument [cwd]. *)

From Stdlib Require Import Ascii.
From S2P Require Import Prelude PyStr.
Import PyStr.

Module PyPath.

Definition SEP : ascii := "/"%char.

(** ** [os.path.isabs] and [os.path.join] *)

Definition starts_with_sep (s : string) : bool :=
  match s with String c _ => bool_decide (c = SEP) | EmptyString => false end.

Fixpoint ends_with_sep (s : string) : bool :=
  match s with
  | EmptyString => false
  | String c EmptyString => bool_decide (c = SEP)
  | String _ rest => ends_with_sep rest
  end.

Definition isabs (s : string) : bool := starts_with_sep s.

(** [os.path.join(a, b)] for one further component, as every call of
    the sources has. *)
Definition join (a b : string) : string :=
  if starts_with_sep b then b
  else if bool_decide (a = EmptyString) || ends_with_sep a then String.append a b
  else String.append a (String SEP b).

(** ** [os.path.dirname] *)

(** [p[:p.rfind('/')+1]]: the prefix of [p] up to its last slash. *)
Fixpoint upto_last_sep (p : string) : string :=
  match p with
  | EmptyString => EmptyString
  | String c rest =>
      if char_in SEP rest then String c (upto_last_sep rest)
      else if bool_decide (c = SEP) then String c EmptyString
      else EmptyString
  end.

(** [head.rstrip('/')] *)
Fixpoint rstrip_sep (s : string) : string :=
  match s with
  | EmptyString => EmptyString
  | String c rest =>
      match rstrip_sep rest with
      | EmptyString => if bool_decide (c = SEP) then EmptyString else String c EmptyString
      | r => String c r
      end
  end.

(** [head == '/' * len(head)] *)
Fixpoint all_sep (s : string) : bool :=
  match s with
  | EmptyString => true
  | String c rest => bool_decide (c = SEP) && all_sep rest
  end.

Definition dirname (p : string) : string :=
  let head := upto_last_sep p in
  if negb (bool_decide (head = EmptyString)) && negb (all_sep head)
  then rstrip_sep head else head.

(** ** [os.path.normpath] *)

(** One iteration of the loop over [comps]; the list [new_comps] is
    kept reversed, so that [new_comps[-1]] is its head. *)
Definition normpath_step (initial_slashes : nat) (new_comps : list string) (comp : string)
    : list string :=
  if bool_decide (comp = EmptyString) || bool_decide (comp = ".") then new_comps
  else if negb (bool_decide (comp = ".."))
          || (bool_decide (initial_slashes = 0) && bool_decide (new_comps = []))
          || bool_decide (head new_comps = Some "..")
  then comp :: new_comps
  else match new_comps with _ :: rest => rest | [] => [] end.

Definition starts_with_two_seps (s : string) : bool :=
  match s with String c (String d _) => bool_decide (c = SEP) && bool_decide (d = SEP) | _ => false end.

Definition starts_with_three_seps (s : string) : bool :=
  match s with
  | String c (String d (String e _)) =>
      bool_decide (c = SEP) && bool_decide (d = SEP) && bool_decide (e = SEP)
  | _ => false
  end.

Definition initial_slashes (path : string) : nat :=
  if starts_with_sep path then
    if starts_with_two_seps path && negb (starts_with_three_seps path) then 2 else 1
  else 0.

Fixpoint slashes (n : nat) : string :=
  match n with O => EmptyString | S k => String SEP (slashes k) end.

Definition normpath (path : string) : string :=
  if bool_decide (path = EmptyString) then "." else
  let init := initial_slashes path in
  let new_comps := rev (fold_left (normpath_step init) (str_split SEP path) []) in
  let p := String.append (slashes init) (str_join SEP new_comps) in
  if bool_decide (p = EmptyString) then "." else p.

(** ** [os.path.abspath], with [os.getcwd()] passed explicitly *)

Definition abspath (cwd path : string) : string :=
  normpath (if isabs path then path else join cwd path).

(** A path component [normpath] keeps as it is: not empty, without a
    slash, neither [.] nor [..]. *)
Definition clean_component (c : string) : bool :=
  negb (bool_decide (c = EmptyString)) && negb (char_in SEP c)
  && negb (bool_decide (c = ".")) && negb (bool_decide (c = "..")).

(** The absolute path ["/" + "/".join(cs)]. *)
Definition abs_of (cs : list string) : string := String SEP (str_join SEP cs).

(** ** Lemmas *)

Lemma clean_component_spec c :
  clean_component c = true ->
  c <> EmptyString /\ char_in SEP c = false /\ c <> "." /\ c <> "..".
Proof.
  unfold clean_component. intros H. repeat (apply andb_prop in H as [H ?]).
  repeat match goal with
         | Hb : negb _ = true |- _ => apply negb_true_iff in Hb
         | Hb : bool_decide _ = false |- _ => apply bool_decide_eq_false in Hb
         end. done.
Qed.

Lemma normpath_step_clean init acc c :
  clean_component c = true -> normpath_step init acc c = c :: acc.
Proof.
  intros (Hne & _ & Hdot & Hdd)%clean_component_spec. unfold normpath_step.
  rewrite !bool_decide_eq_false_2 by done. done.
Qed.

Lemma normpath_step_empty init acc : normpath_step init acc EmptyString = acc.
Proof. reflexivity. Qed.

Lemma fold_normpath_clean init cs acc :
  Forall (fun c => clean_component c = true) cs ->
  fold_left (normpath_step init) cs acc = rev cs ++ acc.
Proof.
  intros Hcs. revert acc. induction Hcs as [|c cs Hc _ IH]; intros acc; [done|].
  simpl. rewrite normpath_step_clean, IH by done. by rewrite <- app_assoc.
Qed.

Lemma clean_no_sep cs :
  Forall (fun c => clean_component c = true) cs -> Forall (fun c => char_in SEP c = false) cs.
Proof. apply Forall_impl. intros c (_ & ? & _)%clean_component_spec. done. Qed.

Lemma str_split_abs_of cs :
  cs <> [] -> Forall (fun c => clean_component c = true) cs ->
  str_split SEP (abs_of cs) = EmptyString :: cs.
Proof.
  intros Hne Hcs. unfold abs_of. rewrite str_split_cons_sep, split_of_join; [done|done|].
  by apply clean_no_sep.
Qed.

Lemma str_split_abs_of_nosep cs :
  cs <> [] -> Forall (fun c => char_in SEP c = false) cs -> str_split SEP (abs_of cs) = EmptyString :: cs.
Proof. intros Hne Hcs. unfold abs_of. by rewrite str_split_cons_sep, split_of_join. Qed.

(** A path ["/" + c0 + ...] whose first component is not empty and has
    no slash starts with exactly one slash. *)
Lemma initial_slashes_abs_of c0 cs :
  c0 <> EmptyString -> char_in SEP c0 = false -> initial_slashes (abs_of (c0 :: cs)) = 1%nat.
Proof.
  intros Hc0 Hsep0. unfold initial_slashes, abs_of.
  assert (Hhead : exists a r, str_join SEP (c0 :: cs) = String a r /\ a <> SEP).
  { destruct c0 as [|a r]; [done|]. rewrite char_in_cons in Hsep0.
    destruct (ascii_dec a SEP) as [|Ha]; [done|]. destruct cs as [|c1 cs].
    - by exists a, r.
    - exists a. eexists. split; [|done].
      change (str_join SEP (String a r :: c1 :: cs)) with
        (String.append (String a r) (String SEP (str_join SEP (c1 :: cs)))). reflexivity. }
  destruct Hhead as (a & r & -> & Ha). simpl.
  by rewrite (bool_decide_eq_false_2 (a = SEP)) by done; rewrite ?andb_false_r.
Qed.

(** [os.path.normpath] leaves a clean absolute path unchanged. *)
Lemma normpath_abs_of cs :
  cs <> [] -> Forall (fun c => clean_component c = true) cs -> normpath (abs_of cs) = abs_of cs.
Proof.
  intros Hne Hcs. destruct cs as [|c0 cs']; [done|].
  pose proof (Forall_inv Hcs) as (Hc0 & Hsep0 & _)%clean_component_spec.
  unfold normpath. rewrite bool_decide_eq_false_2 by done.
  rewrite initial_slashes_abs_of by done.
  rewrite str_split_abs_of by done. cbn [fold_left]. rewrite normpath_step_empty.
  apply Forall_cons_1 in Hcs as [Hc0' Hcs'].
  rewrite fold_normpath_clean, normpath_step_clean by done.
  change (rev cs' ++ [c0]) with (rev (c0 :: cs')). rewrite rev_involutive.
  rewrite bool_decide_eq_false_2; [reflexivity|discriminate].
Qed.

(** [..] after a clean component cancels it. *)
Lemma normpath_step_parent init acc d :
  init <> 0%nat -> d <> ".." -> normpath_step init (d :: acc) ".." = acc.
Proof.
  intros Hinit Hd. unfold normpath_step.
  rewrite (bool_decide_eq_false_2 (".." = EmptyString)), (bool_decide_eq_false_2 (".." = ".")) by done.
  rewrite (bool_decide_eq_true_2 (".." = "..")) by done.
  rewrite (bool_decide_eq_false_2 (init = 0%nat)) by done. simpl.
  by rewrite (bool_decide_eq_false_2 (Some d = Some "..")) by congruence.
Qed.

(** [os.path.normpath("/c1/.../cn/d/../f")] is ["/c1/.../cn/f"]. *)
Lemma normpath_parent cs d f :
  Forall (fun c => clean_component c = true) (cs ++ [d; f]) ->
  normpath (abs_of (cs ++ [d; ".."; f])) = abs_of (cs ++ [f]).
Proof.
  intros Hall. apply Forall_app in Hall as [Hcs Hdf].
  apply Forall_cons_1 in Hdf as [Hd Hf]. apply Forall_cons_1 in Hf as [Hf _].
  pose proof Hd as (Hd0 & Hdsep & _ & Hddd)%clean_component_spec.
  assert (Hsep : Forall (fun c => char_in SEP c = false) (cs ++ [d; ".."; f])).
  { apply Forall_app. split; [by apply clean_no_sep|].
    repeat constructor; try done. by apply clean_component_spec in Hf as (_ & ? & _). }
  unfold normpath. rewrite bool_decide_eq_false_2 by done.
  assert (Hinit : initial_slashes (abs_of (cs ++ [d; ".."; f])) = 1%nat).
  { destruct cs as [|c0 cs]; [by apply initial_slashes_abs_of|].
    apply Forall_cons_1 in Hcs as [(? & ? & _)%clean_component_spec _].
    by apply initial_slashes_abs_of. }
  rewrite Hinit, str_split_abs_of_nosep by (done || by destruct cs).
  cbn [fold_left]. rewrite normpath_step_empty, fold_left_app, (fold_normpath_clean _ cs) by done.
  cbn [fold_left]. rewrite (normpath_step_clean _ _ d), normpath_step_parent, (normpath_step_clean _ _ f) by done.
  rewrite app_nil_r. cbn [rev]. rewrite rev_involutive.
  rewrite bool_decide_eq_false_2; [reflexivity|discriminate].
Qed.

Lemma ends_with_sep_cons c t : t <> EmptyString -> ends_with_sep (String c t) = ends_with_sep t.
Proof. by destruct t. Qed.

Lemma ends_with_sep_app a t :
  t <> EmptyString -> ends_with_sep (String.append a t) = ends_with_sep t.
Proof.
  intros Ht. induction a as [|c a IH]; [done|].
  change (String.append (String c a) t) with (String c (String.append a t)).
  rewrite ends_with_sep_cons; [done|]. destruct a, t; done.
Qed.

Lemma ends_with_sep_no_sep q : char_in SEP q = false -> ends_with_sep q = false.
Proof.
  induction q as [|c q IH]; [done|]. rewrite char_in_cons.
  destruct (ascii_dec c SEP) as [|Hc]; [done|]. intros Hq.
  destruct q as [|d q]; [by apply bool_decide_eq_false_2|]. by rewrite ends_with_sep_cons, IH.
Qed.

Lemma all_sep_app a b : all_sep (String.append a b) = all_sep a && all_sep b.
Proof.
  induction a as [|c a IH]; [done|].
  change (String.append (String c a) b) with (String c (String.append a b)).
  cbn [all_sep]. by rewrite IH, andb_assoc.
Qed.

Lemma str_join_clean_nonempty qs :
  qs <> [] -> Forall (fun c => clean_component c = true) qs ->
  str_join SEP qs <> EmptyString /\ ends_with_sep (str_join SEP qs) = false /\
  all_sep (str_join SEP qs) = false.
Proof.
  intros Hne Hqs. induction Hqs as [|q qs Hq Hqs IH]; [done|].
  apply clean_component_spec in Hq as (Hqe & Hqs' & _).
  assert (all_sep q = false) as Haq.
  { destruct q as [|c r]; [done|]. rewrite char_in_cons in Hqs'.
    destruct (ascii_dec c SEP); [done|]. simpl. by rewrite bool_decide_eq_false_2. }
  destruct qs as [|q' qs]; [split_and!; [done|by apply ends_with_sep_no_sep|done]|].
  destruct (IH ltac:(done)) as (Hne' & Hend & Hall).
  change (str_join SEP (q :: q' :: qs)) with (String.append q (String SEP (str_join SEP (q' :: qs)))).
  split_and!.
  - destruct q; [done|discriminate].
  - rewrite ends_with_sep_app, ends_with_sep_cons by done. exact Hend.
  - by rewrite all_sep_app, Haq.
Qed.

Lemma upto_last_sep_app s x :
  char_in SEP x = false ->
  upto_last_sep (String.append s (String SEP x)) = String.append s (String SEP EmptyString).
Proof.
  intros Hx. induction s as [|c s IH].
  - change (String.append EmptyString ?t) with t. cbn [upto_last_sep].
    by rewrite Hx, bool_decide_eq_true_2.
  - change (String.append (String c s) ?t) with (String c (String.append s t)).
    cbn [upto_last_sep]. rewrite char_in_append, char_in_cons.
    destruct (ascii_dec SEP SEP); [|done]. by rewrite orb_true_r, IH.
Qed.

Lemma rstrip_sep_cons c s :
  rstrip_sep (String c s) =
  match rstrip_sep s with
  | EmptyString => if bool_decide (c = SEP) then EmptyString else String c EmptyString
  | r => String c r
  end.
Proof. reflexivity. Qed.

Lemma rstrip_sep_app_sep s :
  rstrip_sep (String.append s (String SEP EmptyString)) = rstrip_sep s.
Proof.
  induction s as [|c s IH]; [reflexivity|].
  change (String.append (String c s) ?t) with (String c (String.append s t)).
  by rewrite !rstrip_sep_cons, IH.
Qed.

Lemma rstrip_sep_id s : s <> EmptyString -> ends_with_sep s = false -> rstrip_sep s = s.
Proof.
  induction s as [|c s IH]; [done|]. intros _ Hend.
  destruct s as [|d s].
  - simpl in *. by rewrite Hend.
  - rewrite ends_with_sep_cons in Hend by done. rewrite rstrip_sep_cons.
    by rewrite IH.
Qed.

(** [os.path.dirname] of a clean absolute path drops its last component. *)
Lemma dirname_abs_of qs x :
  Forall (fun c => clean_component c = true) (qs ++ [x]) -> dirname (abs_of (qs ++ [x])) = abs_of qs.
Proof.
  intros Hall. apply Forall_app in Hall as [Hqs Hx].
  apply Forall_cons_1 in Hx as [(_ & Hxs & _)%clean_component_spec _].
  destruct qs as [|q qs].
  - unfold dirname, abs_of. simpl. rewrite Hxs. reflexivity.
  - destruct (str_join_clean_nonempty (q :: qs) ltac:(done) Hqs) as (Hne & Hend & Hsep).
    unfold dirname, abs_of. rewrite str_join_snoc by done.
    change (String SEP (String.append ?a ?b)) with (String.append (String SEP a) b).
    rewrite upto_last_sep_app by done.
    rewrite bool_decide_eq_false_2 by (destruct (str_join SEP (q :: qs)); discriminate).
    assert (all_sep (String.append (String SEP (str_join SEP (q :: qs))) (String SEP EmptyString))
            = false) as ->.
    { rewrite all_sep_app. cbn [all_sep]. by rewrite Hsep, andb_false_r. }
    simpl negb. cbn [andb]. rewrite rstrip_sep_app_sep, rstrip_sep_id; [done|done|].
    by rewrite ends_with_sep_cons.
Qed.

(** [os.path.join] of a clean absolute directory and a relative path. *)
Lemma join_abs_of xs p :
  xs <> [] -> Forall (fun c => clean_component c = true) xs -> starts_with_sep p = false ->
  join (abs_of xs) p = String.append (abs_of xs) (String SEP p).
Proof.
  intros Hne Hxs Hp. unfold join. rewrite Hp.
  destruct (str_join_clean_nonempty xs Hne Hxs) as (Hj & Hend & _).
  rewrite bool_decide_eq_false_2 by done. unfold abs_of. by rewrite ends_with_sep_cons, Hend.
Qed.

Lemma abs_of_app xs ys :
  xs <> [] -> ys <> [] -> String.append (abs_of xs) (String SEP (str_join SEP ys)) = abs_of (xs ++ ys).
Proof. intros Hxs Hys. unfold abs_of. rewrite str_join_app by done. reflexivity. Qed.

(** [os.path.join(d, c)] for a clean absolute directory [d] and a clean
    component [c]. *)
Lemma join_abs_of_clean xs c :
  Forall (fun c => clean_component c = true) xs -> clean_component c = true ->
  join (abs_of xs) c = abs_of (xs ++ [c]).
Proof.
  intros Hxs Hc. pose proof Hc as (Hc0 & Hcs & _)%clean_component_spec.
  assert (Hstart : starts_with_sep c = false).
  { destruct c as [|a r]; [done|]. rewrite char_in_cons in Hcs. simpl.
    destruct (ascii_dec a SEP); [done|]. by apply bool_decide_eq_false_2. }
  destruct xs as [|x xs].
  - unfold join. by rewrite Hstart.
  - rewrite join_abs_of by done. rewrite <- abs_of_app by done. reflexivity.
Qed.

Lemma starts_with_sep_clean c : clean_component c = true -> starts_with_sep c = false.
Proof.
  intros (Hc0 & Hcs & _)%clean_component_spec. destruct c as [|a r]; [done|].
  rewrite char_in_cons in Hcs. simpl. destruct (ascii_dec a SEP); [done|].
  by apply bool_decide_eq_false_2.
Qed.

(** [os.path.abspath] of a relative path of clean components, from a
    clean absolute current directory. *)
Lemma abspath_rel xs ys :
  ys <> [] -> Forall (fun c => clean_component c = true) (xs ++ ys) ->
  abspath (abs_of xs) (str_join SEP ys) = abs_of (xs ++ ys).
Proof.
  intros Hys Hall. pose proof Hall as [Hxs Hys']%Forall_app.
  assert (Hs : starts_with_sep (str_join SEP ys) = false).
  { destruct ys as [|y ys']; [done|]. apply Forall_cons_1 in Hys' as [Hy _].
    destruct y as [|a r]; [by vm_compute in Hy|]. apply starts_with_sep_clean in Hy.
    destruct ys'; simpl in *; exact Hy. }
  unfold abspath, isabs. rewrite Hs.
  destruct xs as [|x xs].
  - unfold join. rewrite Hs. by apply normpath_abs_of.
  - rewrite join_abs_of, abs_of_app by done. apply normpath_abs_of; [by destruct ys|done].
Qed.

Lemma rstrip_sep_empty s : rstrip_sep s = EmptyString -> all_sep s = true.
Proof.
  induction s as [|c s IH]; [done|]. rewrite rstrip_sep_cons. cbn [all_sep].
  destruct (rstrip_sep s); [|discriminate]. rewrite IH by done.
  case_bool_decide; done.
Qed.

Lemma abspath_isabs cwd p : isabs p = true -> abspath cwd p = normpath p.
Proof. unfold abspath. by intros ->. Qed.

Lemma isabs_normpath p : isabs p = true -> isabs (normpath p) = true.
Proof.
  destruct p as [|c r]; [discriminate|]. intros Hc. unfold normpath.
  rewrite bool_decide_eq_false_2 by discriminate.
  assert (exists k, initial_slashes (String c r) = S k) as [k ->].
  { unfold initial_slashes. cbn [starts_with_sep] in *. unfold isabs in Hc. simpl in Hc.
    rewrite Hc. destruct (_ && _); eauto. }
  change (String.append (slashes (S k)) ?t) with (String SEP (String.append (slashes k) t)).
  rewrite bool_decide_eq_false_2 by discriminate. reflexivity.
Qed.

Lemma isabs_dirname p : isabs p = true -> isabs (dirname p) = true.
Proof.
  destruct p as [|c r]; [discriminate|]. unfold isabs. simpl. intros Hc%bool_decide_eq_true.
  subst c. unfold dirname.
  assert (exists h, upto_last_sep (String SEP r) = String SEP h) as [h ->].
  { cbn [upto_last_sep]. destruct (char_in SEP r); [eauto|]. exists EmptyString. reflexivity. }
  rewrite rstrip_sep_cons. cbn [all_sep]. rewrite (bool_decide_eq_true_2 (SEP = SEP)) by done.
  destruct (rstrip_sep h) eqn:E.
  - rewrite (rstrip_sep_empty h E). reflexivity.
  - destruct (negb _ && negb _); reflexivity.
Qed.

Lemma isabs_join a b : isabs a = true -> isabs (join a b) = true.
Proof.
  destruct a as [|c a]; [discriminate|]. intros Ha. unfold join.
  destruct (starts_with_sep b) eqn:Hb; [exact Hb|].
  destruct (_ || _); exact Ha.
Qed.

End PyPath.
