(* ===== verification/Frame.v ===== *)
(** * Frame: the pandas DataFrame operations the sources call

    A [frame] is what [pd.read_csv] returns: a list of column names and a
    list of rows, each row a list of cells.  A cell ([pyval]) is a
    Python [str], a number, or the missing value [NaN] (pandas' [NaN]
    and [None] are both "NA" to [dropna]).  Numbers are exact rationals
    ([Q]): float rounding is outside the model.  The row index of pandas
    is not modelled: no modelled computation reads it.

    The operations are the ones [reads.py] applies:
    - [to_numeric]: [pd.to_numeric(col, errors="coerce")] on one cell,
      parameterised by the string-to-number parser of pandas, given by
      the class [NumParser] (instance [decimal_parser]: decimal
      literals with optional sign, fraction and exponent, surrounded by
      whitespace);
    - [apply_columns]: [df[cols] = df[cols].apply(f)], raising
      [KeyError] when a column is missing;
    - [apply_all]: [df = df.apply(f)];
    - [dropna_any]: [df.dropna()] (axis 0, [how="any"]).
    The invariant [frame_wf] says that the column names are distinct and
    that every row has one cell per column. *)

From Stdlib Require Import ZArith QArith Ascii.
From S2P Require Import Prelude PyStr.
Import PyStr.

Module Frame.

(** ** Cells *)

Inductive pyval :=
| VStr (s : string)
| VNum (q : Q)
| VNaN.

(** Structural equality of rationals, for equality of cells. *)
#[global] Instance Q_struct_eq_dec : EqDecision Q.
Proof.
  intros [a b] [c d]. destruct (decide (a = c)), (decide (b = d));
    [left; congruence | right; congruence ..].
Defined.

#[global] Instance pyval_eq_dec : EqDecision pyval.
Proof. solve_decision. Defined.

Definition is_na (v : pyval) : bool :=
  match v with VNaN => true | _ => false end.

Definition is_num (v : pyval) : bool :=
  match v with VNum _ => true | _ => false end.

(** ** The string-to-number parser used by [pd.to_numeric] *)

Class NumParser := { parse_number : string -> option Q }.

(** Digits of a decimal literal: value, number of digits, rest. *)
Fixpoint take_digits (s : string) (acc : Z) (k : nat) : Z * nat * string :=
  match s with
  | String c rest =>
      match digit_val c with
      | Some d => take_digits rest (10 * acc + d)%Z (S k)
      | None => (acc, k, s)
      end
  | EmptyString => (acc, k, EmptyString)
  end.

Definition take_sign (s : string) : Z * string :=
  match s with
  | String c rest =>
      if bool_decide (c = "-"%char) then (-1, rest)%Z
      else if bool_decide (c = "+"%char) then (1, rest)%Z else (1, s)%Z
  | EmptyString => (1%Z, s)
  end.

(** The exponent part [e[+-]digits]; [None] when it is malformed. *)
Definition take_exponent (s : string) : option (Z * string) :=
  match s with
  | String c rest =>
      if bool_decide (c = "e"%char) || bool_decide (c = "E"%char) then
        let '(sg, r) := take_sign rest in
        let '(e, k, r') := take_digits r 0 0 in
        if (k =? 0)%nat then None else Some ((sg * e)%Z, r')
      else Some (0%Z, s)
  | EmptyString => Some (0%Z, s)
  end.

Definition parse_decimal (s0 : string) : option Q :=
  let s := rstrip (lstrip s0) in
  let '(sg, s1) := take_sign s in
  let '(ip, ni, s2) := take_digits s1 0 0 in
  let '(fp, nf, s3) :=
    match s2 with
    | String c rest => if bool_decide (c = "."%char) then take_digits rest 0 0 else (0%Z, 0, s2)
    | EmptyString => (0%Z, 0, s2)
    end in
  if (ni + nf =? 0)%nat then None else
  match take_exponent s3 with
  | Some (ex, EmptyString) =>
      let num := (sg * (ip * 10 ^ Z.of_nat nf + fp) * 10 ^ Z.max ex 0)%Z in
      let den := (10 ^ (Z.of_nat nf + Z.max (- ex) 0))%Z in
      Some (num # Z.to_pos den)
  | _ => None
  end.

#[global] Instance decimal_parser : NumParser := {| parse_number := parse_decimal |}.

Section Ops.
Context `{NumParser}.

(** [pd.to_numeric(x, errors="coerce")] on one cell: numbers and NA
    are kept, a string becomes its number or NA. *)
Definition to_numeric (v : pyval) : pyval :=
  match v with
  | VStr s => match parse_number s with Some q => VNum q | None => VNaN end
  | _ => v
  end.

End Ops.

(** ** Frames *)

Record frame := mkFrame { columns : list string; rows : list (list pyval) }.

#[global] Instance frame_eq_dec : EqDecision frame.
Proof. solve_decision. Defined.

Definition frame_wf (f : frame) : Prop :=
  NoDup (columns f) /\ Forall (fun r => length r = length (columns f)) (rows f).

#[global] Instance frame_wf_dec f : Decision (frame_wf f).
Proof. unfold frame_wf. apply _. Defined.

(** Every cell is a number. *)
Definition all_numeric (f : frame) : Prop := Forall (Forall (fun v => is_num v = true)) (rows f).

(** The cell at row [i] and column position [j]. *)
Definition cell (f : frame) (i j : nat) : option pyval := rows f !! i ≫= (fun r => r !! j).

(** [df.dropna()]: keep the rows without an NA cell. *)
Definition row_complete (r : list pyval) : bool := forallb (fun v => negb (is_na v)) r.

Definition dropna_any (f : frame) : frame :=
  mkFrame (columns f) (List.filter row_complete (rows f)).

(** [df.apply(g)] with a cell-wise [g]. *)
Definition apply_all (g : pyval -> pyval) (f : frame) : frame :=
  mkFrame (columns f) ((fun r : list pyval => g <$> r) <$> rows f).

(** The first column missing from [cols], if any: the [KeyError] of
    [df[cols]]. *)
Definition missing_column (cols : list string) (f : frame) : option string :=
  List.find (fun c => negb (bool_decide (c ∈ columns f))) cols.

(** [df[cols] = df[cols].apply(g)]: [g] is applied to the cells of the
    named columns, the other cells are kept. *)
Definition apply_columns (cols : list string) (g : pyval -> pyval) (f : frame) : res frame :=
  match missing_column cols f with
  | Some c => Raise (KeyError c)
  | None =>
      let sel := (fun c => bool_decide (c ∈ cols)) <$> columns f in
      Ok (mkFrame (columns f)
            ((fun r => zip_with (fun (b : bool) v => if b then g v else v) sel r) <$> rows f))
  end.


(** ** Column operations of the analysis scripts *)

(** Position of a column ([df.columns.get_loc(c)]). *)
Fixpoint index_of (c : string) (cols : list string) : option nat :=
  match cols with
  | [] => None
  | d :: ds => if bool_decide (c = d) then Some 0%nat else S <$> index_of c ds
  end.

(** [df[c]]: the column's cells, or [KeyError]. *)
Definition get_col (c : string) (f : frame) : res (list pyval) :=
  match index_of c (columns f) with
  | Some j => Ok ((fun r => default VNaN (r !! j)) <$> rows f)
  | None => Raise (KeyError c)
  end.

(** [df[c] = vals]: replaces the column in place, or appends it as the
    last column. *)
Definition set_col (c : string) (vals : list pyval) (f : frame) : frame :=
  match index_of c (columns f) with
  | Some j => mkFrame (columns f) (zip_with (fun r v => <[j := v]> r) (rows f) vals)
  | None => mkFrame (columns f ++ [c]) (zip_with (fun r v => r ++ [v]) (rows f) vals)
  end.

(** [a - b] on two cells: numbers subtract, NA propagates, and a [str]
    operand raises [TypeError] (pandas on an object column). *)
Definition sub_val (a b : pyval) : res pyval :=
  match a, b with
  | VNum x, VNum y => Ok (VNum (x - y))
  | VStr _, _ | _, VStr _ => Raise (TypeError "unsupported operand type(s) for -")
  | _, _ => Ok VNaN
  end.

Fixpoint mapM_res {A B} (g : A -> res B) (l : list A) : res (list B) :=
  match l with
  | [] => Ok []
  | x :: xs => y ← g x; ys ← mapM_res g xs; Ok (y :: ys)
  end.

(** [df[a] - df[b]], cell by cell. *)
Definition sub_cols (a b : string) (f : frame) : res (list pyval) :=
  xs ← get_col a f; ys ← get_col b f; mapM_res (fun '(x, y) => sub_val x y) (zip xs ys).

(** [x == y] of pandas: NA equals nothing, numbers compare by value. *)
Definition py_eq (x y : pyval) : bool :=
  match x, y with
  | VStr s, VStr t => bool_decide (s = t)
  | VNum p, VNum q => Qeq_bool p q
  | _, _ => false
  end.

(** [df[mask]] for a mask computed cell by cell from column [c]. *)
Definition filter_col (c : string) (keep : pyval -> bool) (f : frame) : res frame :=
  match index_of c (columns f) with
  | Some j => Ok (mkFrame (columns f) (List.filter (fun r => keep (default VNaN (r !! j))) (rows f)))
  | None => Raise (KeyError c)
  end.

(** [df.dropna(subset=c)] *)
Definition dropna_subset (c : string) (f : frame) : res frame :=
  filter_col c (fun v => negb (is_na v)) f.

(** [df.apply(g)] on one column, with a [g] that may raise. *)
Definition apply_col (c : string) (g : pyval -> res pyval) (f : frame) : res frame :=
  xs ← get_col c f; ys ← mapM_res g xs; Ok (set_col c ys f).

(** [pd.Categorical(df[c], categories=cats)]: a value that is not a
    category becomes NA. *)
Definition categorize (cats : list Q) (v : pyval) : pyval :=
  match v with
  | VNum q => if existsb (Qeq_bool q) cats then v else VNaN
  | _ => VNaN
  end.

(** [df.rename(columns={old: new})]: a missing [old] is ignored. *)
Definition rename_col (old new : string) (f : frame) : frame :=
  mkFrame ((fun c => if bool_decide (c = old) then new else c) <$> columns f) (rows f).

(** [df[cols]]: the named columns in the given order, or [KeyError]. *)
Definition select_cols (cols : list string) (f : frame) : res frame :=
  match missing_column cols f with
  | Some c => Raise (KeyError c)
  | None =>
      let idx := (fun c => default 0%nat (index_of c (columns f))) <$> cols in
      Ok (mkFrame cols ((fun r => (fun j => default VNaN (r !! j)) <$> idx) <$> rows f))
  end.

(** Keep the columns whose position satisfies [keep]. *)
Definition keep_cols (keep : nat -> bool) (f : frame) : frame :=
  let js := List.filter keep (seq 0 (length (columns f))) in
  mkFrame ((fun j => default "" (columns f !! j)) <$> js)
          ((fun r => (fun j => default VNaN (r !! j)) <$> js) <$> rows f).

Definition column_cells (f : frame) (j : nat) : list pyval :=
  (fun r => default VNaN (r !! j)) <$> rows f.

(** [df.dropna(axis=1, how="all")]: drop the columns without a non-NA
    cell. *)
Definition dropna_cols_all (f : frame) : frame :=
  keep_cols (fun j => existsb (fun v => negb (is_na v)) (column_cells f j)) f.

(** [df.select_dtypes(include=["number"])]: a column is numeric when
    it holds numbers and NA only. *)
Definition select_numeric (f : frame) : frame :=
  keep_cols (fun j => forallb (fun v => is_num v || is_na v) (column_cells f j)) f.

(** [pd.melt(df, id_vars, value_vars, var_name, value_name)]: for each
    value column in order, one row per input row. *)
Definition melt (ids vals : list string) (var_name value_name : string) (f : frame) : res frame :=
  match missing_column (ids ++ vals) f with
  | Some c => Raise (KeyError c)
  | None =>
      let cell_at r c := default VNaN (r !! default 0%nat (index_of c (columns f))) in
      Ok (mkFrame (ids ++ [var_name; value_name])
            (vals ≫= (fun vc => (fun r => ((cell_at r) <$> ids) ++ [VStr vc; cell_at r vc]) <$> rows f)))
  end.

(** ** Lemmas *)

Section Lemmas.
Context `{NumParser}.

Lemma to_numeric_num_or_na v : is_num (to_numeric v) = true \/ to_numeric v = VNaN.
Proof. destruct v as [s| |]; simpl; auto. destruct (parse_number s); auto. Qed.

Lemma to_numeric_num v : is_num v = true -> to_numeric v = v.
Proof. by destruct v. Qed.

Lemma to_numeric_idem v : to_numeric (to_numeric v) = to_numeric v.
Proof. destruct v as [s| |]; simpl; try done. by destruct (parse_number s). Qed.

Lemma row_complete_forall r : row_complete r = true <-> Forall (fun v => is_na v = false) r.
Proof.
  unfold row_complete. rewrite forallb_forall, Forall_forall.
  setoid_rewrite negb_true_iff. reflexivity.
Qed.

(** A complete row of coerced cells holds numbers only. *)
Lemma complete_numeric_row r :
  row_complete (to_numeric <$> r) = true -> Forall (fun v => is_num v = true) (to_numeric <$> r).
Proof.
  rewrite row_complete_forall. intros Hr. apply Forall_fmap. apply Forall_fmap in Hr.
  eapply Forall_impl; [|exact Hr]. intros v Hv. simpl in *.
  destruct (to_numeric_num_or_na v) as [Hn|Hn]; [done|]. by rewrite Hn in Hv.
Qed.

Lemma apply_columns_ok cols g f :
  missing_column cols f = None ->
  apply_columns cols g f =
    Ok (mkFrame (columns f)
      ((fun r => zip_with (fun (b : bool) v => if b then g v else v)
                   ((fun c => bool_decide (c ∈ cols)) <$> columns f) r) <$> rows f)).
Proof. unfold apply_columns. by intros ->. Qed.

Lemma missing_column_spec cols f c :
  missing_column cols f = Some c -> c ∈ cols /\ c ∉ columns f.
Proof.
  unfold missing_column. intros Hf. apply find_some in Hf as [Hin Hc].
  apply negb_true_iff, bool_decide_eq_false in Hc. split; [|done].
  by apply list_elem_of_In.
Qed.

Lemma missing_column_none cols f :
  missing_column cols f = None -> forall c, c ∈ cols -> c ∈ columns f.
Proof.
  unfold missing_column. intros Hf c Hc. apply list_elem_of_In in Hc.
  pose proof (find_none _ _ Hf c Hc) as Hn. simpl in Hn.
  apply negb_false_iff, bool_decide_eq_true in Hn. done.
Qed.

(** [df[cols] = df[cols].apply(g)] keeps every row and every column;
    the cell at column [c] becomes [g] of the old one when [c] is one of
    [cols], and is unchanged otherwise. *)
Lemma apply_columns_cell cols g f f' i j c :
  apply_columns cols g f = Ok f' -> columns f !! j = Some c ->
  cell f' i j = (if bool_decide (c ∈ cols) then g else id) <$> cell f i j.
Proof.
  unfold apply_columns. destruct (missing_column cols f); intros Hf Hc; simplify_eq/=.
  unfold cell. simpl. rewrite list_lookup_fmap.
  destruct (rows f !! i) as [r|]; simpl; [|done].
  rewrite lookup_zip_with, list_lookup_fmap, Hc. simpl.
  destruct (r !! j); simpl; [|done]. by case_decide.
Qed.

Lemma apply_columns_shape cols g f f' :
  apply_columns cols g f = Ok f' ->
  columns f' = columns f /\ length (rows f') = length (rows f).
Proof.
  unfold apply_columns. destruct (missing_column cols f); intros Hf; simplify_eq/=.
  split; [done|]. apply length_fmap.
Qed.

Lemma mapM_res_Forall2 {A B} (g : A -> res B) l l' :
  mapM_res g l = Ok l' -> Forall2 (fun x y => g x = Ok y) l l'.
Proof.
  revert l'. induction l as [|x l IH]; intros l' Hl; simpl in Hl.
  - injection Hl as <-. constructor.
  - inv_bind Hl. inv_bind Hl. injection Hl as <-. constructor; auto.
Qed.

Lemma mapM_res_length {A B} (g : A -> res B) l l' :
  mapM_res g l = Ok l' -> length l' = length l.
Proof. intros Hr%mapM_res_Forall2. symmetry. by eapply Forall2_length. Qed.

Lemma get_col_ok c f j :
  index_of c (columns f) = Some j -> get_col c f = Ok (column_cells f j).
Proof. unfold get_col. by intros ->. Qed.

Lemma get_col_length c f xs : get_col c f = Ok xs -> length xs = length (rows f).
Proof.
  unfold get_col. destruct (index_of c (columns f)); intros Hr; simplify_eq/=.
  apply length_fmap.
Qed.

Lemma length_zip_with_eq {A B C} (h : A -> B -> C) l k :
  length k = length l -> length (zip_with h l k) = length l.
Proof. intros Hk. rewrite length_zip_with. lia. Qed.

Lemma set_col_length c vals f :
  length vals = length (rows f) -> length (rows (set_col c vals f)) = length (rows f).
Proof. intros Hv. unfold set_col. by destruct (index_of c (columns f)); apply length_zip_with_eq. Qed.

Lemma sub_cols_length a b f ds : sub_cols a b f = Ok ds -> length ds = length (rows f).
Proof.
  unfold sub_cols. intros Hr. inv_bind Hr. inv_bind Hr.
  apply mapM_res_length in Hr. apply get_col_length in Ha. apply get_col_length in Ha0.
  rewrite Hr, length_zip. lia.
Qed.

Lemma filter_col_ok c keep f j :
  index_of c (columns f) = Some j ->
  filter_col c keep f =
    Ok (mkFrame (columns f) (List.filter (fun r => keep (default VNaN (r !! j))) (rows f))).
Proof. unfold filter_col. by intros ->. Qed.

Lemma index_of_elem c cols : c ∈ cols -> exists j, index_of c cols = Some j.
Proof.
  induction cols as [|d ds IH]; intros Hc; [by apply not_elem_of_nil in Hc|].
  simpl. case_bool_decide; [eauto|]. apply elem_of_cons in Hc as [->|Hc]; [done|].
  destruct (IH Hc) as [j ->]. eauto.
Qed.

Lemma index_of_lookup c cols j : index_of c cols = Some j -> cols !! j = Some c.
Proof.
  revert j. induction cols as [|d ds IH]; intros j; simpl; [done|].
  case_bool_decide; intros Hj; [by simplify_eq|].
  destruct (index_of c ds) eqn:E; simplify_eq/=. by apply IH.
Qed.

Lemma melt_ok ids vals vn wn f :
  missing_column (ids ++ vals) f = None ->
  melt ids vals vn wn f =
    Ok (mkFrame (ids ++ [vn; wn])
      (vals ≫= (fun vc => (fun r =>
          ((fun c => default VNaN (r !! default 0%nat (index_of c (columns f)))) <$> ids)
          ++ [VStr vc; default VNaN (r !! default 0%nat (index_of vc (columns f)))]) <$> rows f))).
Proof. unfold melt. by intros ->. Qed.

(** [pd.melt] makes one row per value column and input row. *)
Lemma melt_length ids vals vn wn f g :
  melt ids vals vn wn f = Ok g -> length (rows g) = (length vals * length (rows f))%nat.
Proof.
  unfold melt. destruct (missing_column _ _); intros Hr; simplify_eq/=.
  induction vals as [|vc vals IH]; [done|]. rewrite bind_cons, length_app, length_fmap, IH. simpl. lia.
Qed.

(** Each melted row names its value column in the [var_name] cell. *)
Lemma melt_var_cell ids vals vn wn f g :
  melt ids vals vn wn f = Ok g ->
  Forall (fun r => exists vc, vc ∈ vals /\ r !! length ids = Some (VStr vc)) (rows g).
Proof.
  unfold melt. destruct (missing_column _ _); intros Hr; simplify_eq/=.
  apply Forall_forall. intros r Hin. apply list_elem_of_In in Hin.
  apply list_elem_of_bind in Hin as (vc & Hin & Hvc).
  apply list_elem_of_fmap in Hin as (r0 & -> & _). exists vc. split; [done|].
  rewrite lookup_app_r; rewrite length_fmap; [|lia]. by rewrite Nat.sub_diag.
Qed.

Lemma keep_cols_columns_length keep f :
  length (columns (keep_cols keep f)) = length (List.filter keep (seq 0 (length (columns f)))).
Proof. apply length_fmap. Qed.

(** Column [j'] of [keep_cols keep f] is the [j'']-th kept column of [f]. *)
Lemma keep_cols_column keep f j' j :
  List.filter keep (seq 0 (length (columns f))) !! j' = Some j ->
  column_cells (keep_cols keep f) j' = column_cells f j /\ keep j = true /\
  (j < length (columns f))%nat.
Proof.
  intros Hj. split_and!.
  - unfold column_cells, keep_cols. simpl. rewrite <- list_fmap_compose.
    apply list_fmap_ext. intros _ r _. simpl. by rewrite list_lookup_fmap, Hj.
  - apply list_elem_of_lookup_2 in Hj. apply list_elem_of_In, filter_In in Hj. by destruct Hj.
  - apply list_elem_of_lookup_2 in Hj. apply list_elem_of_In, filter_In in Hj as [Hj _].
    apply in_seq in Hj. lia.
Qed.

Lemma keep_cols_column_lt keep f j' :
  (j' < length (columns (keep_cols keep f)))%nat ->
  exists j, column_cells (keep_cols keep f) j' = column_cells f j /\ keep j = true /\
    (j < length (columns f))%nat.
Proof.
  rewrite keep_cols_columns_length. intros Hlt.
  destruct (lookup_lt_is_Some_2 _ _ Hlt) as [j Hj]. exists j. by apply keep_cols_column.
Qed.

Lemma index_of_rename (c old new : string) (cols : list string) :
  c <> old -> c <> new ->
  index_of c ((fun d => if bool_decide (d = old) then new else d) <$> cols) = index_of c cols.
Proof.
  intros Ho Hn. induction cols as [|d ds IH]; [done|]. rewrite fmap_cons. cbn [index_of].
  rewrite IH. destruct (decide (d = old)) as [->|Hd].
  - rewrite (bool_decide_eq_true_2 (old = old)) by done.
    by rewrite (bool_decide_eq_false_2 (c = new)), (bool_decide_eq_false_2 (c = old)).
  - by rewrite (bool_decide_eq_false_2 (d = old)).
Qed.

Lemma elem_of_rename_new (old new : string) (cols : list string) :
  old ∈ cols -> new ∈ (fun d => if bool_decide (d = old) then new else d) <$> cols.
Proof.
  intros Hold. apply list_elem_of_fmap. exists old. split; [|done].
  by rewrite bool_decide_eq_true_2.
Qed.

Lemma elem_of_rename_other (c old new : string) (cols : list string) :
  c ∈ cols -> c <> old -> c ∈ (fun d => if bool_decide (d = old) then new else d) <$> cols.
Proof.
  intros Hc Ho. apply list_elem_of_fmap. exists c. split; [|done].
  by rewrite bool_decide_eq_false_2.
Qed.

Lemma missing_column_all cols f :
  (forall c, c ∈ cols -> c ∈ columns f) -> missing_column cols f = None.
Proof.
  intros Hall. unfold missing_column. destruct (List.find _ cols) as [c|] eqn:E; [|done].
  apply find_some in E as [Hin Hc]. apply negb_true_iff, bool_decide_eq_false in Hc.
  exfalso. apply Hc, Hall, list_elem_of_In, Hin.
Qed.

End Lemmas.

End Frame.
