(* ===== verification/GroupBy.v ===== *)
(** * GroupBy: the pandas reductions of the hub's panels

    The panels of [src/Analysis/streamlit_app.py] that are not plain
    reshapes use four more pandas operations, modelled here on the
    frames of [Frame]:
    - comparison of a column with a scalar ([df[c] > 0]) and the row
      mask it gives ([df[mask]]), where NA compares false and a [str]
      compared with a number raises [TypeError];
    - [Series.unique()], in order of first appearance;
    - arithmetic of a column with a scalar or a column ([df[c] / 1000],
      [df[a] + "_" + df[b]]);
    - [df.groupby(keys).agg({v: "mean"}).reset_index()]: rows with an
      NA key are dropped ([dropna=True]), the groups are sorted by key
      ([sort=True]), and each value column is averaged over the group,
      NA skipped.
    Cells are ordered by [pyval_compare]: numbers by value, strings
    lexicographically by byte, numbers before strings. *)
From Stdlib Require Import ZArith QArith Lqa Ascii String Sorting.Sorted.
From S2P Require Import Prelude PyStr Frame.
From stdpp Require Import list.

Module GroupBy.
Import PyStr Frame.

(** ** Ordering of cells and keys *)

Definition ascii_compare (a b : ascii) : comparison :=
  N.compare (N_of_ascii a) (N_of_ascii b).

(** Lexicographic extension of an order on elements to lists. *)
Fixpoint lex {A} (cmp : A -> A -> comparison) (xs ys : list A) : comparison :=
  match xs, ys with
  | [], [] => Eq
  | [], _ :: _ => Lt
  | _ :: _, [] => Gt
  | x :: xs', y :: ys' => match cmp x y with Eq => lex cmp xs' ys' | c => c end
  end.

(** Python's [str] comparison on ASCII strings. *)
Definition str_compare (s t : string) : comparison :=
  lex ascii_compare (list_ascii_of_string s) (list_ascii_of_string t).

Definition pyval_compare (x y : pyval) : comparison :=
  match x, y with
  | VNum p, VNum q => Qcompare p q
  | VStr s, VStr t => str_compare s t
  | VNum _, VStr _ => Lt
  | VStr _, VNum _ => Gt
  | VNaN, VNaN => Eq
  | VNaN, _ => Gt
  | _, VNaN => Lt
  end.

(** The order on the keys of a [groupby]. *)
Definition keys_compare : list pyval -> list pyval -> comparison := lex pyval_compare.

Definition keys_lt (xs ys : list pyval) : Prop := keys_compare xs ys = Lt.

(** ** Comparison masks *)

(** [v > q] or [v < q] of a cell with a number [q], the number test
    given as [op]. *)
Definition cmp_val (op : Q -> bool) (v : pyval) : res bool :=
  match v with
  | VNum p => Ok (op p)
  | VNaN => Ok false
  | VStr _ => Raise (TypeError "'<' not supported between instances of 'str' and 'int'")
  end.

(** [df[test(df[c])]]: keep the rows whose cell in column [c] passes a
    test that may raise. *)
Definition filter_by (c : string) (test : pyval -> res bool) (f : frame) : res frame :=
  xs ← get_col c f;
  mask ← mapM_res test xs;
  Ok (mkFrame (columns f) (fst <$> List.filter snd (zip (rows f) mask))).

(** [df.empty]: no row or no column. *)
Definition frame_empty (f : frame) : bool :=
  bool_decide (rows f = []) || bool_decide (columns f = []).

(** ** [Series.unique()] *)

(** Two cells are the same value for hashing: equal numbers, equal
    strings, or two NAs. *)
Definition same_value (x y : pyval) : bool :=
  match pyval_compare x y with Eq => true | _ => false end.

Fixpoint unique_from (seen : list pyval) (l : list pyval) : list pyval :=
  match l with
  | [] => []
  | x :: xs =>
      if existsb (same_value x) seen then unique_from seen xs
      else x :: unique_from (x :: seen) xs
  end.

Definition py_unique (l : list pyval) : list pyval := unique_from [] l.

(** ** Arithmetic with a scalar or a column *)

(** [v / q] for a non-zero number [q]. *)
Definition div_val (q : Q) (v : pyval) : res pyval :=
  match v with
  | VNum p => Ok (VNum (p / q))
  | VNaN => Ok VNaN
  | VStr _ => Raise (TypeError "unsupported operand type(s) for /: 'str' and 'int'")
  end.

(** [int(v)] of a cell: a number is truncated toward zero, a string is
    parsed, and NA raises. *)
Definition py_int_val (v : pyval) : res Z :=
  match v with
  | VNum q => Ok (Z.quot (Qnum q) (Zpos (Qden q)))
  | VStr s => py_int s
  | VNaN => Raise (ValueError "cannot convert float NaN to integer")
  end.

(** [a + b] of two cells of object columns: strings concatenate,
    numbers add, NA propagates, and mixing a string with a number
    raises. *)
Definition add_val (a b : pyval) : res pyval :=
  match a, b with
  | VStr s, VStr t => Ok (VStr (String.append s t))
  | VNum p, VNum q => Ok (VNum (p + q))
  | VStr _, VNum _ | VNum _, VStr _ => Raise (TypeError "can only concatenate str (not float) to str")
  | _, _ => Ok VNaN
  end.

(** ** [groupby(keys).agg({v: "mean"}).reset_index()] *)

(** The position of each named column, or [KeyError]. *)
Definition col_indices (cs : list string) (f : frame) : res (list nat) :=
  mapM_res (fun c => match index_of c (columns f) with
                     | Some j => Ok j
                     | None => Raise (KeyError c)
                     end) cs.

Definition row_key (idx : list nat) (r : list pyval) : list pyval :=
  (fun j => default VNaN (r !! j)) <$> idx.

Definition key_complete (k : list pyval) : bool := forallb (fun v => negb (is_na v)) k.

(** Insert a key into a sorted list of distinct keys; a key equal to
    one already there is dropped (the first representative is kept). *)
Fixpoint insert_key (k : list pyval) (ks : list (list pyval)) : list (list pyval) :=
  match ks with
  | [] => [k]
  | k' :: ks' =>
      match keys_compare k k' with
      | Lt => k :: ks
      | Eq => ks
      | Gt => k' :: insert_key k ks'
      end
  end.

Definition group_keys (keys : list (list pyval)) : list (list pyval) :=
  fold_left (fun ks k => insert_key k ks) keys [].

Fixpoint nums (vs : list pyval) : list Q :=
  match vs with
  | [] => []
  | VNum q :: vs' => q :: nums vs'
  | _ :: vs' => nums vs'
  end.

Definition Qsum (qs : list Q) : Q := fold_right Qplus 0%Q qs.

(** The mean of a group's cells: NA skipped, NA for no number, and
    [TypeError] on a string. *)
Definition mean_cells (vs : list pyval) : res pyval :=
  if existsb (fun v => match v with VStr _ => true | _ => false end) vs
  then Raise (TypeError "agg function failed [how->mean,dtype->object]")
  else match nums vs with
       | [] => Ok VNaN
       | qs => Ok (VNum (Qsum qs / inject_Z (Z.of_nat (length qs))))
       end.

Definition groupby_mean (keys vals : list string) (f : frame) : res frame :=
  kidx ← col_indices keys f;
  vidx ← col_indices vals f;
  let rs := List.filter (fun r => key_complete (row_key kidx r)) (rows f) in
  let group k := List.filter (fun r => bool_decide (keys_compare k (row_key kidx r) = Eq)) rs in
  out ← mapM_res (fun k =>
           ms ← mapM_res (fun j => mean_cells ((fun r => default VNaN (r !! j)) <$> group k)) vidx;
           Ok (k ++ ms)) (group_keys (row_key kidx <$> rs));
  Ok (mkFrame (keys ++ vals) out).

(** ** Laws of the orders *)

(** A comparison function that is a total preorder: antisymmetric,
    compatible with its equivalence, and transitive on [Lt]. *)
Class CmpLaws {A} (cmp : A -> A -> comparison) := {
  cmp_antisym x y : CompOpp (cmp x y) = cmp y x;
  cmp_eq_l x y z : cmp x y = Eq -> cmp x z = cmp y z;
  cmp_lt_trans x y z : cmp x y = Lt -> cmp y z = Lt -> cmp x z = Lt
}.

Section CmpLaws.
Context {A} (cmp : A -> A -> comparison) `{!CmpLaws cmp}.

Lemma cmp_refl x : cmp x x = Eq.
Proof. pose proof (cmp_antisym x x) as Hx. by destruct (cmp x x). Qed.

Lemma cmp_sym_eq x y : cmp x y = Eq -> cmp y x = Eq.
Proof. intros Hxy. by rewrite <- cmp_antisym, Hxy. Qed.

Lemma cmp_gt_lt x y : cmp x y = Gt -> cmp y x = Lt.
Proof. intros Hxy. by rewrite <- cmp_antisym, Hxy. Qed.

Lemma cmp_eq_r x y z : cmp y z = Eq -> cmp x y = cmp x z.
Proof.
  intros Hyz. rewrite <- (cmp_antisym y x), <- (cmp_antisym z x).
  by rewrite (cmp_eq_l y z x Hyz).
Qed.

Lemma cmp_lt_eq_trans x y z : cmp x y = Lt -> cmp y z = Eq -> cmp x z = Lt.
Proof. intros Hxy Hyz. by rewrite <- (cmp_eq_r x y z Hyz). Qed.

Lemma cmp_eq_lt_trans x y z : cmp x y = Eq -> cmp y z = Lt -> cmp x z = Lt.
Proof. intros Hxy Hyz. by rewrite (cmp_eq_l x y z Hxy). Qed.

End CmpLaws.

#[export] Instance lex_laws {A} (cmp : A -> A -> comparison) `{!CmpLaws cmp} : CmpLaws (lex cmp).
Proof.
  split.
  - induction x as [|a xs IH]; destruct y as [|b ys]; simpl; try done.
    rewrite <- (cmp_antisym (cmp:=cmp) a b). destruct (cmp a b); simpl; auto.
  - induction x as [|a xs IH]; destruct y as [|b ys], z as [|c zs]; simpl; try done.
    destruct (cmp a b) eqn:Hab; try done. intros Hxy.
    rewrite (cmp_eq_l (cmp:=cmp) a b c Hab). destruct (cmp b c); auto.
  - induction x as [|a xs IH]; destruct y as [|b ys], z as [|c zs]; simpl; try done.
    destruct (cmp a b) eqn:Hab, (cmp b c) eqn:Hbc; try done; intros Hxy Hyz.
    + rewrite (cmp_eq_l (cmp:=cmp) a b c Hab), Hbc. eauto.
    + by rewrite (cmp_eq_l (cmp:=cmp) a b c Hab), Hbc.
    + by rewrite (cmp_lt_eq_trans cmp a b c Hab Hbc).
    + by rewrite (cmp_lt_trans (cmp:=cmp) a b c Hab Hbc).
Qed.

#[export] Instance ascii_compare_laws : CmpLaws ascii_compare.
Proof.
  unfold ascii_compare. split.
  - intros x y. by rewrite (N.compare_antisym (N_of_ascii y)), CompOpp_involutive.
  - intros x y z Hxy. apply N.compare_eq_iff in Hxy. by rewrite Hxy.
  - intros x y z. rewrite !N.compare_lt_iff. lia.
Qed.

#[export] Instance str_compare_laws : CmpLaws str_compare.
Proof.
  unfold str_compare. split.
  - intros x y. apply cmp_antisym.
  - intros x y z. apply cmp_eq_l.
  - intros x y z. apply cmp_lt_trans.
Qed.

#[export] Instance Qcompare_laws : CmpLaws Qcompare.
Proof.
  split.
  - intros x y. apply Qcompare_antisym.
  - intros x y z Hxy%Qeq_alt. by rewrite Hxy.
  - intros x y z Hxy%Qlt_alt Hyz%Qlt_alt. apply Qlt_alt. by apply Qlt_trans with y.
Qed.

#[export] Instance pyval_compare_laws : CmpLaws pyval_compare.
Proof.
  split.
  - intros [s|p|] [t|q|]; simpl; try done; apply cmp_antisym.
  - intros [s|p|] [t|q|] [u|r|]; simpl; try done; apply cmp_eq_l.
  - intros [s|p|] [t|q|] [u|r|]; simpl; try done; apply cmp_lt_trans.
Qed.

#[export] Instance keys_compare_laws : CmpLaws keys_compare.
Proof. unfold keys_compare. apply _. Qed.

(** ** The sorted keys of a [groupby] *)

Lemma insert_key_elem x k ks : x ∈ insert_key k ks -> x = k \/ x ∈ ks.
Proof.
  induction ks as [|k' ks IH]; simpl.
  - rewrite list_elem_of_singleton. auto.
  - destruct (keys_compare k k'); intros Hx; [by right| |].
    + apply elem_of_cons in Hx as [Hx|Hx]; auto.
    + rewrite elem_of_cons. apply elem_of_cons in Hx as [Hx|Hx]; [auto|].
      destruct (IH Hx); auto.
Qed.

Lemma insert_key_sorted k ks :
  StronglySorted keys_lt ks -> StronglySorted keys_lt (insert_key k ks).
Proof.
  unfold keys_lt. induction 1 as [|k' ks Hs IH Hk']; simpl; [repeat constructor|].
  destruct (keys_compare k k') eqn:Hc.
  - by constructor.
  - constructor; [by constructor|]. constructor; [done|].
    eapply Forall_impl; [exact Hk'|]. intros x Hx. by apply (cmp_lt_trans k k' x).
  - constructor; [done|]. rewrite Forall_forall in Hk' |- *. intros x Hx%insert_key_elem.
    destruct Hx as [->|Hx]; [by apply (cmp_gt_lt keys_compare)|]. by apply Hk'.
Qed.

Lemma insert_key_keeps x k ks : x ∈ ks -> x ∈ insert_key k ks.
Proof.
  induction ks as [|k' ks IH]; simpl; [by rewrite elem_of_nil|].
  destruct (keys_compare k k'); rewrite ?elem_of_cons; tauto.
Qed.

Lemma insert_key_covers k ks : exists k', k' ∈ insert_key k ks /\ keys_compare k' k = Eq.
Proof.
  induction ks as [|k' ks IH]; simpl.
  - exists k. split; [by apply list_elem_of_singleton|]. apply (cmp_refl keys_compare).
  - destruct (keys_compare k k') eqn:Hc.
    + exists k'. split; [by left|]. by apply (cmp_sym_eq keys_compare).
    + exists k. split; [by left|]. apply (cmp_refl keys_compare).
    + destruct IH as (k'' & Hin & Heq). exists k''. split; [by right|done].
Qed.

Lemma group_keys_acc_sorted ks acc :
  StronglySorted keys_lt acc -> StronglySorted keys_lt (fold_left (fun ks k => insert_key k ks) ks acc).
Proof.
  revert acc. induction ks as [|k ks IH]; simpl; [done|]. intros acc Hacc.
  by apply IH, insert_key_sorted.
Qed.

(** The keys of a [groupby] are strictly increasing. *)
Lemma group_keys_sorted ks : StronglySorted keys_lt (group_keys ks).
Proof. apply group_keys_acc_sorted. constructor. Qed.

Lemma group_keys_acc_elem x ks acc :
  x ∈ fold_left (fun ks k => insert_key k ks) ks acc -> x ∈ ks \/ x ∈ acc.
Proof.
  revert acc. induction ks as [|k ks IH]; simpl; [auto|]. intros acc Hx.
  rewrite elem_of_cons. destruct (IH _ Hx) as [|[->|Hacc]%insert_key_elem]; auto.
Qed.

(** Every key of a [groupby] is the key of some row. *)
Lemma group_keys_elem x ks : x ∈ group_keys ks -> x ∈ ks.
Proof.
  unfold group_keys. intros [|Hx]%group_keys_acc_elem; [done|]. by apply elem_of_nil in Hx.
Qed.

Lemma group_keys_acc_keeps x ks acc :
  x ∈ acc -> x ∈ fold_left (fun ks k => insert_key k ks) ks acc.
Proof.
  revert acc. induction ks as [|k ks IH]; simpl; [done|]. intros acc Hx.
  by apply IH, insert_key_keeps.
Qed.

Lemma group_keys_acc_covers k ks acc :
  (k ∈ ks \/ (exists k', k' ∈ acc /\ keys_compare k' k = Eq)) ->
  exists k', k' ∈ fold_left (fun ks k => insert_key k ks) ks acc /\ keys_compare k' k = Eq.
Proof.
  revert acc. induction ks as [|k0 ks IH]; simpl; intros acc Hk.
  - destruct Hk as [Hk|Hk]; [by apply elem_of_nil in Hk|done].
  - apply IH. rewrite elem_of_cons in Hk. destruct Hk as [[->|Hk]|(k' & Hin & Heq)]; [|auto|].
    + right. apply insert_key_covers.
    + right. exists k'. split; [by apply insert_key_keeps|done].
Qed.

(** Every row's key has its group. *)
Lemma group_keys_covers k ks : k ∈ ks -> exists k', k' ∈ group_keys ks /\ keys_compare k' k = Eq.
Proof. intros Hk. apply group_keys_acc_covers. auto. Qed.

(** ** Masks and [groupby] results *)

Lemma col_indices_Forall2 cs f idx :
  col_indices cs f = Ok idx -> Forall2 (fun c j => index_of c (columns f) = Some j) cs idx.
Proof.
  intros Hm%mapM_res_Forall2. eapply Forall2_impl; [exact Hm|]. simpl.
  intros c j. by destruct (index_of c (columns f)); intros; simplify_eq.
Qed.

Lemma row_key_length idx r : length (row_key idx r) = length idx.
Proof. apply length_fmap. Qed.

(** What [groupby_mean] returns: the columns [keys ++ vals] and, for
    each key of [group_keys] in order, the key followed by the means of
    the value columns over the rows of that key. *)
Lemma groupby_mean_ok keys vals f g :
  groupby_mean keys vals f = Ok g ->
  exists kidx vidx, col_indices keys f = Ok kidx /\ col_indices vals f = Ok vidx /\
    columns g = keys ++ vals /\
    let rs := List.filter (fun r => key_complete (row_key kidx r)) (rows f) in
    Forall2 (fun k r => exists ms, r = k ++ ms /\
      Forall2 (fun j m => mean_cells ((fun r => default VNaN (r !! j)) <$>
          List.filter (fun r => bool_decide (keys_compare k (row_key kidx r) = Eq)) rs) = Ok m) vidx ms)
      (group_keys (row_key kidx <$> rs)) (rows g).
Proof.
  unfold groupby_mean. intros Hg. inv_bind Hg. inv_bind Hg. inv_bind Hg.
  injection Hg as <-. exists a, a0. do 3 (split; [done|]). simpl.
  apply mapM_res_Forall2 in Ha1. eapply Forall2_impl; [exact Ha1|]. simpl.
  intros k r Hk. inv_bind Hk. injection Hk as <-. exists a2. split; [done|].
  by apply mapM_res_Forall2 in Ha2.
Qed.

(** A row kept by [filter_by] is a row of the frame whose cell passes
    the test. *)
Lemma filter_by_ok c test f g :
  filter_by c test f = Ok g ->
  columns g = columns f /\ exists j, index_of c (columns f) = Some j /\
    forall r, r ∈ rows g -> r ∈ rows f /\ test (default VNaN (r !! j)) = Ok true.
Proof.
  unfold filter_by, get_col. destruct (index_of c (columns f)) as [j|] eqn:Hj; [|done].
  simpl. intros Hg. inv_bind Hg. injection Hg as <-. split; [done|]. exists j. split; [done|].
  intros r Hr. simpl in Hr. apply list_elem_of_fmap in Hr as ([r' b] & -> & Hr).
  apply list_elem_of_In, filter_In in Hr as [Hr Hb]. simpl in *. subst b.
  apply list_elem_of_In, list_elem_of_lookup in Hr as [i Hi].
  rewrite lookup_zip_with in Hi. apply bind_Some in Hi as (r'' & Hr'' & Hi).
  apply bind_Some in Hi as (b & Hb & [= <- <-]).
  apply mapM_res_Forall2 in Ha. split; [by eapply list_elem_of_lookup_2|].
  refine (Forall2_lookup_lr (fun x y => test x = Ok y) _ _ i _ _ Ha _ Hb).
  by rewrite list_lookup_fmap, Hr''.
Qed.

Lemma mapM_res_const_false {A} (g : A -> res bool) l :
  Forall (fun x => g x = Ok false) l -> mapM_res g l = Ok (const false <$> l).
Proof. induction 1 as [|x l Hx _ IH]; simpl; [done|]. by rewrite Hx, IH. Qed.

(** A test that no row passes leaves no row. *)
Lemma filter_by_none c test f j :
  index_of c (columns f) = Some j ->
  Forall (fun r => test (default VNaN (r !! j)) = Ok false) (rows f) ->
  filter_by c test f = Ok (mkFrame (columns f) []).
Proof.
  intros Hj Hall. unfold filter_by. rewrite (get_col_ok _ _ _ Hj). simpl.
  rewrite mapM_res_const_false by (by apply Forall_fmap). simpl. do 2 f_equal.
  unfold column_cells. generalize (rows f). clear. induction l as [|r rs IH]; [done|]. done.
Qed.

(** ** [Series.unique()] partitions the rows *)

Lemma same_value_iff x y : same_value x y = true <-> pyval_compare x y = Eq.
Proof. unfold same_value. by destruct (pyval_compare x y). Qed.

Lemma same_value_refl x : same_value x x = true.
Proof. apply same_value_iff, (cmp_refl pyval_compare). Qed.

Lemma same_value_sym x y : same_value x y = same_value y x.
Proof.
  unfold same_value. rewrite <- (cmp_antisym (cmp:=pyval_compare) x y).
  by destruct (pyval_compare x y).
Qed.

Lemma same_value_trans x y z : same_value x y = true -> same_value y z = true -> same_value x z = true.
Proof.
  rewrite !same_value_iff. intros Hxy Hyz. by rewrite (cmp_eq_l (cmp:=pyval_compare) x y z Hxy).
Qed.

Lemma lex_eq_iff {A} (cmp : A -> A -> comparison) (Hcmp : forall x y, cmp x y = Eq <-> x = y) xs ys :
  lex cmp xs ys = Eq <-> xs = ys.
Proof.
  revert ys. induction xs as [|x xs IH]; intros [|y ys]; simpl; try (split; congruence).
  destruct (cmp x y) eqn:Hxy; rewrite ?IH; split; try congruence.
  - apply Hcmp in Hxy. congruence.
  - intros [= -> ->]. by rewrite (proj2 (Hcmp y y) eq_refl) in Hxy.
  - intros [= -> ->]. by rewrite (proj2 (Hcmp y y) eq_refl) in Hxy.
Qed.

Lemma str_compare_eq_iff s t : str_compare s t = Eq <-> s = t.
Proof.
  unfold str_compare. rewrite lex_eq_iff.
  - split; [|by intros ->]. intros Hst.
    by rewrite <- (string_of_list_ascii_of_string s), Hst, string_of_list_ascii_of_string.
  - intros a b. unfold ascii_compare. rewrite N.compare_eq_iff. split; [|by intros ->].
    intros Hab. by rewrite <- (ascii_N_embedding a), Hab, ascii_N_embedding.
Qed.

Lemma Qeq_bool_compare p q : Qeq_bool p q = match Qcompare p q with Eq => true | _ => false end.
Proof.
  destruct (Qcompare p q) eqn:Hpq.
  - by apply Qeq_bool_iff, Qeq_alt.
  - apply not_true_iff_false. intros Hq%Qeq_bool_iff%Qeq_alt. congruence.
  - apply not_true_iff_false. intros Hq%Qeq_bool_iff%Qeq_alt. congruence.
Qed.

Lemma str_compare_refl s : str_compare s s = Eq.
Proof. by apply str_compare_eq_iff. Qed.

(** pandas' [x == v] is equality of values on a cell that is not NA. *)
Lemma py_eq_same_value x v : py_eq x v = negb (is_na x) && same_value x v.
Proof.
  unfold same_value. destruct x as [s|p|], v as [t|q|]; simpl; try done.
  - case_bool_decide as Hst; [subst; by rewrite str_compare_refl|].
    destruct (str_compare s t) eqn:E; try done. exfalso. by apply Hst, str_compare_eq_iff.
  - apply Qeq_bool_compare.
Qed.

Definition unseen (seen : list pyval) (v : pyval) : bool := negb (existsb (same_value v) seen).

Lemma same_value_congr v w s : same_value v w = true -> same_value v s = same_value w s.
Proof.
  intros Hvw. rewrite same_value_iff in Hvw. unfold same_value.
  by rewrite (cmp_eq_l (cmp:=pyval_compare) v w s Hvw).
Qed.

Lemma unseen_same seen v w : same_value v w = true -> unseen seen v = unseen seen w.
Proof.
  intros Hvw. unfold unseen. f_equal. induction seen as [|x seen IH]; [done|]. simpl.
  by rewrite IH, (same_value_congr v w x Hvw).
Qed.

Lemma unique_from_unseen v seen l : v ∈ unique_from seen l -> unseen seen v = true.
Proof.
  revert seen. induction l as [|x l IH]; intros seen; simpl; [by rewrite elem_of_nil|].
  destruct (existsb (same_value x) seen) eqn:Hx; [apply IH|].
  rewrite elem_of_cons. intros [->|Hv]; [by unfold unseen; rewrite Hx|].
  apply IH in Hv. unfold unseen in *. simpl in Hv. by apply negb_true_iff, orb_false_iff in Hv as [_ ->].
Qed.

(** [unique()] holds no two equal values. *)
Lemma unique_from_distinct seen l :
  ForallOrdPairs (fun v w => same_value v w = false) (unique_from seen l).
Proof.
  revert seen. induction l as [|x l IH]; intros seen; simpl; [constructor|].
  destruct (existsb (same_value x) seen) eqn:Hx; [apply IH|]. constructor; [|apply IH].
  apply Forall_forall. intros v Hv%unique_from_unseen. unfold unseen in Hv. simpl in Hv.
  apply negb_true_iff, orb_false_iff in Hv as [Hv _]. by rewrite same_value_sym.
Qed.

(** [unique()] holds every value of the list, up to equality of values. *)
Lemma unique_from_covers y seen l :
  y ∈ l -> unseen seen y = true -> exists v, v ∈ unique_from seen l /\ same_value y v = true.
Proof.
  revert seen. induction l as [|x l IH]; intros seen Hy Hs; [by apply elem_of_nil in Hy|]. simpl.
  destruct (same_value y x) eqn:Hyx.
  - destruct (existsb (same_value x) seen) eqn:Hx.
    + rewrite (unseen_same _ _ _ Hyx) in Hs. unfold unseen in Hs. by rewrite Hx in Hs.
    + exists x. split; [by left|done].
  - apply elem_of_cons in Hy as [->|Hy]; [by rewrite same_value_refl in Hyx|].
    destruct (existsb (same_value x) seen); [by apply IH|].
    destruct (IH (x :: seen) Hy) as (v & Hv & Hyv); [|exists v; split; [by right|done]].
    unfold unseen in *. simpl. by rewrite Hyx.
Qed.

Lemma existsb_same_value_trans y x s :
  same_value y x = true -> existsb (same_value x) s = true -> existsb (same_value y) s = true.
Proof.
  intros Hyx (z & Hz & Hxz)%existsb_exists. apply existsb_exists. exists z.
  split; [done|]. by apply (same_value_trans y x z).
Qed.

(** Values already seen, or equal to one of [l], add nothing to
    [unique()] once [l] is read. *)
Lemma unique_from_app_seen seen l l' :
  Forall (fun y => existsb (same_value y) (seen ++ l) = true) l' ->
  unique_from seen (l ++ l') = unique_from seen l.
Proof.
  revert seen. induction l as [|x l IH]; intros seen Hl'; simpl.
  - rewrite app_nil_r in Hl'. induction Hl' as [|y l' Hy _ IH']; simpl; [done|]. by rewrite Hy.
  - destruct (existsb (same_value x) seen) eqn:Hx; [|f_equal]; apply IH;
      (eapply Forall_impl; [exact Hl'|]); intros y Hy; cbv beta in *; rewrite existsb_app in Hy |- *;
      simpl in *; destruct (same_value y x) eqn:Hyx; simpl in *;
      rewrite ?orb_true_r, ?(existsb_same_value_trans y x seen) by done;
      destruct (existsb (same_value y) seen), (existsb (same_value y) l); simpl in *; congruence.
Qed.

Lemma existsb_same_value_elem y l : y ∈ l -> existsb (same_value y) l = true.
Proof. intros Hy. apply existsb_exists. exists y. split; [by apply list_elem_of_In|apply same_value_refl]. Qed.

(** [unique()] of a list repeated three times is the [unique()] of the
    list. *)
Lemma py_unique_thrice l : py_unique (l ++ l ++ l) = py_unique l.
Proof.
  unfold py_unique. apply unique_from_app_seen. apply Forall_forall. intros y Hy.
  apply existsb_same_value_elem. by apply elem_of_app in Hy as [?|?].
Qed.

Lemma filter_split {A} (p q : A -> bool) l :
  List.filter p l ≡ₚ List.filter (fun x => p x && q x) l ++ List.filter (fun x => p x && negb (q x)) l.
Proof.
  induction l as [|x l IH]; simpl; [done|].
  destruct (p x), (q x); simpl; rewrite ?IH; [done| |done|done].
  by rewrite Permutation_middle.
Qed.

Lemma filter_const_true {A} (l : list A) : List.filter (fun _ => true) l = l.
Proof. induction l as [|x l IH]; simpl; by rewrite ?IH. Qed.

Lemma filter_filter {A} (p q : A -> bool) l :
  List.filter p (List.filter q l) = List.filter (fun x => q x && p x) l.
Proof.
  induction l as [|x l IH]; simpl; [done|]. rewrite <- IH.
  destruct (q x); simpl; [|done]. by destruct (p x).
Qed.

(** The rows of [l] grouped by the values [vs] of their key. *)
Definition groups {A} (key : A -> pyval) (vs : list pyval) (l : list A) : list A :=
  concat ((fun v => List.filter (fun x => same_value (key x) v) l) <$> vs).

Section Partition.
Context {A} (key : A -> pyval).
Local Abbreviation groups := (groups key).

Lemma groups_cons v vs l :
  groups (v :: vs) l = List.filter (fun y => same_value (key y) v) l ++ groups vs l.
Proof. done. Qed.

Lemma groups_drop v vs l :
  Forall (fun w => same_value v w = false) vs ->
  groups vs l = groups vs (List.filter (fun y => negb (same_value (key y) v)) l).
Proof.
  unfold groups. induction 1 as [|w vs Hw _ IH]; [done|]. rewrite !fmap_cons. cbn [concat].
  rewrite IH, filter_filter. f_equal. apply List.filter_ext. intros y.
  destruct (same_value (key y) w) eqn:Hyw; [|by rewrite andb_false_r].
  rewrite andb_true_r. rewrite (same_value_congr _ _ v Hyw), same_value_sym, Hw. done.
Qed.

(** Grouping by distinct values that cover every key keeps every row
    exactly once. *)
Lemma groups_perm vs l :
  ForallOrdPairs (fun v w => same_value v w = false) vs ->
  (forall x, x ∈ l -> exists v, v ∈ vs /\ same_value (key x) v = true) ->
  groups vs l ≡ₚ l.
Proof.
  intros Hvs. revert l. induction Hvs as [|v vs Hv _ IH]; intros l Hcov.
  - destruct l as [|x l]; [done|]. destruct (Hcov x) as (v & Hv & _); [by left|].
    by apply elem_of_nil in Hv.
  - rewrite groups_cons, (groups_drop v) by done. rewrite IH.
    + transitivity (List.filter (fun _ => true) l); [|by rewrite filter_const_true].
      symmetry. exact (filter_split (fun _ => true) (fun y => same_value (key y) v) l).
    + intros x Hx. apply list_elem_of_In, filter_In in Hx as [Hx Hxv]. apply list_elem_of_In in Hx.
      destruct (Hcov x Hx) as (w & Hw & Hxw). apply elem_of_cons in Hw as [->|Hw]; [|by exists w].
      by rewrite Hxw in Hxv.
Qed.

End Partition.

(** The groups of [df[df[c] == v] for v in df[c].unique()] hold every
    row whose key is not NA exactly once, and no other row. *)
Lemma unique_groups {A} (key : A -> pyval) l :
  concat ((fun v => List.filter (fun x => py_eq (key x) v) l) <$> py_unique (key <$> l))
    ≡ₚ List.filter (fun x => negb (is_na (key x))) l.
Proof.
  transitivity (groups key (py_unique (key <$> l)) (List.filter (fun x => negb (is_na (key x))) l)).
  - unfold groups. apply Permutation_refl'. f_equal. apply list_fmap_ext. intros _ v _.
    rewrite filter_filter. apply List.filter_ext. intros x. apply py_eq_same_value.
  - apply groups_perm; [apply unique_from_distinct|]. intros x Hx.
    apply list_elem_of_In, filter_In in Hx as [Hx _]. apply list_elem_of_In in Hx.
    apply unique_from_covers; [by apply list_elem_of_fmap_2|done].
Qed.

(** ** Inversion of the column operations *)

Lemma get_col_inv c f xs :
  get_col c f = Ok xs -> exists j, index_of c (columns f) = Some j /\ xs = column_cells f j.
Proof. unfold get_col. destruct (index_of c (columns f)) as [j|]; intros Hx; simplify_eq. eauto. Qed.

Lemma filter_col_inv c keep f g :
  filter_col c keep f = Ok g ->
  exists j, index_of c (columns f) = Some j /\
    g = mkFrame (columns f) (List.filter (fun r => keep (default VNaN (r !! j))) (rows f)).
Proof. unfold filter_col. destruct (index_of c (columns f)) as [j|]; intros Hg; simplify_eq. eauto. Qed.

(** Two lists related pointwise give the same images of their filters. *)
Lemma Forall2_filter_fmap {A B C} (P : A -> B -> Prop) (fa : A -> C) (fb : B -> C)
    (pa : A -> bool) (pb : B -> bool) l1 l2 :
  Forall2 P l1 l2 -> (forall a b, P a b -> fa a = fb b /\ pa a = pb b) ->
  fa <$> List.filter pa l1 = fb <$> List.filter pb l2.
Proof.
  intros Hl HP. induction Hl as [|a b l1 l2 Hab _ IH]; [done|]. cbn [List.filter].
  destruct (HP a b Hab) as [Hf Hp]. rewrite Hp. destruct (pb b); [|done].
  by rewrite !fmap_cons, IH, Hf.
Qed.

Lemma group_keys_length n ks : Forall (fun k => length k = n) ks -> Forall (fun k => length k = n) (group_keys ks).
Proof.
  intros Hks. apply Forall_forall. intros k Hk%group_keys_elem. by rewrite Forall_forall in Hks; apply Hks.
Qed.

(** The key of a row of [rs] has a non-empty group. *)
Lemma group_nonempty kidx (rs : list (list pyval)) k :
  k ∈ row_key kidx <$> rs ->
  List.filter (fun r => bool_decide (keys_compare k (row_key kidx r) = Eq)) rs <> [].
Proof.
  intros (r & -> & Hr)%list_elem_of_fmap Hnil.
  assert (Hin : In r (List.filter (fun r' => bool_decide (keys_compare (row_key kidx r) (row_key kidx r') = Eq)) rs)).
  { apply filter_In. split; [by apply list_elem_of_In|]. apply bool_decide_eq_true, (cmp_refl keys_compare). }
  by rewrite Hnil in Hin.
Qed.

(** ** Appending a column *)

Lemma Forall2_fmap_eq {A B C} (h : A -> C) (k : B -> C) l1 l2 :
  Forall2 (fun a b => h a = k b) l1 l2 -> h <$> l1 = k <$> l2.
Proof. induction 1 as [|a b l1 l2 Hab _ IH]; [done|]. by rewrite !fmap_cons, Hab, IH. Qed.

Lemma index_of_app_l c l1 l2 j : index_of c l1 = Some j -> index_of c (l1 ++ l2) = Some j.
Proof.
  revert j. induction l1 as [|d l1 IH]; intros j; simpl; [done|].
  case_bool_decide; [done|]. destruct (index_of c l1) eqn:E; simpl; intros; simplify_eq.
  by rewrite (IH n eq_refl).
Qed.

Lemma index_of_None c cols : c ∉ cols -> index_of c cols = None.
Proof.
  intros Hc. destruct (index_of c cols) as [j|] eqn:E; [|done].
  apply index_of_lookup, list_elem_of_lookup_2 in E. done.
Qed.

(** [df[c] = vals] for a new column [c] appends it. *)
Lemma set_col_new c vals f :
  c ∉ columns f ->
  set_col c vals f = mkFrame (columns f ++ [c]) (zip_with (fun r v => r ++ [v]) (rows f) vals).
Proof. unfold set_col. by intros ->%index_of_None. Qed.

Lemma fmap_zip_with_keep {A B C} (g : A -> C) (h : A -> B -> A) (P : A -> Prop) rs vs :
  length vs = length rs -> Forall P rs -> (forall r v, P r -> g (h r v) = g r) ->
  g <$> zip_with h rs vs = g <$> rs.
Proof.
  intros Hlen HP Hg. revert vs Hlen. induction HP as [|r rs Hr _ IH]; intros [|v vs] Hlen; try done.
  cbn [zip_with]. rewrite !fmap_cons. f_equal; [by apply Hg|apply IH; simpl in Hlen; lia].
Qed.

Lemma index_of_app_r_first c l1 l2 : c ∉ l1 -> index_of c (l1 ++ c :: l2) = Some (length l1).
Proof.
  induction l1 as [|d l1 IH]; intros Hc; simpl; [by rewrite bool_decide_eq_true_2|].
  rewrite bool_decide_eq_false_2 by (intros ->; apply Hc; left).
  rewrite IH; [done|]. intros Hin. apply Hc. by right.
Qed.

Lemma index_of_snoc_None d c cols : index_of d cols = None -> d <> c -> index_of d (cols ++ [c]) = None.
Proof.
  intros Hd Hdc. apply index_of_None. intros Hin. apply elem_of_app in Hin as [Hin|Hin].
  - destruct (index_of_elem _ _ Hin) as [j Hj]. congruence.
  - by apply list_elem_of_singleton in Hin.
Qed.

(** [df[c] = vals] leaves every other column of a rectangular frame as
    it was. *)
Lemma get_col_set_col_ne c d vals f :
  c <> d -> length vals = length (rows f) -> frame_wf f ->
  get_col d (set_col c vals f) = get_col d f.
Proof.
  intros Hcd Hlen [_ Hrect]. unfold set_col, get_col.
  destruct (index_of c (columns f)) as [j|] eqn:Hc; simpl;
    destruct (index_of d (columns f)) as [jd|] eqn:Hd.
  - f_equal. apply (fmap_zip_with_keep _ _ _ _ _ Hlen Hrect). intros r v _.
    rewrite list_lookup_insert_ne; [done|]. intros ->. apply index_of_lookup in Hc, Hd. congruence.
  - done.
  - rewrite (index_of_app_l _ _ _ _ Hd). f_equal.
    apply (fmap_zip_with_keep _ _ _ _ _ Hlen Hrect). intros r v Hr.
    apply index_of_lookup, lookup_lt_Some in Hd. by rewrite lookup_app_l by lia.
  - by rewrite (index_of_snoc_None d c _ Hd) by congruence.
Qed.

Lemma Forall_zip_with_l {A B C} (P : A -> Prop) (Q : C -> Prop) (h : A -> B -> C) rs vs :
  Forall P rs -> (forall r v, P r -> Q (h r v)) -> Forall Q (zip_with h rs vs).
Proof. intros HP Hh. revert vs. induction HP; intros [|v vs]; simpl; constructor; auto. Qed.

(** [df[c] = vals] keeps a frame rectangular with distinct columns. *)
Lemma set_col_wf c vals f : frame_wf f -> frame_wf (set_col c vals f).
Proof.
  intros [Hnd Hrect]. unfold set_col, frame_wf.
  destruct (index_of c (columns f)) eqn:Hc; simpl; split.
  - done.
  - eapply Forall_zip_with_l; [exact Hrect|]. intros r v Hr. by rewrite length_insert.
  - apply NoDup_app. split; [done|]. split; [|apply NoDup_singleton].
    intros x Hx Hx'. apply list_elem_of_singleton in Hx' as ->.
    destruct (index_of_elem _ _ Hx). congruence.
  - eapply Forall_zip_with_l; [exact Hrect|]. intros r v Hr. rewrite !length_app. simpl in *. lia.
Qed.

(** [pd.melt] repeats an id column once per value column. *)
Lemma melt_id_col ids vals vn wn f g d xs :
  melt ids vals vn wn f = Ok g -> d ∈ ids -> get_col d f = Ok xs ->
  get_col d g = Ok (vals ≫= (fun _ => xs)).
Proof.
  unfold melt. destruct (missing_column _ _); intros Hg Hd Hxs; simplify_eq/=.
  unfold get_col in Hxs |- *. destruct (index_of d (columns f)) as [j|] eqn:Hj; [|done].
  injection Hxs as <-. destruct (index_of_elem _ _ Hd) as [k Hk]. simpl.
  rewrite (index_of_app_l _ _ _ _ Hk). f_equal.
  apply index_of_lookup in Hk as Hk'. pose proof (lookup_lt_Some _ _ _ Hk').
  induction vals as [|vc vals IH]; [done|]. rewrite !bind_cons, fmap_app, IH. f_equal.
  rewrite <- list_fmap_compose. apply list_fmap_ext. intros _ r _. simpl.
  rewrite lookup_app_l by (rewrite length_fmap; lia). rewrite list_lookup_fmap, Hk'. simpl. by rewrite Hj.
Qed.

Lemma removelast_zip_snoc {A} (l1 : list (list A)) (l2 : list A) :
  length l1 = length l2 -> (@removelast A) <$> zip_with (fun r v => r ++ [v]) l1 l2 = l1.
Proof.
  revert l2. induction l1 as [|r l1 IH]; intros [|v l2] Hlen; try done; try (simpl in Hlen; lia).
  cbn [zip_with]. rewrite fmap_cons, removelast_last, IH; [done|]. simpl in Hlen. lia.
Qed.

(** Appending a cell keeps the cells already there. *)
Lemma cell_snoc (r : list pyval) v j x : r !! j = Some x -> (r ++ [v]) !! j = Some x.
Proof. intros Hr. rewrite lookup_app_l; [done|]. by apply lookup_lt_Some in Hr. Qed.

(** Rows that pass a test still pass it once a cell is appended. *)
Lemma filter_zip_snoc (pr : list pyval -> bool) (l1 : list (list pyval)) l2 :
  Forall (fun r => forall v, pr (r ++ [v]) = true) l1 ->
  List.filter pr (zip_with (fun r v => r ++ [v]) l1 l2) = zip_with (fun r v => r ++ [v]) l1 l2.
Proof.
  intros Hl. revert l2. induction Hl as [|r l1 Hr _ IH]; intros [|v l2]; try done.
  cbn [zip_with List.filter]. by rewrite Hr, IH.
Qed.

(** The rows kept by a test on cell [j] that NA fails have that cell. *)
Lemma filter_cell_some (p : pyval -> bool) j (l : list (list pyval)) :
  p VNaN = false ->
  Forall (fun r => forall v, p (default VNaN ((r ++ [v]) !! j)) = true)
    (List.filter (fun r => p (default VNaN (r !! j))) l).
Proof.
  intros HNaN. apply Forall_forall. intros r (_ & Hr)%list_elem_of_In%filter_In v.
  destruct (r !! j) as [x|] eqn:Hx; simpl in Hr; [|congruence].
  by rewrite (cell_snoc _ _ _ _ Hx).
Qed.

(** ** Failing and succeeding maps *)

Lemma mapM_res_ok_exists {A B} (g : A -> res B) l :
  Forall (fun x => is_Ok (g x) = true) l -> exists l', mapM_res g l = Ok l'.
Proof.
  induction 1 as [|x l Hx _ [l' IH]]; simpl; [eauto|].
  destruct (g x) as [y|]; [|done]. simpl. rewrite IH. simpl. eauto.
Qed.

(** A map whose steps succeed or raise [e], one of which raises [e],
    raises [e]. *)
Lemma mapM_res_raise {A B} (g : A -> res B) l e :
  Forall (fun x => is_Ok (g x) = true \/ g x = Raise e) l -> Exists (fun x => g x = Raise e) l ->
  mapM_res g l = Raise e.
Proof.
  induction 1 as [|x l Hx _ IH]; intros Hex; [by apply Exists_nil in Hex|]. simpl.
  apply Exists_cons in Hex as [Hxe|Hex]; [by rewrite Hxe|].
  destruct Hx as [Hok|Hxe]; [|by rewrite Hxe].
  destruct (g x) as [y|]; [|done]. simpl. by rewrite IH.
Qed.

Lemma unique_from_elem v seen l : v ∈ unique_from seen l -> v ∈ l.
Proof.
  revert seen. induction l as [|x l IH]; intros seen; simpl; [done|].
  destruct (existsb _ seen); [intros Hv; right; by eapply IH|].
  intros [->|Hv]%elem_of_cons; [left|right; by eapply IH].
Qed.

(** [unique()] of values with a NA holds a NA. *)
Lemma py_unique_nan l : VNaN ∈ l -> VNaN ∈ py_unique l.
Proof.
  intros Hl. destruct (unique_from_covers VNaN [] l Hl eq_refl) as (v & Hv & Hs).
  by destruct v.
Qed.

(** ** Order of the rows of one group key *)

(** [v == s] of pandas for a string [s] is equality of values. *)
Lemma py_eq_str v s : py_eq v (VStr s) = same_value v (VStr s).
Proof. rewrite py_eq_same_value. by destruct v. Qed.

Definition pyval_lt (x y : pyval) : Prop := pyval_compare x y = Lt.

(** Among sorted two-part keys, those with a given first part have
    strictly increasing second parts. *)
Lemma sorted_keys_second (ks : list (list pyval)) s :
  StronglySorted keys_lt ks -> Forall (fun k => length k = 2%nat) ks ->
  StronglySorted pyval_lt
    ((fun k => default VNaN (k !! 1%nat)) <$> List.filter (fun k => same_value (default VNaN (k !! 0%nat)) s) ks).
Proof.
  induction 1 as [|k ks Hs IH Hk]; intros Hlen; [constructor|].
  inversion Hlen as [|? ? Hk2 Hlen']; subst. simpl.
  destruct (same_value _ s) eqn:Hks; [|by apply IH]. simpl. constructor; [by apply IH|].
  apply Forall_fmap, Forall_forall. intros k' Hk'.
  apply list_elem_of_In, filter_In in Hk' as [Hk' Hk's]. apply list_elem_of_In in Hk'.
  rewrite Forall_forall in Hk, Hlen'. specialize (Hk k' Hk'). specialize (Hlen' k' Hk').
  destruct k as [|a [|b []]]; try done. destruct k' as [|c [|d []]]; try done.
  simpl in *. unfold keys_lt, keys_compare in Hk. simpl in Hk.
  rewrite same_value_sym in Hk's.
  pose proof (same_value_trans _ _ _ Hks Hk's) as Hac. apply same_value_iff in Hac.
  rewrite Hac in Hk. unfold pyval_lt. by destruct (pyval_compare b d).
Qed.

(** ** Means *)

Local Open Scope Q_scope.

Lemma inject_nat_S n : inject_Z (Z.of_nat (S n)) == inject_Z (Z.of_nat n) + 1.
Proof. rewrite Nat2Z.inj_succ, <- Z.add_1_r, inject_Z_plus. reflexivity. Qed.

Lemma Qsum_bounds (lo hi : Q) qs :
  Forall (fun q => lo < q /\ q < hi) qs ->
  lo * inject_Z (Z.of_nat (length qs)) <= Qsum qs /\ Qsum qs <= hi * inject_Z (Z.of_nat (length qs)).
Proof.
  induction 1 as [|q qs [Hlo Hhi] _ [IHlo IHhi]].
  - change (inject_Z (Z.of_nat 0)) with 0. unfold Qsum. simpl. rewrite !Qmult_0_r. lra.
  - simpl length. rewrite inject_nat_S. unfold Qsum in *. simpl. split; lra.
Qed.

Lemma Qsum_bounds_strict (lo hi : Q) qs :
  qs <> [] -> Forall (fun q => lo < q /\ q < hi) qs ->
  lo * inject_Z (Z.of_nat (length qs)) < Qsum qs /\ Qsum qs < hi * inject_Z (Z.of_nat (length qs)).
Proof.
  destruct qs as [|q qs]; [done|]. intros _ Hqs. inversion Hqs as [|? ? [Hlo Hhi] Hrest]; subst.
  destruct (Qsum_bounds lo hi qs Hrest). simpl length. rewrite inject_nat_S.
  unfold Qsum in *. simpl. split; lra.
Qed.

(** A mean of numbers in an open interval lies in it. *)
Lemma mean_cells_bounds (lo hi : Q) vs m :
  mean_cells vs = Ok (VNum m) -> Forall (fun q => lo < q /\ q < hi) (nums vs) -> lo < m /\ m < hi.
Proof.
  unfold mean_cells. destruct (existsb _ vs); [done|].
  destruct (nums vs) as [|q qs] eqn:Hn; [done|]. intros [= <-] Hb.
  destruct (Qsum_bounds_strict lo hi (q :: qs)) as [Hl Hh]; [done|done|].
  assert (Hpos : 0 < inject_Z (Z.of_nat (length (q :: qs)))).
  { change 0 with (inject_Z 0). rewrite <- Zlt_Qlt. simpl length. lia. }
  split; [apply Qlt_shift_div_l | apply Qlt_shift_div_r]; auto.
Qed.

(** The mean of a non-empty list of numbers in an open interval is a
    number in it. *)
Lemma mean_cells_in_range (lo hi : Q) vs :
  vs <> [] -> Forall (fun v => exists q, v = VNum q /\ (lo < q)%Q /\ (q < hi)%Q) vs ->
  exists m, mean_cells vs = Ok (VNum m) /\ (lo < m)%Q /\ (m < hi)%Q.
Proof.
  intros Hne Hvs.
  assert (Hnums : nums vs = (fun v => match v with VNum q => q | _ => 0%Q end) <$> vs /\
                  existsb (fun v => match v with VStr _ => true | _ => false end) vs = false).
  { clear Hne. induction Hvs as [|v vs (q & -> & _) _ IH]; [done|]. simpl. destruct IH as [-> ->]. done. }
  destruct Hnums as [Hn Hs].
  assert (Hok : exists m, mean_cells vs = Ok (VNum m)).
  { unfold mean_cells. rewrite Hs, Hn. destruct vs; [done|]. simpl. eauto. }
  destruct Hok as [m Hm]. exists m. split; [done|]. apply (mean_cells_bounds lo hi vs m Hm).
  rewrite Hn. apply Forall_fmap. eapply Forall_impl; [exact Hvs|]. intros v (q & -> & Hq). exact Hq.
Qed.

End GroupBy.
