(* ===== verification/Pivot.v ===== *)
(** * Pivot: [DataFrame.pivot_table] with the mean, as the 3D RGB plot uses it

    [rgb_3d.py] (lines 21-25) and the hub's [RGB_3D] panel (lines 85-87
    of [streamlit_app.py]) call
    [master.pivot_table(index=[...], columns="Channel", values="Value").reset_index()].
    pandas computes it as: [KeyError] when the value column is missing;
    [groupby(index + [columns]).agg("mean")] ([GroupBy.groupby_mean]);
    [dropna(how="all")] of the aggregate, which drops the keys whose mean
    is NaN; [unstack] of the last key level, which makes one row per
    distinct index key and one column per distinct column key, both
    sorted, NaN where a combination has no mean; [droplevel(0)] of the
    column labels; and [reset_index()], which puts the index keys back
    as the first columns.  The final [dropna(how="all", axis=1)] drops
    nothing, since every column key comes from a row with a mean
    ([pivot_column_keys], used in [pivot_table_cells]), and is left out.

    The frames of [Frame] have string column labels: a column key is
    turned into its label by [column_label], the string itself for a
    [str] key.  The index is non-empty, as at both call sites. *)
From Stdlib Require Import ZArith QArith String Sorting.Sorted.
From S2P Require Import Prelude PyStr Frame GroupBy.
From stdpp Require Import list sorting.

Module Pivot.
Import Frame GroupBy.

(** The cell at position [j] of a row, NaN past its end. *)
Definition cell_at (j : nat) (r : list pyval) : pyval := default VNaN (r !! j).

(** The label of the column made from a column key. *)
Definition column_label (v : pyval) : string :=
  match v with VStr s => s | _ => EmptyString end.

(** The cell of [unstack] at index key [ik] and column key [ck]: the
    mean of the aggregate row with that key, NaN when there is none. *)
Definition pivot_cell (n : nat) (rs : list (list pyval)) (ik ck : list pyval) : pyval :=
  match List.find (fun r => bool_decide (keys_compare (take (S n) r) (ik ++ ck) = Eq)) rs with
  | Some r => cell_at (S n) r
  | None => VNaN
  end.

Definition pivot_table (index : list string) (column value : string) (f : frame) : res frame :=
  _ ← col_indices [value] f;
  agged ← groupby_mean (index ++ [column]) [value] f;
  let n := length index in
  let rs := List.filter (fun r => negb (is_na (cell_at (S n) r))) (rows agged) in
  let iks := group_keys (take n <$> rs) in
  let cks := group_keys ((fun r => [cell_at n r]) <$> rs) in
  Ok (mkFrame (index ++ ((fun ck => column_label (cell_at 0 ck)) <$> cks))
              ((fun ik => ik ++ (pivot_cell n rs ik <$> cks)) <$> iks)).

(** The rows of a [groupby] with key [k]: the reference the cells of
    the pivot are specified against. *)
Definition group_rows (kidx : list nat) (rs : list (list pyval)) (k : list pyval) : list (list pyval) :=
  List.filter (fun r => bool_decide (keys_compare k (row_key kidx r) = Eq)) rs.

(** The rows of [f] whose key is complete, the rows [groupby] keeps. *)
Definition keyed_rows (kidx : list nat) (f : frame) : list (list pyval) :=
  List.filter (fun r => key_complete (row_key kidx r)) (rows f).

(** ** A long table and its pivot *)

Definition demo_long : frame :=
  mkFrame ["Sensor"; "Channel"; "Value"]
    [[VStr "S1"; VStr "R"; VNum 2]; [VStr "S1"; VStr "G"; VNum 4]; [VStr "S1"; VStr "R"; VNum 4];
     [VStr "S2"; VStr "B"; VNum 1]; [VStr "S2"; VStr "R"; VNaN]; [VNaN; VStr "G"; VNum 7]].

Definition demo_wide : frame :=
  mkFrame ["Sensor"; "B"; "G"; "R"]
    [[VStr "S1"; VNaN; VNum 4; VNum (6 # 2)]; [VStr "S2"; VNum 1; VNaN; VNaN]].

Definition demo_long_str : frame :=
  mkFrame ["Sensor"; "Channel"; "Value"] [[VStr "S1"; VStr "R"; VNum 2]; [VStr "S1"; VStr "G"; VStr "n/a"]].

(** ** Lemmas *)

Lemma lex_eq_Forall2 {A} (cmp : A -> A -> comparison) xs ys :
  lex cmp xs ys = Eq <-> Forall2 (fun x y => cmp x y = Eq) xs ys.
Proof.
  revert ys. induction xs as [|x xs IH]; intros [|y ys]; simpl;
    try (split; [discriminate | inversion 1]); [split; constructor|].
  rewrite Forall2_cons, <- IH. destruct (cmp x y); intuition discriminate.
Qed.

Lemma keys_eq_app a b c d :
  keys_compare a c = Eq -> keys_compare b d = Eq -> keys_compare (a ++ b) (c ++ d) = Eq.
Proof. unfold keys_compare. rewrite !lex_eq_Forall2. apply Forall2_app. Qed.

Lemma keys_eq_take n a b : keys_compare a b = Eq -> keys_compare (take n a) (take n b) = Eq.
Proof. unfold keys_compare. rewrite !lex_eq_Forall2. apply Forall2_take. Qed.

Lemma keys_eq_drop n a b : keys_compare a b = Eq -> keys_compare (drop n a) (drop n b) = Eq.
Proof. unfold keys_compare. rewrite !lex_eq_Forall2. apply Forall2_drop. Qed.

Lemma keys_eq_trans a b c : keys_compare a b = Eq -> keys_compare b c = Eq -> keys_compare a c = Eq.
Proof. intros Hab Hbc. by rewrite (cmp_eq_l a b c Hab). Qed.

Lemma take_snoc_cell n (k : list pyval) : length k = S n -> k = take n k ++ [cell_at n k].
Proof.
  intros Hk. destruct (lookup_lt_is_Some_2 k n) as [v Hv]; [lia|].
  unfold cell_at. rewrite Hv. simpl. rewrite <- (take_drop n k) at 1. f_equal.
  rewrite (drop_S _ v) by done. rewrite drop_ge by lia. done.
Qed.

Lemma drop_cell n (k : list pyval) : length k = S n -> drop n k = [cell_at n k].
Proof.
  intros Hk. rewrite (take_snoc_cell n k Hk) at 1.
  rewrite drop_app_length'; [done|]. rewrite length_take. lia.
Qed.

Lemma cell_at_snoc n k m : length k = n -> cell_at n (k ++ [m]) = m.
Proof. intros <-. unfold cell_at. by rewrite lookup_app_r, Nat.sub_diag. Qed.

Lemma cell_at_snoc_lt i k m : i < length k -> cell_at i (k ++ [m]) = cell_at i k.
Proof. intros Hi. unfold cell_at. by rewrite lookup_app_l. Qed.

Lemma group_rows_congr kidx rs k1 k2 :
  keys_compare k1 k2 = Eq -> group_rows kidx rs k1 = group_rows kidx rs k2.
Proof.
  intros Hk. apply List.filter_ext. intros r. by rewrite (cmp_eq_l k1 k2 _ Hk).
Qed.

Lemma mean_cells_nil : mean_cells [] = Ok VNaN.
Proof. reflexivity. Qed.

Lemma keys_compare_app a b c d :
  length a = length c ->
  keys_compare (a ++ b) (c ++ d) = match keys_compare a c with Eq => keys_compare b d | o => o end.
Proof.
  revert c. induction a as [|x a IH]; intros [|y c] Hl; simpl in *; try done.
  unfold keys_compare in *. simpl. destruct (pyval_compare x y); auto.
Qed.

Lemma key_complete_app a b : key_complete (a ++ b) = key_complete a && key_complete b.
Proof. apply forallb_app. Qed.

Lemma key_complete_eq k k' : keys_compare k k' = Eq -> key_complete k = key_complete k'.
Proof.
  unfold keys_compare. rewrite lex_eq_Forall2. induction 1 as [|x y k k' Hxy _ IH]; [done|].
  simpl. rewrite IH. by destruct x, y.
Qed.

Lemma keys_eq_length a b : keys_compare a b = Eq -> length a = length b.
Proof. unfold keys_compare. rewrite lex_eq_Forall2. apply Forall2_length. Qed.

Lemma keys_eq_str k ss : keys_compare k (VStr <$> ss) = Eq -> k = VStr <$> ss.
Proof.
  unfold keys_compare. rewrite lex_eq_Forall2. revert k.
  induction ss as [|s ss IH]; intros k Hk; inversion Hk as [|v ? k' ? Hv Hk']; subst; [done|].
  csimpl. rewrite <- (IH k') by done. f_equal. destruct v; try done. simpl in Hv.
  by apply str_compare_eq_iff in Hv as ->.
Qed.

Lemma keys_sorted_unique l1 l2 :
  StronglySorted keys_lt l1 -> StronglySorted keys_lt l2 -> (forall x, x ∈ l1 <-> x ∈ l2) -> l1 = l2.
Proof.
  assert (Hnd : forall l, StronglySorted keys_lt l -> NoDup l).
  { induction 1 as [|x l _ IH Hx]; constructor; [|done]. intros Hin.
    rewrite Forall_forall in Hx. specialize (Hx x Hin). unfold keys_lt in Hx.
    by rewrite (cmp_refl keys_compare) in Hx. }
  intros H1 H2 H12. apply (StronglySorted_unique_strong keys_lt); [|done|done|].
  - intros x1 x2 _ _ Hlt Hgt. unfold keys_lt in *.
    rewrite <- (cmp_antisym x1 x2), Hlt in Hgt. discriminate.
  - apply NoDup_Permutation; auto.
Qed.

Lemma mean_cells_single q : mean_cells [VNum q] = Ok (VNum q).
Proof.
  destruct q as [a b]. unfold mean_cells. simpl. do 2 f_equal.
  unfold Qdiv, Qmult, Qplus, Qinv. simpl. by rewrite Z.mul_1_r, Z.add_0_r, !Pos.mul_1_r, Z.mul_1_r.
Qed.

#[export] Hint Resolve keys_eq_app keys_eq_take keys_eq_drop : idc.

(** The rows of the aggregate, read off [groupby_mean_ok] for one value
    column at position [j]. *)
Section Aggregate.
Variables (kidx : list nat) (j : nat) (rs0 agged : list (list pyval)).
Hypothesis Hag : Forall2 (fun k r => exists ms, r = k ++ ms /\
      Forall2 (fun j m => mean_cells (cell_at j <$> group_rows kidx rs0 k) = Ok m) [j] ms)
    (group_keys (row_key kidx <$> rs0)) agged.

Lemma agged_row r :
  r ∈ agged -> exists k m, r = k ++ [m] /\ length k = length kidx /\
    k ∈ group_keys (row_key kidx <$> rs0) /\ mean_cells (cell_at j <$> group_rows kidx rs0 k) = Ok m.
Proof.
  intros (i & Hi)%list_elem_of_lookup.
  destruct (Forall2_lookup_r _ _ _ i r Hag Hi) as (k & Hk & ms & -> & Hms).
  inversion Hms as [|? m ? ? Hm Hnil]; subst. inversion Hnil; subst.
  exists k, m. repeat split; [|by eapply list_elem_of_lookup_2|done].
  assert (Hl : Forall (fun k => length k = length kidx) (group_keys (row_key kidx <$> rs0))).
  { apply group_keys_length, Forall_forall. intros x (r & -> & _)%list_elem_of_fmap.
    apply row_key_length. }
  rewrite Forall_forall in Hl. apply Hl. by eapply list_elem_of_lookup_2.
Qed.

Lemma agged_cover k :
  k ∈ group_keys (row_key kidx <$> rs0) ->
  exists m, k ++ [m] ∈ agged /\ mean_cells (cell_at j <$> group_rows kidx rs0 k) = Ok m.
Proof.
  intros (i & Hi)%list_elem_of_lookup.
  destruct (Forall2_lookup_l _ _ _ i k Hag Hi) as (r & Hr & ms & -> & Hms).
  inversion Hms as [|? m ? ? Hm Hnil]; subst. inversion Hnil; subst.
  exists m. split; [by eapply list_elem_of_lookup_2|done].
Qed.

Variable n : nat.
Hypothesis Hn : length kidx = S n.

Let rs := List.filter (fun r => negb (is_na (cell_at (S n) r))) agged.

(** Each cell of the pivot is the mean of its group: the [unstack] of
    the aggregate refines the direct computation of the mean. *)
Lemma pivot_cell_mean ik ck :
  mean_cells (cell_at j <$> group_rows kidx rs0 (ik ++ ck)) = Ok (pivot_cell n rs ik ck).
Proof.
  unfold pivot_cell. destruct (List.find _ rs) as [r|] eqn:E.
  - apply List.find_some in E as [[Hr _]%filter_In Hk%bool_decide_eq_true_1].
    apply list_elem_of_In in Hr. destruct (agged_row r Hr) as (k & m & -> & Hlen & _ & Hm).
    rewrite take_app_length' in Hk by lia.
    rewrite <- (group_rows_congr _ _ _ _ Hk), Hm. by rewrite cell_at_snoc by lia.
  - destruct (group_rows kidx rs0 (ik ++ ck)) as [|r0 g] eqn:Hg; [done|].
    assert (Hr0 : In r0 (group_rows kidx rs0 (ik ++ ck))) by (rewrite Hg; left; done).
    apply filter_In in Hr0 as [Hr0 Hk0%bool_decide_eq_true_1]. rewrite <- list_elem_of_In in Hr0.
    destruct (group_keys_covers (row_key kidx r0) (row_key kidx <$> rs0))
      as (k & Hk & Hkr); [by apply list_elem_of_fmap_2|].
    destruct (agged_cover k Hk) as (m & Hkm & Hm).
    assert (Hkk : keys_compare k (ik ++ ck) = Eq)
      by (eapply keys_eq_trans; [exact Hkr|]; by apply (cmp_sym_eq keys_compare)).
    rewrite <- Hg, <- (group_rows_congr _ _ _ _ Hkk), Hm.
    destruct (agged_row _ Hkm) as (k' & m' & Heq & Hlen & _).
    apply app_inj_tail in Heq as [<- <-].
    destruct (is_na m) eqn:Hna; [by destruct m|]. exfalso.
    pose proof (List.find_none _ _ E (k ++ [m])) as E'. cbv beta in E'.
    rewrite take_app_length' in E' by lia. rewrite bool_decide_eq_true_2 in E' by done.
    enough (true = false) by done. apply E', filter_In.
    split; [by apply list_elem_of_In|]. by rewrite cell_at_snoc, Hna by lia.
Qed.


Lemma agged_snoc_length k m : k ++ [m] ∈ agged -> length k = S n.
Proof.
  intros Hkm. destruct (agged_row _ Hkm) as (k' & m' & Heq & Hlen & _).
  apply app_inj_tail in Heq as [<- _]. lia.
Qed.

Lemma rs_row_length r : r ∈ rs -> length r = S (S n).
Proof.
  intros Hr%list_elem_of_In%filter_In. destruct Hr as [Hr%list_elem_of_In _].
  destruct (agged_row _ Hr) as (k & m & -> & Hlen & _). rewrite length_app. simpl. lia.
Qed.

Lemma pivot_index_length : Forall (fun ik => length ik = n) (group_keys (take n <$> rs)).
Proof.
  apply group_keys_length, Forall_forall. intros x (r & -> & Hr)%list_elem_of_fmap.
  rewrite length_take, (rs_row_length r Hr). lia.
Qed.

(** Every group of [rs0] with a mean that is not NaN has its index key
    among the rows of the pivot and its mean among the cells there. *)
Lemma pivot_covers r0 x :
  r0 ∈ rs0 -> mean_cells (cell_at j <$> group_rows kidx rs0 (row_key kidx r0)) = Ok x ->
  is_na x = false ->
  exists ik ck, ik ∈ group_keys (take n <$> rs) /\
    ck ∈ group_keys ((fun r : list pyval => [cell_at n r]) <$> rs) /\
    keys_compare ik (take n (row_key kidx r0)) = Eq /\
    keys_compare ck (drop n (row_key kidx r0)) = Eq /\ pivot_cell n rs ik ck = x.
Proof.
  intros Hr0 Hx Hna.
  destruct (group_keys_covers (row_key kidx r0) (row_key kidx <$> rs0))
    as (k & Hk & Hkr); [by apply list_elem_of_fmap_2|].
  destruct (agged_cover k Hk) as (m & Hkm & Hm).
  rewrite <- (group_rows_congr _ _ _ _ Hkr), Hm in Hx. injection Hx as ->.
  pose proof (agged_snoc_length _ _ Hkm) as Hlen.
  assert (Hrs : k ++ [x] ∈ rs).
  { apply list_elem_of_In, filter_In. split; [by apply list_elem_of_In|].
    by rewrite cell_at_snoc, Hna. }
  destruct (group_keys_covers (take n (k ++ [x])) (take n <$> rs)) as (ik & Hik & Hikk);
    [by apply list_elem_of_fmap_2|].
  destruct (group_keys_covers [cell_at n (k ++ [x])] ((fun r => [cell_at n r]) <$> rs))
    as (ck & Hck & Hckk); [by apply list_elem_of_fmap_2 with (f := fun r => [cell_at n r])|].
  rewrite take_app_le in Hikk by lia. rewrite cell_at_snoc_lt in Hckk by lia.
  exists ik, ck. do 2 (split; [done|]). split; [by eapply keys_eq_trans, keys_eq_take|].
  split.
  { eapply keys_eq_trans; [exact Hckk|]. rewrite <- drop_cell by done. auto with idc. }
  pose proof (pivot_cell_mean ik ck) as Hc.
  rewrite (group_rows_congr _ _ (ik ++ ck) k), Hm in Hc; [by injection Hc|].
  rewrite (take_snoc_cell n k) by done. auto with idc.
Qed.

(** Every column key is the column cell of the key of a row of [rs0]. *)
Lemma pivot_column_keys ck :
  ck ∈ group_keys ((fun r : list pyval => [cell_at n r]) <$> rs) ->
  exists r0, r0 ∈ rs0 /\ ck = [cell_at n (row_key kidx r0)].
Proof.
  intros (r & -> & Hr)%group_keys_elem%list_elem_of_fmap.
  apply list_elem_of_In, filter_In in Hr as [Hr%list_elem_of_In _].
  destruct (agged_row _ Hr) as (k & m & -> & Hlen & Hk%group_keys_elem & _).
  apply list_elem_of_fmap in Hk as (r0 & -> & Hr0). exists r0. split; [done|].
  by rewrite cell_at_snoc_lt by lia.
Qed.

(** The rows of the pivot: an index key followed by the mean of each
    column key's group. *)
Lemma pivot_rows_means :
  let cks := group_keys ((fun r : list pyval => [cell_at n r]) <$> rs) in
  Forall (fun r => exists ik cells, r = ik ++ cells /\ length ik = n /\
      Forall2 (fun ck x => mean_cells (cell_at j <$> group_rows kidx rs0 (ik ++ ck)) = Ok x) cks cells)
    ((fun ik => ik ++ (pivot_cell n rs ik <$> cks)) <$> group_keys (take n <$> rs)).
Proof.
  pose proof pivot_index_length as Hlen. rewrite Forall_forall in Hlen.
  apply Forall_fmap, Forall_forall. intros ik Hik. eexists _, _. split; [done|].
  split; [by apply Hlen|].
  apply Forall2_fmap_r, Forall_Forall2_diag, Forall_true. intros ck. apply pivot_cell_mean.
Qed.

End Aggregate.

(** A successful [pivot_table], unfolded: the key and value positions,
    the aggregate of [groupby_mean] and the table built from it. *)
Lemma pivot_table_inv index column value f g :
  pivot_table index column value f = Ok g ->
  exists kidx j agged,
    col_indices (index ++ [column]) f = Ok kidx /\ index_of value (columns f) = Some j /\
    length kidx = S (length index) /\
    Forall2 (fun k r => exists ms, r = k ++ ms /\
      Forall2 (fun j m => mean_cells (cell_at j <$> group_rows kidx (keyed_rows kidx f) k) = Ok m) [j] ms)
      (group_keys (row_key kidx <$> keyed_rows kidx f)) agged /\
    let n := length index in
    let rs := List.filter (fun r => negb (is_na (cell_at (S n) r))) agged in
    let cks := group_keys ((fun r => [cell_at n r]) <$> rs) in
    g = mkFrame (index ++ ((fun ck => column_label (cell_at 0 ck)) <$> cks))
                ((fun ik => ik ++ (pivot_cell n rs ik <$> cks)) <$> group_keys (take n <$> rs)).
Proof.
  unfold pivot_table. intros Hg. inv_bind Hg. inv_bind Hg. injection Hg as <-.
  destruct (groupby_mean_ok _ _ _ _ Ha0) as (kidx & vidx & Hk & Hv & _ & Hag).
  rewrite Ha in Hv. injection Hv as <-.
  apply col_indices_Forall2 in Ha. inversion Ha as [|? j ? ? Hj Hnil]; subst.
  inversion Hnil; subst.
  exists kidx, j, (rows a0). do 2 (split; [done|]). split; [|split; [exact Hag|done]].
  apply col_indices_Forall2, Forall2_length in Hk. rewrite <- Hk, length_app. simpl. lia.
Qed.

Lemma col_indices_single c f j : index_of c (columns f) = Some j -> col_indices [c] f = Ok [j].
Proof. unfold col_indices. simpl. by intros ->. Qed.

(** [mean] over an object column: every group either has a mean or
    fails with the same [TypeError]. *)
Lemma mean_cells_ok_or_type vs :
  is_Ok (mean_cells vs) = true \/
  mean_cells vs = Raise (TypeError "agg function failed [how->mean,dtype->object]").
Proof. unfold mean_cells. destruct (existsb _ vs); [by right|]. destruct (nums vs); by left. Qed.

Lemma mean_cells_str vs s :
  VStr s ∈ vs -> mean_cells vs = Raise (TypeError "agg function failed [how->mean,dtype->object]").
Proof.
  intros Hs. unfold mean_cells. replace (existsb _ vs) with true; [done|]. symmetry.
  apply existsb_exists. exists (VStr s). split; [by apply list_elem_of_In|done].
Qed.

(** Everything the clients of [pivot_table] use: the shape of the
    table, where its column keys come from, the means in its cells, and
    the row and column every non-NaN mean of a group lands in. *)
Lemma pivot_table_sound index column value f g :
  pivot_table index column value f = Ok g ->
  exists kidx j cks,
    col_indices (index ++ [column]) f = Ok kidx /\ index_of value (columns f) = Some j /\
    columns g = index ++ ((fun ck => column_label (cell_at 0 ck)) <$> cks) /\
    StronglySorted keys_lt cks /\
    Forall (fun ck => exists r0, r0 ∈ keyed_rows kidx f /\
      ck = [cell_at (length index) (row_key kidx r0)]) cks /\
    Forall (fun r => exists ik cells, r = ik ++ cells /\ length ik = length index /\
      Forall2 (fun ck x => mean_cells (cell_at j <$> group_rows kidx (keyed_rows kidx f) (ik ++ ck)) = Ok x)
        cks cells) (rows g) /\
    (forall r0 x, r0 ∈ keyed_rows kidx f ->
      mean_cells (cell_at j <$> group_rows kidx (keyed_rows kidx f) (row_key kidx r0)) = Ok x ->
      is_na x = false ->
      exists ik cells ck, ik ++ cells ∈ rows g /\ ck ∈ cks /\
        keys_compare ik (take (length index) (row_key kidx r0)) = Eq /\
        keys_compare ck (drop (length index) (row_key kidx r0)) = Eq).
Proof.
  intros (kidx & j & agged & Hk & Hj & Hn & Hag & ->)%pivot_table_inv.
  eexists kidx, j, _. simpl. do 3 (split; [done|]). split; [apply group_keys_sorted|].
  split; [|split].
  - apply Forall_forall. intros ck Hck. by apply (pivot_column_keys kidx j _ agged Hag _ Hn).
  - apply (pivot_rows_means kidx j _ agged Hag _ Hn).
  - intros r0 x Hr0 Hx Hna.
    destruct (pivot_covers kidx j _ agged Hag _ Hn r0 x Hr0 Hx Hna)
      as (ik & ck & Hik & Hck & Hikk & Hckk & _).
    eexists ik, _, ck. split; [apply list_elem_of_fmap; by exists ik|]. done.
Qed.

(** ** The pivot table *)

(** C25: [pivot_table(index, columns, values)] has the index columns
    followed by one column per column key, each key the [columns] cell
    of a row of the frame; every group of the frame with a mean that is
    not NaN has its index key among the rows and its column key among
    the columns, with that mean among the row's cells; the column keys
    and the index keys of its rows are strictly increasing, and in the row of index key [ik] and the
    column of key [ck] the mean of the value column over the rows of the
    frame whose key is [ik ++ ck]: NaN when there are none or all their
    values are NaN. *)
Theorem pivot_table_cells index column value f g :
  pivot_table index column value f = Ok g ->
  exists kidx j cks,
    col_indices (index ++ [column]) f = Ok kidx /\ index_of value (columns f) = Some j /\
    columns g = index ++ ((fun ck => column_label (cell_at 0 ck)) <$> cks) /\
    StronglySorted keys_lt cks /\
    Forall (fun ck => exists r0, r0 ∈ keyed_rows kidx f /\
      ck = [cell_at (length index) (row_key kidx r0)]) cks /\
    (forall r0 x, r0 ∈ keyed_rows kidx f ->
       mean_cells (cell_at j <$> group_rows kidx (keyed_rows kidx f) (row_key kidx r0)) = Ok x ->
       is_na x = false ->
       exists ik cells ck, ik ++ cells ∈ rows g /\ ck ∈ cks /\ x ∈ cells /\
         keys_compare ik (take (length index) (row_key kidx r0)) = Eq /\
         keys_compare ck (drop (length index) (row_key kidx r0)) = Eq) /\
    StronglySorted keys_lt (take (length index) <$> rows g) /\
    Forall (fun r => exists ik cells, r = ik ++ cells /\ length ik = length index /\
      Forall2 (fun ck x => mean_cells (cell_at j <$> group_rows kidx (keyed_rows kidx f) (ik ++ ck)) = Ok x)
        cks cells) (rows g).
Proof.
  intros (kidx & j & agged & Hk & Hj & Hn & Hag & ->)%pivot_table_inv.
  eexists kidx, j, _. simpl. do 3 (split; [done|]). split; [apply group_keys_sorted|].
  split; [apply Forall_forall; intros ck Hck; by apply (pivot_column_keys kidx j _ agged Hag _ Hn)|].
  split.
  { intros r0 x Hr0 Hx Hna.
    destruct (pivot_covers kidx j _ agged Hag _ Hn r0 x Hr0 Hx Hna) as (ik & ck & Hik & Hck & Hikk & Hckk & Hc).
    eexists ik, _, ck. split; [apply list_elem_of_fmap; by exists ik|]. split; [done|].
    split; [apply list_elem_of_fmap; by exists ck|]. done. }
  pose proof (pivot_index_length kidx j _ agged Hag _ Hn) as Hlen.
  split.
  - rewrite <- list_fmap_compose. erewrite Forall_fmap_ext_1; [rewrite list_fmap_id; apply group_keys_sorted|].
    eapply Forall_impl; [exact Hlen|]. intros ik Hik. simpl. by rewrite take_app_length'.
  - apply (pivot_rows_means kidx j _ agged Hag _ Hn).
Qed.

(** C26: a [str] in the value column of a row with a complete key makes
    [pivot_table] fail with pandas' [TypeError] of [mean]. *)
Theorem pivot_table_str_value index column value f kidx j r s :
  col_indices (index ++ [column]) f = Ok kidx -> index_of value (columns f) = Some j ->
  r ∈ keyed_rows kidx f -> cell_at j r = VStr s ->
  pivot_table index column value f = Raise (TypeError "agg function failed [how->mean,dtype->object]").
Proof.
  intros Hk Hj Hr Hs. unfold pivot_table. rewrite (col_indices_single _ _ _ Hj), bind_Ok.
  replace (groupby_mean _ _ f) with
    (Raise (A := frame) (TypeError "agg function failed [how->mean,dtype->object]")); [done|].
  symmetry. unfold groupby_mean. rewrite Hk, bind_Ok, (col_indices_single _ _ _ Hj), bind_Ok.
  erewrite mapM_res_raise; [done| |].
  - apply Forall_forall. intros k _. destruct (mean_cells_ok_or_type
      ((fun r => default VNaN (r !! j)) <$> group_rows kidx (keyed_rows kidx f) k)) as [Hm|Hm].
    + left. simpl. unfold group_rows, keyed_rows in Hm. by destruct (mean_cells _).
    + right. simpl. unfold group_rows, keyed_rows in Hm. by rewrite Hm.
  - destruct (group_keys_covers (row_key kidx r) (row_key kidx <$> keyed_rows kidx f))
      as (k & Hk' & Hkr); [by apply list_elem_of_fmap_2|].
    apply Exists_exists. exists k. split; [exact Hk'|]. simpl.
    rewrite (mean_cells_str _ s); [done|]. apply list_elem_of_fmap. exists r. split; [done|].
    apply list_elem_of_In, filter_In. split; [by apply list_elem_of_In|]. by apply bool_decide_eq_true_2.
Qed.

(** ** Witnesses *)

Lemma demo_pivot : pivot_table ["Sensor"] "Channel" "Value" demo_long = Ok demo_wide.
Proof. vm_compute. reflexivity. Defined.

Lemma pivot_table_cells_witness :
  pivot_table ["Sensor"] "Channel" "Value" demo_long = Ok demo_wide /\
  exists kidx j cks,
    col_indices (["Sensor"] ++ ["Channel"]) demo_long = Ok kidx /\
    index_of "Value" (columns demo_long) = Some j /\
    columns demo_wide = ["Sensor"] ++ ((fun ck => column_label (cell_at 0 ck)) <$> cks) /\
    StronglySorted keys_lt cks /\
    Forall (fun ck => exists r0, r0 ∈ keyed_rows kidx demo_long /\
      ck = [cell_at (length ["Sensor"]) (row_key kidx r0)]) cks /\
    (forall r0 x, r0 ∈ keyed_rows kidx demo_long ->
       mean_cells (cell_at j <$> group_rows kidx (keyed_rows kidx demo_long) (row_key kidx r0)) = Ok x ->
       is_na x = false ->
       exists ik cells ck, ik ++ cells ∈ rows demo_wide /\ ck ∈ cks /\ x ∈ cells /\
         keys_compare ik (take (length ["Sensor"]) (row_key kidx r0)) = Eq /\
         keys_compare ck (drop (length ["Sensor"]) (row_key kidx r0)) = Eq) /\
    StronglySorted keys_lt (take (length ["Sensor"]) <$> rows demo_wide) /\
    Forall (fun r => exists ik cells, r = ik ++ cells /\ length ik = length ["Sensor"] /\
      Forall2 (fun ck x => mean_cells (cell_at j <$>
        group_rows kidx (keyed_rows kidx demo_long) (ik ++ ck)) = Ok x) cks cells) (rows demo_wide).
Proof. split; [exact demo_pivot|]. exact (pivot_table_cells _ _ _ _ _ demo_pivot). Defined.

Lemma pivot_table_str_value_witness :
  pivot_table ["Sensor"] "Channel" "Value" demo_long_str =
    Raise (TypeError "agg function failed [how->mean,dtype->object]").
Proof.
  apply (pivot_table_str_value ["Sensor"] "Channel" "Value" demo_long_str [0; 1] 2
           [VStr "S1"; VStr "G"; VStr "n/a"] "n/a");
    [vm_compute; reflexivity | vm_compute; reflexivity | | reflexivity].
  apply list_elem_of_In. vm_compute. right. left. reflexivity.
Defined.

End Pivot.
