(* ===== verification/Reads.v ===== *)
(** * Reads: the loaders of [src/Analysis/reads.py]

    The module-level directories and the six loaders of [reads.py]:
    [get_master], [get_master_cached], [get_current_time],
    [get_cf_or_cv], [get_board_image], [get_sensor_image].

    They are written against the class [OS], the interface of what the
    loaders ask of the process and of the libraries they call:
    [os.getcwd()], the module's [__file__], [pd.read_csv] (which returns a
    frame or raises) and [cv2.imread] (which returns an image or [None],
    and never raises).  The instance [fs_os] implements it over a file
    system [gmap string fs_entry] keyed by normalised absolute paths:
    a relative path is resolved against the current directory, as the
    operating system does. *)

From Stdlib Require Import ZArith QArith Ascii.
From stdpp Require Import gmap.
From S2P Require Import Prelude PyStr PyPath Frame.
Import PyStr PyPath Frame.

Module Reads.

(** ** The interface to the operating system and the I/O libraries *)

(** A decoded image: rows of BGR pixels, as [cv2.imread] returns. *)
Definition image := list (list (Z * Z * Z)).

Class OS := {
  os_getcwd : string;
  module_file : string;
  read_csv : string -> res frame;
  imread : string -> option image
}.

(** A file of the file system: a CSV that [pd.read_csv] parses into a
    frame, an image that [cv2.imread] decodes, or bytes neither can
    decode. *)
Inductive fs_entry :=
| CsvFile (f : frame)
| ImageFile (img : image)
| Unreadable.

Definition fs_read_csv (cwd : string) (fs : gmap string fs_entry) (path : string) : res frame :=
  match fs !! abspath cwd path with
  | Some (CsvFile f) => Ok f
  | Some _ => Raise (ParserError path)
  | None => Raise (FileNotFoundError path)
  end.

Definition fs_imread (cwd : string) (fs : gmap string fs_entry) (path : string) : option image :=
  match fs !! abspath cwd path with
  | Some (ImageFile img) => Some img
  | _ => None
  end.

Definition fs_os (cwd file : string) (fs : gmap string fs_entry) : OS := {|
  os_getcwd := cwd;
  module_file := file;
  read_csv := fs_read_csv cwd fs;
  imread := fs_imread cwd fs
|}.

Section Loaders.
Context `{OS} `{NumParser}.

(** ** Module-level directories (lines 15 and 18) *)

Definition reads_directory : string := dirname (abspath os_getcwd module_file).

Definition IDC_directory : string := dirname reads_directory.

(** ** [pd.to_numeric] on every column, then [dropna()] (lines 57-59
    and 89-91) *)

Definition numeric_clean (f : frame) : frame := dropna_any (apply_all to_numeric f).

(** ** [get_master] (lines 23-34): no handler around [read_csv]. *)

(** [csv_path = os.path.join(IDC_directory, "IDCSubmersionMasterlist_20250505.csv")] *)
Definition master_path : string := join IDC_directory "IDCSubmersionMasterlist_20250505.csv".

(** [numeric_cols = ["Voltage", "Pattern"]] *)
Definition numeric_cols : list string := ["Voltage"; "Pattern"].

Definition get_master : res frame :=
  master ← read_csv master_path;
  apply_columns numeric_cols to_numeric master.

(** ** [get_master_cached] (lines 37-45) *)

(** [cached_path = os.path.join(IDC_directory, "master_cached.csv")] *)
Definition cached_path : string := join IDC_directory "master_cached.csv".

Definition get_master_cached : res (option frame) := catch_fnf (read_csv cached_path).

(** ** [get_current_time] (lines 48-61): the path is relative to the
    current directory. *)

Definition get_current_time (file_name : string) : res (option frame) :=
  r ← catch_fnf (read_csv (String.append "CurrentTime/" file_name));
  Ok (option_map numeric_clean r).

(** ** [get_cf_or_cv] (lines 65-93) *)

(** [age = "PRISTINE" if iteration == 0 else "EXPOSED"] *)
Definition cf_cv_age (iteration : Z) : string :=
  if bool_decide (iteration = 0%Z) then "PRISTINE" else "EXPOSED".

(** [f"{cf_or_cv}/{cf_or_cv}_{age}/{file_name}"] *)
Definition cf_cv_path (cf_or_cv age file_name : string) : string :=
  String.append cf_or_cv (String.append "/" (String.append cf_or_cv
    (String.append "_" (String.append age (String.append "/" file_name))))).

(** [file_name.split(".")[0].split("_")] *)
Definition name_components (file_name : string) : list string :=
  str_split "_" (split_head "." file_name).

Definition get_cf_or_cv (file_name : pyval) : res (option frame) :=
  match file_name with
  | VStr name =>
      match name_components name with
      | [_; _; _; _; _; cf_or_cv; it] =>
          iteration ← py_int it;
          let age := cf_cv_age iteration in
          r ← catch_fnf (read_csv (cf_cv_path cf_or_cv age name));
          Ok (option_map numeric_clean r)
      | _ => Ok None
      end
  | _ => Ok None
  end.

(** ** [get_board_image] (lines 96-110): [os.path.join] of a non-[str]
    file name raises [TypeError]. *)

Definition get_board_image (file_name : pyval) (age : string) : res (option image) :=
  let directory :=
    if bool_decide (age = "PRISTINE") then join IDC_directory "Imgscans_PRISTINE_templates"
    else join IDC_directory (String.append "Imgscans_" age) in
  match file_name with
  | VStr name => Ok (imread (join directory name))
  | _ => Raise (TypeError "join() argument must be str")
  end.

(** ** [get_sensor_image] (lines 113-122) *)

Definition get_sensor_image (file_name : pyval) (age : string) : res (option image) :=
  match file_name with
  | VStr name =>
      let sensors_directory :=
        join IDC_directory (String.append "Imgscans_" (String.append age "_sensors")) in
      Ok (imread (join sensors_directory name))
  | _ => Ok None
  end.

End Loaders.

(** ** Sweep file names *)

(** A component of a sweep file name: no underscore and no dot. *)
Definition plain_part (p : string) : bool := negb (char_in "_" p) && negb (char_in "." p).

(** The name [a_b_c_d_e_<family>_<iteration>.<ext>] of a sweep file. *)
Definition sweep_file_name (a b c d e fam : string) (n : Z) (ext : string) : string :=
  String.append (str_join "_" [a; b; c; d; e; fam; py_str_of_int n]) (String "." ext).


(** ** Properties of the numeric cleaning *)

(** ** A concrete installation, used by the witnesses

    The repository checked out at [/srv/IDC], [reads.py] at
    [/srv/IDC/Analysis/reads.py], the scripts run from [/srv/IDC]. *)

Definition demo_file : string := "/srv/IDC/Analysis/reads.py".

(** A master table whose [Voltage] column holds a text that is not a
    number, so that [read_csv] keeps the column as strings. *)
Definition demo_master : frame :=
  mkFrame ["Board ID"; "Sensor"; "Voltage"; "Pattern"; "Solution"]
    [[VStr "B01"; VStr "U1"; VStr "12"; VNum 1; VStr "DI Water"];
     [VStr "B02"; VStr "U2"; VStr "unknown"; VNum 4; VStr "DI Water"];
     [VStr "B03"; VStr "U3"; VStr "15"; VNum 7; VStr "Succinic 0.388mM"]].

Definition demo_master_no_voltage : frame :=
  mkFrame ["Board ID"; "Pattern"] [[VStr "B01"; VNum 1]].

(** A CF sweep with a repeated header line: [read_csv] keeps text. *)
Definition demo_cf : frame :=
  mkFrame ["Frequency (Hz)"; "Capacitance (F)"]
    [[VStr "100"; VStr "12.5"];
     [VStr "Frequency (Hz)"; VStr "Capacitance (F)"];
     [VStr "1000"; VStr "11"]].

(** A CV sweep with its textual [Sensor] column. *)
Definition demo_cv : frame :=
  mkFrame ["Sensor"; "Voltage (V)"; "Capacitance (F)"]
    [[VStr "U1"; VNum 1; VNum 10]; [VStr "U2"; VNum 2; VNum 11]].

Definition demo_current : frame :=
  mkFrame ["Time (ms)"; "Current (mA)"] [[VNum 0; VNum (1#10)]; [VNum 5; VStr "--"]].

Definition demo_fs : gmap string fs_entry :=
  list_to_map [("/srv/IDC/IDCSubmersionMasterlist_20250505.csv", CsvFile demo_master);
               ("/srv/IDC/CF/CF_PRISTINE/A_B_C_D_E_CF_0.csv", CsvFile demo_cf);
               ("/srv/IDC/CV/CV_EXPOSED/A_B_C_D_E_CV_3.csv", CsvFile demo_cv);
               ("/srv/IDC/CurrentTime/S1.csv", CsvFile demo_current)].

Definition demo_os : OS := fs_os "/srv/IDC" demo_file demo_fs.

Definition demo_os_no_voltage : OS :=
  fs_os "/srv/IDC" demo_file
    (list_to_map [("/srv/IDC/IDCSubmersionMasterlist_20250505.csv", CsvFile demo_master_no_voltage)]).

Definition demo_os_empty : OS := fs_os "/srv/IDC" demo_file ∅.

Section CleanProps.
Context `{NumParser}.

Lemma numeric_clean_numeric (f : frame) : all_numeric (numeric_clean f).
Proof.
  apply Forall_filter_impl, Forall_fmap, Forall_forall.
  intros r _ Hr. by apply complete_numeric_row.
Qed.

(** C5: every cell of a table returned by [numeric_clean] is a number. *)
Theorem numeric_clean_all_numbers (f : frame) : all_numeric (numeric_clean f).
Proof. apply numeric_clean_numeric. Qed.

Lemma numeric_clean_id_of_numeric (f : frame) : all_numeric f -> numeric_clean f = f.
Proof.
  intros Hf. destruct f as [cols rs]. unfold all_numeric, numeric_clean, dropna_any, apply_all in *.
  simpl in *. f_equal. rewrite filter_all_true.
  - clear cols. induction Hf as [|r rs Hr _ IH]; [done|]. rewrite fmap_cons, IH. f_equal.
    induction Hr as [|v r Hv _ IHr]; [done|]. by rewrite fmap_cons, to_numeric_num, IHr.
  - apply Forall_fmap. eapply Forall_impl; [|exact Hf]. intros r Hr. simpl.
    apply row_complete_forall, Forall_fmap. eapply Forall_impl; [|exact Hr].
    intros v Hv. simpl. rewrite to_numeric_num by done. by destruct v.
Qed.

(** C6: a table whose cells are all numbers is returned unchanged: the
    cleaning loses no data when none needs to be lost. *)
Theorem numeric_clean_numeric_id (f : frame) : all_numeric f -> numeric_clean f = f.
Proof. apply numeric_clean_id_of_numeric. Qed.

Lemma numeric_clean_idem (f : frame) : numeric_clean (numeric_clean f) = numeric_clean f.
Proof. apply numeric_clean_id_of_numeric, numeric_clean_numeric. Qed.

Lemma numeric_clean_wf (f : frame) : frame_wf f -> frame_wf (numeric_clean f).
Proof.
  intros [Hnd Hlen]. split; [done|]. simpl.
  apply Forall_filter_P, Forall_fmap. eapply Forall_impl; [|exact Hlen].
  intros r Hr. simpl. by rewrite length_fmap.
Qed.

(** C7: a column of text that is not a number (such as the [Sensor]
    column of the sweep files, "U1" to "U4") makes every row NA after
    coercion, so the cleaning drops every row. *)
Theorem numeric_clean_text_column (f : frame) (j : nat) :
  Forall (fun r => exists s, r !! j = Some (VStr s) /\ parse_number s = None) (rows f) ->
  rows (numeric_clean f) = [].
Proof.
  intros Hf. destruct f as [cols rs]. simpl in *.
  induction Hf as [|r rs (s & Hj & Hs) _ IH]; [done|].
  rewrite fmap_cons. cbn [List.filter]. rewrite IH.
  match goal with |- (if ?b then _ else _) = _ => destruct b eqn:E; [|done] end.
  exfalso. apply row_complete_forall in E. rewrite Forall_lookup in E.
  specialize (E j VNaN). rewrite list_lookup_fmap, Hj in E. simpl in E.
  rewrite Hs in E. by specialize (E eq_refl).
Qed.

End CleanProps.

(** ** Properties of [get_cf_or_cv] *)

Section CfCvProps.
Context `{OS} `{NumParser}.

Lemma plain_part_spec p : plain_part p = true -> char_in "_" p = false /\ char_in "." p = false.
Proof. unfold plain_part. intros [?%negb_true_iff ?%negb_true_iff]%andb_prop. done. Qed.

Lemma name_components_sweep a b c d e fam n ext :
  Forall (fun p => plain_part p = true) [a; b; c; d; e; fam] ->
  name_components (sweep_file_name a b c d e fam n ext) = [a; b; c; d; e; fam; py_str_of_int n].
Proof.
  intros Hp. assert (Forall (fun p => char_in "_" p = false /\ char_in "." p = false)
                       [a; b; c; d; e; fam; py_str_of_int n]) as Hall.
  { change [a; b; c; d; e; fam; py_str_of_int n] with ([a; b; c; d; e; fam] ++ [py_str_of_int n]).
    apply Forall_app. split.
    - eapply Forall_impl; [|exact Hp]. intros p. apply plain_part_spec.
    - constructor; [|constructor]. split; apply py_str_of_int_char_in; done. }
  unfold name_components, sweep_file_name. rewrite split_head_app.
  - apply split_of_join; [done|]. eapply Forall_impl; [|exact Hall]. by intros p [].
  - apply char_in_join; [done|]. eapply Forall_impl; [|exact Hall]. by intros p [].
Qed.

(** C1: for a sweep file named [a_b_c_d_e_<family>_<n>.<ext>], the
    loader reads [<family>/<family>_PRISTINE/<name>] when [n = 0] and
    [<family>/<family>_EXPOSED/<name>] otherwise; it returns the cleaned
    table, [None] when that file does not exist, and lets any other
    error of [read_csv] through. *)
Theorem get_cf_or_cv_sweep_file a b c d e fam n ext :
  Forall (fun p => plain_part p = true) [a; b; c; d; e; fam] ->
  get_cf_or_cv (VStr (sweep_file_name a b c d e fam n ext)) =
    match read_csv (cf_cv_path fam (if bool_decide (n = 0%Z) then "PRISTINE" else "EXPOSED")
                      (sweep_file_name a b c d e fam n ext)) with
    | Ok raw => Ok (Some (numeric_clean raw))
    | Raise (FileNotFoundError _) => Ok None
    | Raise err => Raise err
    end.
Proof.
  intros Hp. unfold get_cf_or_cv. rewrite name_components_sweep by done.
  rewrite py_int_printed. unfold cf_cv_age. simpl.
  by destruct (read_csv _) as [raw|[]].
Qed.

(** C2: a file name that is not a [str], or whose part before the first
    dot does not split into exactly seven underscore-separated
    components, gives [None] without any file being read. *)
Theorem get_cf_or_cv_unavailable v :
  (forall name, v = VStr name -> length (name_components name) <> 7%nat) ->
  get_cf_or_cv v = Ok None.
Proof.
  intros Hv. destruct v as [name| |]; [|done..]. specialize (Hv name eq_refl).
  unfold get_cf_or_cv.
  destruct (name_components name) as [|? [|? [|? [|? [|? [|? [|? [|]]]]]]]]; simpl in *; done.
Qed.

(** C3: when the seventh component has no decimal digit (as in
    ["A_B_C_D_E_CF_x.csv"]), [int()] raises [ValueError] and the loader
    lets it escape instead of returning [None]. *)
Theorem get_cf_or_cv_iteration_error name a b c d e fam it :
  name_components name = [a; b; c; d; e; fam; it] -> has_digit it = false ->
  get_cf_or_cv (VStr name) = Raise (ValueError it).
Proof.
  intros Hn Hit. unfold get_cf_or_cv. rewrite Hn, py_int_no_digit by done. done.
Qed.

Lemma get_cf_or_cv_Some v f :
  get_cf_or_cv v = Ok (Some f) -> exists raw, f = numeric_clean raw.
Proof.
  unfold get_cf_or_cv. destruct v as [name| |]; try discriminate.
  destruct (name_components name) as [|? [|? [|? [|? [|? [|? [|? [|]]]]]]]]; try discriminate.
  intros Hr. inv_bind Hr. inv_bind Hr. destruct a0 as [raw|]; simplify_eq/=. eauto.
Qed.

(** C4: every table [get_cf_or_cv] returns holds numbers only. *)
Theorem get_cf_or_cv_numeric v f : get_cf_or_cv v = Ok (Some f) -> all_numeric f.
Proof. intros (raw & ->)%get_cf_or_cv_Some. apply numeric_clean_numeric. Qed.

End CfCvProps.

(** ** Properties of [get_master], [get_master_cached], [get_current_time]
    and the image loaders *)

Section LoaderProps.
Context `{OS} `{NumParser}.

(** C8: [get_master] keeps every row and every column of the CSV; the
    cells of [Voltage] and [Pattern] are coerced with [to_numeric] (a
    text that is not a number becomes NA, the row stays), all other
    cells are unchanged. *)
Theorem get_master_coerces raw m :
  read_csv master_path = Ok raw -> get_master = Ok m ->
  columns m = columns raw /\ length (rows m) = length (rows raw) /\
  forall i j c, columns raw !! j = Some c ->
    cell m i j = (if bool_decide (c ∈ numeric_cols) then to_numeric else id) <$> cell raw i j.
Proof.
  unfold get_master, master_path. intros Hraw Hm. rewrite Hraw in Hm. simpl in Hm.
  destruct (apply_columns_shape _ _ _ _ Hm) as [-> ->]. split_and!; [done..|].
  intros i j c Hc. by apply (apply_columns_cell _ _ _ _ _ _ _ Hm Hc).
Qed.

(** C9: a master CSV without a [Voltage] column makes [get_master]
    raise [KeyError]. *)
Theorem get_master_missing_column raw :
  read_csv master_path = Ok raw -> "Voltage" ∉ columns raw ->
  get_master = Raise (KeyError "Voltage").
Proof.
  unfold get_master, master_path. intros Hraw Hv. rewrite Hraw. simpl.
  unfold apply_columns, missing_column. simpl. by rewrite bool_decide_eq_false_2.
Qed.

(** C10: when the files are missing, [get_master] raises
    [FileNotFoundError] while [get_master_cached] returns [None]: the two
    master loaders treat absence differently. *)
Theorem master_absence_asymmetry p q :
  read_csv master_path = Raise (FileNotFoundError p) ->
  read_csv cached_path = Raise (FileNotFoundError q) ->
  get_master = Raise (FileNotFoundError p) /\ get_master_cached = Ok None.
Proof.
  unfold get_master, get_master_cached, master_path, cached_path.
  intros Hm Hc. rewrite Hm, Hc. done.
Qed.

(** C11: [get_current_time] reads [CurrentTime/<file_name>]: a
    missing file gives [None], a table read gives [Some] of its cleaned
    version, which holds numbers only, and any other error of
    [read_csv] is raised. *)
Theorem get_current_time_spec fn :
  (forall p, read_csv (String.append "CurrentTime/" fn) = Raise (FileNotFoundError p) ->
     get_current_time fn = Ok None) /\
  (forall raw, read_csv (String.append "CurrentTime/" fn) = Ok raw ->
     get_current_time fn = Ok (Some (numeric_clean raw)) /\ all_numeric (numeric_clean raw)) /\
  (forall e, read_csv (String.append "CurrentTime/" fn) = Raise e -> (forall p, e <> FileNotFoundError p) ->
     get_current_time fn = Raise e).
Proof.
  unfold get_current_time. split_and!.
  - intros p ->. reflexivity.
  - intros raw ->. split; [reflexivity|apply numeric_clean_numeric].
  - intros [] -> He; try reflexivity. by edestruct He.
Qed.
(** C12: for a file name that is not a [str] (a NaN cell of the
    master table), [get_sensor_image] returns [None] but
    [get_board_image] raises [TypeError] from [os.path.join]. *)
Theorem image_loaders_non_str v age :
  (forall s, v <> VStr s) ->
  get_sensor_image v age = Ok None /\ exists msg, get_board_image v age = Raise (TypeError msg).
Proof.
  intros Hv. destruct v as [s| |]; [by destruct (Hv s)| |];
    unfold get_sensor_image, get_board_image; eauto.
Qed.

End LoaderProps.

(** ** Properties of the File Locator *)

Section LocatorProps.
Context `{OS}.

Lemma IDC_directory_abs_of cs d f :
  Forall (fun c => clean_component c = true) (cs ++ [d; f]) ->
  module_file = abs_of (cs ++ [d; f]) ->
  IDC_directory = abs_of cs.
Proof.
  intros Hall Hfile. unfold IDC_directory, reads_directory. rewrite Hfile.
  rewrite abspath_isabs, normpath_abs_of by (done || by destruct cs).
  replace (cs ++ [d; f]) with ((cs ++ [d]) ++ [f]) in * by by rewrite <- app_assoc.
  rewrite !dirname_abs_of; [done| |done]. by apply Forall_app in Hall as [].
Qed.

(** When [reads.py] sits at [/c1/.../cn/<d>/<f>] (clean
    components), [IDC_directory] is [/c1/.../cn], whatever the current
    directory is: two levels above the module file. *)
Theorem IDC_directory_of_install cs d f :
  Forall (fun c => clean_component c = true) (cs ++ [d; f]) ->
  module_file = abs_of (cs ++ [d; f]) ->
  IDC_directory = abs_of cs.
Proof. apply IDC_directory_abs_of. Qed.

(** The directories of the image loaders are clean path components. *)
Lemma clean_imgscans s :
  char_in SEP s = false -> clean_component (String.append "Imgscans_" s) = true.
Proof.
  intros Hs. unfold clean_component. rewrite char_in_append, Hs.
  rewrite !bool_decide_eq_false_2 by (destruct s; discriminate). reflexivity.
Qed.

(** With [reads.py] at [/c1/.../cn/<d>/<f>], [get_board_image]
    decodes [/c1/.../cn/Imgscans_PRISTINE_templates/<name>] for a
    pristine board and [/c1/.../cn/Imgscans_<age>/<name>] otherwise, and
    [get_sensor_image] decodes [/c1/.../cn/Imgscans_<age>_sensors/<name>];
    a file that cannot be decoded gives [None], not an exception. *)
Theorem image_loader_paths cs d f name age :
  Forall (fun c => clean_component c = true) (cs ++ [d; f]) ->
  module_file = abs_of (cs ++ [d; f]) ->
  clean_component name = true -> char_in SEP age = false ->
  get_board_image (VStr name) age =
    Ok (imread (abs_of (cs ++ [if bool_decide (age = "PRISTINE") then "Imgscans_PRISTINE_templates"
                              else String.append "Imgscans_" age; name]))) /\
  get_sensor_image (VStr name) age =
    Ok (imread (abs_of (cs ++ [String.append "Imgscans_" (String.append age "_sensors"); name]))).
Proof.
  intros Hall Hfile Hname Hage. pose proof Hall as [Hcs _]%Forall_app.
  unfold get_board_image, get_sensor_image. rewrite (IDC_directory_abs_of _ _ _ Hall Hfile).
  assert (Hjoin : forall c, clean_component c = true ->
            join (join (abs_of cs) c) name = abs_of (cs ++ [c; name])).
  { intros c Hc. rewrite !join_abs_of_clean, <- app_assoc; [done| |done| |done].
    - apply Forall_app. by split; [|repeat constructor].
    - done. }
  split; f_equal; f_equal.
  - case_bool_decide; apply Hjoin; [done|]. by apply clean_imgscans.
  - apply Hjoin, clean_imgscans. rewrite char_in_append, Hage. done.
Qed.

End LocatorProps.

Lemma fs_read_csv_isabs c1 c2 fs p : isabs p = true -> fs_read_csv c1 fs p = fs_read_csv c2 fs p.
Proof. intros Hp. unfold fs_read_csv. by rewrite !abspath_isabs. Qed.

Lemma IDC_directory_fs_os c file fs :
  isabs file = true -> @IDC_directory (fs_os c file fs) = dirname (dirname (normpath file)).
Proof. intros Hf. unfold IDC_directory, reads_directory. simpl. by rewrite abspath_isabs. Qed.

Lemma isabs_IDC_join file name :
  isabs file = true -> isabs (join (dirname (dirname (normpath file))) name) = true.
Proof. intros Hf. by apply isabs_join, isabs_dirname, isabs_dirname, isabs_normpath. Qed.

Section CwdProps.
Context `{NumParser}.

(** C13: with an absolute [__file__], [get_master] and
    [get_master_cached] read the same files from every current
    directory. *)
Theorem master_loaders_cwd_independent c1 c2 file fs :
  isabs file = true ->
  @get_master (fs_os c1 file fs) _ = @get_master (fs_os c2 file fs) _ /\
  @get_master_cached (fs_os c1 file fs) = @get_master_cached (fs_os c2 file fs).
Proof.
  intros Hf. unfold get_master, get_master_cached, master_path, cached_path.
  rewrite !IDC_directory_fs_os by done. cbn [read_csv fs_os].
  rewrite !(fs_read_csv_isabs c1 c2) by (by apply isabs_IDC_join). done.
Qed.

End CwdProps.

(** [cf_cv_path] is the relative path of three components. *)
Lemma cf_cv_path_join fam age name :
  cf_cv_path fam age name = str_join SEP [fam; String.append fam (String.append "_" age); name].
Proof. unfold cf_cv_path. simpl. by rewrite !append_assoc. Qed.

Lemma fs_read_csv_rel cs fs ys :
  ys <> [] -> Forall (fun c => clean_component c = true) (cs ++ ys) ->
  fs_read_csv (abs_of cs) fs (str_join SEP ys) =
    match fs !! abs_of (cs ++ ys) with
    | Some (CsvFile f) => Ok f
    | Some _ => Raise (ParserError (str_join SEP ys))
    | None => Raise (FileNotFoundError (str_join SEP ys))
    end.
Proof. intros Hys Hall. unfold fs_read_csv. by rewrite abspath_rel. Qed.

(** C14: [get_current_time] and [get_cf_or_cv] resolve their paths
    against the current directory.  In any checkout [/cs] whose
    [CurrentTime/<fn>] and sweep file [<fam>/<fam>_<age>/<name>] exist
    at the root and not under [Analysis/], both loaders return the
    cleaned tables when the scripts run from the root (the [cwd] of
    [app.py]'s buttons) and [None] when they run from [Analysis/] (the
    [cwd] of the hub's relaunch). *)
Theorem relative_loaders_cwd_dependent cs file fs fn f a b c d e fam n ext g :
  Forall (fun p => plain_part p = true) [a; b; c; d; e; fam] ->
  Forall (fun p => clean_component p = true)
    (cs ++ ["Analysis"; "CurrentTime"; fn; fam;
            String.append fam (String.append "_" (if bool_decide (n = 0%Z) then "PRISTINE" else "EXPOSED"));
            sweep_file_name a b c d e fam n ext]) ->
  fs !! abs_of (cs ++ ["CurrentTime"; fn]) = Some (CsvFile f) ->
  fs !! abs_of (cs ++ ["Analysis"; "CurrentTime"; fn]) = None ->
  fs !! abs_of (cs ++ [fam; String.append fam (String.append "_" (if bool_decide (n = 0%Z) then "PRISTINE" else "EXPOSED"));
                       sweep_file_name a b c d e fam n ext]) = Some (CsvFile g) ->
  fs !! abs_of (cs ++ ["Analysis"; fam;
                       String.append fam (String.append "_" (if bool_decide (n = 0%Z) then "PRISTINE" else "EXPOSED"));
                       sweep_file_name a b c d e fam n ext]) = None ->
  @get_current_time (fs_os (abs_of cs) file fs) _ fn = Ok (Some (numeric_clean f)) /\
  @get_current_time (fs_os (abs_of (cs ++ ["Analysis"])) file fs) _ fn = Ok None /\
  @get_cf_or_cv (fs_os (abs_of cs) file fs) _ (VStr (sweep_file_name a b c d e fam n ext)) =
    Ok (Some (numeric_clean g)) /\
  @get_cf_or_cv (fs_os (abs_of (cs ++ ["Analysis"])) file fs) _ (VStr (sweep_file_name a b c d e fam n ext)) = Ok None.
Proof.
  intros Hp Hall Hct Hct' Hcf Hcf'.
  assert (Hsub : forall ys, ys ⊆ ["Analysis"; "CurrentTime"; fn; fam;
            String.append fam (String.append "_" (if bool_decide (n = 0%Z) then "PRISTINE" else "EXPOSED"));
            sweep_file_name a b c d e fam n ext] ->
            Forall (fun p => clean_component p = true) (cs ++ ys) /\
            Forall (fun p => clean_component p = true) ((cs ++ ["Analysis"]) ++ ys)).
  { intros ys Hys. apply Forall_app in Hall as [Hcs Hrest].
    assert (Hys' : Forall (fun p => clean_component p = true) ys).
    { apply List.Forall_forall. intros y Hy. apply (proj1 (List.Forall_forall _ _) Hrest).
      by apply list_elem_of_In, Hys, list_elem_of_In. }
    split; apply Forall_app; (split; [|done]); [done|].
    apply Forall_app. split; [done|]. constructor; [exact (Forall_inv Hrest)|constructor]. }
  unfold get_current_time, get_cf_or_cv. rewrite name_components_sweep, py_int_printed by done.
  cbv beta iota. rewrite !bind_Ok. unfold cf_cv_age. cbn [read_csv fs_os].
  change (String.append "CurrentTime/" fn) with (str_join SEP ["CurrentTime"; fn]).
  rewrite cf_cv_path_join.
  rewrite !fs_read_csv_rel by first [done | apply Hsub; intros x Hx%list_elem_of_In;
    apply list_elem_of_In; simpl in *; tauto].
  rewrite <- !app_assoc. cbn [app]. by rewrite Hct, Hct', Hcf, Hcf'.
Qed.

(** ** Witnesses: the theorems applied to the concrete installation *)

Lemma get_cf_or_cv_sweep_file_witness :
  sweep_file_name "A" "B" "C" "D" "E" "CF" 0 "csv" = "A_B_C_D_E_CF_0.csv" /\
  @get_cf_or_cv demo_os _ (VStr "A_B_C_D_E_CF_0.csv") = Ok (Some (numeric_clean demo_cf)).
Proof.
  split; [reflexivity|].
  change "A_B_C_D_E_CF_0.csv" with (sweep_file_name "A" "B" "C" "D" "E" "CF" 0 "csv").
  rewrite (@get_cf_or_cv_sweep_file demo_os _); [reflexivity|].
  repeat constructor.
Defined.

Lemma get_cf_or_cv_unavailable_witness :
  @get_cf_or_cv demo_os _ (VStr "bad_name.csv") = Ok None.
Proof. apply get_cf_or_cv_unavailable. intros name [= <-]. vm_compute. lia. Defined.

Lemma get_cf_or_cv_iteration_error_witness :
  @get_cf_or_cv demo_os _ (VStr "A_B_C_D_E_CF_x.csv") = Raise (ValueError "x").
Proof. apply (get_cf_or_cv_iteration_error _ "A" "B" "C" "D" "E" "CF"); reflexivity. Defined.

Lemma get_cf_or_cv_numeric_witness :
  all_numeric (mkFrame ["Frequency (Hz)"; "Capacitance (F)"] [[VNum 100; VNum (125#10)]; [VNum 1000; VNum 11]]).
Proof.
  apply (@get_cf_or_cv_numeric demo_os _ (VStr "A_B_C_D_E_CF_0.csv")). vm_compute. reflexivity.
Defined.

Lemma numeric_clean_numeric_id_witness :
  numeric_clean demo_current = numeric_clean demo_current /\
  numeric_clean (mkFrame ["Time (ms)"; "Current (mA)"] [[VNum 0; VNum (1#10)]; [VNum 5; VNum 2]])
    = mkFrame ["Time (ms)"; "Current (mA)"] [[VNum 0; VNum (1#10)]; [VNum 5; VNum 2]].
Proof. split; [reflexivity|]. apply numeric_clean_numeric_id. repeat constructor. Defined.

Lemma numeric_clean_text_column_witness : rows (numeric_clean demo_cv) = [].
Proof.
  apply (numeric_clean_text_column _ 0). repeat constructor; eexists; split; reflexivity.
Defined.

Lemma get_master_coerces_witness :
  exists m, @get_master demo_os _ = Ok m /\ columns m = columns demo_master /\
    length (rows m) = 3%nat /\ cell m 1 2 = Some VNaN /\ cell m 0 2 = Some (VNum 12) /\
    cell m 1 0 = Some (VStr "B02").
Proof.
  eexists. split; [vm_compute; reflexivity|].
  destruct (@get_master_coerces demo_os _ demo_master _ ltac:(vm_compute; reflexivity)
              ltac:(vm_compute; reflexivity)) as (Hc & Hl & Hcell).
  split_and!; [exact Hc|exact Hl|..].
  - rewrite (Hcell 1%nat 2%nat "Voltage") by reflexivity. reflexivity.
  - rewrite (Hcell 0%nat 2%nat "Voltage") by reflexivity. reflexivity.
  - rewrite (Hcell 1%nat 0%nat "Board ID") by reflexivity. reflexivity.
Defined.

Lemma get_master_missing_column_witness :
  @get_master demo_os_no_voltage _ = Raise (KeyError "Voltage").
Proof.
  apply (@get_master_missing_column demo_os_no_voltage _ demo_master_no_voltage).
  - vm_compute. reflexivity.
  - vm_compute. intros Hin. apply list_elem_of_In in Hin. simpl in Hin. intuition discriminate.
Defined.

Lemma master_absence_asymmetry_witness :
  @get_master demo_os_empty _ = Raise (FileNotFoundError "/srv/IDC/IDCSubmersionMasterlist_20250505.csv") /\
  @get_master_cached demo_os_empty = Ok None.
Proof. apply (master_absence_asymmetry _ "/srv/IDC/master_cached.csv"); reflexivity. Defined.

Lemma get_current_time_spec_witness :
  @get_current_time demo_os _ "S1.csv" = Ok (Some (numeric_clean demo_current)) /\
  all_numeric (numeric_clean demo_current).
Proof. apply (proj1 (proj2 (@get_current_time_spec demo_os _ "S1.csv"))). vm_compute. reflexivity. Defined.

Lemma relative_loaders_cwd_dependent_witness :
  @get_current_time (fs_os "/srv/IDC/Analysis" demo_file demo_fs) _ "S1.csv" = Ok None /\
  @get_cf_or_cv (fs_os "/srv/IDC/Analysis" demo_file demo_fs) _ (VStr "A_B_C_D_E_CF_0.csv") = Ok None.
Proof.
  destruct (relative_loaders_cwd_dependent ["srv"; "IDC"] demo_file demo_fs "S1.csv" demo_current
    "A" "B" "C" "D" "E" "CF" 0 "csv" demo_cf ltac:(repeat constructor) ltac:(vm_compute; repeat constructor)
    ltac:(vm_compute; reflexivity) ltac:(vm_compute; reflexivity) ltac:(vm_compute; reflexivity)
    ltac:(vm_compute; reflexivity)) as (_ & H1 & _ & H2).
  split; [exact H1 | exact H2].
Defined.

Lemma IDC_directory_of_install_witness :
  @IDC_directory demo_os = "/srv/IDC".
Proof.
  apply (@IDC_directory_of_install demo_os ["srv"; "IDC"] "Analysis" "reads.py");
    [repeat constructor | reflexivity].
Defined.

Lemma master_loaders_cwd_independent_witness :
  @get_master (fs_os "/" demo_file demo_fs) _ = @get_master demo_os _ /\
  @get_master_cached (fs_os "/" demo_file demo_fs) = @get_master_cached demo_os.
Proof. apply master_loaders_cwd_independent. reflexivity. Defined.

Lemma image_loaders_non_str_witness :
  @get_sensor_image demo_os VNaN "EXPOSED" = Ok None /\
  exists msg, @get_board_image demo_os VNaN "EXPOSED" = Raise (TypeError msg).
Proof. apply image_loaders_non_str. intros s; discriminate. Defined.

Lemma image_loader_paths_witness :
  @get_board_image demo_os (VStr "b1.png") "PRISTINE" =
    Ok (@imread demo_os "/srv/IDC/Imgscans_PRISTINE_templates/b1.png") /\
  @get_sensor_image demo_os (VStr "b1.png") "EXPOSED" =
    Ok (@imread demo_os "/srv/IDC/Imgscans_EXPOSED_sensors/b1.png").
Proof.
  destruct (@image_loader_paths demo_os ["srv"; "IDC"] "Analysis" "reads.py" "b1.png" "PRISTINE")
    as [Hb _]; [repeat constructor | reflexivity | reflexivity | reflexivity |].
  destruct (@image_loader_paths demo_os ["srv"; "IDC"] "Analysis" "reads.py" "b1.png" "EXPOSED")
    as [_ Hs]; [repeat constructor | reflexivity | reflexivity | reflexivity |].
  split; [exact Hb | exact Hs].
Defined.

End Reads.
