(* ===== verification/App.v ===== *)
(** * App: the launcher of [src/app.py]

    [app.py] is run twice.  Started as [python app.py], it finds no
    sentinel ["--as-streamlit"] in [sys.argv], runs
    [python -m streamlit run <script_path> -- --as-streamlit] with
    [cwd=repo_dir] and exits.  Streamlit then executes the script again
    on every interaction, with the sentinel in [sys.argv]; each
    execution renders the page and, for the button pressed (if any),
    spawns the plotting script ([subprocess.Popen]) or runs the cache
    update ([subprocess.run], which blocks).

    The model: [run_app] is one execution of the script, returning the
    commands it spawns; [reach] is the set of command lists the system
    can reach, a step relation whose first step is the user's launch and
    whose other steps are Streamlit executions of a launched script.
    The theorems are invariants proved by induction on [reach]. *)

From Stdlib Require Import Ascii.
From S2P Require Import Prelude PyStr PyPath.
Import PyPath.

Module App.

(** ** Commands *)

Record command := mkCmd { argv : list string; cwd : string; blocking : bool }.

#[global] Instance command_eq_dec : EqDecision command.
Proof. solve_decision. Defined.

(** The buttons of the page, in the order of [app.py]. *)
Inductive button :=
| RGB3D | RGBBoxPlots | GrayscaleBoxPlots | ScatterplotMatrix | CorrelationHeatmap
| CurrentVsTime | FailureTimeVsSolution | FailureTimeVsPh | UpdateCachedData.

#[global] Instance button_eq_dec : EqDecision button.
Proof. solve_decision. Defined.

Definition all_buttons : list button :=
  [RGB3D; RGBBoxPlots; GrayscaleBoxPlots; ScatterplotMatrix; CorrelationHeatmap;
   CurrentVsTime; FailureTimeVsSolution; FailureTimeVsPh; UpdateCachedData].

(** The script each button starts (lines 29-70). *)
Definition button_script (b : button) : string :=
  match b with
  | RGB3D => "Analysis/rgb_3d.py"
  | RGBBoxPlots => "Analysis/rgb_boxplots.py"
  | GrayscaleBoxPlots => "Analysis/grayscale_boxplots.py"
  | ScatterplotMatrix => "Analysis/scatterplot_matrix.py"
  | CorrelationHeatmap => "Analysis/corr_heatmap.py"
  | CurrentVsTime => "Analysis/current_time.py"
  | FailureTimeVsSolution => "Analysis/fail_time.py"
  | FailureTimeVsPh => "Analysis/Ph_Plots.py"
  | UpdateCachedData => "Analysis/update_cache.py"
  end.

(** [subprocess.run] waits for the child; [subprocess.Popen] does not. *)
Definition button_blocking (b : button) : bool :=
  match b with UpdateCachedData => true | _ => false end.

Definition SENTINEL : string := "--as-streamlit".

(** ** One execution of [app.py]

    [exe] is [sys.executable], [file] the script's [__file__] and
    [here] the current directory of the process. *)

Definition script_path (here file : string) : string := abspath here file.

Definition repo_dir (here file : string) : string := dirname (script_path here file).

(** [subprocess.run([sys.executable, "-m", "streamlit", "run", script_path,
    "--", "--as-streamlit"], cwd=repo_dir)] (lines 15-18). *)
Definition streamlit_relaunch (exe here file : string) : command :=
  mkCmd [exe; "-m"; "streamlit"; "run"; script_path here file; "--"; SENTINEL]
        (repo_dir here file) true.

Definition run_app (exe here file : string) (sys_argv : list string) (clicked : option button)
    : list command :=
  if bool_decide (SENTINEL ∈ sys_argv) then
    match clicked with
    | Some b => [mkCmd [exe; button_script b] (repo_dir here file) (button_blocking b)]
    | None => []
    end
  else [streamlit_relaunch exe here file].

(** ** The reachable command lists *)

(** A command that makes Streamlit execute [script] with [args]. *)
Definition streamlit_run (c : command) : option (string * list string) :=
  match argv c with
  | [_; "-m"; "streamlit"; "run"; script; "--"; arg] => Some (script, [arg])
  | _ => None
  end.

Definition is_launch (c : command) : bool :=
  match streamlit_run c with Some _ => true | None => false end.

(** The Python files of the repository, as paths from its root. *)
Definition repo_python_files : list string :=
  ["app.py"; "Analysis/reads.py"; "Analysis/streamlit_app.py"; "Analysis/rgb_3d.py";
   "Analysis/rgb_boxplots.py"; "Analysis/grayscale_boxplots.py"; "Analysis/corr_heatmap.py";
   "Individual Plots/scatterplot_matrix.py"; "Individual Plots/Ph_Plots.py"].

Section Reach.
Variables (exe launch_dir app_file : string).

(** The user runs [python app.py] from [launch_dir]; Streamlit then runs
    the launched script, from the [cwd] of its command, with
    [sys.argv = [script] + args], once per interaction. *)
Inductive reach : list command -> Prop :=
| reach_launch :
    reach (run_app exe launch_dir app_file [app_file] None)
| reach_rerun cs c script args clicked :
    reach cs -> c ∈ cs -> streamlit_run c = Some (script, args) ->
    reach (cs ++ run_app exe (cwd c) script (script :: args) clicked).

(** The commands the launcher may have spawned: the Streamlit launch of
    [app_file], or a button's script; all of them in [dir]. *)
Definition cmd_ok (dir : string) (c : command) : Prop :=
  cwd c = dir /\
  (argv c = [exe; "-m"; "streamlit"; "run"; app_file; "--"; SENTINEL] \/
   exists b, argv c = [exe; button_script b] /\ blocking c = button_blocking b).

End Reach.

(** The Streamlit launch of a session started for [/srv/IDC/app.py],
    used by the witnesses. *)
Definition demo_launch : command :=
  mkCmd ["/usr/bin/python3"; "-m"; "streamlit"; "run"; "/srv/IDC/app.py"; "--"; SENTINEL]
    "/srv/IDC" true.

(** ** Invariants of the launcher

    [app.py] lives at [/d1/.../dn/<f>] (clean components), the
    repository directory being [/d1/.../dn]. *)

Section Invariants.
Variables (exe launch_dir : string) (dirs : list string) (f : string).
Hypothesis Hclean : Forall (fun c => clean_component c = true) (dirs ++ [f]).

Let app_file := abs_of (dirs ++ [f]).
Let R := abs_of dirs.

Lemma repo_dir_app here : repo_dir here app_file = R.
Proof.
  unfold repo_dir, script_path, app_file, R.
  rewrite abspath_isabs, normpath_abs_of by (done || by destruct dirs).
  by apply dirname_abs_of.
Qed.

Lemma script_path_app here : script_path here app_file = app_file.
Proof.
  unfold script_path, app_file. rewrite abspath_isabs by done.
  apply normpath_abs_of; [by destruct dirs|done].
Qed.

Lemma button_not_launch c b : argv c = [exe; button_script b] -> is_launch c = false.
Proof. unfold is_launch, streamlit_run. intros ->. by destruct b. Qed.

Lemma launch_count_app cs cs' :
  Forall (fun c => is_launch c = false) cs' ->
  length (List.filter is_launch (cs ++ cs')) = length (List.filter is_launch cs).
Proof.
  intros Hcs'. rewrite filter_app, length_app.
  rewrite (filter_all_false is_launch cs'); [simpl; lia|].
  exact Hcs'.
Qed.

Lemma rerun_cmds_ok clicked :
  Forall (fun c => cmd_ok exe app_file R c /\ is_launch c = false)
    (run_app exe R app_file [app_file; SENTINEL] clicked).
Proof.
  unfold run_app. rewrite bool_decide_eq_true_2 by (right; left).
  destruct clicked as [b|]; [|constructor]. constructor; [|constructor].
  split; [split|].
  - simpl. apply repo_dir_app.
  - right. by exists b.
  - by apply (button_not_launch _ b).
Qed.

(** The invariant: every command is well formed and there is exactly
    one Streamlit launch. *)
Lemma reach_inv cs :
  reach exe launch_dir app_file cs ->
  Forall (cmd_ok exe app_file R) cs /\ length (List.filter is_launch cs) = 1%nat.
Proof.
  induction 1 as [|cs c script args clicked Hreach [Hok Hcount] Hin Hrun].
  - unfold run_app. rewrite bool_decide_eq_false_2.
    + split; [|reflexivity]. constructor; [|constructor].
      split; simpl; [apply repo_dir_app|left; by rewrite script_path_app].
    + unfold app_file, abs_of. intros Hs%list_elem_of_In. simpl in Hs.
      destruct Hs as [Hs|[]]. discriminate.
  - pose proof (proj1 (Forall_forall _ _) Hok c (proj1 (list_elem_of_In _ _) Hin)) as [Hcwd Hargv].
    destruct Hargv as [Hargv|(b & Hargv & _)].
    + unfold streamlit_run in Hrun. rewrite Hargv in Hrun. injection Hrun as <- <-.
      rewrite Hcwd. pose proof (rerun_cmds_ok clicked) as Hnew.
      split.
      * apply Forall_app. split; [done|]. eapply Forall_impl; [|exact Hnew]. by intros ? [].
      * rewrite launch_count_app; [done|]. eapply Forall_impl; [|exact Hnew]. by intros ? [].
    + unfold streamlit_run in Hrun. rewrite Hargv in Hrun. by destruct b.
Qed.

End Invariants.

(** ** Properties of the launcher *)

(** C15: every command the launcher spawns runs in the repository
    directory (the directory of [app.py], whatever directory the user
    started it from), and is either the one Streamlit launch of
    [app.py] with the sentinel, or [python <script>] for the script of a
    button, blocking exactly for the cache update. *)
Theorem launcher_commands exe launch_dir dirs f cs :
  Forall (fun c => clean_component c = true) (dirs ++ [f]) ->
  reach exe launch_dir (abs_of (dirs ++ [f])) cs ->
  Forall (cmd_ok exe (abs_of (dirs ++ [f])) (abs_of dirs)) cs.
Proof. intros Hclean Hreach. exact (proj1 (reach_inv exe launch_dir dirs f Hclean cs Hreach)). Qed.

(** C16: whatever the interactions, the system holds exactly one
    Streamlit launch: the executions Streamlit makes carry the sentinel
    and never launch Streamlit again, so the re-launch does not loop. *)
Theorem launcher_single_launch exe launch_dir dirs f cs :
  Forall (fun c => clean_component c = true) (dirs ++ [f]) ->
  reach exe launch_dir (abs_of (dirs ++ [f])) cs ->
  length (List.filter is_launch cs) = 1%nat.
Proof. intros Hclean Hreach. exact (proj2 (reach_inv exe launch_dir dirs f Hclean cs Hreach)). Qed.

(** Five of the nine buttons start a script that is not a file of
    the repository: [scatterplot_matrix.py] and [Ph_Plots.py] live in
    [Individual Plots/], and [current_time.py], [fail_time.py] and
    [update_cache.py] do not exist. *)
Theorem buttons_missing_scripts :
  List.filter (fun b => negb (bool_decide (button_script b ∈ repo_python_files))) all_buttons =
  [ScatterplotMatrix; CurrentVsTime; FailureTimeVsSolution; FailureTimeVsPh; UpdateCachedData].
Proof. vm_compute. reflexivity. Qed.

(** ** Witnesses: a session started from [/home/u] for [/srv/IDC/app.py] *)

Lemma demo_reach_launch :
  reach "/usr/bin/python3" "/home/u" (abs_of (["srv"; "IDC"] ++ ["app.py"])) [demo_launch].
Proof. apply reach_launch. Qed.

Lemma launcher_commands_witness :
  Forall (cmd_ok "/usr/bin/python3" "/srv/IDC/app.py" "/srv/IDC")
    ([demo_launch] ++ run_app "/usr/bin/python3" (cwd demo_launch) "/srv/IDC/app.py"
                       ["/srv/IDC/app.py"; SENTINEL] (Some RGB3D)).
Proof.
  apply (launcher_commands "/usr/bin/python3" "/home/u" ["srv"; "IDC"] "app.py").
  - repeat constructor.
  - eapply reach_rerun; [exact demo_reach_launch | by left | reflexivity].
Defined.

Lemma launcher_single_launch_witness :
  length (List.filter is_launch
    ([demo_launch] ++ run_app "/usr/bin/python3" (cwd demo_launch) "/srv/IDC/app.py"
                        ["/srv/IDC/app.py"; SENTINEL] (Some UpdateCachedData))) = 1%nat.
Proof.
  apply (launcher_single_launch "/usr/bin/python3" "/home/u" ["srv"; "IDC"] "app.py").
  - repeat constructor.
  - eapply reach_rerun; [exact demo_reach_launch | by left | reflexivity].
Defined.

End App.
