(* ===== verification/Analysis.v ===== *)
(** * Analysis: the data each plotting script hands to its plot call

    The scripts of [src/Analysis/] and [src/Individual Plots/] load the
    master table, reshape it with pandas and pass it to seaborn, plotly
    or [pandas.plotting].  The plotting libraries are not modelled; each
    script is modelled up to its plot call, as the value [plot] that
    records the call and the data and column names it receives.  A
    seaborn or plotly call whose column name is missing from the data
    raises [ValueError], which [plot_vars] and [px_vars] model.  Two
    more checks of the plotting calls fail on the data and are modelled:
    the FacetGrid of [rgb_boxplots.py] has one column per channel and
    its [set_xticklabels([1, 4, 7, 10])] needs exactly four pattern
    levels on the x axis ([rgb_boxplots_figure]); [sns.move_legend] of
    the pH plot needs the legend that [sns.scatterplot] attaches only
    when it draws a point ([ph_scatter_of]).  The 3D
    RGB plot melts the six channel columns, splits their names into
    channel and age and pivots back with [Pivot.pivot_table]; the
    theorem [rgb_3d_roundtrip] shows the pivot gives each board its own
    values back.

    The scripts import a module [adds] that is not in the repository;
    its [get_master] is [reads.get_master] ([Reads.get_master]). *)

From Stdlib Require Import ZArith QArith Ascii Sorting.Sorted.
From stdpp Require Import gmap.
From S2P Require Import Prelude PyStr Frame GroupBy Pivot Reads.
Import PyStr Frame GroupBy Pivot Reads.

Module Analysis.

(** ** Plot calls *)

Inductive plot :=
| BoxPlot (data : frame) (x y : string)
| FacetBoxPlot (data : frame) (col x y : string)
| Heatmap (corr_of : frame)
| ScatterMatrix (data : frame)
| ScatterPlot (data : frame) (x y hue : string)
| Scatter3D (data : frame) (x y z color symbol : string).

(** Seaborn looks each named variable up in the data. *)
Definition plot_vars (vars : list string) (f : frame) : res unit :=
  match missing_column vars f with
  | Some c => Raise (ValueError (String.append "Could not interpret value " c))
  | None => Ok tt
  end.

(** [sns.FacetGrid(data, row=..., col=..., hue=...)] reads [data[hue]],
    then [data[row]], then [data[col]]: a missing one raises pandas'
    [KeyError]. *)
Definition grid_vars (vars : list string) (f : frame) : res unit :=
  match missing_column vars f with
  | Some c => Raise (KeyError c)
  | None => Ok tt
  end.

(** plotly express looks each column argument up in the data, in the
    order of its argument list, and names the first missing one. *)
Definition px_vars (args : list (string * string)) (f : frame) : res unit :=
  match List.find (fun a => negb (bool_decide (snd a ∈ columns f))) args with
  | Some (arg, c) =>
      Raise (ValueError (String.append "Value of '" (String.append arg
        (String.append "' is not the name of a column in 'data_frame'. Received: " c))))
  | None => Ok tt
  end.

(** [categories=[1, 4, 7, 10]] *)
Definition pattern_categories : list Q := [1; 4; 7; 10]%Q.

(** [categorical_order(data[c])] of seaborn: the distinct non-NA
    values of the column ([Series.unique] without NA).  Seaborn sorts
    numeric levels; only their number matters here, and sorting keeps
    it. *)
Definition category_levels (c : string) (f : frame) : res (list pyval) :=
  vs ← get_col c f; Ok (List.filter (fun v => negb (is_na v)) (py_unique vs)).

(** [sns.FacetGrid(col=...)] makes a grid of [plt.subplots(1, n)] for
    the [n] levels of the column; matplotlib's [GridSpec] refuses
    [n = 0]. *)
Definition facet_columns (levels : list pyval) : res unit :=
  match levels with
  | [] => Raise (ValueError "Number of columns must be a positive integer, not 0")
  | _ :: _ => Ok tt
  end.

(** The labels of [g.set_xticklabels([1, 4, 7, 10])]. *)
Definition pattern_tick_labels : list Z := [1; 4; 7; 10]%Z.

Definition fixed_locator_error (nlocs nlabels : nat) : py_exc :=
  ValueError (String.append "The number of FixedLocator locations ("
    (String.append (py_str_of_int (Z.of_nat nlocs))
    (String.append "), usually from a call to set_ticks, does not match the number of labels ("
    (String.append (py_str_of_int (Z.of_nat nlabels)) ").")))).

(** [FacetGrid.set_xticklabels(labels)] on axes with [nticks] ticks:
    [ax.set_xticks(ax.get_xticks())] installs a [FixedLocator] with
    [nticks] locations, and [ax.set_xticklabels(labels)] refuses a
    non-empty list of labels of another length (matplotlib 3.5 and
    later). *)
Definition set_xticklabels {A} (labels : list A) (nticks : nat) : res unit :=
  if bool_decide (length labels = nticks) || bool_decide (length labels = 0%nat) then Ok tt
  else Raise (fixed_locator_error nticks (length labels)).

(** ** Cell functions *)

(** [.apply(int).apply(str)] on one cell. *)
Definition py_int_str (v : pyval) : res pyval := z ← py_int_val v; Ok (VStr (py_str_of_int z)).

(** [str.extract(r"([RGB])_(PRISTINE|EXPOSED)")] on one string: the
    leftmost match, the alternatives tried in order. *)
Fixpoint extract_channel_age (s : string) : option (string * string) :=
  match s with
  | String c ((String u rest) as tl) =>
      if bool_decide (c ∈ ["R"; "G"; "B"]%char) && bool_decide (u = "_"%char) then
        if String.prefix "PRISTINE" rest then Some (String c EmptyString, "PRISTINE")
        else if String.prefix "EXPOSED" rest then Some (String c EmptyString, "EXPOSED")
        else extract_channel_age tl
      else extract_channel_age tl
  | _ => None
  end.

(** The two columns [str.extract] gives for one cell; NA when the cell is
    not a string or does not match. *)
Definition extract_cells (v : pyval) : pyval * pyval :=
  match v with
  | VStr s =>
      match extract_channel_age s with
      | Some (ch, age) => (VStr ch, VStr age)
      | None => (VNaN, VNaN)
      end
  | _ => (VNaN, VNaN)
  end.

(** The solutions that have a recorded pH ([Ph_Plots.py], line 15). *)
Definition ph_solutions : list pyval :=
  [VStr "Adipic Acid - 1.24mM"; VStr "Adipic Acid - 0.712mM";
   VStr "Adipic Acid - 0.388mM"; VStr "Succinic 0.388mM"].

Definition rgb_age_columns : list string :=
  ["R_PRISTINE"; "G_PRISTINE"; "B_PRISTINE"; "R_EXPOSED"; "G_EXPOSED"; "B_EXPOSED"].

(** The columns the scatter matrix and heatmap panels of the hub select. *)
Definition panel_columns : list string :=
  ["Pattern"; "Time to Failure (ms)"; "Voltage"; "pH"; "Dendrite Score"; "Brightness Pristine";
   "Brightness Exposed"; "Brightness Difference"].

(** [master[master["Solution"]==option1]] in the hub. *)
Definition solution_is (option1 : string) (v : pyval) : bool := py_eq v (VStr option1).

(** ** The pipelines, shared by the scripts and the hub's panels *)

(** Brightness difference and ordered [Pattern] categories, then
    [sns.boxplot] ([grayscale_boxplots.py], lines 12-19). *)
Definition grayscale_of (master : frame) : res plot :=
  diff ← sub_cols "Brightness Exposed" "Brightness Pristine" master;
  let master := set_col "Brightness Difference" diff master in
  pat ← get_col "Pattern" master;
  let master := set_col "Pattern" (categorize pattern_categories <$> pat) master in
  _ ← plot_vars ["Pattern"; "Brightness Difference"] master;
  Ok (BoxPlot master "Pattern" "Brightness Difference").

(** Channel differences, melted to long form ([rgb_boxplots.py],
    lines 12-24). *)
Definition rgb_boxplots_long (master : frame) : res frame :=
  red ← sub_cols "R_EXPOSED" "R_PRISTINE" master;
  let master := set_col "Red" red master in
  green ← sub_cols "G_EXPOSED" "G_PRISTINE" master;
  let master := set_col "Green" green master in
  blue ← sub_cols "B_EXPOSED" "B_PRISTINE" master;
  let master := set_col "Blue" blue master in
  melt ["Board ID"; "Sensor"; "Pattern"] ["Red"; "Green"; "Blue"] "Channel" "Channel Difference" master.

(** The FacetGrid of boxplots ([rgb_boxplots.py], lines 26-45):
    [sns.FacetGrid(col="Channel")] lays out one column per channel and
    raises when there is none; [map_dataframe(sns.boxplot, x="Pattern",
    y="Channel Difference")] looks its variables up and puts one x tick
    per pattern level on the shared x axis; [g.set_xticklabels([1, 4,
    7, 10])] fixes those ticks and labels them. *)
Definition rgb_boxplots_figure (long : frame) : res plot :=
  channels ← category_levels "Channel" long;
  _ ← facet_columns channels;
  _ ← plot_vars ["Channel"; "Pattern"; "Channel Difference"] long;
  patterns ← category_levels "Pattern" long;
  _ ← set_xticklabels pattern_tick_labels (length patterns);
  Ok (FacetBoxPlot long "Channel" "Pattern" "Channel Difference").

(** [rgb_boxplots.py], lines 12-45 *)
Definition rgb_boxplots_of (master : frame) : res plot :=
  long ← rgb_boxplots_long master; rgb_boxplots_figure long.

(** [dropna(axis=1, how="all")] then [select_dtypes(include=["number"])]
    ([corr_heatmap.py], lines 12-14). *)
Definition numeric_only (master : frame) : frame := select_numeric (dropna_cols_all master).

(** [sns.scatterplot(x, y, hue=...)] draws the rows whose plot
    variables are all present (its [comp_data.dropna()]) and attaches
    the hue legend only when it has drawn a point. *)
Definition scatter_legend (vars : list string) (f : frame) : res bool :=
  idx ← col_indices vars f; Ok (existsb (fun r => key_complete (row_key idx r)) (rows f)).

(** [sns.move_legend(ax, ...)] raises on an [Axes] without a legend;
    the message holds [str(ax)], here the default subplot position of
    a figure with one [Axes]. *)
Definition no_legend_error : py_exc := ValueError "Axes(0.125,0.11;0.775x0.77) has no legend attached.".

Definition move_legend (has_legend : bool) : res unit := if has_legend then Ok tt else Raise no_legend_error.

(** [sns.scatterplot(x="pH", y="Time to Failure (ms)", data=df,
    hue="Solution")], then [sns.move_legend] ([Ph_Plots.py], lines
    20-25). *)
Definition ph_scatter_of (df : frame) : res plot :=
  _ ← plot_vars ["pH"; "Time to Failure (ms)"; "Solution"] df;
  legend ← scatter_legend ["pH"; "Time to Failure (ms)"; "Solution"] df;
  _ ← move_legend legend;
  Ok (ScatterPlot df "pH" "Time to Failure (ms)" "Solution").

(** [df[(df["Solution"]==...)|...]] over the four solutions with a pH
    ([Ph_Plots.py], line 15). *)
Definition has_ph_solution (v : pyval) : bool := existsb (py_eq v) ph_solutions.

(** [master["Pattern"].apply(int).apply(str)], the melt of the six
    channel columns and the split of [Channel_Age] ([rgb_3d.py], lines
    7-18). *)
Definition rgb_long_of (master : frame) : res frame :=
  master ← apply_col "Pattern" py_int_str master;
  long ← melt ["Pattern"; "Board ID"; "Sensor"] rgb_age_columns "Channel_Age" "Value" master;
  ca ← get_col "Channel_Age" long;
  let parts := extract_cells <$> ca in
  Ok (set_col "Age" (snd <$> parts) (set_col "Channel" (fst <$> parts) long)).

(** The index of the pivot of the 3D plot. *)
Definition rgb_index : list string := ["Pattern"; "Board ID"; "Sensor"; "Age"].

(** The pivot to one column per channel and [px.scatter_3d]
    ([rgb_3d.py], lines 21-37). *)
Definition rgb_3d_of (long : frame) : res plot :=
  wide ← pivot_table rgb_index "Channel" "Value" long;
  _ ← px_vars [("x", "R"); ("y", "G"); ("z", "B"); ("hover_data_0", "Pattern");
               ("hover_data_1", "Board ID"); ("hover_data_2", "Sensor"); ("color", "Pattern");
               ("symbol", "Age")] wide;
  Ok (Scatter3D wide "R" "G" "B" "Pattern" "Age").

(** The row [melt] and [str.extract] make of board row [r] and value
    column [vc], as [rgb_long_of] computes it, and the key
    ([Pattern], [Board ID], [Sensor]) of a board row. *)
Definition rgb_long_row (m : frame) (vc : string) (r : list pyval) : list pyval :=
  let get c := default VNaN (r !! default 0%nat (index_of c (columns m))) in
  [get "Pattern"; get "Board ID"; get "Sensor"; VStr vc; get vc;
   fst (extract_cells (VStr vc)); snd (extract_cells (VStr vc))].

Definition rgb_board_key (m : frame) (r : list pyval) : list pyval :=
  (fun c => default VNaN (r !! default 0%nat (index_of c (columns m)))) <$> ["Pattern"; "Board ID"; "Sensor"].

(** The positions of [rgb_index ++ ["Channel"]] in the long table. *)
Definition rgb_long_kidx : list nat := [0; 1; 2; 6; 5]%nat.

Section Scripts.
Context `{OS} `{NumParser}.

(** ** The scripts *)

(** [Analysis/grayscale_boxplots.py] (lines 10-19) *)
Definition grayscale_boxplots : res plot := master ← get_master; grayscale_of master.

(** [Analysis/rgb_boxplots.py] (lines 10-39) *)
Definition rgb_boxplots : res plot := master ← get_master; rgb_boxplots_of master.

(** [Analysis/corr_heatmap.py] (lines 10-17) *)
Definition corr_heatmap : res plot := master ← get_master; Ok (Heatmap (numeric_only master)).

(** [Individual Plots/scatterplot_matrix.py] (lines 11-23) *)
Definition scatterplot_matrix : res plot :=
  master ← get_master; Ok (ScatterMatrix (numeric_only (rename_col "Ph" "pH" master))).

(** [Individual Plots/Ph_Plots.py], [plot_ph] (lines 10-20) *)
Definition plot_ph : res plot :=
  df ← get_master;
  df ← filter_col "Solution" has_ph_solution df;
  ph_scatter_of (rename_col "Ph" "pH" df).

(** [Analysis/rgb_3d.py] up to the split of [Channel_Age] (lines 4-18) *)
Definition rgb_3d_long : res frame :=
  master ← get_master;
  master ← dropna_subset "Pattern" master;
  rgb_long_of master.

(** [Analysis/rgb_3d.py] (lines 4-37) *)
Definition rgb_3d : res plot := long ← rgb_3d_long; rgb_3d_of long.

(** ** The panels of [Analysis/streamlit_app.py] *)

(** [RGB_3D(option1)] up to the split of [Channel_Age] (lines 68-83) *)
Definition st_rgb_3d_long (option1 : string) : res frame :=
  master ← get_master;
  master ← dropna_subset "Pattern" master;
  master ← filter_col "Solution" (solution_is option1) master;
  rgb_long_of master.

(** [RGB_3D(option1)] (lines 68-94) *)
Definition st_rgb_3d (option1 : string) : res plot := long ← st_rgb_3d_long option1; rgb_3d_of long.

(** [RGB_boxplots(option1)] (lines 107-133) *)
Definition st_rgb_boxplots (option1 : string) : res plot :=
  master ← get_master;
  master ← filter_col "Solution" (solution_is option1) master;
  rgb_boxplots_of master.

(** [grayscale(option1)] (lines 148-160) *)
Definition st_grayscale (option1 : string) : res plot :=
  master ← get_master;
  master ← filter_col "Solution" (solution_is option1) master;
  grayscale_of master.

(** [scatter()] (lines 233-246) *)
Definition st_scatter : res plot :=
  master ← get_master;
  master ← select_cols panel_columns master;
  Ok (ScatterMatrix (numeric_only master)).

(** [heatmap()] (lines 271-285) *)
Definition st_heatmap : res plot :=
  master ← get_master;
  master ← select_cols panel_columns master;
  Ok (Heatmap (numeric_only master)).

(** [plot_ph()] (lines 300-308): [Ph] is not renamed. *)
Definition st_plot_ph : res plot :=
  df ← get_master;
  df ← filter_col "Solution" has_ph_solution df;
  ph_scatter_of df.

End Scripts.

(** ** A master table for the witnesses: three boards, [Ph] spelled
    as in the CSV, no [Brightness Difference] column. *)

Definition demo_full_master : frame :=
  mkFrame ["Board ID"; "Sensor"; "Pattern"; "Solution"; "Voltage"; "Brightness Pristine";
           "Brightness Exposed"; "R_PRISTINE"; "G_PRISTINE"; "B_PRISTINE"; "R_EXPOSED";
           "G_EXPOSED"; "B_EXPOSED"; "Ph"; "Time to Failure (ms)"; "Notes"]
   [[VStr "B01"; VStr "U1"; VNum 1; VStr "DI Water"; VNum 12; VNum 100; VNum 80; VNum 200;
     VNum 150; VNum 100; VNum 180; VNum 140; VNum 90; VNaN; VNum 5000; VNaN];
    [VStr "B02"; VStr "U2"; VNum 4; VStr "Succinic 0.388mM"; VNum 15; VNum 110; VNum 70;
     VNum 210; VNum 160; VNum 110; VNum 170; VNum 120; VNum 80; VNum (43#10); VNum 3000; VNaN];
    [VStr "B03"; VStr "U3"; VNaN; VStr "Succinic 0.388mM"; VNum 15; VNum 110; VNaN; VNum 210;
     VNum 160; VNum 110; VNum 170; VNum 120; VNum 80; VNum (43#10); VNum 3000; VStr "cracked"]].

Definition demo_analysis_os : OS :=
  fs_os "/srv/IDC" demo_file
    (list_to_map [("/srv/IDC/IDCSubmersionMasterlist_20250505.csv", CsvFile demo_full_master)]).

(** A master table of the DI Water board alone, none of whose
    solutions has a pH. *)
Definition demo_di_water_os : OS :=
  fs_os "/srv/IDC" demo_file
    (list_to_map [("/srv/IDC/IDCSubmersionMasterlist_20250505.csv",
                   CsvFile (mkFrame (columns demo_full_master) (take 1 (rows demo_full_master))))]).

(** A board of one of the four pH solutions with a recorded pH and
    failure time: a point of the pH scatter plot. *)
Definition ph_point (m : frame) (r : list pyval) : bool :=
  let get c := default VNaN (r !! default 0%nat (index_of c (columns m))) in
  has_ph_solution (get "Solution") && negb (is_na (get "Ph")) && negb (is_na (get "Time to Failure (ms)")).

(** The first two boards, whose [Pattern] is a number. *)
Definition demo_rgb_master : frame := mkFrame (columns demo_full_master) (take 2 (rows demo_full_master)).

Definition demo_rgb_row : list pyval :=
  [VStr "B01"; VStr "U1"; VStr "1"; VStr "DI Water"; VNum 12; VNum 100; VNum 80; VNum 200;
   VNum 150; VNum 100; VNum 180; VNum 140; VNum 90; VNaN; VNum 5000; VNaN].

(** ** Properties of the pipelines *)

Section Props.
Context `{NumParser}.

(** The long table of the RGB boxplots has three rows per board
    (one per channel), and every row names its channel, [Red], [Green]
    or [Blue], in the [Channel] column. *)
Theorem rgb_boxplots_long_form master long :
  rgb_boxplots_long master = Ok long ->
  length (rows long) = (3 * length (rows master))%nat /\
  Forall (fun r => exists ch, ch ∈ ["Red"; "Green"; "Blue"] /\ r !! 3%nat = Some (VStr ch)) (rows long).
Proof.
  unfold rgb_boxplots_long. intros Hp.
  inv_bind Hp. rename a into red, Ha into Hred. inv_bind Hp. rename a into green, Ha into Hgreen.
  inv_bind Hp. rename a into blue, Ha into Hblue.
  split.
  - rewrite (melt_length _ _ _ _ _ _ Hp).
    rewrite !set_col_length; [simpl; lia|eapply sub_cols_length; eassumption ..].
  - exact (melt_var_cell _ _ _ _ _ _ Hp).
Qed.

(** The melted table names its variable column [vn] in every row. *)
Lemma melt_var_col ids vals vn wn f g :
  melt ids vals vn wn f = Ok g -> vn ∉ ids ->
  get_col vn g = Ok (vals ≫= (fun vc => replicate (length (rows f)) (VStr vc))).
Proof.
  unfold melt. destruct (missing_column _ _); intros Hg Hvn; simplify_eq/=.
  unfold get_col. simpl. rewrite (index_of_app_r_first vn ids [wn] Hvn). f_equal.
  induction vals as [|vc vals IH]; [done|]. rewrite !bind_cons, fmap_app, IH. f_equal.
  rewrite <- list_fmap_compose. clear IH. induction (rows f) as [|r rs IHr]; [done|].
  cbn [fmap list_fmap length replicate]. rewrite IHr. f_equal. simpl.
  rewrite lookup_app_r by (rewrite length_fmap; lia). by rewrite length_fmap, Nat.sub_diag.
Qed.

Lemma category_levels_head c f v vs :
  get_col c f = Ok (v :: vs) -> is_na v = false -> exists l, category_levels c f = Ok (v :: l).
Proof. unfold category_levels, py_unique. intros -> Hv. simpl. rewrite Hv. eauto. Qed.

Lemma category_levels_nil c f : get_col c f = Ok [] -> category_levels c f = Ok [].
Proof. unfold category_levels. by intros ->. Qed.

(** The steps of [rgb_boxplots_long]: the columns of the long table,
    its [Channel] column, and its [Pattern] column, the master's three
    times over. *)
Lemma rgb_boxplots_long_ok master long :
  rgb_boxplots_long master = Ok long ->
  columns long = ["Board ID"; "Sensor"; "Pattern"; "Channel"; "Channel Difference"] /\
  get_col "Channel" long = Ok (["Red"; "Green"; "Blue"] ≫= (fun vc => replicate (length (rows master)) (VStr vc))) /\
  (frame_wf master -> forall xs, get_col "Pattern" master = Ok xs -> get_col "Pattern" long = Ok (xs ++ xs ++ xs)).
Proof.
  unfold rgb_boxplots_long. intros Hp.
  inv_bind Hp. rename a into red, Ha into Hred. inv_bind Hp. rename a into green, Ha into Hgreen.
  inv_bind Hp. rename a into blue, Ha into Hblue.
  apply sub_cols_length in Hred as Hlr. apply sub_cols_length in Hgreen as Hlg. apply sub_cols_length in Hblue as Hlb.
  assert (H1 : length (rows (set_col "Red" red master)) = length (rows master)) by (by apply set_col_length).
  assert (H2 : length (rows (set_col "Green" green (set_col "Red" red master))) = length (rows master))
    by (rewrite set_col_length; congruence).
  assert (H3 : length (rows (set_col "Blue" blue (set_col "Green" green (set_col "Red" red master))))
    = length (rows master)) by (rewrite set_col_length; congruence).
  split; [by unfold melt in Hp; destruct (missing_column _ _); simplify_eq/=|]. split.
  - rewrite (melt_var_col _ _ _ _ _ _ Hp), H3; [done|].
    rewrite !elem_of_cons, elem_of_nil. intuition discriminate.
  - intros Hwf xs Hxs. rewrite (melt_id_col _ _ _ _ _ _ _ xs Hp); [simpl; by rewrite app_nil_r|by right; right; left|].
    rewrite !get_col_set_col_ne; try done; try congruence; by repeat apply set_col_wf.
Qed.

(** C18: the RGB boxplots ([rgb_boxplots.py] and the hub's
    [RGB_boxplots]) draw their figure only for a selection of boards
    that shows exactly four patterns.  On a rectangular master table
    whose long table is built, with [n] distinct non-NA [Pattern]
    values: no rows make [sns.FacetGrid] raise [ValueError] (a grid
    of zero columns); otherwise [g.set_xticklabels([1, 4, 7, 10])]
    succeeds when [n = 4] and raises matplotlib's [ValueError] on the
    [n] fixed tick locations and 4 labels when [n <> 4]. *)
Theorem rgb_boxplots_pattern_ticks master long ps :
  frame_wf master -> rgb_boxplots_long master = Ok long -> category_levels "Pattern" master = Ok ps ->
  rgb_boxplots_of master =
    match rows master with
    | [] => Raise (ValueError "Number of columns must be a positive integer, not 0")
    | _ :: _ =>
        if bool_decide (length ps = 4%nat) then Ok (FacetBoxPlot long "Channel" "Pattern" "Channel Difference")
        else Raise (fixed_locator_error (length ps) 4)
    end.
Proof.
  intros Hwf Hl Hps. destruct (rgb_boxplots_long_ok _ _ Hl) as (Hcols & Hch & Hpat).
  unfold category_levels in Hps. inv_bind Hps. rename a into xs, Ha into Hxs.
  unfold rgb_boxplots_of. rewrite Hl, bind_Ok. unfold rgb_boxplots_figure.
  destruct (rows master) as [|r rs] eqn:Hrows; simpl in Hch.
  - by rewrite (category_levels_nil _ _ Hch).
  - destruct (category_levels_head _ _ _ _ Hch eq_refl) as [l ->]. rewrite bind_Ok. cbn [facet_columns].
    rewrite bind_Ok. unfold plot_vars. rewrite missing_column_all
      by (rewrite Hcols; intros c Hc%list_elem_of_In; apply list_elem_of_In; simpl in *; tauto).
    rewrite bind_Ok. unfold category_levels. rewrite (Hpat Hwf xs Hxs), bind_Ok, py_unique_thrice. injection Hps as ->.
    rewrite bind_Ok. unfold set_xticklabels. cbn [length pattern_tick_labels].
    destruct (bool_decide (length ps = 4%nat)) eqn:H4.
    + apply bool_decide_eq_true in H4. by rewrite H4.
    + apply bool_decide_eq_false in H4. by rewrite !bool_decide_eq_false_2 by lia.
Qed.

(** Every column the correlation heatmap and the scatter matrices
    receive holds numbers and NA only, and at least one number. *)
Theorem numeric_only_columns f j :
  (j < length (columns (numeric_only f)))%nat ->
  Forall (fun v => is_num v || is_na v = true) (column_cells (numeric_only f) j) /\
  existsb (fun v => negb (is_na v)) (column_cells (numeric_only f) j) = true.
Proof.
  unfold numeric_only, select_numeric, dropna_cols_all. intros Hj.
  destruct (keep_cols_column_lt _ _ _ Hj) as (k & Hcol & Hnum & Hk). rewrite Hcol.
  destruct (keep_cols_column_lt _ _ _ Hk) as (k' & Hcol' & Hna & _). rewrite Hcol' in Hnum |- *.
  split; [|done]. apply Forall_forall. intros v Hv. by apply forallb_forall with (x := v) in Hnum.
Qed.

(** The pH scatter plot only receives the rows of the four
    solutions that have a recorded pH. *)
Theorem plot_ph_solutions `{OS} d x y h :
  plot_ph = Ok (ScatterPlot d x y h) ->
  exists j, index_of "Solution" (columns d) = Some j /\
    Forall (fun r => has_ph_solution (default VNaN (r !! j)) = true) (rows d).
Proof.
  unfold plot_ph. intros Hp. inv_bind Hp. inv_bind Hp. rename a0 into df, Ha0 into Hdf.
  unfold ph_scatter_of in Hp. inv_bind Hp. inv_bind Hp. inv_bind Hp. injection Hp as <- _ _ _.
  unfold filter_col in Hdf. destruct (index_of "Solution" (columns a)) as [j|] eqn:E; [|done].
  injection Hdf as <-. exists j. split.
  - simpl. by rewrite index_of_rename.
  - apply Forall_filter_true.
Qed.

Lemma filter_col_columns c keep f g : filter_col c keep f = Ok g -> columns g = columns f.
Proof. unfold filter_col. destruct (index_of c (columns f)); intros Hg; by simplify_eq/=. Qed.

Lemma filter_col_present c keep f : c ∈ columns f -> exists g, filter_col c keep f = Ok g.
Proof. intros Hc. destruct (index_of_elem _ _ Hc) as [j Hj]. rewrite (filter_col_ok _ _ _ _ Hj). eauto. Qed.

Lemma index_of_rename_new (old new : string) (cols : list string) :
  new ∉ cols -> index_of new ((fun d => if bool_decide (d = old) then new else d) <$> cols) = index_of old cols.
Proof.
  intros Hn. induction cols as [|d ds IH]; [done|]. rewrite fmap_cons. cbn [index_of].
  rewrite IH by (intros ?; apply Hn; by right). destruct (decide (d = old)) as [->|Hd].
  - rewrite (bool_decide_eq_true_2 (old = old)) by done.
    by rewrite (bool_decide_eq_true_2 (new = new)).
  - rewrite (bool_decide_eq_false_2 (d = old)) by done.
    rewrite (bool_decide_eq_false_2 (new = d)) by (intros ->; apply Hn; by left).
    by rewrite (bool_decide_eq_false_2 (old = d)) by congruence.
Qed.

Lemma existsb_filter_ext {A} (p f g : A -> bool) l :
  (forall x, p x && f x = g x) -> existsb f (List.filter p l) = existsb g l.
Proof.
  intros Hfg. induction l as [|x l IH]; [done|]. simpl. rewrite <- Hfg, <- IH.
  by destruct (p x).
Qed.

Lemma has_ph_solution_not_na v : has_ph_solution v = true -> is_na v = false.
Proof. by destruct v. Qed.

Lemma col_indices_elem cs f idx : col_indices cs f = Ok idx -> forall c, c ∈ cs -> c ∈ columns f.
Proof.
  intros Hidx%col_indices_Forall2. induction Hidx as [|c' j cs idx Hj _ IH]; intros c Hc;
    [by apply elem_of_nil in Hc|].
  apply elem_of_cons in Hc as [->|Hc]; [|by apply IH].
  apply index_of_lookup in Hj. by eapply list_elem_of_lookup_2.
Qed.

(** The pH scatter plot and its legend, on a table holding the three
    plot variables. *)
Lemma ph_scatter_of_ok df idx :
  col_indices ["pH"; "Time to Failure (ms)"; "Solution"] df = Ok idx ->
  ph_scatter_of df =
    if existsb (fun r => key_complete (row_key idx r)) (rows df)
    then Ok (ScatterPlot df "pH" "Time to Failure (ms)" "Solution") else Raise no_legend_error.
Proof.
  intros Hidx. unfold ph_scatter_of, plot_vars.
  rewrite missing_column_all by (apply (col_indices_elem _ _ _ Hidx)).
  rewrite bind_Ok. unfold scatter_legend. rewrite Hidx, !bind_Ok. by destruct (existsb _ _).
Qed.

(** [plot_ph] filters the master by solution, renames [Ph] and plots:
    its points are the [ph_point]s of the master. *)
Lemma plot_ph_frame `{OS} m :
  get_master = Ok m -> "Ph" ∈ columns m -> "pH" ∉ columns m ->
  "Solution" ∈ columns m -> "Time to Failure (ms)" ∈ columns m ->
  exists df idx, plot_ph = ph_scatter_of df /\
    col_indices ["pH"; "Time to Failure (ms)"; "Solution"] df = Ok idx /\
    existsb (fun r => key_complete (row_key idx r)) (rows df) = existsb (ph_point m) (rows m).
Proof.
  intros Hm HPh HpH HS HT. unfold plot_ph. rewrite Hm, bind_Ok.
  destruct (index_of_elem _ _ HPh) as [jP HjP], (index_of_elem _ _ HS) as [jS HjS],
    (index_of_elem _ _ HT) as [jT HjT].
  rewrite (filter_col_ok _ _ _ _ HjS), bind_Ok. eexists _, [jP; jT; jS]. split; [done|]. split.
  - unfold col_indices, rename_col. cbn [columns mapM_res].
    rewrite index_of_rename_new, !index_of_rename, HjP, HjT, HjS by (done || discriminate).
    reflexivity.
  - cbn [rename_col rows]. apply existsb_filter_ext. intros r. unfold ph_point.
    rewrite HjP, HjS, HjT. cbn [default row_key fmap list_fmap key_complete forallb].
    destruct (has_ph_solution _) eqn:Hs; [|done]. rewrite (has_ph_solution_not_na _ Hs).
    by destruct (is_na _), (is_na _).
Qed.

(** C19: the pH script ([Individual Plots/Ph_Plots.py]) draws its
    figure exactly when the master table holds a point: a board of one
    of the four pH solutions with a recorded pH ([Ph]) and failure time.
    Without one, [sns.scatterplot] attaches no legend and
    [sns.move_legend] raises [ValueError]. *)
Theorem plot_ph_legend `{OS} m :
  get_master = Ok m -> "Ph" ∈ columns m -> "pH" ∉ columns m ->
  "Solution" ∈ columns m -> "Time to Failure (ms)" ∈ columns m ->
  exists d, plot_ph =
    if existsb (ph_point m) (rows m) then Ok (ScatterPlot d "pH" "Time to Failure (ms)" "Solution")
    else Raise no_legend_error.
Proof.
  intros Hm HPh HpH HS HT. destruct (plot_ph_frame m Hm HPh HpH HS HT) as (df & idx & -> & Hidx & Hex).
  exists df. by rewrite (ph_scatter_of_ok _ _ Hidx), Hex.
Qed.

(** C17: on a master table whose pH column is spelled [Ph] and which
    holds a point of the pH plot, the pH script of [Individual Plots/]
    renames the column and plots, while the pH panel of the Streamlit
    hub, which does not rename it, fails in seaborn with [ValueError]. *)
Theorem ph_panel_divergence `{OS} m :
  get_master = Ok m -> "Ph" ∈ columns m -> "pH" ∉ columns m ->
  "Solution" ∈ columns m -> "Time to Failure (ms)" ∈ columns m ->
  existsb (ph_point m) (rows m) = true ->
  (exists d, plot_ph = Ok (ScatterPlot d "pH" "Time to Failure (ms)" "Solution")) /\
  st_plot_ph = Raise (ValueError "Could not interpret value pH").
Proof.
  intros Hm HPh HpH HSol HTime Hpt. split.
  - destruct (plot_ph_frame m Hm HPh HpH HSol HTime) as (df & idx & -> & Hidx & Hex).
    exists df. by rewrite (ph_scatter_of_ok _ _ Hidx), Hex, Hpt.
  - unfold st_plot_ph. rewrite Hm, bind_Ok.
    destruct (filter_col_present "Solution" has_ph_solution m HSol) as [df Hdf].
    pose proof (filter_col_columns _ _ _ _ Hdf) as Hcols. rewrite Hdf, bind_Ok.
    unfold ph_scatter_of, plot_vars, missing_column. simpl.
    rewrite Hcols, bool_decide_eq_false_2 by done. reflexivity.
Qed.

(** The selection of [panel_columns] fails on a table without
    [Brightness Difference]. *)
(** On a table without rows, the melt and split of [rgb_3d.py] give
    the empty long table. *)
Lemma rgb_long_of_no_rows m :
  rows m = [] -> missing_column (["Pattern"; "Board ID"; "Sensor"] ++ rgb_age_columns) m = None ->
  rgb_long_of m = Ok (mkFrame ["Pattern"; "Board ID"; "Sensor"; "Channel_Age"; "Value"; "Channel"; "Age"] []).
Proof.
  intros Hr Hm. destruct m as [cols rs]; simpl in Hr; subst rs.
  destruct (index_of_elem "Pattern" cols) as [j Hj].
  { apply (missing_column_none _ _ Hm). by left. }
  unfold rgb_long_of, apply_col. rewrite (get_col_ok "Pattern" (mkFrame cols []) j Hj). simpl.
  replace (set_col "Pattern" [] (mkFrame cols [])) with (mkFrame cols []) by (unfold set_col; simpl; by rewrite Hj).
  rewrite melt_ok by exact Hm. reflexivity.
Qed.

(** A solution no board of the master has leaves the 3D panel an
    empty long table, whose pivot has no [R] column: [px.scatter_3d]
    raises. *)
Lemma st_rgb_3d_no_board `{OS} m o :
  get_master = Ok m ->
  missing_column ("Solution" :: ["Pattern"; "Board ID"; "Sensor"] ++ rgb_age_columns) m = None ->
  filter_col "Solution" (solution_is o) m = Ok (mkFrame (columns m) []) ->
  st_rgb_3d o = Raise (ValueError "Value of 'x' is not the name of a column in 'data_frame'. Received: R").
Proof.
  intros Hm Hcols Hsol. apply filter_col_inv in Hsol as (js & Hjs & [= Hnone]).
  destruct (index_of_elem "Pattern" (columns m)) as [jp Hjp].
  { apply (missing_column_none _ _ Hcols). by right; left. }
  unfold st_rgb_3d, st_rgb_3d_long. rewrite Hm. simpl. unfold dropna_subset.
  rewrite (filter_col_ok _ _ _ _ Hjp). simpl. rewrite (filter_col_ok "Solution" _ (mkFrame (columns m) _) js Hjs). simpl.
  rewrite rgb_long_of_no_rows; [reflexivity|simpl; by apply filter_nil_filter|].
  unfold missing_column in *. simpl in *. by destruct (bool_decide _).
Qed.

Lemma select_panel_missing m :
  "Brightness Difference" ∉ columns m -> exists c, select_cols panel_columns m = Raise (KeyError c).
Proof.
  intros Hbd. unfold select_cols.
  destruct (missing_column panel_columns m) as [c|] eqn:E; [by exists c|].
  exfalso. apply Hbd, (missing_column_none _ _ E). apply list_elem_of_In. simpl. tauto.
Qed.

(** The scatter matrix and heatmap panels of the hub select a
    [Brightness Difference] column that [get_master] does not compute:
    on a master table without it, both raise [KeyError]. *)
Theorem st_panels_missing_column `{OS} m :
  get_master = Ok m -> "Brightness Difference" ∉ columns m ->
  (exists c, st_scatter = Raise (KeyError c)) /\ (exists c, st_heatmap = Raise (KeyError c)).
Proof.
  intros Hm Hbd. unfold st_scatter, st_heatmap. rewrite Hm, !bind_Ok.
  destruct (select_panel_missing m Hbd) as [c ->]. split; by exists c.
Qed.

(** ** The long table and the pivot of the 3D RGB plot *)

Lemma rgb_long_of_ok master long :
  rgb_long_of master = Ok long ->
  exists master', apply_col "Pattern" py_int_str master = Ok master' /\
    columns long = ["Pattern"; "Board ID"; "Sensor"; "Channel_Age"; "Value"; "Channel"; "Age"] /\
    rows long = rgb_age_columns ≫= (fun vc => rgb_long_row master' vc <$> rows master').
Proof.
  unfold rgb_long_of. intros Hl. inv_bind Hl. rename a into m', Ha into Hm'. exists m'. split; [done|].
  inv_bind Hl. rename a into long', Ha into Hlong. inv_bind Hl. rename a into ca, Ha into Hca.
  injection Hl as <-. unfold melt in Hlong. destruct (missing_column _ _); [done|].
  injection Hlong as Hlong.
  rewrite (get_col_ok _ _ 3) in Hca by (rewrite <- Hlong; reflexivity). injection Hca as <-.
  rewrite (set_col_new "Channel"), (set_col_new "Age");
    try (rewrite <- Hlong; cbn [columns app]; intros Hin%list_elem_of_In; simpl in Hin; intuition discriminate).
  rewrite <- Hlong. unfold column_cells. cbn [columns rows]. split; [done|].
  rewrite <- !list_fmap_compose, zip_with_fmap_diag, zip_with_fmap_l, zip_with_fmap_diag.
  simpl. rewrite !fmap_app.
  repeat match goal with |- _ ++ _ = _ ++ _ => f_equal end.
  all: rewrite <- ?list_fmap_compose; apply list_fmap_ext; intros; reflexivity.
Qed.

Lemma row_key_long_row m vc r :
  row_key rgb_long_kidx (rgb_long_row m vc r) =
    rgb_board_key m r ++ [snd (extract_cells (VStr vc)); fst (extract_cells (VStr vc))].
Proof. reflexivity. Qed.

Lemma rgb_age_columns_suffix vc vc' :
  vc ∈ rgb_age_columns -> vc' ∈ rgb_age_columns -> vc <> vc' ->
  keys_compare [snd (extract_cells (VStr vc)); fst (extract_cells (VStr vc))]
               [snd (extract_cells (VStr vc')); fst (extract_cells (VStr vc'))] <> Eq.
Proof.
  unfold rgb_age_columns. rewrite !elem_of_cons, !elem_of_nil.
  intros Hvc Hvc' Hne. repeat destruct Hvc as [->|Hvc]; try done;
    repeat destruct Hvc' as [->|Hvc']; try done; vm_compute; discriminate.
Qed.

Lemma rgb_age_columns_complete vc :
  vc ∈ rgb_age_columns ->
  key_complete [snd (extract_cells (VStr vc)); fst (extract_cells (VStr vc))] = true.
Proof.
  unfold rgb_age_columns. rewrite !elem_of_cons, elem_of_nil.
  intros Hvc. by repeat destruct Hvc as [->|Hvc].
Qed.

Lemma rgb_group m r vc :
  vc ∈ rgb_age_columns -> key_complete (rgb_board_key m r) = true ->
  List.filter (fun r' => bool_decide (keys_compare (rgb_board_key m r') (rgb_board_key m r) = Eq)) (rows m) = [r] ->
  group_rows rgb_long_kidx
    (List.filter (fun r => key_complete (row_key rgb_long_kidx r)) (rgb_age_columns ≫= (fun vc => rgb_long_row m vc <$> rows m)))
    (row_key rgb_long_kidx (rgb_long_row m vc r)) = [rgb_long_row m vc r].
Proof.
  intros Hvc Hc Huniq. unfold group_rows. rewrite filter_filter, filter_bind_list.
  rewrite Forall_bind_ext with (g := fun vc' => if bool_decide (vc' = vc) then [rgb_long_row m vc r] else []).
  { apply bind_single; [|done]. apply (bool_decide_unpack _). vm_compute. exact I. }
  apply List.Forall_forall. intros vc' Hvc'%list_elem_of_In. rewrite filter_fmap_list, !row_key_long_row.
  case_bool_decide as Hv.
  - subst vc'. change [rgb_long_row m vc r] with (rgb_long_row m vc <$> [r]). rewrite <- Huniq.
    apply (f_equal (fmap (rgb_long_row m vc))).
    apply List.filter_ext. intros r'.
    rewrite !row_key_long_row, keys_compare_app by reflexivity.
    destruct (keys_compare (rgb_board_key m r) (rgb_board_key m r')) eqn:E.
    + rewrite (cmp_refl keys_compare), (cmp_sym_eq keys_compare _ _ E), !bool_decide_eq_true_2 by done.
      rewrite andb_true_r, key_complete_app, <- (key_complete_eq _ _ E), Hc.
      by apply rgb_age_columns_complete.
    + rewrite !bool_decide_eq_false_2; [by rewrite andb_false_r| |done].
      intros E'%(cmp_sym_eq keys_compare). by rewrite E' in E.
    + rewrite !bool_decide_eq_false_2; [by rewrite andb_false_r| |done].
      intros E'%(cmp_sym_eq keys_compare). by rewrite E' in E.
  - rewrite filter_all_false; [done|]. apply Forall_forall. intros r' _.
    rewrite row_key_long_row, keys_compare_app by reflexivity.
    destruct (keys_compare (rgb_board_key m r) (rgb_board_key m r')); [|by rewrite andb_false_r..].
    rewrite bool_decide_eq_false_2; [apply andb_false_r|].
    apply rgb_age_columns_suffix; [done|done|]. by intros ->.
Qed.

Lemma rgb_channel_row m r ch age q :
  ch ∈ ["B"; "G"; "R"] -> age ∈ ["PRISTINE"; "EXPOSED"] ->
  default VNaN (r !! default 0%nat (index_of (String.append ch (String.append "_" age)) (columns m))) = VNum q ->
  let r0 := rgb_long_row m (String.append ch (String.append "_" age)) r in
  String.append ch (String.append "_" age) ∈ rgb_age_columns /\
  row_key rgb_long_kidx r0 = rgb_board_key m r ++ [VStr age; VStr ch] /\ cell_at 4 r0 = VNum q.
Proof.
  rewrite !elem_of_cons, !elem_of_nil. intros Hch Hage Hq.
  repeat destruct Hch as [->|Hch]; try done; repeat destruct Hage as [->|Hage]; try done;
    (split; [unfold rgb_age_columns; rewrite !elem_of_cons; tauto|]); split; done.
Qed.

Lemma rgb_3d_of_inv long p :
  rgb_3d_of long = Ok p ->
  exists wide, pivot_table rgb_index "Channel" "Value" long = Ok wide /\
    p = Scatter3D wide "R" "G" "B" "Pattern" "Age".
Proof. unfold rgb_3d_of. intros Hp. inv_bind Hp. inv_bind Hp. injection Hp as <-. eauto. Qed.

Lemma long_row_keyed m r vc :
  vc ∈ rgb_age_columns -> r ∈ rows m -> key_complete (rgb_board_key m r) = true ->
  rgb_long_row m vc r ∈
    List.filter (fun r => key_complete (row_key rgb_long_kidx r)) (rgb_age_columns ≫= (fun vc => rgb_long_row m vc <$> rows m)).
Proof.
  intros Hvc Hr Hc. apply list_elem_of_In, filter_In. split.
  - apply list_elem_of_In, list_elem_of_bind. exists vc. split; [|done]. by apply list_elem_of_fmap_2.
  - rewrite row_key_long_row, key_complete_app, Hc. by apply rgb_age_columns_complete.
Qed.

Lemma long_row_channel m r1 :
  r1 ∈ List.filter (fun r => key_complete (row_key rgb_long_kidx r)) (rgb_age_columns ≫= (fun vc => rgb_long_row m vc <$> rows m)) ->
  [cell_at 4 (row_key rgb_long_kidx r1)] ∈ [[VStr "B"]; [VStr "G"]; [VStr "R"]].
Proof.
  intros Hr1%list_elem_of_In%filter_In. destruct Hr1 as [Hr1%list_elem_of_In _].
  apply list_elem_of_bind in Hr1 as (vc & (r & -> & _)%list_elem_of_fmap & Hvc).
  unfold rgb_age_columns in Hvc. rewrite !elem_of_cons, elem_of_nil in Hvc.
  rewrite !elem_of_cons. repeat destruct Hvc as [->|Hvc]; try done; cbn; tauto.
Qed.

(** The group of one channel and age of a board with a unique key is
    its single long row, whose mean is the board's value. *)
Lemma rgb_channel_mean m r ch age q ik :
  ch ∈ ["B"; "G"; "R"] -> age ∈ ["PRISTINE"; "EXPOSED"] -> key_complete (rgb_board_key m r) = true ->
  List.filter (fun r' => bool_decide (keys_compare (rgb_board_key m r') (rgb_board_key m r) = Eq)) (rows m) = [r] ->
  default VNaN (r !! default 0%nat (index_of (String.append ch (String.append "_" age)) (columns m))) = VNum q ->
  keys_compare ik (rgb_board_key m r ++ [VStr age]) = Eq ->
  mean_cells (cell_at 4 <$> group_rows rgb_long_kidx
    (List.filter (fun r => key_complete (row_key rgb_long_kidx r))
       (rgb_age_columns ≫= (fun vc => rgb_long_row m vc <$> rows m))) (ik ++ [VStr ch])) = Ok (VNum q).
Proof.
  intros Hchin Hage Hc Huniq Hq Hik.
  destruct (rgb_channel_row m r ch age q Hchin Hage Hq) as (Hvc & Hkey & Hcell).
  rewrite (group_rows_congr _ _ _ (row_key rgb_long_kidx (rgb_long_row m (String.append ch (String.append "_" age)) r))).
  - rewrite rgb_group by done. cbn [fmap list_fmap]. rewrite Hcell. apply mean_cells_single.
  - rewrite Hkey. change [VStr age; VStr ch] with ([VStr age] ++ [VStr ch]).
    rewrite app_assoc. apply keys_eq_app; [done|]. apply (cmp_refl keys_compare).
Qed.

(** The column keys of the pivot of the long table are the three
    channels, once all three occur. *)
Lemma rgb_pivot_channels m cks :
  StronglySorted keys_lt cks ->
  Forall (fun ck => exists r0, r0 ∈ List.filter (fun r => key_complete (row_key rgb_long_kidx r))
            (rgb_age_columns ≫= (fun vc => rgb_long_row m vc <$> rows m)) /\
          ck = [cell_at 4 (row_key rgb_long_kidx r0)]) cks ->
  [VStr "B"] ∈ cks -> [VStr "G"] ∈ cks -> [VStr "R"] ∈ cks ->
  cks = [[VStr "B"]; [VStr "G"]; [VStr "R"]].
Proof.
  intros Hs Hck HB HG HR. apply keys_sorted_unique; [done|by repeat constructor|]. intros x. split.
  - rewrite List.Forall_forall in Hck. intros Hx%list_elem_of_In. destruct (Hck x Hx) as (r1 & Hr1 & ->).
    by apply (long_row_channel m).
  - rewrite !elem_of_cons, elem_of_nil. by intros [->|[->|[->|[]]]].
Qed.

(** C27: the 3D RGB plot shows every board at each age with the
    channel values of the master table: for a board whose key
    ([Pattern] as [str(int(.))], [Board ID], [Sensor]) is complete and
    shared by no other board, and whose [B_<age>], [G_<age>], [R_<age>]
    cells are numbers, the pivoted table has the columns [Pattern],
    [Board ID], [Sensor], [Age], [B], [G], [R] and a row with that key
    and age holding those three numbers. *)
Theorem rgb_3d_roundtrip master m' long wide r age qs :
  rgb_long_of master = Ok long ->
  rgb_3d_of long = Ok (Scatter3D wide "R" "G" "B" "Pattern" "Age") ->
  apply_col "Pattern" py_int_str master = Ok m' ->
  r ∈ rows m' -> key_complete (rgb_board_key m' r) = true ->
  List.filter (fun r' => bool_decide (keys_compare (rgb_board_key m' r') (rgb_board_key m' r) = Eq)) (rows m') = [r] ->
  age ∈ ["PRISTINE"; "EXPOSED"] ->
  Forall2 (fun ch q => default VNaN (r !! default 0%nat
             (index_of (String.append ch (String.append "_" age)) (columns m'))) = VNum q)
    ["B"; "G"; "R"] qs ->
  columns wide = rgb_index ++ ["B"; "G"; "R"] /\
  exists ik, keys_compare ik (rgb_board_key m' r ++ [VStr age]) = Eq /\ ik ++ (VNum <$> qs) ∈ rows wide.
Proof.
  intros Hlong H3d Hm' Hr Hc Huniq Hage Hqs.
  destruct (rgb_long_of_ok _ _ Hlong) as (m'' & Hm'' & Hcols & Hrows).
  rewrite Hm' in Hm''. injection Hm'' as <-.
  destruct (rgb_3d_of_inv _ _ H3d) as (wide' & Hpiv & [= <-]).
  destruct (pivot_table_sound _ _ _ _ _ Hpiv) as (kidx & j & cks & Hk & Hj & Hcw & Hs & Hck & Hrw & Hcov).
  unfold col_indices in Hk. rewrite Hcols in Hk. injection Hk as <-.
  rewrite Hcols in Hj. injection Hj as <-.
  unfold keyed_rows in *. rewrite Hrows in *.
  assert (Hch : forall ch q, ch ∈ ["B"; "G"; "R"] ->
    default VNaN (r !! default 0%nat (index_of (String.append ch (String.append "_" age)) (columns m'))) = VNum q ->
    [VStr ch] ∈ cks /\ exists ik cells, ik ++ cells ∈ rows wide /\
      keys_compare ik (rgb_board_key m' r ++ [VStr age]) = Eq).
  { intros ch q Hchin Hq.
    destruct (rgb_channel_row m' r ch age q Hchin Hage Hq) as (Hvc & Hkey & Hcell).
    destruct (Hcov (rgb_long_row m' (String.append ch (String.append "_" age)) r) (VNum q))
      as (ik & cells & ck & Hrow & Hckin & Hik & Hckk).
    - by apply long_row_keyed.
    - change [0; 1; 2; 6; 5]%nat with rgb_long_kidx. rewrite Hkey.
      change [VStr age; VStr ch] with ([VStr age] ++ [VStr ch]). rewrite app_assoc.
      apply (rgb_channel_mean m' r ch age q); [done..|apply (cmp_refl keys_compare)].
    - done.
    - change [0; 1; 2; 6; 5]%nat with rgb_long_kidx in *. rewrite Hkey in Hik, Hckk.
      replace (length rgb_index) with (length (rgb_board_key m' r) + 1)%nat in Hik, Hckk by reflexivity.
      rewrite take_app_add' in Hik by done. rewrite drop_app_add' in Hckk by done.
      cbn in Hik, Hckk. apply (keys_eq_str _ [ch]) in Hckk as ->. eauto. }
  apply Forall2_three in Hqs as (qB & qG & qR & -> & HB & HG & HR).
  destruct (Hch "B" qB) as (HcB & _); [by repeat constructor|done|].
  destruct (Hch "G" qG) as (HcG & _); [by repeat constructor|done|].
  destruct (Hch "R" qR) as (HcR & ik & cells & Hrow & Hik); [by repeat constructor|done|].
  rewrite (rgb_pivot_channels m' cks) in Hcw, Hrw by done.
  split; [done|]. exists ik. split; [done|].
  rewrite List.Forall_forall in Hrw. destruct (Hrw _ (proj1 (list_elem_of_In _ _) Hrow)) as (ik' & cells' & Heq & Hlen & Hmeans).
  apply app_inj_1 in Heq as [<- <-]; [|rewrite Hlen, (keys_eq_length _ _ Hik); reflexivity].
  change [0; 1; 2; 6; 5]%nat with rgb_long_kidx in Hmeans.
  apply Forall2_three in Hmeans as (cB & cG & cR & -> & HB' & HG' & HR').
  rewrite (rgb_channel_mean m' r "B" age qB) in HB' by (done || by repeat constructor).
  rewrite (rgb_channel_mean m' r "G" age qG) in HG' by (done || by repeat constructor).
  rewrite (rgb_channel_mean m' r "R" age qR) in HR' by (done || by repeat constructor).
  by simplify_eq.
Qed.

End Props.

(** ** Witnesses *)

Lemma rgb_boxplots_long_form_witness :
  exists long, rgb_boxplots_long demo_full_master = Ok long /\ length (rows long) = 9%nat.
Proof.
  eexists. split; [vm_compute; reflexivity|].
  refine (proj1 (rgb_boxplots_long_form demo_full_master _ _)). vm_compute. reflexivity.
Defined.

(** The master table of the witnesses shows patterns 1 and 4 (and one
    board without a pattern): its figure fails on two tick locations
    for four labels. *)
Lemma rgb_boxplots_pattern_ticks_witness :
  rgb_boxplots_of demo_full_master = Raise (fixed_locator_error 2 4).
Proof.
  destruct (rgb_boxplots_long demo_full_master) as [long|] eqn:Hl; [|vm_compute in Hl; discriminate].
  rewrite (rgb_boxplots_pattern_ticks demo_full_master long [VNum 1; VNum 4]); [reflexivity| |exact Hl|].
  - apply (bool_decide_unpack _). vm_compute. reflexivity.
  - vm_compute. reflexivity.
Defined.

Lemma numeric_only_columns_witness :
  Forall (fun v => is_num v || is_na v = true) (column_cells (numeric_only demo_full_master) 0) /\
  existsb (fun v => negb (is_na v)) (column_cells (numeric_only demo_full_master) 0) = true.
Proof. apply numeric_only_columns. vm_compute. lia. Defined.

Lemma plot_ph_solutions_witness :
  exists d, @plot_ph demo_analysis_os _ = Ok (ScatterPlot d "pH" "Time to Failure (ms)" "Solution") /\
    exists j, index_of "Solution" (columns d) = Some j /\
      Forall (fun r => has_ph_solution (default VNaN (r !! j)) = true) (rows d).
Proof.
  eexists. split; [vm_compute; reflexivity|].
  eapply (@plot_ph_solutions _ demo_analysis_os). vm_compute. reflexivity.
Defined.

Lemma ph_panel_divergence_witness :
  (exists d, @plot_ph demo_analysis_os _ = Ok (ScatterPlot d "pH" "Time to Failure (ms)" "Solution")) /\
  @st_plot_ph demo_analysis_os _ = Raise (ValueError "Could not interpret value pH").
Proof.
  apply (@ph_panel_divergence _ demo_analysis_os demo_full_master).
  - vm_compute. reflexivity.
  - apply list_elem_of_In. simpl. tauto.
  - intros Hin%list_elem_of_In. simpl in Hin. intuition discriminate.
  - apply list_elem_of_In. simpl. tauto.
  - apply list_elem_of_In. simpl. tauto.
  - vm_compute. reflexivity.
Defined.

(** A master of the DI Water board alone has no point to plot: the
    pH script fails in [sns.move_legend]. *)
Lemma plot_ph_legend_witness :
  @plot_ph demo_di_water_os _ = Raise no_legend_error.
Proof.
  destruct (@plot_ph_legend _ demo_di_water_os (mkFrame (columns demo_full_master) (take 1 (rows demo_full_master))))
    as [d ->].
  - vm_compute. reflexivity.
  - apply list_elem_of_In. simpl. tauto.
  - intros Hin%list_elem_of_In. simpl in Hin. intuition discriminate.
  - apply list_elem_of_In. simpl. tauto.
  - apply list_elem_of_In. simpl. tauto.
  - vm_compute. reflexivity.
Defined.

Lemma st_panels_missing_column_witness :
  (exists c, @st_scatter demo_analysis_os _ = Raise (KeyError c)) /\
  (exists c, @st_heatmap demo_analysis_os _ = Raise (KeyError c)).
Proof.
  apply (@st_panels_missing_column _ demo_analysis_os demo_full_master).
  - vm_compute. reflexivity.
  - intros Hin%list_elem_of_In. simpl in Hin. intuition discriminate.
Defined.

Lemma rgb_3d_roundtrip_witness :
  exists m' long wide,
    rgb_long_of demo_rgb_master = Ok long /\
    rgb_3d_of long = Ok (Scatter3D wide "R" "G" "B" "Pattern" "Age") /\
    apply_col "Pattern" py_int_str demo_rgb_master = Ok m' /\
    columns wide = rgb_index ++ ["B"; "G"; "R"] /\
    exists ik, keys_compare ik (rgb_board_key m' demo_rgb_row ++ [VStr "PRISTINE"]) = Eq /\
      ik ++ (VNum <$> [100; 150; 200]%Q) ∈ rows wide.
Proof.
  destruct (apply_col "Pattern" py_int_str demo_rgb_master) as [m'|] eqn:Hm'; [|vm_compute in Hm'; discriminate].
  destruct (rgb_long_of demo_rgb_master) as [long|] eqn:Hl; [|vm_compute in Hl; discriminate].
  destruct (rgb_3d_of long) as [p|] eqn:Hp;
    [|pose proof Hl as Hl'; vm_compute in Hl'; injection Hl' as <-; vm_compute in Hp; discriminate].
  pose proof Hl as Hl'. vm_compute in Hl'. injection Hl' as <-.
  pose proof Hp as Hp'. vm_compute in Hp'. injection Hp' as <-.
  vm_compute in Hm'. injection Hm' as <-.
  eexists _, _, _. split; [exact Hl|]. split; [exact Hp|]. split; [reflexivity|].
  eapply (rgb_3d_roundtrip demo_rgb_master _ _ _ demo_rgb_row "PRISTINE" [100; 150; 200]%Q);
    [reflexivity | exact Hp | reflexivity | apply list_elem_of_In; left; reflexivity | reflexivity |
     vm_compute; reflexivity | apply list_elem_of_In; left; reflexivity | repeat constructor].
Defined.

End Analysis.
