(* ===== verification/Hub.v ===== *)
(** * Hub: the aggregating panels of [src/Analysis/streamlit_app.py]

    The hub relaunches itself under Streamlit like [app.py] (lines
    16-29), with the directory of the hub, [Analysis/], as current
    directory.  The page then draws its panels in order; this file
    models the panels that aggregate data, each up to its plotting
    calls, as the figures it draws:
    - [failure_time] (lines 171-217): one FacetGrid per distinct
      [Voltage], titled with [int(voltage)];
    - [CF_CV] (lines 328-423): the sweep tables filtered to capacitances
      in (0, 100), averaged per sensor and frequency (CF) or voltage
      (CV) with [groupby], and drawn as one line per sensor on six
      axes;
    - [current_vs_time] (lines 434-477): a [Sensor ID] column and one
      FacetGrid per distinct [Voltage];
    - the "See Data" view (line 485), which reads the master list from
      a path relative to the current directory.
    [CF_CV] and [current_vs_time] call [adds.get_master_cf_or_cv] and
    [adds.get_master_current_time], which no file of the repository
    defines: the panels are written against the class [AddsTables] of
    those two functions, and the instance [reads_adds_tables] is
    [reads.py] in the role of [adds], where the attribute lookup
    raises [AttributeError]. *)
From Stdlib Require Import ZArith QArith Ascii String Sorting.Sorted.
From S2P Require Import Prelude PyStr PyPath Frame GroupBy Reads App Analysis.
From stdpp Require Import list.

Module Hub.
Import PyStr PyPath Frame GroupBy Reads App Analysis.

(** ** The tables the panels take from [adds] *)

Class AddsTables := {
  get_master_cf_or_cv : string -> res (option frame);
  get_master_current_time : res (option frame)
}.

#[global] Instance reads_adds_tables : AddsTables := {|
  get_master_cf_or_cv _ := Raise (AttributeError "get_master_cf_or_cv");
  get_master_current_time := Raise (AttributeError "get_master_current_time")
|}.

(** ** Figures *)

(** [axN.plot(x, y, c=colors[i], label=sensor)] *)
Record line := mkLine { line_axis : nat; line_label : string; line_x : list pyval; line_y : list pyval }.

(** One FacetGrid: its data and its [suptitle]. *)
Record facet := mkFacet { facet_data : frame; facet_title : string }.

(** ** [failure_time] and [current_vs_time]: one figure per voltage *)

(** [for voltage in df["Voltage"].unique()]: the rows of that voltage,
    the variables of [sns.FacetGrid] ([vars.1], hue first), those of the
    plot of [g.map_dataframe] ([vars.2]), and the title. *)
Definition voltage_facet (vars : list string * list string) (title : pyval -> res string) (f : frame)
    (v : pyval) : res facet :=
  data ← filter_col "Voltage" (fun x => py_eq x v) f;
  _ ← grid_vars vars.1 data;
  _ ← plot_vars vars.2 data;
  t ← title v;
  Ok (mkFacet data t).

Definition voltage_facets (vars : list string * list string) (title : pyval -> res string) (f : frame)
    : res (list facet) :=
  vs ← get_col "Voltage" f; mapM_res (voltage_facet vars title f) (py_unique vs).

(** [f"...({int(voltage)}V)"] *)
Definition volt_title (prefix : string) (v : pyval) : res string :=
  z ← py_int_val v; Ok (String.append prefix (String.append (py_str_of_int z) "V)")).

Definition failure_title : pyval -> res string :=
  volt_title "Mean Failure Time Vs Solution, by Pattern, and Sensor (".

Definition current_title : pyval -> res string :=
  volt_title "Current Vs Time, by Solution, Pattern, and Sensor (".

(** Lines 177-180, after [get_master]: the rows with a voltage and the
    failure time in seconds. *)
Definition failure_time_frame (master : frame) : res frame :=
  master ← dropna_subset "Voltage" master;
  ms ← get_col "Time to Failure (ms)" master;
  secs ← mapM_res (div_val 1000) ms;
  Ok (set_col "Failure Time (s)" secs master).

(** The variables of the failure-time FacetGrid (lines 185-191). *)
Definition failure_vars : list string * list string :=
  (["Sensor"; "Pattern"], ["Solution"; "Failure Time (s)"]).

(** Lines 177-217, after [get_master]. *)
Definition failure_time_of (master : frame) : res (list facet) :=
  f ← failure_time_frame master; voltage_facets failure_vars failure_title f.

(** [master_current_time["Board ID"] + "_" + master_current_time["Sensor"]] *)
Definition sensor_id (b s : pyval) : res pyval := x ← add_val b (VStr "_"); add_val x s.

(** Lines 440-477, after [adds.get_master_current_time()]. *)
Definition not_none (o : option frame) : res frame :=
  match o with
  | Some f => Ok f
  | None => Raise (TypeError "'NoneType' object is not subscriptable")
  end.

Definition current_time_frame (mct : option frame) : res frame :=
  mct ← not_none mct;
  bs ← get_col "Board ID" mct;
  ss ← get_col "Sensor" mct;
  ids ← mapM_res (fun '(b, s) => sensor_id b s) (zip bs ss);
  Ok (set_col "Sensor ID" ids mct).

(** The variables of the current-versus-time FacetGrid (lines 445-455). *)
Definition current_vars : list string * list string :=
  (["Sensor"; "Pattern"; "Solution"], ["Time (ms)"; "Current (mA)"; "Sensor ID"]).

Definition current_vs_time_of (mct : option frame) : res (list facet) :=
  f ← current_time_frame mct; voltage_facets current_vars current_title f.

(** ** [CF_CV] *)

Definition sensors : list string := ["U1"; "U2"; "U3"; "U4"].

Definition sweep_values : list string := ["Capacitance (F)"; "Impedance (O)"; "Phase Angle (D)"].

(** [(df["Capacitance (F)"]>0)&(df["Capacitance (F)"]<100)] on one cell. *)
Definition in_capacitance_range (v : pyval) : res bool :=
  gt0 ← cmp_val (fun q => negb (Qle_bool q 0)) v;
  lt100 ← cmp_val (fun q => negb (Qle_bool 100 q)) v;
  Ok (gt0 && lt100).

(** [if df is not None and not df.empty: avg = df.groupby(["Sensor", x]).agg(...).reset_index()]:
    [None] when the assignment is skipped. *)
Definition average (x : string) (f : frame) : res (option frame) :=
  if frame_empty f then Ok None else Some <$> groupby_mean ["Sensor"; x] sweep_values f.

(** Reading a local variable that may not have been assigned. *)
Definition bound (name : string) (o : option frame) : res frame :=
  match o with Some f => Ok f | None => Raise (UnboundLocalError name) end.

(** The three lines of one sensor, on the axes [axes]. *)
Definition sensor_lines (axes : list nat) (x : string) (avg : frame) (s : string) : res (list line) :=
  sd ← filter_col "Sensor" (fun v => py_eq v (VStr s)) avg;
  xs ← get_col x sd;
  ys ← mapM_res (fun c => get_col c sd) sweep_values;
  Ok (zip_with (fun ax y => mkLine ax s xs y) axes ys).

(** Lines 335-420, after the two [adds.get_master_cf_or_cv] calls. *)
Definition CF_CV_of (CF CV : option frame) : res (list line) :=
  CF ← not_none CF;
  CF ← filter_by "Capacitance (F)" in_capacitance_range CF;
  CV ← not_none CV;
  CV ← filter_by "Capacitance (F)" in_capacitance_range CV;
  CF_average ← average "Frequency (Hz)" CF;
  CV_average ← average "Voltage (V)" CV;
  cf ← bound "CF_average" CF_average;
  cf_lines ← mapM_res (sensor_lines [1; 2; 3]%nat "Frequency (Hz)" cf) sensors;
  cv ← bound "CV_average" CV_average;
  cv_lines ← mapM_res (sensor_lines [4; 5; 6]%nat "Voltage (V)" cv) sensors;
  Ok (concat cf_lines ++ concat cv_lines).

Section Panels.
Context `{OS} `{NumParser} `{AddsTables}.

(** [failure_time()] (lines 171-217) *)
Definition failure_time : res (list facet) := master ← get_master; failure_time_of master.

(** [CF_CV()] (lines 328-423) *)
Definition CF_CV : res (list line) :=
  CF ← get_master_cf_or_cv "CF"; CV ← get_master_cf_or_cv "CV"; CF_CV_of CF CV.

(** [current_vs_time()] (lines 434-477) *)
Definition current_vs_time : res (list facet) :=
  mct ← get_master_current_time; current_vs_time_of mct.

End Panels.

(** ** The "See Data" view and the hub's own commands *)

Definition see_data_path : string := "../IDCSubmersionMasterlist_20250505.csv".

(** [pd.read_csv("../IDCSubmersionMasterlist_20250505.csv")] (line 485). *)
Definition see_data `{OS} : res frame := read_csv see_data_path.

(** [subprocess.run([sys.executable, "update_cache.py"], cwd=repo_dir)] (line 54). *)
Definition hub_update_cache (exe here file : string) : command :=
  mkCmd [exe; "update_cache.py"] (repo_dir here file) true.

(** The file name of the master list. *)
Definition master_file : string := "IDCSubmersionMasterlist_20250505.csv".

(** ** Tables for the witnesses *)

(** A CF sweep table: two sensors, rows out of frequency order, one
    capacitance out of range and one NA sensor. *)
Definition demo_cf : frame :=
  mkFrame ["Sensor"; "Frequency (Hz)"; "Capacitance (F)"; "Impedance (O)"; "Phase Angle (D)"]
    [[VStr "U2"; VNum 100; VNum 5; VNum 1000; VNum (-80)];
     [VStr "U1"; VNum 1000; VNum 3; VNum 900; VNum (-70)];
     [VStr "U1"; VNum 100; VNum 4; VNum 800; VNum (-60)];
     [VStr "U1"; VNum 100; VNum 6; VNum 600; VNum (-50)];
     [VStr "U1"; VNum 10; VNum 200; VNum 600; VNum (-50)];
     [VNaN; VNum 10; VNum 2; VNum 600; VNum (-50)]].

Definition demo_cv : frame :=
  mkFrame ["Sensor"; "Voltage (V)"; "Capacitance (F)"; "Impedance (O)"; "Phase Angle (D)"]
    [[VStr "U1"; VNum 2; VNum 5; VNum 1000; VNum (-80)];
     [VStr "U1"; VNum (-2); VNum 7; VNum 1100; VNum (-75)];
     [VStr "U3"; VNum 0; VNum 0; VNum 1200; VNum (-70)]].

(** A CF table whose capacitances are all out of range. *)
Definition demo_cf_out_of_range : frame :=
  mkFrame ["Sensor"; "Frequency (Hz)"; "Capacitance (F)"; "Impedance (O)"; "Phase Angle (D)"]
    [[VStr "U1"; VNum 100; VNum 150; VNum 1000; VNum (-80)]; [VStr "U2"; VNum 100; VNaN; VNum 900; VNum (-70)]].

Definition demo_cf_cv_lines : list line :=
  match CF_CV_of (Some demo_cf) (Some demo_cv) with Ok ls => ls | Raise _ => [] end.

(** A joined current-versus-time table with one row of unknown voltage. *)
Definition demo_current_time : frame :=
  mkFrame ["Board ID"; "Sensor"; "Voltage"; "Pattern"; "Solution"; "Time (ms)"; "Current (mA)"]
    [[VStr "B01"; VStr "U1"; VNum 12; VNum 1; VStr "DI Water"; VNum 0; VNum (1#10)];
     [VStr "B01"; VStr "U2"; VNaN; VNum 1; VStr "DI Water"; VNum 0; VNum (2#10)];
     [VStr "B02"; VStr "U1"; VNum 15; VNum 4; VStr "DI Water"; VNum 5; VNum (3#10)]].

Definition demo_failure_facets : list facet :=
  match failure_time_of demo_full_master with Ok fs => fs | Raise _ => [] end.

(** ** Lemmas *)

Lemma in_capacitance_range_true v :
  in_capacitance_range v = Ok true -> exists q, v = VNum q /\ (0 < q)%Q /\ (q < 100)%Q.
Proof.
  destruct v as [s|q|]; simpl; try discriminate. intros [= Hq].
  apply andb_prop in Hq as [H1 H2]. apply negb_true_iff in H1, H2. exists q. split; [done|].
  split; apply Qnot_le_lt; intros Hle; apply Qle_bool_iff in Hle; congruence.
Qed.

Lemma average_some x F a :
  average x F = Ok (Some a) -> groupby_mean ["Sensor"; x] sweep_values F = Ok a.
Proof.
  unfold average. destruct (frame_empty F); [discriminate|].
  destruct (groupby_mean _ _ F); simpl; intros; by simplify_eq.
Qed.

(** The mean capacitances of a [groupby] over rows whose capacitance
    lies in (0, 100) lie in (0, 100). *)
Lemma groupby_capacitance x F a j :
  groupby_mean ["Sensor"; x] sweep_values F = Ok a ->
  index_of "Capacitance (F)" (columns F) = Some j ->
  Forall (fun r => exists q, r !! j = Some (VNum q) /\ (0 < q)%Q /\ (q < 100)%Q) (rows F) ->
  Forall (fun r => exists q, r !! 2%nat = Some (VNum q) /\ (0 < q)%Q /\ (q < 100)%Q) (rows a).
Proof.
  intros Hg Hj HF. destruct (groupby_mean_ok _ _ _ _ Hg) as (kidx & vidx & Hk & Hv & _ & Hrel).
  apply col_indices_Forall2 in Hk, Hv. pose proof (Forall2_length _ _ _ Hk) as Hklen.
  inversion Hv as [|c j' cs vidx' Hj' _ Hc Hvidx]; subst. rewrite Hj in Hj'. injection Hj' as <-.
  apply Forall_forall. intros r (i & Hri)%list_elem_of_lookup.
  destruct (Forall2_lookup_r _ _ _ i r Hrel Hri) as (k & Hki & ms & -> & Hms).
  inversion Hms as [|j0 m0 ? ms' Hm0 _]; subst.
  pose proof (list_elem_of_lookup_2 _ _ _ Hki) as Hk_in%group_keys_elem.
  assert (Hlen : length k = 2%nat).
  { apply list_elem_of_fmap in Hk_in as (r0 & -> & _). by rewrite row_key_length, <- Hklen. }
  match type of Hm0 with
  | mean_cells ?vs = _ => destruct (mean_cells_in_range 0 100 vs) as (m & Hm & Hb)
  end.
  - intros Hnil%fmap_nil_inv. by apply (group_nonempty _ _ _ Hk_in).
  - apply Forall_fmap, Forall_forall. intros r' Hr'.
    apply list_elem_of_In, filter_In in Hr' as [Hr' _]. apply filter_In in Hr' as [Hr' _].
    apply list_elem_of_In in Hr'. rewrite Forall_forall in HF.
    destruct (HF r' Hr') as (q & Hq & Hb). exists q. simpl. by rewrite Hq.
  - rewrite Hm in Hm0. injection Hm0 as <-. exists m. split; [|done].
    rewrite lookup_app_r by lia. by rewrite Hlen.
Qed.

Lemma filter_by_capacitance F F' :
  filter_by "Capacitance (F)" in_capacitance_range F = Ok F' ->
  exists j, index_of "Capacitance (F)" (columns F') = Some j /\
    Forall (fun r => exists q, r !! j = Some (VNum q) /\ (0 < q)%Q /\ (q < 100)%Q) (rows F').
Proof.
  intros (Hcols & j & Hj & Hrows)%filter_by_ok. exists j. rewrite Hcols. split; [done|].
  apply Forall_forall. intros r Hr. destruct (Hrows r Hr) as [_ (q & Hq & Hb)%in_capacitance_range_true].
  exists q. split; [|done]. destruct (r !! j); simpl in Hq; congruence.
Qed.

Lemma sensor_lines_spec axes x avg s ls :
  sensor_lines axes x avg s = Ok ls ->
  exists j xs ys, index_of "Sensor" (columns avg) = Some j /\
    let sd := mkFrame (columns avg)
                (List.filter (fun r => py_eq (default VNaN (r !! j)) (VStr s)) (rows avg)) in
    get_col x sd = Ok xs /\ mapM_res (fun c => get_col c sd) sweep_values = Ok ys /\
    ls = zip_with (fun ax y => mkLine ax s xs y) axes ys.
Proof.
  unfold sensor_lines. intros Hl. inv_bind Hl. inv_bind Hl. inv_bind Hl. injection Hl as <-.
  destruct (filter_col_inv _ _ _ _ Ha) as (j & Hj & ->). eauto 10.
Qed.

Lemma line_elem_of_zip ax_s s xs ys l :
  l ∈ zip_with (fun ax y => mkLine ax s xs y) ax_s ys ->
  line_x l = xs /\ exists i, ax_s !! i = Some (line_axis l) /\ ys !! i = Some (line_y l).
Proof.
  intros (i & Hi)%list_elem_of_lookup. rewrite lookup_zip_with in Hi.
  apply bind_Some in Hi as (ax & Hax & Hi). apply bind_Some in Hi as (y & Hy & [= <-]).
  split; [done|]. exists i. done.
Qed.

(** A line drawn by one of the [for i, sensor in enumerate(sensors)]
    loops is a line of one sensor. *)
Lemma side_line axes x a lss l :
  mapM_res (sensor_lines axes x a) sensors = Ok lss -> l ∈ concat lss ->
  exists s ls, sensor_lines axes x a s = Ok ls /\ l ∈ ls.
Proof.
  intros Hm Hl. apply list_elem_of_In, in_concat in Hl as (ls & Hls & Hl).
  apply list_elem_of_In in Hls, Hl. apply mapM_res_Forall2 in Hm.
  destruct (list_elem_of_lookup_1 _ _ Hls) as [i Hi].
  destruct (Forall2_lookup_r _ _ _ i ls Hm Hi) as (s & _ & Hs). eauto.
Qed.

Lemma Forall2_Forall_l_and {A B} (Q : A -> Prop) (P : A -> B -> Prop) l1 l2 :
  Forall Q l1 -> Forall2 P l1 l2 -> Forall2 (fun a b => Q a /\ P a b) l1 l2.
Proof. intros HQ HP. induction HP; inversion HQ; subst; constructor; auto. Qed.

(** The [x] values of a sensor's line are the second keys of the
    [groupby] rows of that sensor, which are sorted. *)
Lemma groupby_sensor_sorted x F a ls s axes :
  x <> "Sensor" -> groupby_mean ["Sensor"; x] sweep_values F = Ok a ->
  sensor_lines axes x a s = Ok ls -> forall l, l ∈ ls -> StronglySorted pyval_lt (line_x l).
Proof.
  intros Hx Hg Hl l Hin. destruct (groupby_mean_ok _ _ _ _ Hg) as (kidx & vidx & Hk & _ & Hcols & Hrel).
  destruct (sensor_lines_spec _ _ _ _ _ Hl) as (j & xs & ys & Hj & Hxs & _ & ->).
  apply line_elem_of_zip in Hin as [-> _].
  rewrite Hcols in Hj, Hxs. simpl in Hj. injection Hj as <-.
  apply get_col_inv in Hxs as (jx & Hjx & ->). simpl in Hjx.
  rewrite bool_decide_eq_false_2 in Hjx by congruence. rewrite bool_decide_eq_true_2 in Hjx by done.
  injection Hjx as <-. unfold column_cells. simpl.
  apply col_indices_Forall2, Forall2_length in Hk. simpl in Hk.
  set (rs := List.filter _ (rows F)) in Hrel.
  assert (Hlen : Forall (fun k => length k = 2%nat) (group_keys (row_key kidx <$> rs))).
  { apply group_keys_length, Forall_fmap, Forall_forall. intros r _. simpl. by rewrite row_key_length. }
  erewrite <- (Forall2_filter_fmap _ (fun k => default VNaN (k !! 1%nat)) _
                 (fun k => same_value (default VNaN (k !! 0%nat)) (VStr s)));
    [apply sorted_keys_second; [apply group_keys_sorted|done]|
     exact (Forall2_Forall_l_and _ _ _ _ Hlen Hrel)|].
  intros k r [Hk2 (ms & -> & _)]. rewrite !lookup_app_l by lia. by rewrite py_eq_str.
Qed.

(** The capacitance line of a sensor draws means of capacitances in
    (0, 100). *)
Lemma groupby_sensor_capacitance x F a ls s a1 a2 a3 j :
  x <> "Sensor" -> x <> "Capacitance (F)" -> a1 <> a2 -> a1 <> a3 ->
  groupby_mean ["Sensor"; x] sweep_values F = Ok a ->
  index_of "Capacitance (F)" (columns F) = Some j ->
  Forall (fun r => exists q, r !! j = Some (VNum q) /\ (0 < q)%Q /\ (q < 100)%Q) (rows F) ->
  sensor_lines [a1; a2; a3] x a s = Ok ls ->
  forall l, l ∈ ls -> line_axis l = a1 ->
  Forall (fun v => exists q, v = VNum q /\ (0 < q)%Q /\ (q < 100)%Q) (line_y l).
Proof.
  intros Hx Hxc H12 H13 Hg Hj HF Hl l Hin Hax.
  pose proof (groupby_capacitance _ _ _ _ Hg Hj HF) as Ha.
  destruct (groupby_mean_ok _ _ _ _ Hg) as (_ & _ & _ & _ & Hcols & _).
  destruct (sensor_lines_spec _ _ _ _ _ Hl) as (js & xs & ys & _ & _ & Hys & ->).
  apply line_elem_of_zip in Hin as [_ (i & Hi & Hyi)]. rewrite Hax in Hi.
  assert (i = 0%nat) as -> by (destruct i as [|[|[|i]]]; simpl in Hi; try done; congruence).
  apply mapM_res_Forall2 in Hys. destruct (Forall2_lookup_r _ _ _ 0%nat _ Hys Hyi) as (c & Hc & Hcol).
  simpl in Hc. injection Hc as <-. apply get_col_inv in Hcol as (jc & Hjc & ->).
  rewrite Hcols in Hjc. simpl in Hjc.
  rewrite bool_decide_eq_false_2 in Hjc by congruence. simpl in Hjc.
  injection Hjc as <-. unfold column_cells. simpl. apply Forall_fmap.
  apply Forall_filter_P. eapply Forall_impl; [exact Ha|]. simpl. intros r (q & -> & Hq). eauto.
Qed.

Lemma bound_some name o f : bound name o = Ok f -> o = Some f.
Proof. destruct o; simpl; intros; by simplify_eq. Qed.

(** Everything one half of [CF_CV] draws: sorted [x] values, and
    capacitances in (0, 100) on its first axis. *)
Lemma side_props a1 a2 a3 x name F0 F1 o a lss :
  x <> "Sensor" -> x <> "Capacitance (F)" -> a1 <> a2 -> a1 <> a3 ->
  filter_by "Capacitance (F)" in_capacitance_range F0 = Ok F1 ->
  average x F1 = Ok o -> bound name o = Ok a ->
  mapM_res (sensor_lines [a1; a2; a3] x a) sensors = Ok lss ->
  forall l, l ∈ concat lss ->
    StronglySorted pyval_lt (line_x l) /\ line_axis l ∈ [a1; a2; a3] /\
    (line_axis l = a1 -> Forall (fun v => exists q, v = VNum q /\ (0 < q)%Q /\ (q < 100)%Q) (line_y l)).
Proof.
  intros Hx Hxc H12 H13 HF1 Havg Hb Hm l Hl.
  apply bound_some in Hb as ->. apply average_some in Havg.
  destruct (side_line _ _ _ _ _ Hm Hl) as (s & ls & Hls & Hin).
  split; [exact (groupby_sensor_sorted _ _ _ _ _ _ Hx Havg Hls l Hin)|]. split.
  { destruct (sensor_lines_spec _ _ _ _ _ Hls) as (? & ? & ? & _ & _ & _ & ->).
    apply line_elem_of_zip in Hin as [_ (i & Hi & _)]. by eapply list_elem_of_lookup_2. }
  destruct (filter_by_capacitance _ _ HF1) as (j & Hj & HF).
  exact (groupby_sensor_capacitance _ _ _ _ _ _ _ _ _ Hx Hxc H12 H13 Havg Hj HF Hls l Hin).
Qed.

Ltac CF_CV_inv H :=
  unfold CF_CV_of in H;
  do 10 (let a := fresh "a" in let Ha := fresh "Ha" in apply bind_Ok_inv in H as (a & Ha & H));
  injection H as <-.

(** The rows of one [voltage_facets] figure: those whose voltage
    equals [v]. *)
Lemma voltage_facet_rows vars title f j v fc :
  index_of "Voltage" (columns f) = Some j -> voltage_facet vars title f v = Ok fc ->
  rows (facet_data fc) = List.filter (fun r => py_eq (default VNaN (r !! j)) v) (rows f).
Proof.
  intros Hj Hfc. unfold voltage_facet in Hfc. do 4 inv_bind Hfc. injection Hfc as <-.
  rewrite (filter_col_ok _ _ _ _ Hj) in Ha. by injection Ha as <-.
Qed.

(** The figures drawn for the distinct voltages hold every row with a
    voltage exactly once, and no row without one. *)
Lemma voltage_facets_partition vars title f fs :
  voltage_facets vars title f = Ok fs ->
  exists j, index_of "Voltage" (columns f) = Some j /\
    concat ((fun fc => rows (facet_data fc)) <$> fs)
      ≡ₚ List.filter (fun r => negb (is_na (default VNaN (r !! j)))) (rows f).
Proof.
  unfold voltage_facets. intros Hfs. inv_bind Hfs. apply get_col_inv in Ha as (j & Hj & ->).
  exists j. split; [done|]. apply mapM_res_Forall2 in Hfs.
  erewrite <- (Forall2_fmap_eq (fun v => List.filter (fun r => py_eq (default VNaN (r !! j)) v) (rows f)));
    [apply (unique_groups (fun r => default VNaN (r !! j)))|].
  eapply Forall2_impl; [exact Hfs|]. simpl. intros v fc Hfc. symmetry.
  exact (voltage_facet_rows _ _ _ _ _ _ Hj Hfc).
Qed.

(** When some voltage is NA and every other title succeeds, the figures
    stop at the NA voltage with the error of its title. *)
Lemma voltage_facets_nan vars title f jv e :
  index_of "Voltage" (columns f) = Some jv -> (forall c, c ∈ vars.1 ++ vars.2 -> c ∈ columns f) ->
  (forall v, v ∈ column_cells f jv -> v <> VNaN -> is_Ok (title v) = true) ->
  VNaN ∈ column_cells f jv -> title VNaN = Raise e ->
  voltage_facets vars title f = Raise e.
Proof.
  intros Hj Hvars Hok Hnan He. unfold voltage_facets. rewrite (get_col_ok _ _ _ Hj). simpl.
  assert (Hstep : forall v, voltage_facet vars title f v
                  = (t ← title v; Ok (mkFacet (mkFrame (columns f)
                       (List.filter (fun r => py_eq (default VNaN (r !! jv)) v) (rows f))) t))).
  { intros v. unfold voltage_facet. rewrite (filter_col_ok _ _ _ _ Hj). simpl. unfold grid_vars, plot_vars.
    rewrite !missing_column_all by (intros c Hc; apply Hvars, elem_of_app; auto). done. }
  apply mapM_res_raise.
  - apply Forall_forall. intros v Hv%unique_from_elem. rewrite Hstep.
    destruct (decide (v = VNaN)) as [->|Hne]; [by rewrite He; right|left].
    specialize (Hok v Hv Hne). by destruct (title v).
  - apply Exists_exists. exists VNaN. split; [by apply py_unique_nan|].
    by rewrite Hstep, He.
Qed.

Lemma zip_fmap_Forall {A B C} (P : A -> Prop) (Q : B * C -> Prop) (fb : A -> B) (fc : A -> C) l :
  Forall P l -> (forall x, P x -> Q (fb x, fc x)) -> Forall Q (zip (fb <$> l) (fc <$> l)).
Proof. intros Hl HPQ. induction Hl; simpl; constructor; auto. Qed.

Lemma column_cells_snoc f ids j :
  Forall (fun r => is_Some (r !! j)) (rows f) ->
  (fun r => default VNaN (r !! j)) <$> zip_with (fun r v => r ++ [v]) (rows f) ids
  = take (length ids) (column_cells f j).
Proof.
  unfold column_cells. generalize (rows f). intros rs Hrs. revert ids.
  induction Hrs as [|r rs [x Hx] _ IH]; intros [|v ids]; try done.
  cbn [zip_with]. rewrite !fmap_cons, (cell_snoc _ _ _ _ Hx), IH, Hx. done.
Qed.


(** The directory the hub's relaunch runs in is the directory of the hub. *)
Lemma hub_relaunch_cwd exe here cs f :
  Forall (fun c => clean_component c = true) (cs ++ ["Analysis"; f]) ->
  cwd (streamlit_relaunch exe here (abs_of (cs ++ ["Analysis"; f]))) = abs_of (cs ++ ["Analysis"]).
Proof.
  intros Hall. simpl. unfold repo_dir, script_path.
  rewrite abspath_isabs, normpath_abs_of by (done || by destruct cs).
  replace (cs ++ ["Analysis"; f]) with ((cs ++ ["Analysis"]) ++ [f]) in * by by rewrite <- app_assoc.
  by rewrite dirname_abs_of.
Qed.

(** The absolute path of [master_path] for a [reads.py] installed at
    [/c1/.../cn/Analysis/reads.py]. *)
Lemma IDC_join_abs here cs fs n :
  Forall (fun c => clean_component c = true) (cs ++ ["Analysis"]) -> clean_component n = true ->
  abspath here (join (@IDC_directory (fs_os here (abs_of (cs ++ ["Analysis"; "reads.py"])) fs)) n)
  = abs_of (cs ++ [n]).
Proof.
  intros Hall Hn. apply Forall_app in Hall as [Hcs _].
  rewrite (@IDC_directory_abs_of (fs_os _ _ _) cs "Analysis" "reads.py").
  2:{ apply Forall_app. split; [done|]. repeat constructor. }
  2:{ done. }
  rewrite join_abs_of_clean, abspath_isabs by (done || by unfold abs_of).
  apply normpath_abs_of; [by destruct cs|]. apply Forall_app. split; [done|]. by repeat constructor.
Qed.

Lemma master_path_abs here cs fs :
  Forall (fun c => clean_component c = true) (cs ++ ["Analysis"]) ->
  abspath here (@master_path (fs_os here (abs_of (cs ++ ["Analysis"; "reads.py"])) fs))
  = abs_of (cs ++ [master_file]).
Proof. intros Hall. by apply IDC_join_abs. Qed.

(** ** Properties of the panels *)

Lemma CF_CV_of_props CF CV ls :
  CF_CV_of CF CV = Ok ls -> forall l, l ∈ ls ->
    StronglySorted pyval_lt (line_x l) /\
    ((line_axis l = 1 \/ line_axis l = 4)%nat ->
     Forall (fun v => exists q, v = VNum q /\ (0 < q)%Q /\ (q < 100)%Q) (line_y l)).
Proof.
  intros H l Hl. CF_CV_inv H. apply elem_of_app in Hl as [Hl|Hl].
  - destruct (side_props 1 2 3 "Frequency (Hz)" _ _ _ _ _ _
             ltac:(discriminate) ltac:(discriminate) ltac:(discriminate) ltac:(discriminate)
             Ha0 Ha3 Ha5 Ha6 l Hl) as (Hs & Hax & Hb).
    split; [done|]. intros [H1|H4]; [by apply Hb|]. rewrite H4 in Hax. apply list_elem_of_In in Hax. simpl in Hax. lia.
  - destruct (side_props 4 5 6 "Voltage (V)" _ _ _ _ _ _
             ltac:(discriminate) ltac:(discriminate) ltac:(discriminate) ltac:(discriminate)
             Ha2 Ha4 Ha7 Ha8 l Hl) as (Hs & Hax & Hb).
    split; [done|]. intros [H1|H4]; [|by apply Hb]. rewrite H1 in Hax. apply list_elem_of_In in Hax. simpl in Hax. lia.
Qed.

(** Every line the CF/CV panel draws goes through its points in
    strictly increasing order of frequency (CF) or voltage (CV): the
    [groupby] sorts the keys [(Sensor, x)], so the rows of one sensor
    come out sorted by [x]. *)
Theorem CF_CV_lines_sorted CF CV ls :
  CF_CV_of CF CV = Ok ls -> forall l, l ∈ ls -> StronglySorted pyval_lt (line_x l).
Proof. intros H l Hl. exact (proj1 (CF_CV_of_props _ _ _ H l Hl)). Qed.

(** C20: the capacitance curves of the CF/CV panel (axes 1 and 4) only
    plot numbers in (0, 100): the filter keeps such capacitances and the
    mean of a non-empty group of them stays in the interval. *)
Theorem CF_CV_capacitance_bounds CF CV ls :
  CF_CV_of CF CV = Ok ls -> forall l, l ∈ ls -> (line_axis l = 1 \/ line_axis l = 4)%nat ->
  Forall (fun v => exists q, v = VNum q /\ (0 < q)%Q /\ (q < 100)%Q) (line_y l).
Proof. intros H l Hl. exact (proj2 (CF_CV_of_props _ _ _ H l Hl)). Qed.

(** The figures of two voltages get the same title exactly when
    the voltages have the same integer part ([int()] truncates), so the
    figures of 12 V and 12.5 V are both titled "(12V)". *)
Theorem failure_title_same p q :
  failure_title (VNum p) = failure_title (VNum q) <->
  Z.quot (Qnum p) (Zpos (Qden p)) = Z.quot (Qnum q) (Zpos (Qden q)).
Proof.
  unfold failure_title, volt_title. simpl. split; [|by intros ->].
  intros [= Ht]. apply append_cancel_l, append_cancel_r, py_str_of_int_inj in Ht. done.
Qed.

(** The [Sensor ID] of [current_vs_time] tells rows apart: two
    rows with string [Board ID] and [Sensor] cells get the same
    identifier only if both cells agree, provided the sensor names
    hold no underscore (as ["U1"] to ["U4"] do). *)
Theorem sensor_id_injective b1 s1 b2 s2 v :
  char_in "_" s1 = false -> char_in "_" s2 = false ->
  sensor_id (VStr b1) (VStr s1) = Ok v -> sensor_id (VStr b2) (VStr s2) = Ok v ->
  b1 = b2 /\ s1 = s2.
Proof.
  unfold sensor_id. simpl. intros H1 H2 [= <-] [= Hv]. rewrite !append_assoc in Hv.
  change (String.append b2 (String "_" s2) = String.append b1 (String "_" s1)) in Hv.
  symmetry in Hv. exact (append_sep_inj _ _ _ _ _ H1 H2 Hv).
Qed.

(** C21: every row of the master with a voltage is drawn in exactly one
    of the failure-time figures (one per distinct voltage), extended by
    its failure time in seconds, [Time to Failure (ms)] divided by
    1000; no other row is drawn. *)
Theorem failure_time_partition m fs :
  "Failure Time (s)" ∉ columns m -> failure_time_of m = Ok fs ->
  exists j jt secs, index_of "Voltage" (columns m) = Some j /\
    index_of "Time to Failure (ms)" (columns m) = Some jt /\
    mapM_res (div_val 1000) ((fun r => default VNaN (r !! jt)) <$>
      List.filter (fun r => negb (is_na (default VNaN (r !! j)))) (rows m)) = Ok secs /\
    concat ((fun fc => rows (facet_data fc)) <$> fs)
      ≡ₚ zip_with (fun r s => r ++ [s]) (List.filter (fun r => negb (is_na (default VNaN (r !! j)))) (rows m)) secs.
Proof.
  intros Hnew H. unfold failure_time_of in H. apply bind_Ok_inv in H as (f & Hf & H).
  unfold failure_time_frame in Hf. apply bind_Ok_inv in Hf as (a & Ha & Hf).
  apply bind_Ok_inv in Hf as (a0 & Ha0 & Hf). apply bind_Ok_inv in Hf as (a1 & Ha1 & Hf).
  injection Hf as <-.
  apply filter_col_inv in Ha as (j & Hj & ->). apply get_col_inv in Ha0 as (jt & Hjt & ->).
  exists j, jt, a1. split_and!; [done|done|exact Ha1|].
  apply voltage_facets_partition in H as (j' & Hj' & Hperm). simpl in *.
  rewrite set_col_new in Hj', Hperm by done. simpl in Hj', Hperm.
  rewrite (index_of_app_l _ _ _ _ Hj) in Hj'. injection Hj' as <-.
  rewrite Hperm, filter_zip_snoc; [done|].
  by apply (filter_cell_some (fun x => negb (is_na x))).
Qed.

(** C22: the guard [if CF is not None and not CF.empty] does not protect
    the plotting loop: when no CF row has a capacitance in (0, 100), the
    assignment of [CF_average] is skipped and the first plot reads it
    unassigned, so the panel raises [UnboundLocalError]. *)
Theorem CF_CV_empty_unbound cf cv j cv1 o :
  index_of "Capacitance (F)" (columns cf) = Some j ->
  Forall (fun r => in_capacitance_range (default VNaN (r !! j)) = Ok false) (rows cf) ->
  filter_by "Capacitance (F)" in_capacitance_range cv = Ok cv1 ->
  average "Voltage (V)" cv1 = Ok o ->
  CF_CV_of (Some cf) (Some cv) = Raise (UnboundLocalError "CF_average").
Proof.
  intros Hj Hnone Hcv Havg. unfold CF_CV_of. simpl.
  rewrite (filter_by_none _ _ _ _ Hj Hnone). simpl. rewrite Hcv. simpl. rewrite Havg. done.
Qed.

(** C23: [current_vs_time] does not drop the rows without a voltage
    (unlike [failure_time]): when some [Voltage] is NA, [unique()] holds
    NA, and the title [int(voltage)] of its figure raises [ValueError]
    after the figures of the other voltages. *)
Theorem current_vs_time_nan_voltage f jb js jv :
  "Sensor ID" ∉ columns f ->
  (forall c, c ∈ ["Pattern"; "Solution"; "Time (ms)"; "Current (mA)"] -> c ∈ columns f) ->
  index_of "Board ID" (columns f) = Some jb -> index_of "Sensor" (columns f) = Some js ->
  index_of "Voltage" (columns f) = Some jv ->
  Forall (fun r => (exists b s, r !! jb = Some (VStr b) /\ r !! js = Some (VStr s)) /\
                   (r !! jv = Some VNaN \/ exists q, r !! jv = Some (VNum q))) (rows f) ->
  Exists (fun r => r !! jv = Some VNaN) (rows f) ->
  current_vs_time_of (Some f) = Raise (ValueError "cannot convert float NaN to integer").
Proof.
  intros Hnew Hcols Hb Hs Hv Hrows Hnan.
  unfold current_vs_time_of, current_time_frame. simpl.
  rewrite (get_col_ok _ _ _ Hb), (get_col_ok _ _ _ Hs). simpl.
  destruct (mapM_res_ok_exists (fun '(b, s) => sensor_id b s)
              (zip (column_cells f jb) (column_cells f js))) as [ids Hids].
  { unfold column_cells. eapply zip_fmap_Forall; [exact Hrows|].
    intros r [(b & s' & Hb' & Hs') _]. simpl. by rewrite Hb', Hs'. }
  rewrite Hids. simpl.
  assert (Hlen : length ids = length (column_cells f jv)).
  { apply mapM_res_length in Hids. rewrite length_zip in Hids. unfold column_cells in *.
    rewrite !length_fmap in *. lia. }
  assert (Hcells : column_cells (set_col "Sensor ID" ids f) jv = column_cells f jv).
  { rewrite set_col_new by done. unfold column_cells at 1. simpl. rewrite column_cells_snoc.
    - rewrite Hlen. apply firstn_all.
    - eapply Forall_impl; [exact Hrows|]. intros r [_ [Hr|(q & Hr)]]; rewrite Hr; eauto. }
  apply voltage_facets_nan with jv.
  - rewrite set_col_new by done. simpl. by apply index_of_app_l.
  - rewrite set_col_new by done. simpl. intros c Hc. apply elem_of_app.
    destruct (decide (c = "Sensor ID")) as [->|HnID]; [by right; left|left].
    destruct (decide (c = "Sensor")) as [->|HnS]; [by eapply list_elem_of_lookup_2, index_of_lookup|].
    apply Hcols. apply list_elem_of_In in Hc. apply list_elem_of_In. simpl in *. naive_solver.
  - rewrite Hcells. intros v (r & -> & Hr)%list_elem_of_fmap Hne.
    rewrite Forall_forall in Hrows. destruct (Hrows r Hr) as [_ [Hj|(q & Hj)]]; rewrite Hj in Hne |- *;
      [done|reflexivity].
  - rewrite Hcells. apply Exists_exists in Hnan as (r & Hr & Hj). apply list_elem_of_fmap.
    exists r. by rewrite Hj.
  - reflexivity.
Qed.

(** [../IDCSubmersionMasterlist_20250505.csv] from [Analysis/] is the
    master list of the repository. *)
Lemma see_data_path_abs cs :
  Forall (fun c => clean_component c = true) (cs ++ ["Analysis"]) ->
  abspath (abs_of (cs ++ ["Analysis"])) see_data_path = abs_of (cs ++ [master_file]).
Proof.
  intros Hall. unfold abspath. simpl. rewrite join_abs_of by (done || by destruct cs).
  change see_data_path with (str_join SEP [".."; master_file]).
  rewrite abs_of_app, <- app_assoc by (done || by destruct cs). apply normpath_parent.
  apply Forall_app in Hall as [Hcs HA]. apply Forall_app. split; [done|].
  repeat constructor.
Qed.

(** C24: the "See Data" view of the hub, which reads
    [../IDCSubmersionMasterlist_20250505.csv] relative to the current
    directory, shows the table [get_master] reads: the hub's relaunch
    runs it in [Analysis/], whose parent is the repository. *)
Theorem see_data_reads_master exe here cs fs t :
  Forall (fun c => clean_component c = true) (cs ++ ["Analysis"]) ->
  @see_data (fs_os (cwd (streamlit_relaunch exe here (abs_of (cs ++ ["Analysis"; "streamlit_app.py"]))))
                   (abs_of (cs ++ ["Analysis"; "reads.py"])) fs) = Ok t <->
  @read_csv (fs_os here (abs_of (cs ++ ["Analysis"; "reads.py"])) fs)
            (@master_path (fs_os here (abs_of (cs ++ ["Analysis"; "reads.py"])) fs)) = Ok t.
Proof.
  intros Hall. rewrite hub_relaunch_cwd.
  2:{ apply Forall_app in Hall as [Hcs _]. apply Forall_app. split; [done|]. repeat constructor. }
  unfold see_data. simpl. unfold fs_read_csv. rewrite master_path_abs, see_data_path_abs by done.
  destruct (fs !! _) as [[]|]; split; congruence.

Qed.

(** ** Witnesses *)

Lemma CF_CV_lines_sorted_witness :
  CF_CV_of (Some demo_cf) (Some demo_cv) = Ok demo_cf_cv_lines /\
  Forall (fun l => StronglySorted pyval_lt (line_x l)) demo_cf_cv_lines.
Proof.
  assert (H : CF_CV_of (Some demo_cf) (Some demo_cv) = Ok demo_cf_cv_lines) by (vm_compute; reflexivity).
  split; [exact H|]. apply Forall_forall. intros l Hl. exact (CF_CV_lines_sorted _ _ _ H l Hl).
Defined.

Lemma CF_CV_capacitance_bounds_witness :
  CF_CV_of (Some demo_cf) (Some demo_cv) = Ok demo_cf_cv_lines /\
  Forall (fun l => (line_axis l = 1 \/ line_axis l = 4)%nat ->
            Forall (fun v => exists q, v = VNum q /\ (0 < q)%Q /\ (q < 100)%Q) (line_y l)) demo_cf_cv_lines.
Proof.
  assert (H : CF_CV_of (Some demo_cf) (Some demo_cv) = Ok demo_cf_cv_lines) by (vm_compute; reflexivity).
  split; [exact H|]. apply Forall_forall. intros l Hl. exact (CF_CV_capacitance_bounds _ _ _ H l Hl).
Defined.

Lemma failure_title_same_witness :
  failure_title (VNum 12) = failure_title (VNum (25#2)).
Proof. apply (proj2 (failure_title_same 12 (25#2))). reflexivity. Defined.

Lemma sensor_id_injective_witness :
  sensor_id (VStr "B_01") (VStr "U1") = Ok (VStr "B_01_U1") /\ "B_01" = "B_01" /\ "U1" = "U1".
Proof.
  assert (H : sensor_id (VStr "B_01") (VStr "U1") = Ok (VStr "B_01_U1")) by reflexivity.
  split; [exact H|]. exact (sensor_id_injective "B_01" "U1" "B_01" "U1" _ eq_refl eq_refl H H).
Defined.

Lemma failure_time_partition_witness :
  failure_time_of demo_full_master = Ok demo_failure_facets /\
  exists j jt secs, index_of "Voltage" (columns demo_full_master) = Some j /\
    index_of "Time to Failure (ms)" (columns demo_full_master) = Some jt /\
    mapM_res (div_val 1000) ((fun r => default VNaN (r !! jt)) <$>
      List.filter (fun r => negb (is_na (default VNaN (r !! j)))) (rows demo_full_master)) = Ok secs /\
    concat ((fun fc => rows (facet_data fc)) <$> demo_failure_facets)
      ≡ₚ zip_with (fun r s => r ++ [s])
           (List.filter (fun r => negb (is_na (default VNaN (r !! j)))) (rows demo_full_master)) secs.
Proof.
  assert (H : failure_time_of demo_full_master = Ok demo_failure_facets) by (vm_compute; reflexivity).
  split; [exact H|]. apply (failure_time_partition _ _); [|exact H].
  apply (bool_decide_eq_false_1 ("Failure Time (s)" ∈ columns demo_full_master)). vm_compute. reflexivity.
Defined.

Lemma CF_CV_empty_unbound_witness :
  CF_CV_of (Some demo_cf_out_of_range) (Some demo_cv) = Raise (UnboundLocalError "CF_average").
Proof.
  apply (CF_CV_empty_unbound _ _ 2 (mkFrame (columns demo_cv) [[VStr "U1"; VNum 2; VNum 5; VNum 1000; VNum (-80)];
                                                       [VStr "U1"; VNum (-2); VNum 7; VNum 1100; VNum (-75)]])
           (Some (mkFrame ["Sensor"; "Voltage (V)"; "Capacitance (F)"; "Impedance (O)"; "Phase Angle (D)"]
                   [[VStr "U1"; VNum (-2); VNum 7; VNum 1100; VNum (-75)]; [VStr "U1"; VNum 2; VNum 5; VNum 1000; VNum (-80)]])));
    vm_compute; try reflexivity; repeat constructor.
Defined.

Lemma current_vs_time_nan_voltage_witness :
  current_vs_time_of (Some demo_current_time) = Raise (ValueError "cannot convert float NaN to integer").
Proof.
  apply (current_vs_time_nan_voltage demo_current_time 0 1 2).
  - apply (bool_decide_eq_false_1 ("Sensor ID" ∈ columns demo_current_time)). vm_compute. reflexivity.
  - intros c Hc. repeat (apply elem_of_cons in Hc as [->|Hc]; [vm_compute; repeat constructor|]).
    by apply elem_of_nil in Hc.
  - reflexivity.
  - reflexivity.
  - reflexivity.
  - unfold demo_current_time. cbn [rows].
    repeat (constructor; [split; [do 2 eexists; split; reflexivity
                                 |first [left; reflexivity | right; eexists; reflexivity]]|]).
    constructor.
  - unfold demo_current_time. cbn [rows]. apply Exists_cons_tl, Exists_cons_hd. reflexivity.
Defined.

Lemma see_data_reads_master_witness :
  @see_data (fs_os (cwd (streamlit_relaunch "/usr/bin/python3" "/home/u"
                     (abs_of (["srv"; "IDC"] ++ ["Analysis"; "streamlit_app.py"]))))
                   (abs_of (["srv"; "IDC"] ++ ["Analysis"; "reads.py"])) demo_fs) = Ok demo_master <->
  @read_csv (fs_os "/home/u" (abs_of (["srv"; "IDC"] ++ ["Analysis"; "reads.py"])) demo_fs)
            (@master_path (fs_os "/home/u" (abs_of (["srv"; "IDC"] ++ ["Analysis"; "reads.py"])) demo_fs))
  = Ok demo_master.
Proof. apply see_data_reads_master. repeat constructor. Defined.

End Hub.
