(* ===== verification/Page.v ===== *)
(** * Page: one execution of the hub script, as the page it renders

    Streamlit runs [src/Analysis/streamlit_app.py] from top to bottom
    on every interaction.  Each [st.*] call adds an element to the page
    (in the sidebar, in one of the two columns, or in the main area),
    [subprocess.run] starts a command, [exit()] ends the run, and an
    exception that escapes a panel function ends it too, after Streamlit
    has shown the exception where the panel was: the elements shown
    before stay on the page, nothing after it runs.

    The script is modelled as a list of statements [stmt]: an element
    shown ([Emit]), a command started ([Spawn]), a panel call ([Panel])
    and [exit()] ([Exit]).  A panel is the stream of the figures it
    shows one by one ([st.pyplot] in a loop), preceded by the data
    preparation that may raise: [res (list (res widget))].  Its data come
    from the panels of [Analysis] and [Hub]; the per-voltage loops of
    [failure_time] and [current_vs_time] are split into one figure per
    voltage, so that the figures drawn before a failing voltage stay
    on the page as they do in Streamlit.

    The execution is given twice, in the style of the natural and
    reduction semantics of IMP: [run_page] computes the page and the
    status of a run, and [step] is the reduction relation of the
    interpreter, one element at a time; [run_page_star] shows that
    every run of [step] reaches the result of [run_page], and [step] is
    deterministic.

    The launcher [src/app.py] is a Streamlit script of the same kind:
    [app_script] writes its page in this language, and its run starts
    the commands of [App.run_app]. *)

From Stdlib Require Import String QArith.
From S2P Require Import Prelude PyStr PyPath Frame GroupBy Pivot Reads App Analysis Hub.
From stdpp Require Import list.

Module Page.
Import PyPath Frame GroupBy Reads App Analysis Hub.

(** ** The page *)

(** Where an element goes: [st.sidebar], [column1], [column2] or the
    main area. *)
Inductive place := Main | Sidebar | Column1 | Column2.

#[global] Instance place_eq_dec : EqDecision place.
Proof. solve_decision. Defined.

(** The elements the script shows. *)
Inductive widget :=
| PageConfig (layout title : string)
| Title (s : string)
| Header (s : string)
| Text (s : string)
| Selectbox (label : string) (options : list string)
| Button (label : string)
| Write (s : string)
| PlotlyChart (p : plot)
| Pyplot (p : plot)
| FacetFigure (f : facet)
| LinesFigure (ls : list line)
| Expander (label : string) (data : frame)
| ErrorBox (e : py_exc).

(** The statements of the script. *)
Inductive stmt :=
| Emit (pl : place) (w : widget)
| Spawn (c : command)
| Panel (pl : place) (out : res (list (res widget)))
| Exit.

(** What one execution has shown and started. *)
Record page := mkPage { shown : list (place * widget); spawned : list command }.

Definition empty_page : page := mkPage [] [].

Definition emit (pl : place) (w : widget) (p : page) : page :=
  mkPage (shown p ++ [(pl, w)]) (spawned p).

Definition spawn (c : command) (p : page) : page := mkPage (shown p) (spawned p ++ [c]).

(** How a run ends: at the end of the script, at [exit()], or with an
    exception shown on the page. *)
Inductive status := Finished | Exited | Failed (e : py_exc).

(** ** The interpreter *)

(** The figures of a panel, in order, up to the first exception. *)
Fixpoint show_stream (pl : place) (items : list (res widget)) (p : page) : page * option py_exc :=
  match items with
  | [] => (p, None)
  | Ok w :: rest => show_stream pl rest (emit pl w p)
  | Raise e :: _ => (emit pl (ErrorBox e) p, Some e)
  end.

Fixpoint run_page (prog : list stmt) (p : page) : page * status :=
  match prog with
  | [] => (p, Finished)
  | Emit pl w :: k => run_page k (emit pl w p)
  | Spawn c :: k => run_page k (spawn c p)
  | Panel pl (Raise e) :: _ => (emit pl (ErrorBox e) p, Failed e)
  | Panel pl (Ok items) :: k =>
      match show_stream pl items p with
      | (p', None) => run_page k p'
      | (p', Some e) => (p', Failed e)
      end
  | Exit :: _ => (p, Exited)
  end.

(** ** The reduction relation *)

Inductive config := Running (k : list stmt) (p : page) | Halted (p : page) (s : status).

Inductive step : config -> config -> Prop :=
| step_emit pl w k p : step (Running (Emit pl w :: k) p) (Running k (emit pl w p))
| step_spawn c k p : step (Running (Spawn c :: k) p) (Running k (spawn c p))
| step_exit k p : step (Running (Exit :: k) p) (Halted p Exited)
| step_raise pl e k p :
    step (Running (Panel pl (Raise e) :: k) p) (Halted (emit pl (ErrorBox e) p) (Failed e))
| step_figure pl w items k p :
    step (Running (Panel pl (Ok (Ok w :: items)) :: k) p) (Running (Panel pl (Ok items) :: k) (emit pl w p))
| step_figure_raise pl e items k p :
    step (Running (Panel pl (Ok (Raise e :: items)) :: k) p) (Halted (emit pl (ErrorBox e) p) (Failed e))
| step_panel_done pl k p : step (Running (Panel pl (Ok []) :: k) p) (Running k p)
| step_done p : step (Running [] p) (Halted p Finished).

(** Zero, one or several steps. *)
Inductive star : config -> config -> Prop :=
| star_refl c : star c c
| star_step c1 c2 c3 : step c1 c2 -> star c2 c3 -> star c1 c3.

(** ** The hub script *)

(** The choices of the sidebar in one execution: the two select boxes
    and whether each button was clicked. *)
Record session := mkSession {
  option1 : string; option2 : string; apply_clicked : bool; update_clicked : bool }.

(** The options of [st.selectbox("Solution:", ...)] (lines 42-44). *)
Definition solutions : list string :=
  ["DI Water"; "Adipic Acid - 1.24mM"; "Adipic Acid - 0.712mM"; "Succinic 0.388mM";
   "Succinic 20mM"; "Succinic 1.425mM"; "Succinic 0.712 mM"; "Succinic 3.6mM";
   "Adipic Acid - 0.388mM"].

(** The options of [st.selectbox("Pattern:", ...)] (line 48). *)
Definition patterns : list string := ["1"; "4"; "7"; "10"].

(** Lines 37-55: the sidebar, and the cache update when its button was
    clicked. *)
Definition hub_sidebar (exe here file : string) (s : session) : list stmt :=
  [Emit Sidebar (Title "Plotting Options");
   Emit Sidebar (Header "Image Analysis Filters");
   Emit Sidebar (Selectbox "Solution:" solutions);
   Emit Sidebar (Header "Failure Time vs Solution Filters");
   Emit Sidebar (Selectbox "Pattern:" patterns);
   Emit Sidebar (Button "Apply Filters");
   Emit Sidebar (Header "Settings");
   Emit Sidebar (Button "Update Cached Data")] ++
  (if update_clicked s
   then [Emit Sidebar (Write "Updating..."); Spawn (hub_update_cache exe here file);
         Emit Sidebar (Write "Done!")]
   else []).

(** A panel that shows one figure, made by [w], when it returns. *)
Definition one_figure {A} (w : A -> widget) (r : res A) : res (list (res widget)) :=
  (fun a => [Ok (w a)]) <$> r.

(** The loop [for voltage in df["Voltage"].unique(): ... st.pyplot(g.figure)]:
    one figure per voltage, each of which may raise. *)
Definition voltage_stream (vars : list string * list string) (title : pyval -> res string) (f : frame)
    : res (list (res widget)) :=
  vs ← get_col "Voltage" f; Ok ((fun v => FacetFigure <$> voltage_facet vars title f v) <$> py_unique vs).

(** [with st.container(border=True): st.header(title); st.text(text); panel()] *)
Definition section (pl : place) (title text : string) (panel : res (list (res widget))) : list stmt :=
  [Emit pl (Header title); Emit pl (Text text); Panel pl panel].

Section Script.
Context `{OS} `{NumParser} `{AddsTables}.

(** [failure_time()] (lines 171-217), figure by figure. *)
Definition failure_time_stream : res (list (res widget)) :=
  master ← get_master; f ← failure_time_frame master; voltage_stream failure_vars failure_title f.

(** [current_vs_time()] (lines 434-477), figure by figure. *)
Definition current_vs_time_stream : res (list (res widget)) :=
  mct ← get_master_current_time; f ← current_time_frame mct; voltage_stream current_vars current_title f.

(** [with column1:] (lines 60-220) *)
Definition hub_column1 (option1 : string) : list stmt :=
  section Column1 "3D RGB Analysis"
    "Maps RGB values to XYZ coordinates to view the average color of all boards, separated by board type and pristine/exposed"
    (one_figure PlotlyChart (st_rgb_3d option1)) ++
  section Column1 "RGB Boxplots"
    "Plots the differences in average RGB channels for pristine VS exposed boards"
    (one_figure Pyplot (st_rgb_boxplots option1)) ++
  section Column1 "Grayscale Boxplots" "Plots the average brightness of each board"
    (one_figure Pyplot (st_grayscale option1)) ++
  section Column1 "Failure Time vs Solution"
    "Plots failure time as function of solution, separated by board type and sensor"
    failure_time_stream.

(** [with column2:] (lines 225-480) *)
Definition hub_column2 : list stmt :=
  section Column2 "Scatterplot Matrix" "Plots a scatterplot matrix for all variable pairs"
    (one_figure Pyplot st_scatter) ++
  section Column2 "Correlation Heatmap" "Plots the correlations between all variable pairs"
    (one_figure Pyplot st_heatmap) ++
  section Column2 "pH Plot" "Plots failure time as a function of pH"
    (one_figure Pyplot st_plot_ph) ++
  section Column2 "CF and CV Plots" "Plots CF and CV Data"
    (one_figure LinesFigure CF_CV) ++
  section Column2 "Current vs Time"
    "Plots current as a function of time for each tested sensor separated by solution and board type"
    current_vs_time_stream.

(** Lines 485-487: the master list read from the current directory,
    shown in the expander "See Data". *)
Definition hub_see_data : list stmt :=
  [Panel Main (one_figure (Expander "See Data") see_data)].

(** Lines 32-487: the page of one Streamlit execution. *)
Definition hub_page (exe here file : string) (s : session) : list stmt :=
  [Emit Main (PageConfig "wide" "IDC Analysis Plotting Hub");
   Emit Main (Title "IDC Analysis Plotting Hub")] ++
  hub_sidebar exe here file s ++ hub_column1 (option1 s) ++ hub_column2 ++ hub_see_data.

(** Lines 16-487: without the sentinel in [sys.argv] the script
    relaunches itself under Streamlit and exits; with it, it renders the
    page. *)
Definition hub_script (exe here file : string) (argv : list string) (s : session) : list stmt :=
  if bool_decide (SENTINEL ∈ argv) then hub_page exe here file s
  else [Spawn (streamlit_relaunch exe here file); Exit].

End Script.

(** ** The launcher page

    [src/app.py] is a Streamlit script too: after the same sentinel
    check, it shows one button per analysis script, each in a container
    with its description, and starts the script when the button is the
    one clicked in this execution. *)

(** The labels of the buttons of [app.py] (lines 28-68). *)
Definition button_label (b : button) : string :=
  match b with
  | RGB3D => "RGB Analysis 3D"
  | RGBBoxPlots => "RGB Analysis Box Plots"
  | GrayscaleBoxPlots => "Grayscale Box Plots"
  | ScatterplotMatrix => "Scatterplot Matrix"
  | CorrelationHeatmap => "Correlation Heatmap"
  | CurrentVsTime => "Current Vs Time"
  | FailureTimeVsSolution => "Failure Time Vs Solution"
  | FailureTimeVsPh => "Failure Time Vs Ph"
  | UpdateCachedData => "Update Cached Data"
  end.

(** [subprocess.Popen([sys.executable, script], cwd=repo_dir)], or
    [subprocess.run] for the cache update. *)
Definition app_command (exe here file : string) (b : button) : command :=
  mkCmd [exe; button_script b] (repo_dir here file) (button_blocking b).

(** [with st.container(border=True): if st.button(label): subprocess.Popen(...); st.text(text)] *)
Definition plot_button (exe here file : string) (clicked : option button) (b : button) (text : string)
    : list stmt :=
  [Emit Main (Button (button_label b))] ++
  (if bool_decide (clicked = Some b) then [Spawn (app_command exe here file b)] else []) ++
  [Emit Main (Text text)].

(** Lines 24-71: the page of one execution of [app.py]. *)
Definition app_page (exe here file : string) (clicked : option button) : list stmt :=
  [Emit Main (Title "IDC Analysis Plotting Hub"); Emit Main (Header "Plots")] ++
  plot_button exe here file clicked RGB3D
    "Maps RGB values to XYZ coordinates to view the average color of all boards, separated by board type and pristine/exposed" ++
  plot_button exe here file clicked RGBBoxPlots
    "Plots the differences in average RGB channels from pristine to exposed boards" ++
  plot_button exe here file clicked GrayscaleBoxPlots "Plots the average brightness of each board" ++
  plot_button exe here file clicked ScatterplotMatrix
    "Plots a scatterplot matrix for all combinations of two variables" ++
  plot_button exe here file clicked CorrelationHeatmap
    "Plots the correlations between all combinations of two variables" ++
  plot_button exe here file clicked CurrentVsTime
    "Plot current as a function of time for each tested sensor, separated by solution, board type, and sensor" ++
  plot_button exe here file clicked FailureTimeVsSolution
    "Plot failure time as function of solution, separated by board type and sensor" ++
  plot_button exe here file clicked FailureTimeVsPh "Plot failure time as a function of pH" ++
  [Emit Main (Header "Settings"); Emit Main (Button (button_label UpdateCachedData))] ++
  (if bool_decide (clicked = Some UpdateCachedData)
   then [Emit Main (Write "Updating..."); Spawn (app_command exe here file UpdateCachedData);
         Emit Main (Write "Done!")]
   else []).

(** Lines 7-71: the relaunch without the sentinel, the page with it. *)
Definition app_script (exe here file : string) (argv : list string) (clicked : option button)
    : list stmt :=
  if bool_decide (SENTINEL ∈ argv) then app_page exe here file clicked
  else [Spawn (streamlit_relaunch exe here file); Exit].


(** ** Fixtures for the witnesses *)

(** The hub installed at [/srv/IDC/Analysis/streamlit_app.py], as
    Streamlit runs it (with the sentinel) and as the user starts it. *)
Definition demo_argv : list string := ["streamlit_app.py"; SENTINEL].

Definition demo_session : session := mkSession "DI Water" "1" false true.

(** A current-versus-time table with one known and one unknown voltage. *)
Definition demo_volts : frame := mkFrame ["Voltage"] [[VNum 12%Q]; [VNaN]].

(** ** Facts about parts of the script *)

(** A part of the script without [subprocess.run] starts nothing. *)
Definition no_spawn (k : list stmt) : Prop :=
  Forall (fun st => match st with Spawn _ => False | _ => True end) k.

(** A part of the script without [exit()] ends normally or with an
    exception. *)
Definition no_exit (k : list stmt) : Prop :=
  Forall (fun st => match st with Exit => False | _ => True end) k.

(** Show several figures of a panel. *)
Definition emit_all (pl : place) (ws : list widget) (p : page) : page :=
  mkPage (shown p ++ ((fun w => (pl, w)) <$> ws)) (spawned p).

(** A panel that returns and shows every one of its figures. *)
Definition stream_ok (r : res (list (res widget))) : bool :=
  match r with Ok items => forallb is_Ok items | Raise _ => false end.

(** Every panel of a part of the script shows all its figures. *)
Definition panels_ok (k : list stmt) : bool :=
  forallb (fun st => match st with Panel _ r => stream_ok r | _ => true end) k.

(** ** The interpreter and the reduction relation agree *)

Lemma star_trans c1 c2 c3 : star c1 c2 -> star c2 c3 -> star c1 c3.
Proof. induction 1; eauto using star. Qed.

Lemma star_one c1 c2 : step c1 c2 -> star c1 c2.
Proof. eauto using star. Qed.

#[export] Hint Constructors step star : idc.
#[export] Hint Resolve star_trans star_one : idc.

(** The figures of a panel are shown one step each. *)
Lemma show_stream_star pl items k p :
  star (Running (Panel pl (Ok items) :: k) p)
    (match show_stream pl items p with
     | (p', None) => Running k p'
     | (p', Some e) => Halted p' (Failed e)
     end).
Proof.
  revert p. induction items as [|[w|e] items IH]; intros p; simpl; eauto with idc.
Qed.

(** Every reduction sequence can be continued to the result of
    [run_page]. *)
Lemma run_page_star prog p :
  star (Running prog p) (Halted (run_page prog p).1 (run_page prog p).2).
Proof.
  revert p. induction prog as [|[pl w|c|pl [items|e]|] k IH]; intros p; simpl; eauto with idc.
  pose proof (show_stream_star pl items k p) as Hs.
  destruct (show_stream pl items p) as [p' [e|]]; eauto with idc.
Qed.

Lemma step_deterministic c c1 c2 : step c c1 -> step c c2 -> c1 = c2.
Proof. intros H1 H2. inversion H1; subst; inversion H2; subst; congruence. Qed.

Lemma halted_final p s c : ~ step (Halted p s) c.
Proof. inversion 1. Qed.

(** A configuration reaches at most one final configuration. *)
Lemma star_halted_unique c p1 s1 p2 s2 :
  star c (Halted p1 s1) -> star c (Halted p2 s2) -> p1 = p2 /\ s1 = s2.
Proof.
  intros H1. revert p2 s2. remember (Halted p1 s1) as h eqn:Eh.
  induction H1 as [c|c1 c2 c3 Hs Hst IH]; intros p2 s2 H2; subst.
  - inversion H2 as [|? ? ? Hs]; subst; [done|]. by apply halted_final in Hs.
  - inversion H2 as [|? c2' ? Hs' Hst']; subst; [by apply halted_final in Hs|].
    rewrite (step_deterministic _ _ _ Hs Hs') in IH. by apply IH.
Qed.

(** The final configurations are those [run_page] computes. *)
Lemma star_halted_iff k p0 p st : star (Running k p0) (Halted p st) <-> run_page k p0 = (p, st).
Proof.
  split.
  - intros Hst. destruct (star_halted_unique _ _ _ _ _ Hst (run_page_star k p0)) as [-> ->].
    by destruct (run_page k p0).
  - intros Hr. pose proof (run_page_star k p0) as Hs. by rewrite Hr in Hs.
Qed.

(** ** Sequencing *)

Lemma run_page_app k1 k2 p :
  run_page (k1 ++ k2) p =
    match run_page k1 p with (p', Finished) => run_page k2 p' | r => r end.
Proof.
  revert p. induction k1 as [|[pl w|c|pl [items|e]|] k1 IH]; intros p; simpl; try done.
  destruct (show_stream pl items p) as [p' [e|]]; [done|]. apply IH.
Qed.

Lemma show_stream_spawned pl items p : spawned (show_stream pl items p).1 = spawned p.
Proof. revert p. induction items as [|[w|e] items IH]; intros p; simpl; [done|by rewrite IH|done]. Qed.

Lemma run_page_no_spawn k p : no_spawn k -> spawned (run_page k p).1 = spawned p.
Proof.
  intros Hk. revert p. induction Hk as [|[pl w|c|pl [items|e]|] k Hst Hk IH]; intros p; simpl;
    try done; try (rewrite IH; done).
  - pose proof (show_stream_spawned pl items p) as Hs.
    destruct (show_stream pl items p) as [p' [e|]]; simpl in *; [done|]. by rewrite IH.
Qed.

Lemma show_stream_none pl items p : (show_stream pl items p).2 = None <-> forallb is_Ok items = true.
Proof. revert p. induction items as [|[w|e] items IH]; intros p; simpl; [done|apply IH|done]. Qed.

(** A part of the script without [exit()] reaches its end exactly when
    every panel in it shows all its figures. *)
Lemma run_page_finished k p : no_exit k -> (run_page k p).2 = Finished <-> panels_ok k = true.
Proof.
  intros Hk. revert p. induction Hk as [|[pl w|c|pl [items|e]|] k Hst Hk IH]; intros p; simpl;
    try done; try apply IH.
  pose proof (show_stream_none pl items p) as Hs. rewrite andb_true_iff.
  destruct (show_stream pl items p) as [p' [e|]]; simpl in *.
  - split; [done|]. intros [Hi _]. by apply Hs in Hi.
  - rewrite IH, <- Hs. intuition.

Qed.

Lemma run_page_no_exit_raise k pl e p :

  no_exit k -> exists e', (run_page (k ++ [Panel pl (Raise e)]) p).2 = Failed e'.
Proof.
  intros Hk. revert p. induction Hk as [|[pl' w|c|pl' [items|e']|] k Hst Hk IH]; intros p;
    simpl; eauto; try done.
  destruct (show_stream pl' items p) as [p' [e'|]]; simpl; eauto.
Qed.

(** ** Streams of figures *)

Lemma show_stream_oks pl ws rest p :
  show_stream pl ((Ok <$> ws) ++ rest) p = show_stream pl rest (emit_all pl ws p).
Proof.
  revert p. induction ws as [|w ws IH]; intros [sh sp]; simpl.
  - unfold emit_all. simpl. by rewrite app_nil_r.
  - rewrite IH. unfold emit_all, emit. simpl. by rewrite <- app_assoc.
Qed.

Lemma mapM_res_raise_split {A B} (g : A -> res B) l e :
  mapM_res g l = Raise e ->
  exists l1 x l2 ys, l = l1 ++ x :: l2 /\ mapM_res g l1 = Ok ys /\ g x = Raise e.
Proof.
  induction l as [|x l IH]; simpl; [done|]. destruct (g x) as [y|e'] eqn:Hx; simpl.
  - destruct (mapM_res g l) as [ys|e'] eqn:Hl; simpl; [done|]. intros [= ->].
    destruct (IH eq_refl) as (l1 & x' & l2 & ys & -> & Hl1 & Hx').
    exists (x :: l1), x', l2, (y :: ys). simpl. by rewrite Hx, Hl1.
  - intros [= ->]. by exists [], x, l, [].
Qed.

Lemma voltage_stream_ok vars title f fs :
  voltage_facets vars title f = Ok fs ->
  voltage_stream vars title f = Ok ((fun fc => Ok (FacetFigure fc)) <$> fs).
Proof.
  unfold voltage_facets, voltage_stream. destruct (get_col "Voltage" f) as [vs|e]; simpl; [|done].
  intros Hfs%mapM_res_Forall2. f_equal. apply Forall2_fmap_eq.
  eapply Forall2_impl; [exact Hfs|]. simpl. intros v fc ->. done.
Qed.

Lemma stream_ok_one_figure {A} (w : A -> widget) r : stream_ok (one_figure w r) = is_Ok r.
Proof. by destruct r. Qed.

Lemma forallb_is_Ok_mapM {A B C} (g : A -> res B) (h : B -> C) l :
  forallb is_Ok ((fun x => h <$> g x) <$> l) = is_Ok (mapM_res g l).
Proof.
  induction l as [|x l IH]; [done|]. rewrite fmap_cons. cbn [forallb mapM_res].
  destruct (g x); [|done]. rewrite IH. by destruct (mapM_res g l).

Qed.

(** The loop shows every figure exactly when [voltage_facets] returns. *)
Lemma voltage_stream_complete vars title f :
  stream_ok (voltage_stream vars title f) = is_Ok (voltage_facets vars title f).
Proof.
  unfold voltage_stream, voltage_facets. destruct (get_col "Voltage" f); [|done].
  exact (forallb_is_Ok_mapM (voltage_facet vars title f) FacetFigure _).

Qed.

Section Hub.
Context `{OS} `{NumParser} `{AddsTables}.

(** The figure-by-figure panels show everything exactly when the
    panel functions of [Hub] return. *)
Lemma failure_time_stream_ok : stream_ok failure_time_stream = is_Ok failure_time.
Proof.
  unfold failure_time_stream, failure_time, failure_time_of.
  destruct get_master; simpl; [|done]. destruct (failure_time_frame _); simpl; [|done].
  apply voltage_stream_complete.
Qed.

Lemma current_vs_time_stream_ok : stream_ok current_vs_time_stream = is_Ok current_vs_time.
Proof.
  unfold current_vs_time_stream, current_vs_time, current_vs_time_of.
  destruct get_master_current_time; simpl; [|done]. destruct (current_time_frame _); simpl; [|done].
  apply voltage_stream_complete.
Qed.

Lemma hub_page_no_exit exe here file s : no_exit (hub_page exe here file s).
Proof. unfold hub_page, hub_sidebar. destruct (update_clicked s); repeat constructor. Qed.

Lemma hub_page_panels_ok exe here file s :
  panels_ok (hub_page exe here file s) =
    is_Ok (st_rgb_3d (option1 s)) && is_Ok (st_rgb_boxplots (option1 s)) &&
    is_Ok (st_grayscale (option1 s)) && is_Ok failure_time && is_Ok st_scatter &&
    is_Ok st_heatmap && is_Ok st_plot_ph && is_Ok CF_CV && is_Ok current_vs_time && is_Ok see_data.
Proof.
  unfold hub_page, hub_sidebar, hub_column1, hub_column2, hub_see_data, section.
  destruct (update_clicked s); simpl;
    rewrite !stream_ok_one_figure, failure_time_stream_ok, current_vs_time_stream_ok, !andb_true_r;
    by rewrite !andb_assoc.
Qed.


(** The page configuration, the title and the sidebar run to their end,
    starting the cache update when its button was clicked. *)
Lemma hub_prefix_finished exe here file s :
  exists p', run_page ([Emit Main (PageConfig "wide" "IDC Analysis Plotting Hub");
                        Emit Main (Title "IDC Analysis Plotting Hub")] ++ hub_sidebar exe here file s)
               empty_page = (p', Finished) /\
    spawned p' = (if update_clicked s then [hub_update_cache exe here file] else []).
Proof. unfold hub_sidebar. destruct (update_clicked s); eexists; split; reflexivity. Qed.

Lemma hub_panels_no_spawn o : no_spawn (hub_column1 o ++ hub_column2 ++ hub_see_data).
Proof. repeat constructor. Qed.

End Hub.

(** ** Properties of the hub page *)

Section Claims.
Context `{OS} `{NumParser} `{AddsTables}.

(** Every execution of the hub script finishes: the reduction
    relation takes it to a final configuration, which is the page and
    status [run_page] computes, and to no other. *)
Theorem hub_script_terminates exe here file argv s :
  star (Running (hub_script exe here file argv s) empty_page)
    (Halted (run_page (hub_script exe here file argv s) empty_page).1
            (run_page (hub_script exe here file argv s) empty_page).2) /\
  forall p st, star (Running (hub_script exe here file argv s) empty_page) (Halted p st) ->
    (p, st) = run_page (hub_script exe here file argv s) empty_page.
Proof.
  split; [apply run_page_star|]. intros p st Hst.
  destruct (star_halted_unique _ _ _ _ _ Hst (run_page_star (hub_script exe here file argv s) empty_page))
    as [-> ->].
  by destruct (run_page _ _).
Qed.

(** C28: the commands of one execution: without the sentinel the hub
    relaunches itself under Streamlit and exits before showing anything;
    with it, it starts [update_cache.py] exactly when the "Update Cached
    Data" button was clicked, whatever the panels do. *)
Theorem hub_script_commands exe here file argv s :
  (SENTINEL ∉ argv -> run_page (hub_script exe here file argv s) empty_page =
     (mkPage [] [streamlit_relaunch exe here file], Exited)) /\
  (SENTINEL ∈ argv -> spawned (run_page (hub_script exe here file argv s) empty_page).1 =
     (if update_clicked s then [hub_update_cache exe here file] else [])).
Proof.
  unfold hub_script. split; intros Harg.
  - by rewrite bool_decide_eq_false_2.
  - rewrite bool_decide_eq_true_2 by done. unfold hub_page. rewrite app_assoc, run_page_app.
    destruct (hub_prefix_finished exe here file s) as (p' & -> & Hsp).
    by rewrite run_page_no_spawn by apply hub_panels_no_spawn.
Qed.

(** The "Pattern:" select box and the "Apply Filters" button have
    no effect: two executions whose sessions choose the same solution
    and the same cache button render the same page, whatever pattern is
    chosen. *)
Theorem hub_script_ignores_pattern exe here file argv s s' :
  option1 s = option1 s' -> update_clicked s = update_clicked s' ->
  run_page (hub_script exe here file argv s) empty_page = run_page (hub_script exe here file argv s') empty_page.
Proof. intros Ho Hu. unfold hub_script, hub_page, hub_sidebar. by rewrite Ho, Hu. Qed.

(** C29: on a master table without [Brightness Difference], the first
    panel of the second column, the scatter matrix, raises: the page is
    that of the script cut after that panel (the heatmap, pH, CF/CV and
    current-time panels and the "See Data" view are never shown), and the
    run ends with an exception. *)
Theorem hub_page_stops_at_scatter exe here file argv s m :
  SENTINEL ∈ argv -> get_master = Ok m -> "Brightness Difference" ∉ columns m ->
  run_page (hub_script exe here file argv s) empty_page =
    run_page ([Emit Main (PageConfig "wide" "IDC Analysis Plotting Hub");
               Emit Main (Title "IDC Analysis Plotting Hub")] ++ hub_sidebar exe here file s ++
              hub_column1 (option1 s) ++
              section Column2 "Scatterplot Matrix" "Plots a scatterplot matrix for all variable pairs"
                (one_figure Pyplot st_scatter)) empty_page /\
  exists e, (run_page (hub_script exe here file argv s) empty_page).2 = Failed e.
Proof.
  intros Harg Hm Hbd. destruct (select_panel_missing m Hbd) as [c Hc].
  assert (Hsc : st_scatter = Raise (KeyError c)) by (unfold st_scatter; by rewrite Hm, bind_Ok, Hc).
  assert (Hc2 : exists R, hub_column2 =
    section Column2 "Scatterplot Matrix" "Plots a scatterplot matrix for all variable pairs"
      (one_figure Pyplot st_scatter) ++ R) by (eexists; reflexivity).
  destruct Hc2 as [R Hc2]. unfold hub_script. rewrite bool_decide_eq_true_2 by done.
  unfold hub_page. rewrite Hc2, Hsc.
  set (HT := [Emit Column2 (Header "Scatterplot Matrix");
              Emit Column2 (Text "Plots a scatterplot matrix for all variable pairs")]).
  assert (Hsec : section Column2 "Scatterplot Matrix" "Plots a scatterplot matrix for all variable pairs"
                   (one_figure Pyplot (Raise (KeyError c))) = HT ++ [Panel Column2 (Raise (KeyError c))])
    by reflexivity.
  rewrite Hsec, <- (app_assoc (HT ++ _) R hub_see_data).
  generalize (R ++ hub_see_data) as Z. intros Z. rewrite !app_assoc.
  match goal with
  | |- run_page ((?K ++ [Panel ?pl (Raise ?e)]) ++ Z) _ = _ /\ _ =>
      destruct (run_page_no_exit_raise K pl e empty_page) as [e' He];
      [|rewrite run_page_app; destruct (run_page (K ++ [Panel pl (Raise e)]) empty_page) as [p' st]]
  end.
  - unfold no_exit, HT, hub_sidebar, hub_column1, section.
    destruct (update_clicked s); simpl; repeat constructor.
  - simpl in He. subst st. split; [done|]. by exists e'.
Qed.

(** C30: a solution that no board of the master has breaks the whole
    page: the first panel, the 3D plot, filters the master down to no
    row, its pivot has no [R] column and [px.scatter_3d] raises
    [ValueError]; the page shows the configuration, the title, the
    sidebar and the header and text of the 3D section, then the error,
    and nothing of the other eight panels or of See Data. *)
Theorem hub_page_stops_at_rgb_3d exe here file argv s m :
  SENTINEL ∈ argv -> get_master = Ok m ->
  missing_column ("Solution" :: ["Pattern"; "Board ID"; "Sensor"] ++ rgb_age_columns) m = None ->
  filter_col "Solution" (solution_is (option1 s)) m = Ok (mkFrame (columns m) []) ->
  run_page (hub_script exe here file argv s) empty_page =
    run_page ([Emit Main (PageConfig "wide" "IDC Analysis Plotting Hub");
               Emit Main (Title "IDC Analysis Plotting Hub")] ++ hub_sidebar exe here file s ++
              section Column1 "3D RGB Analysis"
                "Maps RGB values to XYZ coordinates to view the average color of all boards, separated by board type and pristine/exposed"
                (one_figure PlotlyChart (st_rgb_3d (option1 s)))) empty_page /\
  (run_page (hub_script exe here file argv s) empty_page).2 =
    Failed (ValueError "Value of 'x' is not the name of a column in 'data_frame'. Received: R").
Proof.
  intros Harg Hm Hcols Hsol. unfold hub_script. rewrite bool_decide_eq_true_2 by done.
  unfold hub_page, hub_column1. rewrite (st_rgb_3d_no_board m (option1 s)) by done.
  destruct (hub_prefix_finished exe here file s) as (p' & Hp & _).
  rewrite !(app_assoc [_; _] (hub_sidebar exe here file s)), !(run_page_app ([_; _] ++ hub_sidebar exe here file s)), Hp. done.
Qed.

(** C34: the execution of the hub eventually reaches the end of the
    script, with the "See Data" view shown, exactly when every panel
    function returns normally: the three image-analysis panels for the
    chosen solution, [failure_time], the scatter matrix, the heatmap,
    the pH plot, [CF_CV], [current_vs_time] and the read of See Data.
    A single exception anywhere keeps the page from completing. *)
Theorem hub_page_completes exe here file argv s :
  SENTINEL ∈ argv ->
  (exists p, star (Running (hub_script exe here file argv s) empty_page) (Halted p Finished)) <->
  is_Ok (st_rgb_3d (option1 s)) && is_Ok (st_rgb_boxplots (option1 s)) &&
  is_Ok (st_grayscale (option1 s)) && is_Ok failure_time && is_Ok st_scatter &&
  is_Ok st_heatmap && is_Ok st_plot_ph && is_Ok CF_CV && is_Ok current_vs_time &&
  is_Ok see_data = true.
Proof.
  intros Harg. unfold hub_script. rewrite bool_decide_eq_true_2 by done.
  rewrite <- (hub_page_panels_ok exe here file s),
    <- (run_page_finished _ empty_page) by apply hub_page_no_exit.

  split.
  - intros [p Hst%star_halted_iff]. by rewrite Hst.
  - intros Hf. exists (run_page (hub_page exe here file s) empty_page).1.
    apply star_halted_iff. rewrite <- Hf. by destruct (run_page _ _).
Qed.

(** C35: the per-voltage loops of [failure_time] and [current_vs_time]
    show their figures one by one: when [voltage_facets] returns the
    figures [fs], the page shows exactly [fs]; when it raises [e], the
    page shows the figures of the distinct voltages [vs1] before the
    first failing voltage [v] (the figures [voltage_facets] builds for
    them), then the exception of [v], and the run ends; when the table
    has no [Voltage] column, only the exception is shown. *)
Theorem voltage_loop_display pl vars title f p :
  (forall fs, voltage_facets vars title f = Ok fs ->
     run_page [Panel pl (voltage_stream vars title f)] p =
       (emit_all pl (FacetFigure <$> fs) p, Finished)) /\
  (forall e, voltage_facets vars title f = Raise e ->
     exists vs1 fs1, mapM_res (voltage_facet vars title f) vs1 = Ok fs1 /\
       ((get_col "Voltage" f = Raise e /\ vs1 = []) \/
        (exists vs v rest, get_col "Voltage" f = Ok vs /\ py_unique vs = vs1 ++ v :: rest /\
           voltage_facet vars title f v = Raise e)) /\
       run_page [Panel pl (voltage_stream vars title f)] p =
         (emit pl (ErrorBox e) (emit_all pl (FacetFigure <$> fs1) p), Failed e)).
Proof.
  split.
  - intros fs Hfs. rewrite (voltage_stream_ok _ _ _ _ Hfs).
    replace ((fun fc => Ok (FacetFigure fc)) <$> fs) with ((Ok <$> (FacetFigure <$> fs)) ++ [])
      by (rewrite app_nil_r, <- list_fmap_compose; done).
    simpl. rewrite show_stream_oks. done.
  - intros e. unfold voltage_facets, voltage_stream. destruct (get_col "Voltage" f) as [vs|e'] eqn:Hv;
      simpl; intros He.
    + destruct (mapM_res_raise_split _ _ _ He) as (l1 & x & l2 & ys & Hl & Hl1 & Hx).
      exists l1, ys. split; [done|]. split; [right; by exists vs, x, l2|].
      rewrite Hl, fmap_app. simpl. rewrite Hx.
      apply mapM_res_Forall2 in Hl1.
      replace ((fun v => FacetFigure <$> voltage_facet vars title f v) <$> l1)
        with (Ok <$> (FacetFigure <$> ys)).
      * rewrite show_stream_oks. done.
      * rewrite <- list_fmap_compose. symmetry. apply Forall2_fmap_eq.
        eapply Forall2_impl; [exact Hl1|]. simpl. intros v fc ->. done.
    + injection He as ->. exists [], []. split; [done|]. split; [by left|].
      unfold emit_all. simpl. rewrite app_nil_r. by destruct p.
Qed.

(** The page model of [app.py] refines the launcher model of
    [App]: an execution of the Streamlit script starts exactly the
    commands [run_app] gives (the relaunch without the sentinel; with
    it, the script of the clicked button in the repository directory,
    waiting only for the cache update), and it ends with [exit()]
    without the sentinel and at the end of the script with it. *)
Theorem app_script_refines exe here file argv clicked :
  spawned (run_page (app_script exe here file argv clicked) empty_page).1 =
    run_app exe here file argv clicked /\
  (run_page (app_script exe here file argv clicked) empty_page).2 =
    (if bool_decide (SENTINEL ∈ argv) then Finished else Exited).
Proof.
  unfold app_script, run_app. destruct (bool_decide _); [|done].
  destruct clicked as [[]|]; split; reflexivity.
Qed.

End Claims.

(** ** Witnesses *)

Lemma hub_script_commands_witness :
  spawned (run_page (@hub_script demo_analysis_os decimal_parser reads_adds_tables
    "python" "/srv/IDC/Analysis" "streamlit_app.py" demo_argv demo_session) empty_page).1 =
    [hub_update_cache "python" "/srv/IDC/Analysis" "streamlit_app.py"] /\
  run_page (@hub_script demo_analysis_os decimal_parser reads_adds_tables
    "python" "/srv/IDC/Analysis" "streamlit_app.py" ["streamlit_app.py"] demo_session) empty_page =
    (mkPage [] [streamlit_relaunch "python" "/srv/IDC/Analysis" "streamlit_app.py"], Exited).
Proof.
  split.
  - apply (proj2 (@hub_script_commands demo_analysis_os decimal_parser reads_adds_tables
      "python" "/srv/IDC/Analysis" "streamlit_app.py" demo_argv demo_session)).
    apply list_elem_of_In. simpl. tauto.
  - apply (proj1 (@hub_script_commands demo_analysis_os decimal_parser reads_adds_tables
      "python" "/srv/IDC/Analysis" "streamlit_app.py" ["streamlit_app.py"] demo_session)).
    intros Hin%list_elem_of_In. simpl in Hin. intuition discriminate.
Defined.

Lemma hub_script_ignores_pattern_witness :
  run_page (@hub_script demo_analysis_os decimal_parser reads_adds_tables
    "python" "/srv/IDC/Analysis" "streamlit_app.py" demo_argv demo_session) empty_page =
  run_page (@hub_script demo_analysis_os decimal_parser reads_adds_tables
    "python" "/srv/IDC/Analysis" "streamlit_app.py" demo_argv (mkSession "DI Water" "10" true true))
    empty_page.
Proof. apply hub_script_ignores_pattern; reflexivity. Defined.

Lemma hub_page_stops_at_scatter_witness :
  exists e, (run_page (@hub_script demo_analysis_os decimal_parser reads_adds_tables
    "python" "/srv/IDC/Analysis" "streamlit_app.py" demo_argv demo_session) empty_page).2 = Failed e.
Proof.
  apply (proj2 (@hub_page_stops_at_scatter demo_analysis_os decimal_parser reads_adds_tables
    "python" "/srv/IDC/Analysis" "streamlit_app.py" demo_argv demo_session demo_full_master
    ltac:(apply list_elem_of_In; simpl; tauto) ltac:(vm_compute; reflexivity)
    ltac:(intros Hin%list_elem_of_In; simpl in Hin; intuition discriminate))).
Defined.

Lemma voltage_loop_display_witness :
  exists vs1 fs1, mapM_res (voltage_facet ([], []) current_title demo_volts) vs1 = Ok fs1 /\
    ((get_col "Voltage" demo_volts = Raise (ValueError "cannot convert float NaN to integer") /\ vs1 = []) \/
     (exists vs v rest, get_col "Voltage" demo_volts = Ok vs /\ py_unique vs = vs1 ++ v :: rest /\
        voltage_facet ([], []) current_title demo_volts v = Raise (ValueError "cannot convert float NaN to integer"))) /\
    run_page [Panel Column2 (voltage_stream ([], []) current_title demo_volts)] empty_page =
      (emit Column2 (ErrorBox (ValueError "cannot convert float NaN to integer"))
         (emit_all Column2 (FacetFigure <$> fs1) empty_page), Failed (ValueError "cannot convert float NaN to integer")).
Proof.
  apply (proj2 (voltage_loop_display Column2 ([], []) current_title demo_volts empty_page)).
  vm_compute. reflexivity.
Defined.

Lemma hub_page_completes_witness :
  ~ exists p, star (Running (@hub_script demo_analysis_os decimal_parser reads_adds_tables
      "python" "/srv/IDC/Analysis" "streamlit_app.py" demo_argv demo_session) empty_page) (Halted p Finished).
Proof.
  intros Hx. apply (@hub_page_completes demo_analysis_os decimal_parser reads_adds_tables
    "python" "/srv/IDC/Analysis" "streamlit_app.py" demo_argv demo_session) in Hx;
    [vm_compute in Hx; discriminate|].
  apply list_elem_of_In. simpl. tauto.
Defined.

Lemma hub_page_stops_at_rgb_3d_witness :
  (run_page (@hub_script demo_analysis_os decimal_parser reads_adds_tables
    "python" "/srv/IDC/Analysis" "streamlit_app.py" demo_argv (mkSession "Succinic 20mM" "1" false false))
    empty_page).2 =
    Failed (ValueError "Value of 'x' is not the name of a column in 'data_frame'. Received: R").
Proof.
  apply (proj2 (@hub_page_stops_at_rgb_3d demo_analysis_os decimal_parser reads_adds_tables
    "python" "/srv/IDC/Analysis" "streamlit_app.py" demo_argv (mkSession "Succinic 20mM" "1" false false)
    demo_full_master ltac:(apply list_elem_of_In; simpl; tauto) ltac:(vm_compute; reflexivity)
    ltac:(vm_compute; reflexivity) ltac:(vm_compute; reflexivity))).
Defined.

End Page.
