(* ===== verification/Files.v ===== *)
(** * Files: the files the hub reads

    The hub [src/Analysis/streamlit_app.py] runs under Streamlit in
    [Analysis/], the [cwd] of its relaunch, and imports the loaders of
    [Analysis/reads.py].  Its panels read the file system themselves
    only through [get_master] and the See Data read of line 485; both
    resolve to the master list at the root of the checkout.  The
    CF/CV and current-time panels take two more tables from the absent
    [adds] module, which may read files of its own; here [adds] is any
    function of the process's operating system to [AddsTables].  This
    file states the frame of the page: two file systems that agree on
    the master list, and on which [adds] gives the same two tables,
    give the same run, whatever else they hold, in particular whatever
    [master_cached.csv] (the snapshot the "Update Cached Data" button
    refreshes) holds.

    Agreement of two file systems on a set of paths is the relation
    [fs_agree_on], an equivalence, in the style of the pointwise
    equality of maps and of the agreement on observable state that
    noninterference arguments use. *)
From Stdlib Require Import String.
From stdpp Require Import gmap.
From S2P Require Import Prelude PyStr PyPath Frame GroupBy Pivot Reads App Analysis Hub Page.

Module Files.
Import PyStr PyPath Frame Reads App Analysis Hub Page.

(** ** Agreement of file systems *)

(** [fs1] and [fs2] hold the same entries at the paths [ks]. *)
Definition fs_agree_on (ks : list string) (fs1 fs2 : gmap string fs_entry) : Prop :=
  forall k, k ∈ ks -> fs1 !! k = fs2 !! k.

(** The process of the hub in a checkout at [/cs]: its current
    directory is [/cs/Analysis] (the [cwd=repo_dir] of the relaunch,
    lines 16-26) and [reads.py] is [/cs/Analysis/reads.py], the module
    the hub's [sys.path.insert] of line 6 makes importable. *)
Definition hub_os (cs : list string) (fs : gmap string fs_entry) : OS :=
  fs_os (abs_of (cs ++ ["Analysis"])) (abs_of (cs ++ ["Analysis"; "reads.py"])) fs.

(** The master list of the checkout. *)
Definition master_key (cs : list string) : string := abs_of (cs ++ [master_file]).

(** ** Fixtures for the witnesses *)

(** A checkout at [/srv/IDC] holding the master list, and the same
    checkout after a refresh of the cached snapshot and with a
    current-time table. *)
Definition demo_cs : list string := ["srv"; "IDC"].

Definition demo_hub_fs : gmap string fs_entry :=
  list_to_map [("/srv/IDC/IDCSubmersionMasterlist_20250505.csv", CsvFile demo_full_master)].

Definition demo_hub_fs_refreshed : gmap string fs_entry :=
  <["/srv/IDC/CurrentTime/S1.csv" := CsvFile demo_current]>
    (<["/srv/IDC/master_cached.csv" := CsvFile demo_master]> demo_hub_fs).

(** An [adds] module for the witnesses that reads its tables with the
    loaders of [reads.py], from the process's current directory. *)
Definition demo_adds (os : OS) : AddsTables := {|
  get_master_cf_or_cv n := @get_cf_or_cv os decimal_parser (VStr n);
  get_master_current_time := @get_current_time os decimal_parser "S1.csv"
|}.

(** ** Lemmas *)

#[global] Instance fs_agree_on_equiv ks : Equivalence (fs_agree_on ks).
Proof.
  split.
  - intros fs k _. reflexivity.
  - intros fs1 fs2 H k Hk. symmetry. by apply H.
  - intros fs1 fs2 fs3 H12 H23 k Hk. by rewrite H12, H23.
Qed.

Lemma fs_agree_on_lookup ks fs1 fs2 k : fs_agree_on ks fs1 fs2 -> k ∈ ks -> fs1 !! k = fs2 !! k.
Proof. auto. Qed.

Lemma fs_read_csv_agree cwd fs1 fs2 p :
  fs1 !! abspath cwd p = fs2 !! abspath cwd p -> fs_read_csv cwd fs1 p = fs_read_csv cwd fs2 p.
Proof. unfold fs_read_csv. by intros ->. Qed.

(** The page depends on the operating system only through [get_master],
    the See Data read and the two tables of [adds]. *)
Lemma hub_script_os (os1 os2 : OS) `{NumParser} (a1 a2 : AddsTables) exe here file argv s :
  @get_master os1 _ = @get_master os2 _ -> @see_data os1 = @see_data os2 ->
  @get_master_cf_or_cv a1 "CF" = @get_master_cf_or_cv a2 "CF" ->
  @get_master_cf_or_cv a1 "CV" = @get_master_cf_or_cv a2 "CV" ->
  @get_master_current_time a1 = @get_master_current_time a2 ->
  @hub_script os1 _ a1 exe here file argv s = @hub_script os2 _ a2 exe here file argv s.
Proof.
  intros Hm Hs Hcf Hcv Hct. destruct a1, a2. simpl in Hcf, Hcv, Hct.
  unfold hub_script, hub_page, hub_column1, hub_column2, hub_see_data, failure_time_stream,
    current_vs_time_stream, CF_CV, st_rgb_3d, st_rgb_3d_long, st_rgb_boxplots, st_grayscale,
    st_scatter, st_heatmap, st_plot_ph.
  cbn [get_master_cf_or_cv get_master_current_time]. by rewrite Hm, Hs, Hcf, Hcv, Hct.
Qed.

Lemma hub_master_path cs fs :
  Forall (fun c => clean_component c = true) (cs ++ ["Analysis"]) ->
  abspath (abs_of (cs ++ ["Analysis"])) (@master_path (hub_os cs fs)) = master_key cs.
Proof. apply master_path_abs. Qed.

Lemma hub_get_master `{NumParser} cs fs1 fs2 :
  Forall (fun c => clean_component c = true) (cs ++ ["Analysis"]) ->
  fs1 !! master_key cs = fs2 !! master_key cs ->
  @get_master (hub_os cs fs1) _ = @get_master (hub_os cs fs2) _.
Proof.
  intros Hall Hk. unfold get_master. cbn [read_csv hub_os fs_os].
  rewrite (fs_read_csv_agree _ fs1 fs2); [done|].
  change (@master_path (hub_os cs fs1)) with (@master_path (hub_os cs fs2)).
  by rewrite (hub_master_path cs fs2 Hall).
Qed.

Lemma hub_see_data_read cs fs1 fs2 :
  Forall (fun c => clean_component c = true) (cs ++ ["Analysis"]) ->
  fs1 !! master_key cs = fs2 !! master_key cs ->
  @see_data (hub_os cs fs1) = @see_data (hub_os cs fs2).
Proof.
  intros Hall Hk. unfold see_data. cbn [read_csv hub_os fs_os].
  apply fs_read_csv_agree. by rewrite see_data_path_abs.
Qed.

(** ** Properties *)

Section Claims.
Context `{NumParser}.

(** C33: the hub reads nothing of the file system itself but the master
    list of the checkout.  Let [adds] give the tables of the absent
    [adds] module from the process's operating system.  Two file systems
    that hold the same entry at
    [/cs/IDCSubmersionMasterlist_20250505.csv], and on which [adds]
    returns the same CF, CV and current-time tables (the three calls of
    lines 331, 332 and 437), give the same run of the page (what is
    shown, what is started, how it ends), whatever other files they
    hold. *)
Theorem hub_page_frame (adds : OS -> AddsTables) cs fs1 fs2 exe here file argv s :
  Forall (fun c => clean_component c = true) (cs ++ ["Analysis"]) ->
  fs_agree_on [master_key cs] fs1 fs2 ->
  @get_master_cf_or_cv (adds (hub_os cs fs1)) "CF" = @get_master_cf_or_cv (adds (hub_os cs fs2)) "CF" ->
  @get_master_cf_or_cv (adds (hub_os cs fs1)) "CV" = @get_master_cf_or_cv (adds (hub_os cs fs2)) "CV" ->
  @get_master_current_time (adds (hub_os cs fs1)) = @get_master_current_time (adds (hub_os cs fs2)) ->
  run_page (@hub_script (hub_os cs fs1) _ (adds (hub_os cs fs1)) exe here file argv s) empty_page =
  run_page (@hub_script (hub_os cs fs2) _ (adds (hub_os cs fs2)) exe here file argv s) empty_page.
Proof.
  intros Hall Hagree Hcf Hcv Hct. assert (Hk : fs1 !! master_key cs = fs2 !! master_key cs)
    by (apply Hagree; by apply list_elem_of_singleton).
  by rewrite (hub_script_os (hub_os cs fs1) (hub_os cs fs2) (adds (hub_os cs fs1)) (adds (hub_os cs fs2)))
    by (done || by apply hub_get_master || by apply hub_see_data_read).
Qed.

End Claims.

(** ** Witnesses *)

Lemma hub_page_frame_witness :
  run_page (@hub_script (hub_os demo_cs demo_hub_fs) decimal_parser (demo_adds (hub_os demo_cs demo_hub_fs))
    "python" "/srv/IDC/Analysis" "streamlit_app.py" demo_argv demo_session) empty_page =
  run_page (@hub_script (hub_os demo_cs demo_hub_fs_refreshed) decimal_parser
    (demo_adds (hub_os demo_cs demo_hub_fs_refreshed))
    "python" "/srv/IDC/Analysis" "streamlit_app.py" demo_argv demo_session) empty_page.
Proof.
  apply (@hub_page_frame decimal_parser demo_adds demo_cs demo_hub_fs demo_hub_fs_refreshed).
  - repeat constructor.
  - intros k ->%list_elem_of_singleton. vm_compute. reflexivity.
  - vm_compute. reflexivity.
  - vm_compute. reflexivity.
  - vm_compute. reflexivity.
Defined.

End Files.
