(* ===== verification/Imports.v ===== *)
(** * Imports: the prologues of the scripts and where [import adds] looks

    Every analysis script and the hub begin with [import] statements,
    and all of them import [adds], the module of the loaders.  Python
    looks a module up in the directories of [sys.path], in order,
    after its built-in modules:
    - [python <script>] puts the directory of the script first, then
      the site directories (the standard library and the installed
      packages); this is how [app.py]'s buttons start the analysis
      scripts, from the repository directory;
    - [python -m streamlit run <script>] puts the current directory
      first and Streamlit then inserts the script's directory before it;
    - the hub itself inserts its own directory at line 6, before its
      [import adds] at line 10.
    In a directory [d], [import m] finds a package [d/m/__init__.py] or
    a module [d/m.py]; a dotted name [a.b] is looked up as [b] in the
    directory of the package [a].  Namespace packages, compiled and
    extension modules and [.pth] files are not modelled.

    A script then runs its body with the [adds] it found: the loaders
    locate the repository from that module's [__file__], so the body is
    the model of [Analysis] under the operating system whose
    [module_file] is the path [import adds] resolved to. *)
From Stdlib Require Import String Ascii.
From stdpp Require Import gmap.
From S2P Require Import Prelude PyStr PyPath Frame GroupBy Pivot Reads App Analysis Hub Page.

Module Imports.
Import PyStr PyPath Frame Reads App Analysis Hub Page.

(** ** Module lookup *)

(** The modules compiled into the interpreter, found before [sys.path]. *)
Definition builtin_modules : list string := ["sys"].

(** [import m] in the directory [d]: the file of a package
    [d/m/__init__.py] (marked [true]) or of a module [d/m.py]. *)
Definition module_in (fs : gmap string fs_entry) (d m : string) : option (string * bool) :=
  let pkg := join (join d m) "__init__.py" in
  let md := join d (String.append m ".py") in
  if bool_decide (is_Some (fs !! normpath pkg)) then Some (pkg, true)
  else if bool_decide (is_Some (fs !! normpath md)) then Some (md, false)
  else None.

(** The first directory of a search path that holds [m]. *)
Fixpoint find_spec (fs : gmap string fs_entry) (m : string) (path : list string) : option (string * bool) :=
  match path with
  | [] => None
  | d :: ds => match module_in fs d m with Some r => Some r | None => find_spec fs m ds end
  end.

Definition no_module (name : string) : py_exc :=
  ModuleNotFoundError (String.append "No module named '" (String.append name "'")).

Definition dotted (prefix m : string) : string :=
  if bool_decide (prefix = EmptyString) then m else String.append prefix (String.append "." m).

(** [import a.b.c] with the components [parts], searched in [path]
    (the [__path__] of the package [prefix] after the first one); the
    result is the file of the last module, its [__file__]. *)
Fixpoint import_parts (fs : gmap string fs_entry) (path : list string) (prefix : string)
    (parts : list string) : res string :=
  match parts with
  | [] => Raise (no_module prefix)
  | m :: rest =>
      let name := dotted prefix m in
      match find_spec fs m path, rest with
      | None, _ => Raise (no_module name)
      | Some (p, _), [] => Ok p
      | Some (p, true), _ => import_parts fs [dirname p] name rest
      | Some (p, false), m' :: _ =>
          Raise (ModuleNotFoundError (String.append "No module named '" (String.append (dotted name m')
            (String.append "'; '" (String.append name "' is not a package")))))
      end
  end.

(** [import name]; a built-in module is always there and has no file. *)
Definition import_module (fs : gmap string fs_entry) (path : list string) (name : string) : res string :=
  if bool_decide (name ∈ builtin_modules) then Ok name
  else import_parts fs path EmptyString (str_split "."%char name).

(** A sequence of [import] statements, stopping at the first failure. *)
Fixpoint run_imports (fs : gmap string fs_entry) (path : list string) (names : list string) : res unit :=
  match names with
  | [] => Ok tt
  | n :: ns => _ ← import_module fs path n; run_imports fs path ns
  end.

(** ** [sys.path] *)

(** [python <script>] started in [cwd]. *)
Definition python_sys_path (cwd script : string) (site : list string) : list string :=
  dirname (abspath cwd script) :: site.

(** [python -m streamlit run <script>] started in [cwd]. *)
Definition streamlit_sys_path (cwd script : string) (site : list string) : list string :=
  dirname (abspath cwd script) :: cwd :: site.

(** ** The prologues *)

(** [Analysis/grayscale_boxplots.py], lines 2-6 *)
Definition grayscale_imports : list string :=
  ["adds"; "seaborn"; "matplotlib"; "matplotlib.pyplot"; "pandas"].

(** [Analysis/rgb_boxplots.py], lines 1-5 *)
Definition rgb_boxplots_imports : list string :=
  ["adds"; "pandas"; "seaborn"; "matplotlib"; "matplotlib.pyplot"].

(** [Analysis/corr_heatmap.py], lines 1-4 *)
Definition corr_heatmap_imports : list string := ["adds"; "seaborn"; "matplotlib"; "matplotlib.pyplot"].

(** [Analysis/rgb_3d.py], lines 1-2 *)
Definition rgb_3d_imports : list string := ["adds"; "plotly.express"].

(** [Individual Plots/scatterplot_matrix.py], lines 2-5 *)
Definition scatterplot_matrix_imports : list string := ["pandas"; "adds"; "matplotlib"; "matplotlib.pyplot"].

(** [Individual Plots/Ph_Plots.py], lines 2-5 *)
Definition ph_plots_imports : list string := ["seaborn"; "matplotlib"; "matplotlib.pyplot"; "adds"].

(** [Analysis/streamlit_app.py], lines 1-4, before the [sys.path]
    insertion of line 6 ... *)
Definition hub_imports_before : list string := ["streamlit"; "subprocess"; "sys"; "os"].

(** ... and lines 8-12, after it. *)
Definition hub_imports_after : list string :=
  ["pandas"; "seaborn"; "adds"; "matplotlib.pyplot"; "plotly.express"].

(** Lines 1-12 of the hub in the search path [path]: line 6 inserts the
    hub's own directory. *)
Definition hub_prologue (fs : gmap string fs_entry) (cwd file : string) (path : list string) : res unit :=
  _ ← run_imports fs path hub_imports_before;
  run_imports fs (dirname (abspath cwd file) :: path) hub_imports_after.

(** ** A script started by [python] *)

(** The process [python <script>] in [cwd]: the prologue, then the body
    with the [adds] module the prologue imported ([sys.modules] gives
    the same module to every later [adds.] lookup). *)
Definition run_script {A} (fs : gmap string fs_entry) (site : list string) (cwd script : string)
    (imports : list string) (body : OS -> res A) : res A :=
  let path := python_sys_path cwd script site in
  _ ← run_imports fs path imports;
  adds ← import_module fs path "adds";
  body (fs_os cwd adds fs).

(** The scripts [app.py]'s buttons start, with their prologue and body;
    [None] for the five buttons whose script is not in [Analysis/]. *)
Definition button_program `{NumParser} (b : button)
    : option (list string * (OS -> res plot)) :=
  match b with
  | RGB3D => Some (rgb_3d_imports, fun os => @rgb_3d os _)
  | RGBBoxPlots => Some (rgb_boxplots_imports, fun os => @rgb_boxplots os _)
  | GrayscaleBoxPlots => Some (grayscale_imports, fun os => @grayscale_boxplots os _)
  | CorrelationHeatmap => Some (corr_heatmap_imports, fun os => @corr_heatmap os _)
  | _ => None
  end.

(** ** The hub as a Python module *)

(** One execution of [streamlit_app.py] with the search path [path]
    ([python_sys_path] when the user starts it, [streamlit_sys_path]
    when Streamlit runs it), in the current directory [here]: lines 1-12
    first, whose [import] of a missing module ends the process before
    anything is shown or started; then the script of [Page] with the
    loaders of the [adds] it imported. *)
Definition hub_process `{NumParser} `{AddsTables} (fs : gmap string fs_entry) (exe here file : string)
    (path argv : list string) (s : session) : page * status :=
  match hub_prologue fs here file path with
  | Raise e => (empty_page, Failed e)
  | Ok _ =>
      match import_module fs (dirname (abspath here file) :: path) "adds" with
      | Ok adds => run_page (@hub_script (fs_os here adds fs) _ _ exe here file argv s) empty_page
      | Raise e => (empty_page, Failed e)
      end
  end.

(** ** Fixtures for the witnesses *)

(** A checkout at [/srv/IDC] with its master list, the site directory
    of the installed packages, and the same checkout with an
    [Analysis/adds.py]. *)
Definition demo_site : list string := ["/usr/lib/python3.11"; "/usr/lib/python3/dist-packages"].

Definition demo_checkout_fs : gmap string fs_entry :=
  list_to_map [("/srv/IDC/IDCSubmersionMasterlist_20250505.csv", CsvFile demo_full_master);
               ("/usr/lib/python3/dist-packages/seaborn/__init__.py", Unreadable);
               ("/usr/lib/python3/dist-packages/matplotlib/__init__.py", Unreadable);
               ("/usr/lib/python3/dist-packages/matplotlib/pyplot.py", Unreadable);
               ("/usr/lib/python3/dist-packages/pandas/__init__.py", Unreadable);
               ("/usr/lib/python3/dist-packages/streamlit/__init__.py", Unreadable);
               ("/usr/lib/python3/dist-packages/plotly/__init__.py", Unreadable);
               ("/usr/lib/python3/dist-packages/plotly/express/__init__.py", Unreadable);
               ("/usr/lib/python3.11/os.py", Unreadable);
               ("/usr/lib/python3.11/subprocess.py", Unreadable)].

Definition demo_checkout_fs_adds : gmap string fs_entry :=
  <["/srv/IDC/Analysis/adds.py" := Unreadable]> demo_checkout_fs.

(** ** Lemmas *)

(** [os.path.join] of a clean absolute directory and a clean relative
    path. *)
Lemma join_abs_of_rel xs ys :
  ys <> [] -> Forall (fun c => clean_component c = true) (xs ++ ys) ->
  starts_with_sep (str_join SEP ys) = false ->
  join (abs_of xs) (str_join SEP ys) = abs_of (xs ++ ys).
Proof.
  intros Hys Hall Hs. apply Forall_app in Hall as [Hxs Hys'].
  destruct xs as [|x xs].
  - unfold join. by rewrite Hs.
  - rewrite join_abs_of by done. by apply abs_of_app.
Qed.

(** The directory of a script [d/n] given relative to a clean
    absolute directory. *)
Lemma rel_script_dir cs d n :
  Forall (fun c => clean_component c = true) (cs ++ [d; n]) ->
  starts_with_sep (str_join SEP [d; n]) = false ->
  dirname (abspath (abs_of cs) (str_join SEP [d; n])) = abs_of (cs ++ [d]).
Proof.
  intros Hall Hs. unfold abspath, isabs. rewrite Hs, join_abs_of_rel by done.
  rewrite normpath_abs_of by (done || by destruct cs).
  replace (cs ++ [d; n]) with ((cs ++ [d]) ++ [n]) in * by by rewrite <- app_assoc.
  by apply dirname_abs_of.
Qed.

(** [adds] in a clean directory: the package, or the module file. *)
Lemma module_in_adds fs xs :
  Forall (fun c => clean_component c = true) xs ->
  module_in fs (abs_of xs) "adds" =
    if bool_decide (is_Some (fs !! abs_of (xs ++ ["adds"; "__init__.py"])))
    then Some (abs_of (xs ++ ["adds"; "__init__.py"]), true)
    else if bool_decide (is_Some (fs !! abs_of (xs ++ ["adds.py"])))
    then Some (abs_of (xs ++ ["adds.py"]), false) else None.
Proof.
  intros Hxs. unfold module_in.
  assert (Ha : Forall (fun c => clean_component c = true) (xs ++ ["adds"])) by (apply Forall_app; auto).
  assert (Hi : Forall (fun c => clean_component c = true) ((xs ++ ["adds"]) ++ ["__init__.py"]))
    by (apply Forall_app; auto).
  assert (Hp : Forall (fun c => clean_component c = true) (xs ++ ["adds.py"])) by (apply Forall_app; auto).
  change (String.append "adds" ".py") with "adds.py".
  rewrite (join_abs_of_clean xs "adds"), (join_abs_of_clean (xs ++ ["adds"]) "__init__.py"),
    (join_abs_of_clean xs "adds.py") by done.
  rewrite !normpath_abs_of by (done || by destruct xs).
  by rewrite <- app_assoc.
Qed.

Lemma find_spec_none fs m site :
  Forall (fun d => module_in fs d m = None) site -> find_spec fs m site = None.
Proof. induction 1 as [|d ds Hd _ IH]; simpl; [done|]. by rewrite Hd. Qed.

(** [import adds] in the search path [d :: site]. *)
Lemma import_adds fs d site :
  import_module fs (d :: site) "adds" =
    match find_spec fs "adds" (d :: site) with
    | Some (p, _) => Ok p
    | None => Raise (no_module "adds")
    end.
Proof.
  unfold import_module. rewrite bool_decide_eq_false_2 by (unfold builtin_modules; by rewrite list_elem_of_singleton).
  change (str_split "."%char "adds") with ["adds"]. cbn [import_parts].
  by destruct (find_spec fs "adds" (d :: site)) as [[p []]|].
Qed.

Lemma run_imports_app fs path l1 l2 :
  run_imports fs path (l1 ++ l2) = (_ ← run_imports fs path l1; run_imports fs path l2).
Proof.
  induction l1 as [|n l1 IH]; simpl; [done|]. rewrite IH.
  by destruct (import_module fs path n); simpl; [destruct (run_imports fs path l1)|].
Qed.

Lemma dirname_abspath_abs here xs f :
  Forall (fun c => clean_component c = true) (xs ++ [f]) ->
  dirname (abspath here (abs_of (xs ++ [f]))) = abs_of xs.
Proof.
  intros Hall. rewrite abspath_isabs by done.
  rewrite normpath_abs_of by (done || by destruct xs). by apply dirname_abs_of.
Qed.

(** No [adds] in a clean directory and in the search path: the import fails. *)
Lemma import_adds_missing fs xs path :
  Forall (fun c => clean_component c = true) xs ->
  fs !! abs_of (xs ++ ["adds.py"]) = None -> fs !! abs_of (xs ++ ["adds"; "__init__.py"]) = None ->
  Forall (fun d => module_in fs d "adds" = None) path ->
  import_module fs (abs_of xs :: path) "adds" = Raise (no_module "adds").
Proof.
  intros Hxs Hm Hp Hpath. rewrite import_adds. cbn [find_spec]. rewrite module_in_adds by done.
  rewrite Hm, Hp, !bool_decide_eq_false_2 by (by intros []). by rewrite find_spec_none.
Qed.

(** The scripts of [app.py]'s buttons are [Analysis/<name>.py] and
    import [adds] first. *)
Lemma button_program_shape `{NumParser} b imps body :
  button_program b = Some (imps, body) ->
  exists name rest, button_script b = str_join SEP ["Analysis"; name] /\
    clean_component name = true /\ imps = "adds" :: rest.
Proof. destruct b; intros [=]; subst; eexists _, _; (split; [reflexivity|split; reflexivity]). Qed.

(** The scripts of [Individual Plots/] search [adds] in their own
    directory: an [adds] of [Analysis/], where the hub and the buttons'
    scripts find it, is not visible to them. *)
Lemma individual_plots_miss_analysis_adds fs cs n here site :
  Forall (fun c => clean_component c = true) (cs ++ ["Individual Plots"; n]) ->
  fs !! abs_of (cs ++ ["Individual Plots"; "adds.py"]) = None ->
  fs !! abs_of (cs ++ ["Individual Plots"; "adds"; "__init__.py"]) = None ->
  Forall (fun d => module_in fs d "adds" = None) site ->
  import_module fs (python_sys_path here (abs_of (cs ++ ["Individual Plots"; n])) site) "adds" =
    Raise (no_module "adds").
Proof.
  intros Hall Hm Hp Hsite. unfold python_sys_path.
  replace (cs ++ ["Individual Plots"; n]) with ((cs ++ ["Individual Plots"]) ++ [n]) in *
    by by rewrite <- app_assoc.
  rewrite dirname_abspath_abs by done.
  apply import_adds_missing; [|by rewrite <- app_assoc..|done].
  apply Forall_app in Hall as [? _]. done.
Qed.

(** ** Properties *)

(** C32: a button of [app.py] whose script exists starts
    [python Analysis/<name>.py] in the checkout [/cs]; that process
    looks [adds] up in [/cs/Analysis] before the site directories.
    Without [Analysis/adds.py] (and without [adds] installed) it stops
    at its first line with [ModuleNotFoundError], before reading any
    file; with it, it runs the rest of its prologue and then its body,
    with the loaders locating the repository from
    [/cs/Analysis/adds.py]. *)
Theorem button_script_imports `{NumParser} cs fs site exe here argv b imps body script dir blk :
  Forall (fun c => clean_component c = true) (cs ++ ["app.py"]) -> SENTINEL ∈ argv ->
  run_app exe here (abs_of (cs ++ ["app.py"])) argv (Some b) = [mkCmd [exe; script] dir blk] ->
  button_program b = Some (imps, body) ->
  fs !! abs_of (cs ++ ["Analysis"; "adds"; "__init__.py"]) = None ->
  (fs !! abs_of (cs ++ ["Analysis"; "adds.py"]) = None ->
   Forall (fun d => module_in fs d "adds" = None) site ->
   run_script fs site dir script imps body = Raise (no_module "adds")) /\
  (is_Some (fs !! abs_of (cs ++ ["Analysis"; "adds.py"])) ->
   run_script fs site dir script imps body =
     (_ ← run_imports fs (abs_of (cs ++ ["Analysis"]) :: site) imps;
      body (fs_os (abs_of cs) (abs_of (cs ++ ["Analysis"; "adds.py"])) fs))).
Proof.
  intros Hall Harg Hrun Hb Hpkg.
  apply Forall_app in Hall as [Hcs Happ].
  unfold run_app in Hrun. rewrite bool_decide_eq_true_2 in Hrun by done.
  injection Hrun as <- <- _.
  rewrite (repo_dir_app cs "app.py") by (apply Forall_app; auto).
  destruct (button_program_shape b imps body Hb) as (name & rest & Hs & Hn & ->).
  assert (Hcl : Forall (fun c => clean_component c = true) (cs ++ ["Analysis"; name]))
    by (apply Forall_app; split; [done|by repeat constructor]).
  unfold run_script, python_sys_path. rewrite Hs, rel_script_dir by (done || by destruct b; inversion Hb).
  assert (HcA : Forall (fun c => clean_component c = true) (cs ++ ["Analysis"]))
    by (apply Forall_app; split; [done|by repeat constructor]).
  cbn [run_imports]. rewrite !import_adds. cbn [find_spec].
  rewrite module_in_adds, <- !app_assoc by done. cbn [app]. rewrite Hpkg, bool_decide_eq_false_2 by (by intros []).
  split.
  - intros Hmod Hsite. rewrite Hmod, bool_decide_eq_false_2 by (by intros []).
    by rewrite find_spec_none.
  - intros Hmod. rewrite bool_decide_eq_true_2 by done. simpl.
    by destruct (run_imports fs _ rest).
Qed.

(** C31: the hub cannot start without an importable [adds]: when
    neither [Analysis/] nor a directory of the search path holds it,
    the execution of [streamlit_app.py], started by the user or by
    Streamlit, ends with an exception before showing anything or
    starting any process (the relaunch of lines 22-29 comes after the
    imports); when the modules imported before [adds] are there, the
    exception is [ModuleNotFoundError: No module named 'adds'] of line
    10. *)
Theorem hub_needs_adds `{NumParser} `{AddsTables} fs exe here cs path argv s :
  Forall (fun c => clean_component c = true) (cs ++ ["Analysis"]) ->
  fs !! abs_of (cs ++ ["Analysis"; "adds.py"]) = None ->
  fs !! abs_of (cs ++ ["Analysis"; "adds"; "__init__.py"]) = None ->
  Forall (fun d => module_in fs d "adds" = None) path ->
  exists e, hub_process fs exe here (abs_of (cs ++ ["Analysis"; "streamlit_app.py"])) path argv s =
              (empty_page, Failed e) /\
    (run_imports fs path hub_imports_before = Ok tt ->
     run_imports fs (abs_of (cs ++ ["Analysis"]) :: path) ["pandas"; "seaborn"] = Ok tt ->
     e = no_module "adds").
Proof.
  intros Hcs Hm Hp Hpath. unfold hub_process, hub_prologue.
  replace (cs ++ ["Analysis"; "streamlit_app.py"]) with ((cs ++ ["Analysis"]) ++ ["streamlit_app.py"])
    by by rewrite <- app_assoc.
  rewrite (dirname_abspath_abs here (cs ++ ["Analysis"]) "streamlit_app.py")
    by (apply Forall_app; split; [done|]; by repeat constructor).
  rewrite (import_adds_missing fs (cs ++ ["Analysis"])) by (rewrite <- ?app_assoc; done).
  destruct (run_imports fs path hub_imports_before) as [[]|e]; [|simpl; by exists e].
  rewrite bind_Ok.
  change hub_imports_after with (["pandas"; "seaborn"] ++ ["adds"; "matplotlib.pyplot"; "plotly.express"]).
  rewrite run_imports_app.
  destruct (run_imports fs _ ["pandas"; "seaborn"]) as [[]|e]; [|simpl; by exists e].
  rewrite bind_Ok. cbn [run_imports].
  rewrite (import_adds_missing fs (cs ++ ["Analysis"])) by (rewrite <- ?app_assoc; done).
  simpl. by eexists.
Qed.

(** ** Witnesses *)

Lemma button_script_imports_witness :
  run_script demo_checkout_fs demo_site "/srv/IDC" "Analysis/grayscale_boxplots.py" grayscale_imports
    (fun os => @grayscale_boxplots os decimal_parser) = Raise (no_module "adds") /\
  run_script demo_checkout_fs_adds demo_site "/srv/IDC" "Analysis/grayscale_boxplots.py" grayscale_imports
    (fun os => @grayscale_boxplots os decimal_parser) =
    (_ ← run_imports demo_checkout_fs_adds (abs_of (["srv"; "IDC"] ++ ["Analysis"]) :: demo_site) grayscale_imports;
     @grayscale_boxplots (fs_os (abs_of ["srv"; "IDC"]) (abs_of (["srv"; "IDC"] ++ ["Analysis"; "adds.py"]))
       demo_checkout_fs_adds) decimal_parser) /\
  (exists p, run_script demo_checkout_fs_adds demo_site "/srv/IDC" "Analysis/grayscale_boxplots.py"
     grayscale_imports (fun os => @grayscale_boxplots os decimal_parser) = Ok p).
Proof.
  pose proof (@button_script_imports decimal_parser ["srv"; "IDC"]) as Hb.
  split; [|split].
  - apply (proj1 (Hb demo_checkout_fs demo_site "python" "/srv/IDC" ["app.py"; SENTINEL] GrayscaleBoxPlots
      grayscale_imports (fun os => @grayscale_boxplots os decimal_parser)
      "Analysis/grayscale_boxplots.py" "/srv/IDC" false
      ltac:(repeat constructor) ltac:(apply list_elem_of_In; simpl; tauto) ltac:(vm_compute; reflexivity)
      eq_refl ltac:(vm_compute; reflexivity)));
      [vm_compute; reflexivity|repeat constructor; vm_compute; reflexivity].
  - apply (proj2 (Hb demo_checkout_fs_adds demo_site "python" "/srv/IDC" ["app.py"; SENTINEL] GrayscaleBoxPlots
      grayscale_imports (fun os => @grayscale_boxplots os decimal_parser)
      "Analysis/grayscale_boxplots.py" "/srv/IDC" false
      ltac:(repeat constructor) ltac:(apply list_elem_of_In; simpl; tauto) ltac:(vm_compute; reflexivity)
      eq_refl ltac:(vm_compute; reflexivity))).
    vm_compute. by eexists.
  - eexists. vm_compute. reflexivity.
Defined.

Lemma hub_needs_adds_witness :
  @hub_process decimal_parser reads_adds_tables demo_checkout_fs "python" "/srv/IDC/Analysis"
    (abs_of (["srv"; "IDC"] ++ ["Analysis"; "streamlit_app.py"]))
    (streamlit_sys_path "/srv/IDC/Analysis" "/srv/IDC/Analysis/streamlit_app.py" demo_site)
    demo_argv demo_session = (empty_page, Failed (no_module "adds")).
Proof.
  destruct (@hub_needs_adds decimal_parser reads_adds_tables demo_checkout_fs "python" "/srv/IDC/Analysis"
    ["srv"; "IDC"] (streamlit_sys_path "/srv/IDC/Analysis" "/srv/IDC/Analysis/streamlit_app.py" demo_site)
    demo_argv demo_session ltac:(repeat constructor) ltac:(vm_compute; reflexivity)
    ltac:(vm_compute; reflexivity) ltac:(repeat constructor; vm_compute; reflexivity)) as (e & He & Hadds).
  rewrite He, Hadds; [reflexivity|vm_compute; reflexivity|vm_compute; reflexivity].
Defined.

End Imports.
